(** * Kaleidoscope: session and instance lifecycle of [main.go]

    A shallow embedding of the terminal orchestrator in [main.go]: the
    byte-string helpers it relies on, the history store, the selection
    table, the Bubble Tea [Update] function of the four screens, and the
    asynchronous commands ([openPanesCmd], [bailCmd], [nextCmd], [wrapCmd],
    [sendToModelPaneCmd], [cleanupCmd]) as programs over the calls they make
    to tmux, git and the operating system. *)

From Stdlib Require Import ZArith Ascii String List Lia Bool.
From Stdlib Require Import Numbers.DecimalString.
From stdpp Require Import gmap strings list fin_maps.

Local Open Scope Z_scope.

(** ** Go strings

    A Go [string] is a sequence of bytes; Rocq's [string] is a sequence of
    8-bit [ascii] values, so the two coincide.  Indices and lengths are Go
    [int]s; every length is that of a value held in memory, so index
    arithmetic stays far from the bounds of [int] and is done in [Z].  An
    index or slice expression out of range panics: it returns [None]. *)

Module Str.

Definition byte (n : N) : ascii := ascii_of_N n.
Definition code (c : ascii) : N := N_of_ascii c.

Definition tab : ascii := byte 9.
Definition newline : ascii := byte 10.
Definition space : ascii := byte 32.
Definition quote : ascii := byte 39.
Definition dquote : ascii := byte 34.

Definition of_byte (c : ascii) : string := String c EmptyString.

Definition len (s : string) : Z := Z.of_nat (String.length s).

Fixpoint firstn (n : nat) (s : string) : string :=
  match n, s with
  | S n', String c s' => String c (firstn n' s')
  | _, _ => EmptyString
  end.

Fixpoint skipn (n : nat) (s : string) : string :=
  match n, s with
  | S n', String _ s' => skipn n' s'
  | _, _ => s
  end.

(** [s[i:j]] *)
Definition slice (s : string) (i j : Z) : option string :=
  if (0 <=? i) && (i <=? j) && (j <=? len s)
  then Some (firstn (Z.to_nat (j - i)) (skipn (Z.to_nat i) s))
  else None.

(** [s[:j]] and [s[i:]] *)
Definition upto (s : string) (j : Z) : option string := slice s 0 j.
Definition from (s : string) (i : Z) : option string := slice s i (len s).

(** [s[i]] *)
Definition at_ (s : string) (i : Z) : option ascii :=
  if 0 <=? i then String.get (Z.to_nat i) s else None.

(** [strings.HasPrefix(s, p)] *)
Fixpoint HasPrefix (s p : string) {struct p} : bool :=
  match p, s with
  | EmptyString, _ => true
  | String a p', String b s' => if Ascii.eqb a b then HasPrefix s' p' else false
  | String _ _, EmptyString => false
  end.

(** [strings.TrimPrefix(s, p)] *)
Definition TrimPrefix (s p : string) : string :=
  if HasPrefix s p then skipn (String.length p) s else s.

(** [strings.Join(elems, sep)] *)
Fixpoint Join (elems : list string) (sep : string) : string :=
  match elems with
  | [] => EmptyString
  | [x] => x
  | x :: rest => x +:+ sep +:+ Join rest sep
  end.

(** [strings.SplitN(s, sep, 2)] for a one-byte separator: the text before
    the first separator and the text after it, or [s] alone when it holds
    no separator. *)
Fixpoint cut (sep : ascii) (s : string) : option (string * string) :=
  match s with
  | EmptyString => None
  | String c s' =>
      if Ascii.eqb c sep then Some (EmptyString, s')
      else match cut sep s' with
           | Some (a, b) => Some (String c a, b)
           | None => None
           end
  end.

Definition SplitN2 (s : string) (sep : ascii) : list string :=
  match cut sep s with
  | Some (a, b) => [a; b]
  | None => [s]
  end.

(** [strings.Split(s, sep)] for a one-byte separator. *)
Fixpoint Split (s : string) (sep : ascii) : list string :=
  match s with
  | EmptyString => [EmptyString]
  | String c s' =>
      if Ascii.eqb c sep then EmptyString :: Split s' sep
      else match Split s' sep with
           | x :: xs => String c x :: xs
           | [] => [of_byte c]
           end
  end.

(** [strings.ReplaceAll(s, old, new)] for a one-byte [old]. *)
Fixpoint ReplaceAll (s : string) (old : ascii) (new : string) : string :=
  match s with
  | EmptyString => EmptyString
  | String c s' =>
      (if Ascii.eqb c old then new else of_byte c) +:+ ReplaceAll s' old new
  end.

(** The verb [%d] of [fmt.Sprintf]. *)
Definition itoa (n : Z) : string := NilEmpty.string_of_int (Z.to_int n).

(** *** [strings.TrimSpace]

    White space is what [unicode.IsSpace] accepts: the six ASCII
    characters, U+0085, U+00A0, U+1680, U+2000..U+200A, U+2028, U+2029,
    U+202F, U+205F and U+3000, the last ones in their UTF-8 encodings of
    two and three bytes.  A byte sequence that is not the encoding of one
    of these decodes to another rune or to [RuneError] and stops the
    trimming. *)

Definition asciiSpace (c : ascii) : bool :=
  let n := code c in
  (N.eqb n 9 || N.eqb n 10 || N.eqb n 11 || N.eqb n 12 || N.eqb n 13
   || N.eqb n 32)%bool.

Definition space2 (a b : ascii) : bool :=
  (N.eqb (code a) 194 && (N.eqb (code b) 133 || N.eqb (code b) 160))%bool.

Definition space3 (a b c : ascii) : bool :=
  let x := code a in let y := code b in let z := code c in
  ((N.eqb x 225 && N.eqb y 154 && N.eqb z 128)
   || (N.eqb x 226 && N.eqb y 128
       && ((N.leb 128 z && N.leb z 138) || N.eqb z 168 || N.eqb z 169
           || N.eqb z 175))
   || (N.eqb x 226 && N.eqb y 129 && N.eqb z 159)
   || (N.eqb x 227 && N.eqb y 128 && N.eqb z 128))%bool.

(** [strings.TrimLeftFunc(s, unicode.IsSpace)] *)
Fixpoint trimLeft (s : string) : string :=
  match s with
  | EmptyString => s
  | String a s1 =>
      if asciiSpace a then trimLeft s1
      else match s1 with
           | EmptyString => s
           | String b s2 =>
               if space2 a b then trimLeft s2
               else match s2 with
                    | EmptyString => s
                    | String c s3 => if space3 a b c then trimLeft s3 else s
                    end
           end
  end.

(** The same scan from the end of the string, on the reversed bytes:
    [utf8.DecodeLastRuneInString] steps back to the nearest byte that
    starts a rune and decodes from there. *)
Fixpoint trimLeftRev (s : string) : string :=
  match s with
  | EmptyString => s
  | String a s1 =>
      if asciiSpace a then trimLeftRev s1
      else match s1 with
           | EmptyString => s
           | String b s2 =>
               if space2 b a then trimLeftRev s2
               else match s2 with
                    | EmptyString => s
                    | String c s3 => if space3 c b a then trimLeftRev s3 else s
                    end
           end
  end.

(** [strings.TrimRightFunc(s, unicode.IsSpace)] *)
Definition trimRight (s : string) : string :=
  String.rev (trimLeftRev (String.rev s)).

Definition TrimSpace (s : string) : string := trimRight (trimLeft s).

(** [string(runes)] for one rune: its UTF-8 encoding; a surrogate or a
    value out of range is encoded as U+FFFD. *)
Definition zbyte (z : Z) : ascii := byte (Z.to_N z).

Definition encodeRune (r : Z) : string :=
  if (r <? 0) || (1114111 <? r) || ((55296 <=? r) && (r <=? 57343))
  then String (byte 239) (String (byte 191) (of_byte (byte 189)))
  else if r <? 128 then of_byte (zbyte r)
  else if r <? 2048 then
    String (zbyte (192 + r / 64)) (of_byte (zbyte (128 + r mod 64)))
  else if r <? 65536 then
    String (zbyte (224 + r / 4096))
      (String (zbyte (128 + (r / 64) mod 64)) (of_byte (zbyte (128 + r mod 64))))
  else
    String (zbyte (240 + r / 262144))
      (String (zbyte (128 + (r / 4096) mod 64))
         (String (zbyte (128 + (r / 64) mod 64)) (of_byte (zbyte (128 + r mod 64))))).

Fixpoint encodeRunes (rs : list Z) : string :=
  match rs with
  | [] => EmptyString
  | r :: rs' => encodeRune r +:+ encodeRunes rs'
  end.

End Str.

(** ** History store *)

Definition historyMax : nat := 20.

(** [pushHistorySlice] *)
Definition pushHistorySlice (h : list string) (entry : string) : list string :=
  let entry := Str.TrimSpace entry in
  if decide (entry = EmptyString) then h
  else match h with
       | h0 :: _ => if decide (h0 = entry) then h
                    else take historyMax (entry :: h)
       | [] => take historyMax (entry :: h)
       end.


(** ** The session state *)

(** [focusType] indicates which input is focused. *)
Inductive focusType :=
  focusBranch | focusTask | focusPrompt | focusProvider | focusModels.

(** [screenType] indicates which screen is displayed. *)
Inductive screenType :=
  screenSetup | screenIteration | screenProgress | screenNewTask.

Global Instance focusType_eq_dec : EqDecision focusType.
Proof. solve_decision. Defined.
Global Instance screenType_eq_dec : EqDecision screenType.
Proof. solve_decision. Defined.

(** The anonymous [struct { row int; col int }] of the three cursors. *)
Record cursorPos := Cursor { row : Z; col : Z }.

(** A Go [error]: [None] is [nil], [Some e] an error whose text is [e]. *)
Definition error := option string.

(** [model] holds the state of the TUI.  A map that the code may leave
    [nil] is the empty map: reading a [nil] map yields zero values, and
    every write in the code is preceded by a [make] when the map is [nil].
    The two drafts distinguish [nil] ([None]) from a saved slice. *)
Record model := Build_model {
  width : Z;
  height : Z;
  input : list string;
  cursor : cursorPos;
  branch : string;
  branchCursor : Z;
  task : string;
  taskCursor : Z;
  providers : list string;
  providerIndex : Z;
  providerOpen : bool;
  providerHover : Z;
  models : gmap string (list string);
  selected : gmap string (gmap string Z);
  modelsOpen : bool;
  modelsHover : Z;
  focus : focusType;
  screen : screenType;
  iterationInput : list string;
  iterationCursor : cursorPos;
  autocompleteOptions : list string;
  autocompleteIndex : Z;
  autocompleteActive : bool;
  runCmd : string;
  createdPanes : list string;
  createdWorktrees : list string;
  modelToPaneID : gmap string string;
  modelToWorktree : gmap string string;
  modelPrompts : gmap string (list string);
  instanceProvider : gmap string string;
  instanceBaseModel : gmap string string;
  newTaskName : string;
  newTaskNameCursor : Z;
  newTaskPrompt : list string;
  newTaskCursor : cursorPos;
  newTaskFocus : focusType;
  setDefault : bool;
  cursorVisible : bool;
  progressMsg : string;
  spinnerIndex : Z;
  spinnerFrames : list string;
  pendingEsc : bool;
  history : list string;
  historyIndex : Z;
  iterationHistoryIndex : Z;
  draftInput : option (list string);
  draftIterationInput : option (list string)
}.

(** Field updates, [m.f = v]. *)
Definition set_width (v : Z) (m : model) : model :=
  Build_model v (height m) (input m) (cursor m) (branch m) (branchCursor m)
    (task m) (taskCursor m) (providers m) (providerIndex m) (providerOpen m)
    (providerHover m) (models m) (selected m) (modelsOpen m) (modelsHover m)
    (focus m) (screen m) (iterationInput m) (iterationCursor m)
    (autocompleteOptions m) (autocompleteIndex m) (autocompleteActive m)
    (runCmd m) (createdPanes m) (createdWorktrees m) (modelToPaneID m)
    (modelToWorktree m) (modelPrompts m) (instanceProvider m)
    (instanceBaseModel m) (newTaskName m) (newTaskNameCursor m)
    (newTaskPrompt m) (newTaskCursor m) (newTaskFocus m) (setDefault m)
    (cursorVisible m) (progressMsg m) (spinnerIndex m) (spinnerFrames m)
    (pendingEsc m) (history m) (historyIndex m) (iterationHistoryIndex m)
    (draftInput m) (draftIterationInput m).

Definition set_height (v : Z) (m : model) : model :=
  Build_model (width m) v (input m) (cursor m) (branch m) (branchCursor m)
    (task m) (taskCursor m) (providers m) (providerIndex m) (providerOpen m)
    (providerHover m) (models m) (selected m) (modelsOpen m) (modelsHover m)
    (focus m) (screen m) (iterationInput m) (iterationCursor m)
    (autocompleteOptions m) (autocompleteIndex m) (autocompleteActive m)
    (runCmd m) (createdPanes m) (createdWorktrees m) (modelToPaneID m)
    (modelToWorktree m) (modelPrompts m) (instanceProvider m)
    (instanceBaseModel m) (newTaskName m) (newTaskNameCursor m)
    (newTaskPrompt m) (newTaskCursor m) (newTaskFocus m) (setDefault m)
    (cursorVisible m) (progressMsg m) (spinnerIndex m) (spinnerFrames m)
    (pendingEsc m) (history m) (historyIndex m) (iterationHistoryIndex m)
    (draftInput m) (draftIterationInput m).

Definition set_input (v : list string) (m : model) : model :=
  Build_model (width m) (height m) v (cursor m) (branch m) (branchCursor m)
    (task m) (taskCursor m) (providers m) (providerIndex m) (providerOpen m)
    (providerHover m) (models m) (selected m) (modelsOpen m) (modelsHover m)
    (focus m) (screen m) (iterationInput m) (iterationCursor m)
    (autocompleteOptions m) (autocompleteIndex m) (autocompleteActive m)
    (runCmd m) (createdPanes m) (createdWorktrees m) (modelToPaneID m)
    (modelToWorktree m) (modelPrompts m) (instanceProvider m)
    (instanceBaseModel m) (newTaskName m) (newTaskNameCursor m)
    (newTaskPrompt m) (newTaskCursor m) (newTaskFocus m) (setDefault m)
    (cursorVisible m) (progressMsg m) (spinnerIndex m) (spinnerFrames m)
    (pendingEsc m) (history m) (historyIndex m) (iterationHistoryIndex m)
    (draftInput m) (draftIterationInput m).

Definition set_cursor (v : cursorPos) (m : model) : model :=
  Build_model (width m) (height m) (input m) v (branch m) (branchCursor m)
    (task m) (taskCursor m) (providers m) (providerIndex m) (providerOpen m)
    (providerHover m) (models m) (selected m) (modelsOpen m) (modelsHover m)
    (focus m) (screen m) (iterationInput m) (iterationCursor m)
    (autocompleteOptions m) (autocompleteIndex m) (autocompleteActive m)
    (runCmd m) (createdPanes m) (createdWorktrees m) (modelToPaneID m)
    (modelToWorktree m) (modelPrompts m) (instanceProvider m)
    (instanceBaseModel m) (newTaskName m) (newTaskNameCursor m)
    (newTaskPrompt m) (newTaskCursor m) (newTaskFocus m) (setDefault m)
    (cursorVisible m) (progressMsg m) (spinnerIndex m) (spinnerFrames m)
    (pendingEsc m) (history m) (historyIndex m) (iterationHistoryIndex m)
    (draftInput m) (draftIterationInput m).

Definition set_branch (v : string) (m : model) : model :=
  Build_model (width m) (height m) (input m) (cursor m) v (branchCursor m)
    (task m) (taskCursor m) (providers m) (providerIndex m) (providerOpen m)
    (providerHover m) (models m) (selected m) (modelsOpen m) (modelsHover m)
    (focus m) (screen m) (iterationInput m) (iterationCursor m)
    (autocompleteOptions m) (autocompleteIndex m) (autocompleteActive m)
    (runCmd m) (createdPanes m) (createdWorktrees m) (modelToPaneID m)
    (modelToWorktree m) (modelPrompts m) (instanceProvider m)
    (instanceBaseModel m) (newTaskName m) (newTaskNameCursor m)
    (newTaskPrompt m) (newTaskCursor m) (newTaskFocus m) (setDefault m)
    (cursorVisible m) (progressMsg m) (spinnerIndex m) (spinnerFrames m)
    (pendingEsc m) (history m) (historyIndex m) (iterationHistoryIndex m)
    (draftInput m) (draftIterationInput m).

Definition set_branchCursor (v : Z) (m : model) : model :=
  Build_model (width m) (height m) (input m) (cursor m) (branch m) v (task m)
    (taskCursor m) (providers m) (providerIndex m) (providerOpen m)
    (providerHover m) (models m) (selected m) (modelsOpen m) (modelsHover m)
    (focus m) (screen m) (iterationInput m) (iterationCursor m)
    (autocompleteOptions m) (autocompleteIndex m) (autocompleteActive m)
    (runCmd m) (createdPanes m) (createdWorktrees m) (modelToPaneID m)
    (modelToWorktree m) (modelPrompts m) (instanceProvider m)
    (instanceBaseModel m) (newTaskName m) (newTaskNameCursor m)
    (newTaskPrompt m) (newTaskCursor m) (newTaskFocus m) (setDefault m)
    (cursorVisible m) (progressMsg m) (spinnerIndex m) (spinnerFrames m)
    (pendingEsc m) (history m) (historyIndex m) (iterationHistoryIndex m)
    (draftInput m) (draftIterationInput m).

Definition set_task (v : string) (m : model) : model :=
  Build_model (width m) (height m) (input m) (cursor m) (branch m)
    (branchCursor m) v (taskCursor m) (providers m) (providerIndex m)
    (providerOpen m) (providerHover m) (models m) (selected m) (modelsOpen m)
    (modelsHover m) (focus m) (screen m) (iterationInput m)
    (iterationCursor m) (autocompleteOptions m) (autocompleteIndex m)
    (autocompleteActive m) (runCmd m) (createdPanes m) (createdWorktrees m)
    (modelToPaneID m) (modelToWorktree m) (modelPrompts m)
    (instanceProvider m) (instanceBaseModel m) (newTaskName m)
    (newTaskNameCursor m) (newTaskPrompt m) (newTaskCursor m) (newTaskFocus m)
    (setDefault m) (cursorVisible m) (progressMsg m) (spinnerIndex m)
    (spinnerFrames m) (pendingEsc m) (history m) (historyIndex m)
    (iterationHistoryIndex m) (draftInput m) (draftIterationInput m).

Definition set_taskCursor (v : Z) (m : model) : model :=
  Build_model (width m) (height m) (input m) (cursor m) (branch m)
    (branchCursor m) (task m) v (providers m) (providerIndex m)
    (providerOpen m) (providerHover m) (models m) (selected m) (modelsOpen m)
    (modelsHover m) (focus m) (screen m) (iterationInput m)
    (iterationCursor m) (autocompleteOptions m) (autocompleteIndex m)
    (autocompleteActive m) (runCmd m) (createdPanes m) (createdWorktrees m)
    (modelToPaneID m) (modelToWorktree m) (modelPrompts m)
    (instanceProvider m) (instanceBaseModel m) (newTaskName m)
    (newTaskNameCursor m) (newTaskPrompt m) (newTaskCursor m) (newTaskFocus m)
    (setDefault m) (cursorVisible m) (progressMsg m) (spinnerIndex m)
    (spinnerFrames m) (pendingEsc m) (history m) (historyIndex m)
    (iterationHistoryIndex m) (draftInput m) (draftIterationInput m).

Definition set_providers (v : list string) (m : model) : model :=
  Build_model (width m) (height m) (input m) (cursor m) (branch m)
    (branchCursor m) (task m) (taskCursor m) v (providerIndex m)
    (providerOpen m) (providerHover m) (models m) (selected m) (modelsOpen m)
    (modelsHover m) (focus m) (screen m) (iterationInput m)
    (iterationCursor m) (autocompleteOptions m) (autocompleteIndex m)
    (autocompleteActive m) (runCmd m) (createdPanes m) (createdWorktrees m)
    (modelToPaneID m) (modelToWorktree m) (modelPrompts m)
    (instanceProvider m) (instanceBaseModel m) (newTaskName m)
    (newTaskNameCursor m) (newTaskPrompt m) (newTaskCursor m) (newTaskFocus m)
    (setDefault m) (cursorVisible m) (progressMsg m) (spinnerIndex m)
    (spinnerFrames m) (pendingEsc m) (history m) (historyIndex m)
    (iterationHistoryIndex m) (draftInput m) (draftIterationInput m).

Definition set_providerIndex (v : Z) (m : model) : model :=
  Build_model (width m) (height m) (input m) (cursor m) (branch m)
    (branchCursor m) (task m) (taskCursor m) (providers m) v (providerOpen m)
    (providerHover m) (models m) (selected m) (modelsOpen m) (modelsHover m)
    (focus m) (screen m) (iterationInput m) (iterationCursor m)
    (autocompleteOptions m) (autocompleteIndex m) (autocompleteActive m)
    (runCmd m) (createdPanes m) (createdWorktrees m) (modelToPaneID m)
    (modelToWorktree m) (modelPrompts m) (instanceProvider m)
    (instanceBaseModel m) (newTaskName m) (newTaskNameCursor m)
    (newTaskPrompt m) (newTaskCursor m) (newTaskFocus m) (setDefault m)
    (cursorVisible m) (progressMsg m) (spinnerIndex m) (spinnerFrames m)
    (pendingEsc m) (history m) (historyIndex m) (iterationHistoryIndex m)
    (draftInput m) (draftIterationInput m).

Definition set_providerOpen (v : bool) (m : model) : model :=
  Build_model (width m) (height m) (input m) (cursor m) (branch m)
    (branchCursor m) (task m) (taskCursor m) (providers m) (providerIndex m) v
    (providerHover m) (models m) (selected m) (modelsOpen m) (modelsHover m)
    (focus m) (screen m) (iterationInput m) (iterationCursor m)
    (autocompleteOptions m) (autocompleteIndex m) (autocompleteActive m)
    (runCmd m) (createdPanes m) (createdWorktrees m) (modelToPaneID m)
    (modelToWorktree m) (modelPrompts m) (instanceProvider m)
    (instanceBaseModel m) (newTaskName m) (newTaskNameCursor m)
    (newTaskPrompt m) (newTaskCursor m) (newTaskFocus m) (setDefault m)
    (cursorVisible m) (progressMsg m) (spinnerIndex m) (spinnerFrames m)
    (pendingEsc m) (history m) (historyIndex m) (iterationHistoryIndex m)
    (draftInput m) (draftIterationInput m).

Definition set_providerHover (v : Z) (m : model) : model :=
  Build_model (width m) (height m) (input m) (cursor m) (branch m)
    (branchCursor m) (task m) (taskCursor m) (providers m) (providerIndex m)
    (providerOpen m) v (models m) (selected m) (modelsOpen m) (modelsHover m)
    (focus m) (screen m) (iterationInput m) (iterationCursor m)
    (autocompleteOptions m) (autocompleteIndex m) (autocompleteActive m)
    (runCmd m) (createdPanes m) (createdWorktrees m) (modelToPaneID m)
    (modelToWorktree m) (modelPrompts m) (instanceProvider m)
    (instanceBaseModel m) (newTaskName m) (newTaskNameCursor m)
    (newTaskPrompt m) (newTaskCursor m) (newTaskFocus m) (setDefault m)
    (cursorVisible m) (progressMsg m) (spinnerIndex m) (spinnerFrames m)
    (pendingEsc m) (history m) (historyIndex m) (iterationHistoryIndex m)
    (draftInput m) (draftIterationInput m).

Definition set_models (v : gmap string (list string)) (m : model) : model :=
  Build_model (width m) (height m) (input m) (cursor m) (branch m)
    (branchCursor m) (task m) (taskCursor m) (providers m) (providerIndex m)
    (providerOpen m) (providerHover m) v (selected m) (modelsOpen m)
    (modelsHover m) (focus m) (screen m) (iterationInput m)
    (iterationCursor m) (autocompleteOptions m) (autocompleteIndex m)
    (autocompleteActive m) (runCmd m) (createdPanes m) (createdWorktrees m)
    (modelToPaneID m) (modelToWorktree m) (modelPrompts m)
    (instanceProvider m) (instanceBaseModel m) (newTaskName m)
    (newTaskNameCursor m) (newTaskPrompt m) (newTaskCursor m) (newTaskFocus m)
    (setDefault m) (cursorVisible m) (progressMsg m) (spinnerIndex m)
    (spinnerFrames m) (pendingEsc m) (history m) (historyIndex m)
    (iterationHistoryIndex m) (draftInput m) (draftIterationInput m).

Definition set_selected (v : gmap string (gmap string Z)) (m : model) : model :=
  Build_model (width m) (height m) (input m) (cursor m) (branch m)
    (branchCursor m) (task m) (taskCursor m) (providers m) (providerIndex m)
    (providerOpen m) (providerHover m) (models m) v (modelsOpen m)
    (modelsHover m) (focus m) (screen m) (iterationInput m)
    (iterationCursor m) (autocompleteOptions m) (autocompleteIndex m)
    (autocompleteActive m) (runCmd m) (createdPanes m) (createdWorktrees m)
    (modelToPaneID m) (modelToWorktree m) (modelPrompts m)
    (instanceProvider m) (instanceBaseModel m) (newTaskName m)
    (newTaskNameCursor m) (newTaskPrompt m) (newTaskCursor m) (newTaskFocus m)
    (setDefault m) (cursorVisible m) (progressMsg m) (spinnerIndex m)
    (spinnerFrames m) (pendingEsc m) (history m) (historyIndex m)
    (iterationHistoryIndex m) (draftInput m) (draftIterationInput m).

Definition set_modelsOpen (v : bool) (m : model) : model :=
  Build_model (width m) (height m) (input m) (cursor m) (branch m)
    (branchCursor m) (task m) (taskCursor m) (providers m) (providerIndex m)
    (providerOpen m) (providerHover m) (models m) (selected m) v
    (modelsHover m) (focus m) (screen m) (iterationInput m)
    (iterationCursor m) (autocompleteOptions m) (autocompleteIndex m)
    (autocompleteActive m) (runCmd m) (createdPanes m) (createdWorktrees m)
    (modelToPaneID m) (modelToWorktree m) (modelPrompts m)
    (instanceProvider m) (instanceBaseModel m) (newTaskName m)
    (newTaskNameCursor m) (newTaskPrompt m) (newTaskCursor m) (newTaskFocus m)
    (setDefault m) (cursorVisible m) (progressMsg m) (spinnerIndex m)
    (spinnerFrames m) (pendingEsc m) (history m) (historyIndex m)
    (iterationHistoryIndex m) (draftInput m) (draftIterationInput m).

Definition set_modelsHover (v : Z) (m : model) : model :=
  Build_model (width m) (height m) (input m) (cursor m) (branch m)
    (branchCursor m) (task m) (taskCursor m) (providers m) (providerIndex m)
    (providerOpen m) (providerHover m) (models m) (selected m) (modelsOpen m)
    v (focus m) (screen m) (iterationInput m) (iterationCursor m)
    (autocompleteOptions m) (autocompleteIndex m) (autocompleteActive m)
    (runCmd m) (createdPanes m) (createdWorktrees m) (modelToPaneID m)
    (modelToWorktree m) (modelPrompts m) (instanceProvider m)
    (instanceBaseModel m) (newTaskName m) (newTaskNameCursor m)
    (newTaskPrompt m) (newTaskCursor m) (newTaskFocus m) (setDefault m)
    (cursorVisible m) (progressMsg m) (spinnerIndex m) (spinnerFrames m)
    (pendingEsc m) (history m) (historyIndex m) (iterationHistoryIndex m)
    (draftInput m) (draftIterationInput m).

Definition set_focus (v : focusType) (m : model) : model :=
  Build_model (width m) (height m) (input m) (cursor m) (branch m)
    (branchCursor m) (task m) (taskCursor m) (providers m) (providerIndex m)
    (providerOpen m) (providerHover m) (models m) (selected m) (modelsOpen m)
    (modelsHover m) v (screen m) (iterationInput m) (iterationCursor m)
    (autocompleteOptions m) (autocompleteIndex m) (autocompleteActive m)
    (runCmd m) (createdPanes m) (createdWorktrees m) (modelToPaneID m)
    (modelToWorktree m) (modelPrompts m) (instanceProvider m)
    (instanceBaseModel m) (newTaskName m) (newTaskNameCursor m)
    (newTaskPrompt m) (newTaskCursor m) (newTaskFocus m) (setDefault m)
    (cursorVisible m) (progressMsg m) (spinnerIndex m) (spinnerFrames m)
    (pendingEsc m) (history m) (historyIndex m) (iterationHistoryIndex m)
    (draftInput m) (draftIterationInput m).

Definition set_screen (v : screenType) (m : model) : model :=
  Build_model (width m) (height m) (input m) (cursor m) (branch m)
    (branchCursor m) (task m) (taskCursor m) (providers m) (providerIndex m)
    (providerOpen m) (providerHover m) (models m) (selected m) (modelsOpen m)
    (modelsHover m) (focus m) v (iterationInput m) (iterationCursor m)
    (autocompleteOptions m) (autocompleteIndex m) (autocompleteActive m)
    (runCmd m) (createdPanes m) (createdWorktrees m) (modelToPaneID m)
    (modelToWorktree m) (modelPrompts m) (instanceProvider m)
    (instanceBaseModel m) (newTaskName m) (newTaskNameCursor m)
    (newTaskPrompt m) (newTaskCursor m) (newTaskFocus m) (setDefault m)
    (cursorVisible m) (progressMsg m) (spinnerIndex m) (spinnerFrames m)
    (pendingEsc m) (history m) (historyIndex m) (iterationHistoryIndex m)
    (draftInput m) (draftIterationInput m).

Definition set_iterationInput (v : list string) (m : model) : model :=
  Build_model (width m) (height m) (input m) (cursor m) (branch m)
    (branchCursor m) (task m) (taskCursor m) (providers m) (providerIndex m)
    (providerOpen m) (providerHover m) (models m) (selected m) (modelsOpen m)
    (modelsHover m) (focus m) (screen m) v (iterationCursor m)
    (autocompleteOptions m) (autocompleteIndex m) (autocompleteActive m)
    (runCmd m) (createdPanes m) (createdWorktrees m) (modelToPaneID m)
    (modelToWorktree m) (modelPrompts m) (instanceProvider m)
    (instanceBaseModel m) (newTaskName m) (newTaskNameCursor m)
    (newTaskPrompt m) (newTaskCursor m) (newTaskFocus m) (setDefault m)
    (cursorVisible m) (progressMsg m) (spinnerIndex m) (spinnerFrames m)
    (pendingEsc m) (history m) (historyIndex m) (iterationHistoryIndex m)
    (draftInput m) (draftIterationInput m).

Definition set_iterationCursor (v : cursorPos) (m : model) : model :=
  Build_model (width m) (height m) (input m) (cursor m) (branch m)
    (branchCursor m) (task m) (taskCursor m) (providers m) (providerIndex m)
    (providerOpen m) (providerHover m) (models m) (selected m) (modelsOpen m)
    (modelsHover m) (focus m) (screen m) (iterationInput m) v
    (autocompleteOptions m) (autocompleteIndex m) (autocompleteActive m)
    (runCmd m) (createdPanes m) (createdWorktrees m) (modelToPaneID m)
    (modelToWorktree m) (modelPrompts m) (instanceProvider m)
    (instanceBaseModel m) (newTaskName m) (newTaskNameCursor m)
    (newTaskPrompt m) (newTaskCursor m) (newTaskFocus m) (setDefault m)
    (cursorVisible m) (progressMsg m) (spinnerIndex m) (spinnerFrames m)
    (pendingEsc m) (history m) (historyIndex m) (iterationHistoryIndex m)
    (draftInput m) (draftIterationInput m).

Definition set_autocompleteOptions (v : list string) (m : model) : model :=
  Build_model (width m) (height m) (input m) (cursor m) (branch m)
    (branchCursor m) (task m) (taskCursor m) (providers m) (providerIndex m)
    (providerOpen m) (providerHover m) (models m) (selected m) (modelsOpen m)
    (modelsHover m) (focus m) (screen m) (iterationInput m)
    (iterationCursor m) v (autocompleteIndex m) (autocompleteActive m)
    (runCmd m) (createdPanes m) (createdWorktrees m) (modelToPaneID m)
    (modelToWorktree m) (modelPrompts m) (instanceProvider m)
    (instanceBaseModel m) (newTaskName m) (newTaskNameCursor m)
    (newTaskPrompt m) (newTaskCursor m) (newTaskFocus m) (setDefault m)
    (cursorVisible m) (progressMsg m) (spinnerIndex m) (spinnerFrames m)
    (pendingEsc m) (history m) (historyIndex m) (iterationHistoryIndex m)
    (draftInput m) (draftIterationInput m).

Definition set_autocompleteIndex (v : Z) (m : model) : model :=
  Build_model (width m) (height m) (input m) (cursor m) (branch m)
    (branchCursor m) (task m) (taskCursor m) (providers m) (providerIndex m)
    (providerOpen m) (providerHover m) (models m) (selected m) (modelsOpen m)
    (modelsHover m) (focus m) (screen m) (iterationInput m)
    (iterationCursor m) (autocompleteOptions m) v (autocompleteActive m)
    (runCmd m) (createdPanes m) (createdWorktrees m) (modelToPaneID m)
    (modelToWorktree m) (modelPrompts m) (instanceProvider m)
    (instanceBaseModel m) (newTaskName m) (newTaskNameCursor m)
    (newTaskPrompt m) (newTaskCursor m) (newTaskFocus m) (setDefault m)
    (cursorVisible m) (progressMsg m) (spinnerIndex m) (spinnerFrames m)
    (pendingEsc m) (history m) (historyIndex m) (iterationHistoryIndex m)
    (draftInput m) (draftIterationInput m).

Definition set_autocompleteActive (v : bool) (m : model) : model :=
  Build_model (width m) (height m) (input m) (cursor m) (branch m)
    (branchCursor m) (task m) (taskCursor m) (providers m) (providerIndex m)
    (providerOpen m) (providerHover m) (models m) (selected m) (modelsOpen m)
    (modelsHover m) (focus m) (screen m) (iterationInput m)
    (iterationCursor m) (autocompleteOptions m) (autocompleteIndex m) v
    (runCmd m) (createdPanes m) (createdWorktrees m) (modelToPaneID m)
    (modelToWorktree m) (modelPrompts m) (instanceProvider m)
    (instanceBaseModel m) (newTaskName m) (newTaskNameCursor m)
    (newTaskPrompt m) (newTaskCursor m) (newTaskFocus m) (setDefault m)
    (cursorVisible m) (progressMsg m) (spinnerIndex m) (spinnerFrames m)
    (pendingEsc m) (history m) (historyIndex m) (iterationHistoryIndex m)
    (draftInput m) (draftIterationInput m).

Definition set_createdPanes (v : list string) (m : model) : model :=
  Build_model (width m) (height m) (input m) (cursor m) (branch m)
    (branchCursor m) (task m) (taskCursor m) (providers m) (providerIndex m)
    (providerOpen m) (providerHover m) (models m) (selected m) (modelsOpen m)
    (modelsHover m) (focus m) (screen m) (iterationInput m)
    (iterationCursor m) (autocompleteOptions m) (autocompleteIndex m)
    (autocompleteActive m) (runCmd m) v (createdWorktrees m) (modelToPaneID m)
    (modelToWorktree m) (modelPrompts m) (instanceProvider m)
    (instanceBaseModel m) (newTaskName m) (newTaskNameCursor m)
    (newTaskPrompt m) (newTaskCursor m) (newTaskFocus m) (setDefault m)
    (cursorVisible m) (progressMsg m) (spinnerIndex m) (spinnerFrames m)
    (pendingEsc m) (history m) (historyIndex m) (iterationHistoryIndex m)
    (draftInput m) (draftIterationInput m).

Definition set_createdWorktrees (v : list string) (m : model) : model :=
  Build_model (width m) (height m) (input m) (cursor m) (branch m)
    (branchCursor m) (task m) (taskCursor m) (providers m) (providerIndex m)
    (providerOpen m) (providerHover m) (models m) (selected m) (modelsOpen m)
    (modelsHover m) (focus m) (screen m) (iterationInput m)
    (iterationCursor m) (autocompleteOptions m) (autocompleteIndex m)
    (autocompleteActive m) (runCmd m) (createdPanes m) v (modelToPaneID m)
    (modelToWorktree m) (modelPrompts m) (instanceProvider m)
    (instanceBaseModel m) (newTaskName m) (newTaskNameCursor m)
    (newTaskPrompt m) (newTaskCursor m) (newTaskFocus m) (setDefault m)
    (cursorVisible m) (progressMsg m) (spinnerIndex m) (spinnerFrames m)
    (pendingEsc m) (history m) (historyIndex m) (iterationHistoryIndex m)
    (draftInput m) (draftIterationInput m).

Definition set_modelToPaneID (v : gmap string string) (m : model) : model :=
  Build_model (width m) (height m) (input m) (cursor m) (branch m)
    (branchCursor m) (task m) (taskCursor m) (providers m) (providerIndex m)
    (providerOpen m) (providerHover m) (models m) (selected m) (modelsOpen m)
    (modelsHover m) (focus m) (screen m) (iterationInput m)
    (iterationCursor m) (autocompleteOptions m) (autocompleteIndex m)
    (autocompleteActive m) (runCmd m) (createdPanes m) (createdWorktrees m) v
    (modelToWorktree m) (modelPrompts m) (instanceProvider m)
    (instanceBaseModel m) (newTaskName m) (newTaskNameCursor m)
    (newTaskPrompt m) (newTaskCursor m) (newTaskFocus m) (setDefault m)
    (cursorVisible m) (progressMsg m) (spinnerIndex m) (spinnerFrames m)
    (pendingEsc m) (history m) (historyIndex m) (iterationHistoryIndex m)
    (draftInput m) (draftIterationInput m).

Definition set_modelToWorktree (v : gmap string string) (m : model) : model :=
  Build_model (width m) (height m) (input m) (cursor m) (branch m)
    (branchCursor m) (task m) (taskCursor m) (providers m) (providerIndex m)
    (providerOpen m) (providerHover m) (models m) (selected m) (modelsOpen m)
    (modelsHover m) (focus m) (screen m) (iterationInput m)
    (iterationCursor m) (autocompleteOptions m) (autocompleteIndex m)
    (autocompleteActive m) (runCmd m) (createdPanes m) (createdWorktrees m)
    (modelToPaneID m) v (modelPrompts m) (instanceProvider m)
    (instanceBaseModel m) (newTaskName m) (newTaskNameCursor m)
    (newTaskPrompt m) (newTaskCursor m) (newTaskFocus m) (setDefault m)
    (cursorVisible m) (progressMsg m) (spinnerIndex m) (spinnerFrames m)
    (pendingEsc m) (history m) (historyIndex m) (iterationHistoryIndex m)
    (draftInput m) (draftIterationInput m).

Definition set_modelPrompts (v : gmap string (list string)) (m : model) : model :=
  Build_model (width m) (height m) (input m) (cursor m) (branch m)
    (branchCursor m) (task m) (taskCursor m) (providers m) (providerIndex m)
    (providerOpen m) (providerHover m) (models m) (selected m) (modelsOpen m)
    (modelsHover m) (focus m) (screen m) (iterationInput m)
    (iterationCursor m) (autocompleteOptions m) (autocompleteIndex m)
    (autocompleteActive m) (runCmd m) (createdPanes m) (createdWorktrees m)
    (modelToPaneID m) (modelToWorktree m) v (instanceProvider m)
    (instanceBaseModel m) (newTaskName m) (newTaskNameCursor m)
    (newTaskPrompt m) (newTaskCursor m) (newTaskFocus m) (setDefault m)
    (cursorVisible m) (progressMsg m) (spinnerIndex m) (spinnerFrames m)
    (pendingEsc m) (history m) (historyIndex m) (iterationHistoryIndex m)
    (draftInput m) (draftIterationInput m).

Definition set_instanceProvider (v : gmap string string) (m : model) : model :=
  Build_model (width m) (height m) (input m) (cursor m) (branch m)
    (branchCursor m) (task m) (taskCursor m) (providers m) (providerIndex m)
    (providerOpen m) (providerHover m) (models m) (selected m) (modelsOpen m)
    (modelsHover m) (focus m) (screen m) (iterationInput m)
    (iterationCursor m) (autocompleteOptions m) (autocompleteIndex m)
    (autocompleteActive m) (runCmd m) (createdPanes m) (createdWorktrees m)
    (modelToPaneID m) (modelToWorktree m) (modelPrompts m) v
    (instanceBaseModel m) (newTaskName m) (newTaskNameCursor m)
    (newTaskPrompt m) (newTaskCursor m) (newTaskFocus m) (setDefault m)
    (cursorVisible m) (progressMsg m) (spinnerIndex m) (spinnerFrames m)
    (pendingEsc m) (history m) (historyIndex m) (iterationHistoryIndex m)
    (draftInput m) (draftIterationInput m).

Definition set_instanceBaseModel (v : gmap string string) (m : model) : model :=
  Build_model (width m) (height m) (input m) (cursor m) (branch m)
    (branchCursor m) (task m) (taskCursor m) (providers m) (providerIndex m)
    (providerOpen m) (providerHover m) (models m) (selected m) (modelsOpen m)
    (modelsHover m) (focus m) (screen m) (iterationInput m)
    (iterationCursor m) (autocompleteOptions m) (autocompleteIndex m)
    (autocompleteActive m) (runCmd m) (createdPanes m) (createdWorktrees m)
    (modelToPaneID m) (modelToWorktree m) (modelPrompts m)
    (instanceProvider m) v (newTaskName m) (newTaskNameCursor m)
    (newTaskPrompt m) (newTaskCursor m) (newTaskFocus m) (setDefault m)
    (cursorVisible m) (progressMsg m) (spinnerIndex m) (spinnerFrames m)
    (pendingEsc m) (history m) (historyIndex m) (iterationHistoryIndex m)
    (draftInput m) (draftIterationInput m).

Definition set_newTaskName (v : string) (m : model) : model :=
  Build_model (width m) (height m) (input m) (cursor m) (branch m)
    (branchCursor m) (task m) (taskCursor m) (providers m) (providerIndex m)
    (providerOpen m) (providerHover m) (models m) (selected m) (modelsOpen m)
    (modelsHover m) (focus m) (screen m) (iterationInput m)
    (iterationCursor m) (autocompleteOptions m) (autocompleteIndex m)
    (autocompleteActive m) (runCmd m) (createdPanes m) (createdWorktrees m)
    (modelToPaneID m) (modelToWorktree m) (modelPrompts m)
    (instanceProvider m) (instanceBaseModel m) v (newTaskNameCursor m)
    (newTaskPrompt m) (newTaskCursor m) (newTaskFocus m) (setDefault m)
    (cursorVisible m) (progressMsg m) (spinnerIndex m) (spinnerFrames m)
    (pendingEsc m) (history m) (historyIndex m) (iterationHistoryIndex m)
    (draftInput m) (draftIterationInput m).

Definition set_newTaskNameCursor (v : Z) (m : model) : model :=
  Build_model (width m) (height m) (input m) (cursor m) (branch m)
    (branchCursor m) (task m) (taskCursor m) (providers m) (providerIndex m)
    (providerOpen m) (providerHover m) (models m) (selected m) (modelsOpen m)
    (modelsHover m) (focus m) (screen m) (iterationInput m)
    (iterationCursor m) (autocompleteOptions m) (autocompleteIndex m)
    (autocompleteActive m) (runCmd m) (createdPanes m) (createdWorktrees m)
    (modelToPaneID m) (modelToWorktree m) (modelPrompts m)
    (instanceProvider m) (instanceBaseModel m) (newTaskName m) v
    (newTaskPrompt m) (newTaskCursor m) (newTaskFocus m) (setDefault m)
    (cursorVisible m) (progressMsg m) (spinnerIndex m) (spinnerFrames m)
    (pendingEsc m) (history m) (historyIndex m) (iterationHistoryIndex m)
    (draftInput m) (draftIterationInput m).

Definition set_newTaskPrompt (v : list string) (m : model) : model :=
  Build_model (width m) (height m) (input m) (cursor m) (branch m)
    (branchCursor m) (task m) (taskCursor m) (providers m) (providerIndex m)
    (providerOpen m) (providerHover m) (models m) (selected m) (modelsOpen m)
    (modelsHover m) (focus m) (screen m) (iterationInput m)
    (iterationCursor m) (autocompleteOptions m) (autocompleteIndex m)
    (autocompleteActive m) (runCmd m) (createdPanes m) (createdWorktrees m)
    (modelToPaneID m) (modelToWorktree m) (modelPrompts m)
    (instanceProvider m) (instanceBaseModel m) (newTaskName m)
    (newTaskNameCursor m) v (newTaskCursor m) (newTaskFocus m) (setDefault m)
    (cursorVisible m) (progressMsg m) (spinnerIndex m) (spinnerFrames m)
    (pendingEsc m) (history m) (historyIndex m) (iterationHistoryIndex m)
    (draftInput m) (draftIterationInput m).

Definition set_newTaskCursor (v : cursorPos) (m : model) : model :=
  Build_model (width m) (height m) (input m) (cursor m) (branch m)
    (branchCursor m) (task m) (taskCursor m) (providers m) (providerIndex m)
    (providerOpen m) (providerHover m) (models m) (selected m) (modelsOpen m)
    (modelsHover m) (focus m) (screen m) (iterationInput m)
    (iterationCursor m) (autocompleteOptions m) (autocompleteIndex m)
    (autocompleteActive m) (runCmd m) (createdPanes m) (createdWorktrees m)
    (modelToPaneID m) (modelToWorktree m) (modelPrompts m)
    (instanceProvider m) (instanceBaseModel m) (newTaskName m)
    (newTaskNameCursor m) (newTaskPrompt m) v (newTaskFocus m) (setDefault m)
    (cursorVisible m) (progressMsg m) (spinnerIndex m) (spinnerFrames m)
    (pendingEsc m) (history m) (historyIndex m) (iterationHistoryIndex m)
    (draftInput m) (draftIterationInput m).

Definition set_newTaskFocus (v : focusType) (m : model) : model :=
  Build_model (width m) (height m) (input m) (cursor m) (branch m)
    (branchCursor m) (task m) (taskCursor m) (providers m) (providerIndex m)
    (providerOpen m) (providerHover m) (models m) (selected m) (modelsOpen m)
    (modelsHover m) (focus m) (screen m) (iterationInput m)
    (iterationCursor m) (autocompleteOptions m) (autocompleteIndex m)
    (autocompleteActive m) (runCmd m) (createdPanes m) (createdWorktrees m)
    (modelToPaneID m) (modelToWorktree m) (modelPrompts m)
    (instanceProvider m) (instanceBaseModel m) (newTaskName m)
    (newTaskNameCursor m) (newTaskPrompt m) (newTaskCursor m) v (setDefault m)
    (cursorVisible m) (progressMsg m) (spinnerIndex m) (spinnerFrames m)
    (pendingEsc m) (history m) (historyIndex m) (iterationHistoryIndex m)
    (draftInput m) (draftIterationInput m).

Definition set_cursorVisible (v : bool) (m : model) : model :=
  Build_model (width m) (height m) (input m) (cursor m) (branch m)
    (branchCursor m) (task m) (taskCursor m) (providers m) (providerIndex m)
    (providerOpen m) (providerHover m) (models m) (selected m) (modelsOpen m)
    (modelsHover m) (focus m) (screen m) (iterationInput m)
    (iterationCursor m) (autocompleteOptions m) (autocompleteIndex m)
    (autocompleteActive m) (runCmd m) (createdPanes m) (createdWorktrees m)
    (modelToPaneID m) (modelToWorktree m) (modelPrompts m)
    (instanceProvider m) (instanceBaseModel m) (newTaskName m)
    (newTaskNameCursor m) (newTaskPrompt m) (newTaskCursor m) (newTaskFocus m)
    (setDefault m) v (progressMsg m) (spinnerIndex m) (spinnerFrames m)
    (pendingEsc m) (history m) (historyIndex m) (iterationHistoryIndex m)
    (draftInput m) (draftIterationInput m).

Definition set_progressMsg (v : string) (m : model) : model :=
  Build_model (width m) (height m) (input m) (cursor m) (branch m)
    (branchCursor m) (task m) (taskCursor m) (providers m) (providerIndex m)
    (providerOpen m) (providerHover m) (models m) (selected m) (modelsOpen m)
    (modelsHover m) (focus m) (screen m) (iterationInput m)
    (iterationCursor m) (autocompleteOptions m) (autocompleteIndex m)
    (autocompleteActive m) (runCmd m) (createdPanes m) (createdWorktrees m)
    (modelToPaneID m) (modelToWorktree m) (modelPrompts m)
    (instanceProvider m) (instanceBaseModel m) (newTaskName m)
    (newTaskNameCursor m) (newTaskPrompt m) (newTaskCursor m) (newTaskFocus m)
    (setDefault m) (cursorVisible m) v (spinnerIndex m) (spinnerFrames m)
    (pendingEsc m) (history m) (historyIndex m) (iterationHistoryIndex m)
    (draftInput m) (draftIterationInput m).

Definition set_spinnerIndex (v : Z) (m : model) : model :=
  Build_model (width m) (height m) (input m) (cursor m) (branch m)
    (branchCursor m) (task m) (taskCursor m) (providers m) (providerIndex m)
    (providerOpen m) (providerHover m) (models m) (selected m) (modelsOpen m)
    (modelsHover m) (focus m) (screen m) (iterationInput m)
    (iterationCursor m) (autocompleteOptions m) (autocompleteIndex m)
    (autocompleteActive m) (runCmd m) (createdPanes m) (createdWorktrees m)
    (modelToPaneID m) (modelToWorktree m) (modelPrompts m)
    (instanceProvider m) (instanceBaseModel m) (newTaskName m)
    (newTaskNameCursor m) (newTaskPrompt m) (newTaskCursor m) (newTaskFocus m)
    (setDefault m) (cursorVisible m) (progressMsg m) v (spinnerFrames m)
    (pendingEsc m) (history m) (historyIndex m) (iterationHistoryIndex m)
    (draftInput m) (draftIterationInput m).

Definition set_pendingEsc (v : bool) (m : model) : model :=
  Build_model (width m) (height m) (input m) (cursor m) (branch m)
    (branchCursor m) (task m) (taskCursor m) (providers m) (providerIndex m)
    (providerOpen m) (providerHover m) (models m) (selected m) (modelsOpen m)
    (modelsHover m) (focus m) (screen m) (iterationInput m)
    (iterationCursor m) (autocompleteOptions m) (autocompleteIndex m)
    (autocompleteActive m) (runCmd m) (createdPanes m) (createdWorktrees m)
    (modelToPaneID m) (modelToWorktree m) (modelPrompts m)
    (instanceProvider m) (instanceBaseModel m) (newTaskName m)
    (newTaskNameCursor m) (newTaskPrompt m) (newTaskCursor m) (newTaskFocus m)
    (setDefault m) (cursorVisible m) (progressMsg m) (spinnerIndex m)
    (spinnerFrames m) v (history m) (historyIndex m) (iterationHistoryIndex m)
    (draftInput m) (draftIterationInput m).

Definition set_history (v : list string) (m : model) : model :=
  Build_model (width m) (height m) (input m) (cursor m) (branch m)
    (branchCursor m) (task m) (taskCursor m) (providers m) (providerIndex m)
    (providerOpen m) (providerHover m) (models m) (selected m) (modelsOpen m)
    (modelsHover m) (focus m) (screen m) (iterationInput m)
    (iterationCursor m) (autocompleteOptions m) (autocompleteIndex m)
    (autocompleteActive m) (runCmd m) (createdPanes m) (createdWorktrees m)
    (modelToPaneID m) (modelToWorktree m) (modelPrompts m)
    (instanceProvider m) (instanceBaseModel m) (newTaskName m)
    (newTaskNameCursor m) (newTaskPrompt m) (newTaskCursor m) (newTaskFocus m)
    (setDefault m) (cursorVisible m) (progressMsg m) (spinnerIndex m)
    (spinnerFrames m) (pendingEsc m) v (historyIndex m)
    (iterationHistoryIndex m) (draftInput m) (draftIterationInput m).

Definition set_historyIndex (v : Z) (m : model) : model :=
  Build_model (width m) (height m) (input m) (cursor m) (branch m)
    (branchCursor m) (task m) (taskCursor m) (providers m) (providerIndex m)
    (providerOpen m) (providerHover m) (models m) (selected m) (modelsOpen m)
    (modelsHover m) (focus m) (screen m) (iterationInput m)
    (iterationCursor m) (autocompleteOptions m) (autocompleteIndex m)
    (autocompleteActive m) (runCmd m) (createdPanes m) (createdWorktrees m)
    (modelToPaneID m) (modelToWorktree m) (modelPrompts m)
    (instanceProvider m) (instanceBaseModel m) (newTaskName m)
    (newTaskNameCursor m) (newTaskPrompt m) (newTaskCursor m) (newTaskFocus m)
    (setDefault m) (cursorVisible m) (progressMsg m) (spinnerIndex m)
    (spinnerFrames m) (pendingEsc m) (history m) v (iterationHistoryIndex m)
    (draftInput m) (draftIterationInput m).

Definition set_iterationHistoryIndex (v : Z) (m : model) : model :=
  Build_model (width m) (height m) (input m) (cursor m) (branch m)
    (branchCursor m) (task m) (taskCursor m) (providers m) (providerIndex m)
    (providerOpen m) (providerHover m) (models m) (selected m) (modelsOpen m)
    (modelsHover m) (focus m) (screen m) (iterationInput m)
    (iterationCursor m) (autocompleteOptions m) (autocompleteIndex m)
    (autocompleteActive m) (runCmd m) (createdPanes m) (createdWorktrees m)
    (modelToPaneID m) (modelToWorktree m) (modelPrompts m)
    (instanceProvider m) (instanceBaseModel m) (newTaskName m)
    (newTaskNameCursor m) (newTaskPrompt m) (newTaskCursor m) (newTaskFocus m)
    (setDefault m) (cursorVisible m) (progressMsg m) (spinnerIndex m)
    (spinnerFrames m) (pendingEsc m) (history m) (historyIndex m) v
    (draftInput m) (draftIterationInput m).

Definition set_draftInput (v : option (list string)) (m : model) : model :=
  Build_model (width m) (height m) (input m) (cursor m) (branch m)
    (branchCursor m) (task m) (taskCursor m) (providers m) (providerIndex m)
    (providerOpen m) (providerHover m) (models m) (selected m) (modelsOpen m)
    (modelsHover m) (focus m) (screen m) (iterationInput m)
    (iterationCursor m) (autocompleteOptions m) (autocompleteIndex m)
    (autocompleteActive m) (runCmd m) (createdPanes m) (createdWorktrees m)
    (modelToPaneID m) (modelToWorktree m) (modelPrompts m)
    (instanceProvider m) (instanceBaseModel m) (newTaskName m)
    (newTaskNameCursor m) (newTaskPrompt m) (newTaskCursor m) (newTaskFocus m)
    (setDefault m) (cursorVisible m) (progressMsg m) (spinnerIndex m)
    (spinnerFrames m) (pendingEsc m) (history m) (historyIndex m)
    (iterationHistoryIndex m) v (draftIterationInput m).

Definition set_draftIterationInput (v : option (list string)) (m : model) : model :=
  Build_model (width m) (height m) (input m) (cursor m) (branch m)
    (branchCursor m) (task m) (taskCursor m) (providers m) (providerIndex m)
    (providerOpen m) (providerHover m) (models m) (selected m) (modelsOpen m)
    (modelsHover m) (focus m) (screen m) (iterationInput m)
    (iterationCursor m) (autocompleteOptions m) (autocompleteIndex m)
    (autocompleteActive m) (runCmd m) (createdPanes m) (createdWorktrees m)
    (modelToPaneID m) (modelToWorktree m) (modelPrompts m)
    (instanceProvider m) (instanceBaseModel m) (newTaskName m)
    (newTaskNameCursor m) (newTaskPrompt m) (newTaskCursor m) (newTaskFocus m)
    (setDefault m) (cursorVisible m) (progressMsg m) (spinnerIndex m)
    (spinnerFrames m) (pendingEsc m) (history m) (historyIndex m)
    (iterationHistoryIndex m) (draftInput m) v.


(** ** Messages *)

(** [panesOpenedMsg] *)
Module PanesOpened.
Record t := Build {
  count : Z;
  err : error;
  paneIDs : list string;
  worktrees : list string;
  modelNames : list string;  (* instance labels used as keys *)
  providers : list string;   (* provider used to open each instance *)
  baseModels : list string   (* base model name for each instance *)
}.
End PanesOpened.

(** The keys of [tea.KeyMsg] that the handlers distinguish; any other key
    without runes falls in their [default] branch and is [KeyOther]. *)
Inductive keyType :=
  | KeyCtrlC | KeyEsc | KeyCtrlA | KeyHome | KeyCtrlE | KeyEnd
  | KeyTab | KeyShiftTab | KeyEnter | KeySpace | KeyBackspace | KeyCtrlU
  | KeyLeft | KeyRight | KeyUp | KeyDown | KeyRunes | KeyOther.

Record KeyMsg := Key { KType : keyType; Runes : list Z; Alt : bool }.

Inductive Msg :=
  | cursorBlinkMsg
  | spinnerTickMsg
  | bailCompleteMsg
  | nextCompleteMsg
  | wrapCompleteMsg
  | cleanupCompleteMsg
  | panesOpenedMsg (p : PanesOpened.t)
  | WindowSizeMsg (Width Height : Z)
  | escTimeoutMsg
  | keyMsg (k : KeyMsg)
  | QuitMsg.

(** ** Commands

    A [tea.Cmd] is a function that runs outside [Update] and returns a
    message.  It is embedded as the tree of the calls it makes to the
    outside world, each continued by the answer it gets. *)

Inductive extcall :=
  | IsInsideTmux                                (* tmux.IsInsideTmux() *)
  | TmuxRunCmd (args : list string)             (* tmux.RunCmd(args) *)
  | ExecRun (argv : list string)                (* exec.Command(argv...).Run() *)
  | Getwd                                       (* os.Getwd() *)
  | IncrementChoice (provider base : string)    (* incrementChoice *)
  | SaveDefaults (provider : string) (sel : gmap string (gmap string Z))
  | Sleep (ms : Z).                             (* the timer of tea.Tick *)

(** The answer to a call: its output, or the text of its error.
    [IsInsideTmux] answers [ROk] for [true] and [RErr] for [false]. *)
Inductive result := ROk (out : string) | RErr (e : string).

Inductive prog (A : Type) : Type :=
  | Ret (a : A)
  | Crash                                       (* a run-time panic *)
  | Call (c : extcall) (k : result -> prog A).
Arguments Ret {A} a.
Arguments Crash {A}.
Arguments Call {A} c k.

Fixpoint prog_bind {A B} (f : A -> prog B) (p : prog A) : prog B :=
  match p with
  | Ret a => f a
  | Crash => Crash
  | Call c k => Call c (fun r => prog_bind f (k r))
  end.

Global Instance prog_mret : MRet prog := @Ret.
Global Instance prog_mbind : MBind prog := @prog_bind.

Definition call (c : extcall) : prog result := Call c Ret.

(** [for _, x := range xs { body }] *)
Fixpoint forEach {A} (xs : list A) (body : A -> prog unit) : prog unit :=
  match xs with
  | [] => Ret tt
  | x :: xs' => body x;; forEach xs' body
  end.

Definition Cmd := option (prog (option Msg)).

(** [tea.Quit] *)
Definition Quit : Cmd := Some (Ret (Some QuitMsg)).

(** [tea.Tick(d, func(time.Time) tea.Msg { return msg })] *)
Definition Tick (ms : Z) (msg : Msg) : Cmd :=
  Some (call (Sleep ms);; Ret (Some msg)).

(** Running a program in a world that answers each call from its state.
    The run returns the result ([None] after a panic), the calls made with
    their answers in order, and the final state of the world. *)
Section Run.
Context {W : Type} (answer : W -> extcall -> result * W).

Fixpoint run {A} (p : prog A) (w : W)
  : option A * list (extcall * result) * W :=
  match p with
  | Ret a => (Some a, [], w)
  | Crash => (None, [], w)
  | Call c k =>
      let '(r, w1) := answer w c in
      let '(a, tr, w2) := run (k r) w1 in
      (a, (c, r) :: tr, w2)
  end.

Definition outcome {A} (p : prog A) (w : W) : option A := (run p w).1.1.
Definition trace {A} (p : prog A) (w : W) : list (extcall * result) :=
  (run p w).1.2.
End Run.

(** ** Readers of the state *)

(** [l[i]]; an index out of range panics. *)
Definition nthZ {A} (l : list A) (i : Z) : option A :=
  if 0 <=? i then l !! Z.to_nat i else None.

(** [len(l)] *)
Definition lenZ {A} (l : list A) : Z := Z.of_nat (length l).

(** [currentProvider] *)
Definition currentProvider (m : model) : option string :=
  if decide (length (providers m) = 0%nat) then Some EmptyString
  else nthZ (providers m) (providerIndex m).

(** [providerModels] *)
Definition providerModels (m : model) : option (list string) :=
  p ← currentProvider m;
  if decide (p = EmptyString) then Some []
  else Some (default [] (models m !! p)).

(** [selectedModels] returns the selected model names of the current
    provider: each name of the catalog as many times as its count. *)
Definition selectedModels (m : model) : option (list string) :=
  p ← currentProvider m;
  match selected m !! p with
  | None => Some []
  | Some sel =>
      Some (flat_map
              (fun name =>
                 match sel !! name with
                 | Some c => if 0 <? c then replicate (Z.to_nat c) name else []
                 | None => []
                 end)
              (default [] (models m !! p)))
  end.

(** A panic inside a command ends it. *)
Definition orCrash {A} (o : option A) : prog A :=
  match o with Some a => Ret a | None => Crash end.

Definition nl : string := Str.of_byte Str.newline.

(** [shellQuote], the closure of [openPanesCmd] and [sendToModelPaneCmd]:
    the text between single quotes, each single quote inside it replaced by
    quote, double quote, quote, double quote, quote. *)
Definition shellQuote (s : string) : string :=
  let q := Str.of_byte Str.quote in
  let dq := Str.of_byte Str.dquote in
  q +:+ Str.ReplaceAll s Str.quote (q +:+ dq +:+ q +:+ dq +:+ q) +:+ q.

Definition isOk (r : result) : bool :=
  match r with ROk _ => true | RErr _ => false end.

Section Orchestrator.

(** [filepath.Base], [filepath.Dir] and [filepath.Join] of the Go library. *)
Variable filepath_Base : string -> string.
Variable filepath_Dir : string -> string.
Variable filepath_Join : string -> string -> string.

Definition tmuxRunCmd (args : list string) : prog result :=
  call (TmuxRunCmd args).

Definition displayMessage (text : string) : prog unit :=
  tmuxRunCmd ["display-message"; text];; Ret tt.

(** [exec.Command(argv...)] followed by [cmd.Run()] *)
Definition execRun (argv : list string) : prog result := call (ExecRun argv).

Definition isInsideTmux : prog bool := r ← call IsInsideTmux; Ret (isOk r).

(** [identifierFor] composes repo + branch + task + provided model name. *)
Definition identifierFor (m : model) (modelName : string) : prog string :=
  r ← call Getwd;
  let repo := match r with
              | ROk cwd => filepath_Base cwd
              | RErr _ => EmptyString
              end in
  let branch := Str.TrimSpace (branch m) in
  let task := Str.TrimSpace (task m) in
  let modelName := Str.TrimSpace modelName in
  let parts := [] in
  let parts := if decide (repo = EmptyString) then parts else parts ++ [repo] in
  let parts := if decide (branch = EmptyString) then parts else parts ++ [branch] in
  let parts := if decide (task = EmptyString) then parts else parts ++ [task] in
  let parts := if decide (modelName = EmptyString) then parts
               else parts ++ [modelName] in
  Ret (Str.Join parts "_").

(** The variables of the loop of [openPanesCmd]. *)
Record openState := OpenState {
  opened : Z;
  lastErr : error;
  paneIDs : list string;
  worktrees : list string;
  modelNames : list string;
  providers_ : list string;
  baseModels : list string;
  baseCounts : gmap string Z   (* base model -> count so far *)
}.

(** The instance label of the [seq]-th pane of a base model:
    base, base-2, base-3, ... *)
Definition instanceLabelOf (baseName : string) (seq : Z) : string :=
  if 1 <? seq then baseName +:+ "-" +:+ Str.itoa seq else baseName.

(** One turn of [for _, baseName := range models] in [openPanesCmd].  The
    counts are bounded by the number of models handed to the loop. *)
Definition openPane (m : model) (branchName : string) (st : openState)
    (baseName : string) : prog openState :=
  let seq := default 0 (baseCounts st !! baseName) + 1 in
  let baseCounts1 := <[baseName := seq]> (baseCounts st) in
  let instanceLabel := instanceLabelOf baseName seq in
  id ← identifierFor m instanceLabel;
  provider ← orCrash (currentProvider m);
  let prompt := Str.Join (input m) nl in
  let modelFull := provider +:+ "/" +:+ baseName in
  let bashCmd :=
    "git worktree add -b " +:+ shellQuote id +:+ " ../" +:+ shellQuote id
    +:+ " " +:+ shellQuote branchName +:+ " || true; cd ../" +:+ shellQuote id
    +:+ "; opencode run -m " +:+ shellQuote modelFull +:+ " "
    +:+ shellQuote prompt +:+ "; " +:+ runCmd m +:+ "; exec $SHELL" in
  r ← tmuxRunCmd ["split-window"; "-v"; "-P"; "-F"; "#{pane_id}"; "bash";
                   "-lc"; bashCmd];
  match r with
  | RErr e =>
      Ret (OpenState (opened st) (Some e) (paneIDs st) (worktrees st)
             (modelNames st) (providers_ st) (baseModels st) baseCounts1)
  | ROk out =>
      let newPaneID := Str.TrimSpace out in
      Ret (OpenState (opened st + 1) (lastErr st)
             (paneIDs st ++ [newPaneID]) (worktrees st ++ [id])
             (modelNames st ++ [instanceLabel]) (providers_ st ++ [provider])
             (baseModels st ++ [baseName]) baseCounts1)
  end.

Fixpoint openPanes (m : model) (branchName : string) (st : openState)
    (models : list string) : prog openState :=
  match models with
  | [] => Ret st
  | baseName :: rest =>
      st1 ← openPane m branchName st baseName;
      openPanes m branchName st1 rest
  end.

Definition failedOpen (e : string) : PanesOpened.t :=
  PanesOpened.Build 0 (Some e) [] [] [] [] [].

(** [openPanesCmd].  The command is a value: it reads the state as it was
    when [Update] returned it.  (In Go the closure shares the backing array
    of [m.input] with the session, so a key handled before the command runs
    can still change the prompt it sends; the commands are run here before
    any later key.) *)
Definition openPanesCmd (models : list string) (m : model) : prog (option Msg) :=
  (if setDefault m then
     p ← orCrash (currentProvider m);
     r ← call (SaveDefaults p (selected m));
     match r with
     | RErr e => displayMessage ("Warning: failed to save defaults: " +:+ e)
     | ROk _ =>
         displayMessage "Saved provider and model defaults to .kaleidoscope"
     end
   else Ret tt);;
  inside ← isInsideTmux;
  if negb inside then
    displayMessage "Not inside tmux; cannot open panes";;
    Ret (Some (panesOpenedMsg (failedOpen "not inside tmux")))
  else
    (* Create feature branch first *)
    let branchName := Str.TrimSpace (branch m) in
    if decide (branchName = EmptyString) then
      Ret (Some (panesOpenedMsg (failedOpen "branch name is required")))
    else
      execRun ["git"; "checkout"; "-b"; branchName];;
      execRun ["git"; "checkout"; branchName];;
      (* Capture the current pane id to restore focus later *)
      r ← tmuxRunCmd ["display-message"; "-p"; "#{pane_id}"];
      match r with
      | RErr e => Ret (Some (panesOpenedMsg (failedOpen e)))
      | ROk paneOut =>
          let origPaneID := Str.TrimSpace paneOut in
          st ← openPanes m branchName (OpenState 0 None [] [] [] [] [] ∅) models;
          tmuxRunCmd ["select-layout"; "tiled"];;
          tmuxRunCmd ["select-pane"; "-t"; origPaneID];;
          displayMessage ("Opened " +:+ Str.itoa (opened st) +:+ " pane(s)");;
          Ret (Some (panesOpenedMsg
                       (PanesOpened.Build (opened st) (lastErr st) (paneIDs st)
                          (worktrees st) (modelNames st) (providers_ st)
                          (baseModels st))))
      end.

(** The loops that [bailCmd], [nextCmd], [wrapCmd] and [cleanupCmd] share
    word for word: kill every created pane; remove every created worktree
    and delete its branch. *)
Definition killPanes (m : model) : prog unit :=
  forEach (createdPanes m) (fun paneID =>
    tmuxRunCmd ["kill-pane"; "-t"; paneID];; Ret tt).

Definition removeWorktrees (m : model) (parentDir : string) : prog unit :=
  forEach (createdWorktrees m) (fun worktree =>
    let worktreePath := filepath_Join parentDir worktree in
    execRun ["git"; "worktree"; "remove"; worktreePath; "--force"];;
    execRun ["git"; "branch"; "-D"; worktree];;
    Ret tt).

(** [bailCmd] *)
Definition bailCmd (m : model) : prog (option Msg) :=
  inside ← isInsideTmux;
  if negb inside then Ret (Some bailCompleteMsg)
  else
    killPanes m;;
    r ← call Getwd;
    match r with
    | RErr _ => Ret (Some bailCompleteMsg)
    | ROk cwd =>
        let parentDir := filepath_Dir cwd in
        removeWorktrees m parentDir;;
        displayMessage "Bail complete: cleaned up panes, worktrees, and branches";;
        Ret (Some bailCompleteMsg)
    end.

(** [cleanupCmd] *)
Definition cleanupCmd (m : model) : prog (option Msg) :=
  inside ← isInsideTmux;
  if negb inside then Ret (Some cleanupCompleteMsg)
  else
    killPanes m;;
    r ← call Getwd;
    match r with
    | RErr _ => Ret (Some cleanupCompleteMsg)
    | ROk cwd =>
        let parentDir := filepath_Dir cwd in
        removeWorktrees m parentDir;;
        (if decide (0 < lenZ (createdPanes m) ∨ 0 < lenZ (createdWorktrees m))
         then displayMessage
                "Cleanup complete: closed panes, removed worktrees and branches"
         else Ret tt);;
        Ret (Some cleanupCompleteMsg)
    end.

(** The commit message of [nextCmd] and [wrapCmd]: the label, then the
    numbered prompt log. *)
Fixpoint promptLines (i : Z) (prompts : list string) : string :=
  match prompts with
  | [] => EmptyString
  | prompt :: rest =>
      (Str.itoa (i + 1) +:+ ". " +:+ prompt +:+ nl) +:+ promptLines (i + 1) rest
  end.

Definition commitMessageOf (modelName : string) (prompts : list string) : string :=
  let commitMessage := "Changes from " +:+ modelName in
  if decide (0 < lenZ prompts)
  then commitMessage +:+ nl +:+ nl +:+ promptLines 0 prompts
  else commitMessage.

(** The body that [nextCmd] and [wrapCmd] share line for line; they differ
    in the closing status text and in the message returned at the end. *)
Definition mergeCmd (m : model) (modelName : string)
    (what : string) (complete : Msg) : prog (option Msg) :=
  inside ← isInsideTmux;
  if negb inside then Ret (Some bailCompleteMsg)
  else
    match modelToWorktree m !! modelName with
    | None =>
        displayMessage ("Error: model " +:+ modelName +:+ " not found");;
        Ret (Some bailCompleteMsg)
    | Some worktree =>
        (* Increment choice for the bound provider/base model *)
        let prov := default EmptyString (instanceProvider m !! modelName) in
        let base := default EmptyString (instanceBaseModel m !! modelName) in
        '(prov, base) ←
          (if decide (prov = EmptyString ∨ base = EmptyString)
           then p ← orCrash (currentProvider m); Ret (p, modelName)
           else Ret (prov, base));
        r ← call (IncrementChoice prov base);
        match r with
        | RErr e =>
            displayMessage ("Warning: failed to update choice count: " +:+ e)
        | ROk _ => Ret tt
        end;;
        r ← call Getwd;
        match r with
        | RErr e =>
            displayMessage ("Error: " +:+ e);;
            Ret (Some bailCompleteMsg)
        | ROk cwd =>
            let parentDir := filepath_Dir cwd in
            let worktreePath := filepath_Join parentDir worktree in
            let prompts := default [] (modelPrompts m !! modelName) in
            let commitMessage := commitMessageOf modelName prompts in
            r ← execRun ["git"; "-C"; worktreePath; "add"; "."];
            match r with
            | RErr e =>
                displayMessage ("Error adding files: " +:+ e);;
                Ret (Some bailCompleteMsg)
            | ROk _ =>
                r ← execRun ["git"; "-C"; worktreePath; "commit"; "-m";
                              commitMessage];
                match r with
                | RErr e => displayMessage ("Error committing: " +:+ e)
                | ROk _ => Ret tt
                end;;
                let featureBranch := Str.TrimSpace (branch m) in
                r ← execRun ["git"; "checkout"; featureBranch];
                match r with
                | RErr e =>
                    displayMessage
                      ("Error checking out feature branch: " +:+ e);;
                    Ret (Some bailCompleteMsg)
                | ROk _ =>
                    r ← execRun ["git"; "merge"; "--no-ff"; worktree; "-m";
                                  "Merge changes from " +:+ modelName];
                    match r with
                    | RErr e =>
                        displayMessage ("Error merging: " +:+ e);;
                        Ret (Some bailCompleteMsg)
                    | ROk _ =>
                        r ← execRun ["git"; "push"; "origin"; featureBranch];
                        match r with
                        | RErr e => displayMessage ("Error pushing: " +:+ e)
                        | ROk _ => Ret tt
                        end;;
                        killPanes m;;
                        removeWorktrees m parentDir;;
                        displayMessage
                          (what +:+ " complete: merged " +:+ modelName
                           +:+ " and cleaned up");;
                        Ret (Some complete)
                    end
                end
            end
        end
    end.

(** [nextCmd] *)
Definition nextCmd (m : model) (modelName : string) : prog (option Msg) :=
  mergeCmd m modelName "Next" nextCompleteMsg.

(** [wrapCmd] *)
Definition wrapCmd (m : model) (modelName : string) : prog (option Msg) :=
  mergeCmd m modelName "Wrap" wrapCompleteMsg.

(** [sendToModelPaneCmd] *)
Definition sendToModelPaneCmd (paneID modelName prompt : string) (m : model)
  : prog (option Msg) :=
  inside ← isInsideTmux;
  if negb inside then Ret None
  else
    (* Use bound provider/base model for this instance label *)
    let provider := default EmptyString (instanceProvider m !! modelName) in
    let base := default EmptyString (instanceBaseModel m !! modelName) in
    '(provider, base) ←
      (if decide (provider = EmptyString ∨ base = EmptyString)
       then p ← orCrash (currentProvider m); Ret (p, modelName)
       else Ret (provider, base));
    let modelFull := provider +:+ "/" +:+ base in
    let bashCmd :=
      "opencode run -m " +:+ shellQuote modelFull +:+ " " +:+ shellQuote prompt in
    tmuxRunCmd ["send-keys"; "-t"; paneID; "C-c"];;
    tmuxRunCmd ["send-keys"; "-t"; paneID; bashCmd; "Enter"];;
    displayMessage ("Sent to @" +:+ modelName +:+ ": " +:+ prompt);;
    Ret None.


(** ** Line editing helpers *)

Definition isSpaceByte (c : ascii) : bool :=
  (Ascii.eqb c Str.space || Ascii.eqb c Str.tab || Ascii.eqb c Str.newline)%bool.

(** [isWordByte] treats any non-whitespace byte as a word character. *)
Definition isWordByte (b : ascii) : bool := negb (isSpaceByte b).

(** [for i > 0 && p(line[i-1]) { i-- }], from [i = n]. *)
Fixpoint scanLeft (p : ascii -> bool) (line : string) (n : nat) : option Z :=
  match n with
  | O => Some 0
  | S n' =>
      c ← Str.at_ line (Z.of_nat n');
      if p c then scanLeft p line n' else Some (Z.of_nat n)
  end.

(** [for i < n && p(line[i]) { i++ }], with [fuel] the distance to [n]. *)
Fixpoint scanRight (p : ascii -> bool) (line : string) (i : Z) (fuel : nat)
  : option Z :=
  match fuel with
  | O => Some i
  | S fuel' =>
      c ← Str.at_ line i;
      if p c then scanRight p line (i + 1) fuel' else Some i
  end.

(** [wordLeft] *)
Definition wordLeft (line : string) (col : Z) : option Z :=
  if col <=? 0 then Some 0
  else
    i ← scanLeft isSpaceByte line (Z.to_nat col);
    scanLeft isWordByte line (Z.to_nat i).

(** [wordRight] *)
Definition wordRight (line : string) (col : Z) : option Z :=
  let n := Str.len line in
  if n <=? col then Some n
  else
    i ← scanRight isSpaceByte line col (Z.to_nat (n - col));
    scanRight isWordByte line i (Z.to_nat (n - i)).

(** [moveWordLeftLines] *)
Definition moveWordLeftLines (lines : list string) (row col : Z)
  : option (Z * Z) :=
  if (row <? 0) || (lenZ lines <=? row) then Some (row, col)
  else if 0 <? col then
    line ← nthZ lines row; c ← wordLeft line col; Some (row, c)
  else if 0 <? row then
    let row := row - 1 in
    line ← nthZ lines row; c ← wordLeft line (Str.len line); Some (row, c)
  else Some (row, col).

(** [moveWordRightLines] *)
Definition moveWordRightLines (lines : list string) (row col : Z)
  : option (Z * Z) :=
  if (row <? 0) || (lenZ lines <=? row) then Some (row, col)
  else
    line ← nthZ lines row;
    if col <? Str.len line then c ← wordRight line col; Some (row, c)
    else if row <? lenZ lines - 1 then
      let row := row + 1 in
      line ← nthZ lines row; c ← wordRight line 0; Some (row, c)
    else Some (row, col).

(** [lineLeft] *)
Definition lineLeft (lines : list string) (row col : Z) : option (Z * Z) :=
  if (row <? 0) || (lenZ lines <=? row) then Some (row, col)
  else if 0 <? col then Some (row, 0)
  else if 0 <? row then Some (row - 1, 0)
  else Some (row, col).

(** [lineRight] *)
Definition lineRight (lines : list string) (row col : Z) : option (Z * Z) :=
  if (row <? 0) || (lenZ lines <=? row) then Some (row, col)
  else
    line ← nthZ lines row;
    let lineLen := Str.len line in
    if col <? lineLen then Some (row, lineLen)
    else if row <? lenZ lines - 1 then
      let row := row + 1 in
      line ← nthZ lines row; Some (row, Str.len line)
    else Some (row, col).

(** [deleteWordBackward] *)
Definition deleteWordBackward (line : string) (col : Z) : option (string * Z) :=
  if col <=? 0 then Some (line, col)
  else
    newCol ← wordLeft line col;
    a ← Str.upto line newCol;
    b ← Str.from line col;
    Some (a +:+ b, newCol).

(** [deleteLineBackward] *)
Definition deleteLineBackward (line : string) (col : Z) : option (string * Z) :=
  if col <=? 0 then Some (line, col)
  else newLine ← Str.from line col; Some (newLine, 0).

(** [rows[i] = v]; the index must be in range. *)
Definition setRow (rows : list string) (i : Z) (v : string)
  : option (list string) :=
  if (0 <=? i) && (i <? lenZ rows) then Some (<[Z.to_nat i := v]> rows)
  else None.

(** The editing steps that the three multi-line fields (prompt, iteration
    command, new-task prompt) repeat on their own rows and cursor. *)

(** [line[:col] + r + line[col:]] in the current row; [col += len(r)]. *)
Definition insertText (rows : list string) (cur : cursorPos) (r : string)
  : option (list string * cursorPos) :=
  line ← nthZ rows (row cur);
  a ← Str.upto line (col cur);
  b ← Str.from line (col cur);
  rows1 ← setRow rows (row cur) (a +:+ r +:+ b);
  Some (rows1, Cursor (row cur) (col cur + Str.len r)).

(** The current row is split at the cursor, which moves to the start of
    the new row. *)
Definition insertNewline (rows : list string) (cur : cursorPos)
  : option (list string * cursorPos) :=
  line ← nthZ rows (row cur);
  before ← Str.upto line (col cur);
  after ← Str.from line (col cur);
  rows1 ← setRow rows (row cur) before;
  let n := Z.to_nat (row cur + 1) in
  Some (take n rows1 ++ after :: drop n rows1, Cursor (row cur + 1) 0).

(** Backspace: the byte left of the cursor is deleted, or at the start of
    a row the row is joined to the previous one. *)
Definition backspace (rows : list string) (cur : cursorPos)
  : option (list string * cursorPos) :=
  if 0 <? col cur then
    line ← nthZ rows (row cur);
    a ← Str.upto line (col cur - 1);
    b ← Str.from line (col cur);
    rows1 ← setRow rows (row cur) (a +:+ b);
    Some (rows1, Cursor (row cur) (col cur - 1))
  else if 0 <? row cur then
    prev ← nthZ rows (row cur - 1);
    cur_ ← nthZ rows (row cur);
    rows1 ← setRow rows (row cur - 1) (prev +:+ cur_);
    let n := Z.to_nat (row cur) in
    Some (take n rows1 ++ drop (S n) rows1, Cursor (row cur - 1) (Str.len prev))
  else Some (rows, cur).

(** Left and right arrows. *)
Definition moveLeft (rows : list string) (cur : cursorPos) : option cursorPos :=
  if 0 <? col cur then Some (Cursor (row cur) (col cur - 1))
  else if 0 <? row cur then
    line ← nthZ rows (row cur - 1);
    Some (Cursor (row cur - 1) (Str.len line))
  else Some cur.

Definition moveRight (rows : list string) (cur : cursorPos) : option cursorPos :=
  line ← nthZ rows (row cur);
  if col cur <? Str.len line then Some (Cursor (row cur) (col cur + 1))
  else if row cur <? lenZ rows - 1 then Some (Cursor (row cur + 1) 0)
  else Some cur.

(** Up and down arrows inside a text: the column is clamped to the row. *)
Definition clampTo (rows : list string) (r c : Z) : option cursorPos :=
  line ← nthZ rows r;
  Some (Cursor r (if Str.len line <? c then Str.len line else c)).

(** The cursor at the end of the last row, as after a history entry is
    loaded: [row = len(rows) - 1], [col = len(rows[row])]. *)
Definition cursorAtEnd (rows : list string) : option cursorPos :=
  let r := lenZ rows - 1 in
  line ← nthZ rows r;
  Some (Cursor r (Str.len line)).


(** ** Autocomplete *)

(** [for name := range m.modelToWorktree]: Go leaves the order in which a
    map is ranged over unspecified; [rangeKeys] is the order taken. *)
Variable rangeKeys : gmap string string -> list string.

Definition notSpaceByte (c : ascii) : bool := negb (isSpaceByte c).

Definition isSlashOrAt (c : ascii) : bool :=
  (Ascii.eqb c "/" || Ascii.eqb c "@")%bool.

Definition scanLeftZ (p : ascii -> bool) (line : string) (i : Z) : option Z :=
  if i <=? 0 then Some i else scanLeft p line (Z.to_nat i).

(** The last loop of [getAutocompletePrefix], from [start = n - 1]:
    leftwards over the token until a ['/'] or ['@'] is met. *)
Fixpoint findMarker (line : string) (cursorPos : Z) (n : nat)
  : option (string * Z) :=
  match n with
  | O => Some (EmptyString, 0)
  | S n' =>
      c ← Str.at_ line (Z.of_nat n');
      if notSpaceByte c then
        if isSlashOrAt c then
          t ← Str.slice line (Z.of_nat n') cursorPos; Some (t, Z.of_nat n')
        else findMarker line cursorPos n'
      else Some (EmptyString, 0)
  end.

(** [getAutocompletePrefix] *)
Definition getAutocompletePrefix (line : string) (cursorPos : Z)
  : option (string * Z) :=
  let cursorPos := if Str.len line <? cursorPos then Str.len line else cursorPos in
  curStart ← scanLeftZ notSpaceByte line cursorPos;
  currentToken ← Str.slice line curStart cursorPos;
  (* find previous token (skip spaces backwards) *)
  prevEnd1 ← scanLeftZ isSpaceByte line curStart;
  let prevEnd := prevEnd1 - 1 in
  combined ←
    (if 0 <=? prevEnd then
       prevStart ← scanLeftZ notSpaceByte line prevEnd;
       prevToken ← Str.slice line prevStart (prevEnd + 1);
       match prevToken with
       | String c _ =>
           if isSlashOrAt c
           then Some (Some (prevToken +:+ " " +:+ currentToken, curStart))
           else Some None
       | EmptyString => Some None
       end
     else Some None);
  match combined with
  | Some res => Some res
  | None =>
      let start := cursorPos - 1 in
      if start <? 0 then Some (EmptyString, 0)
      else
        c ← Str.at_ line start;
        if isSlashOrAt c then
          start1 ← scanLeftZ notSpaceByte line start;
          t ← Str.slice line start1 cursorPos;
          Some (t, start1)
        else findMarker line cursorPos (Z.to_nat (start + 1))
  end.

(** The candidates of a completion: the labels that have a worktree, or
    the selected models when there is none. *)
Definition autocompleteCandidates (m : model) : option (list string) :=
  let candidates := rangeKeys (modelToWorktree m) in
  if decide (length candidates = 0%nat) then selectedModels m
  else Some candidates.

(** [getAutocompleteOptions] *)
Definition getAutocompleteOptions (m : model) (prefix : string)
  : option (list string) :=
  match prefix with
  | EmptyString => Some []
  | String c rest =>
      if Ascii.eqb c "/" then
        if Str.HasPrefix prefix "/next " || Str.HasPrefix prefix "/wrap " then
          let searchPrefix :=
            if 6 <? Str.len prefix then
              match Str.SplitN2 prefix Str.space with
              | [_; p1] => p1
              | _ => EmptyString
              end
            else EmptyString in
          candidates ← autocompleteCandidates m;
          Some (List.filter (fun c => Str.HasPrefix c searchPrefix) candidates)
        else
          let commands := ["/bail"; "/next"; "/wrap"] in
          Some (List.filter (fun cmd => Str.HasPrefix cmd prefix) commands)
      else if Ascii.eqb c "@" then
        candidates ← autocompleteCandidates m;
        let searchPrefix := rest in
        Some ((fun name => "@" +:+ name) <$>
                List.filter (fun name => Str.HasPrefix name searchPrefix)
                  candidates)
      else Some []
  end.


(** ** Selection counts

    A selection count is a Go [int] that grows by one with every press of
    Space and is bounded by nothing else: its arithmetic is that of a
    64-bit two's complement integer. *)

Definition maxInt : Z := 2 ^ 63 - 1.
Definition minInt : Z := - 2 ^ 63.

Definition wrapInt (z : Z) : Z := (z + 2 ^ 63) mod 2 ^ 64 - 2 ^ 63.

Definition intAdd (a b : Z) : Z := wrapInt (a + b).
Definition intSub (a b : Z) : Z := wrapInt (a - b).

(** [m.selected[p][name]] *)
Definition selectedCount (m : model) (p name : string) : Z :=
  default 0 (default ∅ (selected m !! p) !! name).

(** [m.selected[p][name] = c], after [if m.selected[p] == nil
    { m.selected[p] = map[string]int{} }]. *)
Definition setSelectedCount (m : model) (p name : string) (c : Z) : model :=
  set_selected
    (<[p := <[name := c]> (default ∅ (selected m !! p))]> (selected m)) m.

(** The hovered model of the open models dropdown, the hover index first
    clamped to the options. *)
Definition clampHover (hover n : Z) : Z :=
  let hover := if hover <? 0 then 0 else hover in
  if n <=? hover then n - 1 else hover.

(** Space in the open models dropdown: the count of the hovered model
    goes up by one. *)
Definition incrementHovered (m : model) : option model :=
  opts ← providerModels m;
  if decide (length opts = 0%nat) then Some m
  else
    let m := set_modelsHover (clampHover (modelsHover m) (lenZ opts)) m in
    p ← currentProvider m;
    name ← nthZ opts (modelsHover m);
    Some (setSelectedCount m p name (intAdd (selectedCount m p name) 1)).

(** Backspace in the open models dropdown: the count of the hovered model
    goes down by one when it is positive. *)
Definition decrementHovered (m : model) : option model :=
  opts ← providerModels m;
  if decide (length opts = 0%nat) then Some m
  else
    let m := set_modelsHover (clampHover (modelsHover m) (lenZ opts)) m in
    p ← currentProvider m;
    name ← nthZ opts (modelsHover m);
    (* the inner map is made when nil, whether or not the count changes *)
    let m := set_selected
               (<[p := default ∅ (selected m !! p)]> (selected m)) m in
    if 0 <? selectedCount m p name
    then Some (setSelectedCount m p name (intSub (selectedCount m p name) 1))
    else Some m.

(** ** The Setup screen *)

Definition escDelay : Z := 150.

(** The rune of an Alt-b / Alt-f or ESC+b / ESC+f word motion. *)
Definition wordMotion (m : model) (msg : KeyMsg) : option Z :=
  match Runes msg with
  | [r] =>
      if (Alt msg || pendingEsc m) && ((r =? 98) || (r =? 102))
      then Some r else None
  | _ => None
  end.

(** A single-line field edited at [c]: [s[:c] + r + s[c:]]. *)
Definition spliceAt (s : string) (c : Z) (r : string) : option string :=
  a ← Str.upto s c; b ← Str.from s c; Some (a +:+ r +:+ b).

(** Backspace in a single-line field. *)
Definition backspaceField (s : string) (c : Z) : option (string * Z) :=
  if (0 <? c) && (0 <? Str.len s) then
    a ← Str.upto s (c - 1); b ← Str.from s c; Some (a +:+ b, c - 1)
  else Some (s, c).

Definition setupWordMotion (m : model) (r : Z) : option (model * Cmd) :=
  let m := set_pendingEsc false m in
  match focus m with
  | focusBranch =>
      c ← (if r =? 98 then wordLeft (branch m) (branchCursor m)
           else wordRight (branch m) (branchCursor m));
      Some (set_branchCursor c m, None)
  | focusTask =>
      c ← (if r =? 98 then wordLeft (task m) (taskCursor m)
           else wordRight (task m) (taskCursor m));
      Some (set_taskCursor c m, None)
  | focusPrompt =>
      '(r1, c1) ←
        (if r =? 98
         then moveWordLeftLines (input m) (row (cursor m)) (col (cursor m))
         else moveWordRightLines (input m) (row (cursor m)) (col (cursor m)));
      Some (set_cursor (Cursor r1 c1) m, None)
  | _ => Some (m, None)
  end.

Definition setupHome (m : model) : option (model * Cmd) :=
  match focus m with
  | focusBranch => Some (set_branchCursor 0 m, None)
  | focusTask => Some (set_taskCursor 0 m, None)
  | focusPrompt =>
      '(r1, c1) ← lineLeft (input m) (row (cursor m)) (col (cursor m));
      Some (set_cursor (Cursor r1 c1) m, None)
  | _ => Some (m, None)
  end.

Definition setupEnd (m : model) : option (model * Cmd) :=
  match focus m with
  | focusBranch => Some (set_branchCursor (Str.len (branch m)) m, None)
  | focusTask => Some (set_taskCursor (Str.len (task m)) m, None)
  | focusPrompt =>
      '(r1, c1) ← lineRight (input m) (row (cursor m)) (col (cursor m));
      Some (set_cursor (Cursor r1 c1) m, None)
  | _ => Some (m, None)
  end.

(** Tab cycles the focus: branch, task, prompt, provider, models. *)
Definition setupTab (m : model) : option (model * Cmd) :=
  match focus m with
  | focusBranch => Some (set_focus focusTask m, None)
  | focusTask => Some (set_focus focusPrompt m, None)
  | focusPrompt =>
      Some (set_providerHover (providerIndex m) (set_focus focusProvider m), None)
  | focusProvider =>
      Some (set_modelsHover 0 (set_focus focusModels (set_providerOpen false m)),
            None)
  | focusModels => Some (set_focus focusBranch (set_modelsOpen false m), None)
  end.

(** Enter.  In the prompt it inserts a newline and then spawns a tmux pane
    per selected model. *)
Definition setupEnter (m : model) : option (model * Cmd) :=
  match focus m with
  | focusBranch | focusTask => Some (set_focus focusPrompt m, None)
  | focusProvider =>
      if providerOpen m then
        Some (set_modelsHover 0
                (set_providerOpen false (set_providerIndex (providerHover m) m)),
              None)
      else Some (set_providerHover (providerIndex m) (set_providerOpen true m),
                 None)
  | focusModels =>
      let m := set_modelsOpen (negb (modelsOpen m)) m in
      let m := if modelsOpen m then set_modelsHover 0 m else m in
      Some (m, None)
  | focusPrompt =>
      '(rows, cur) ← insertNewline (input m) (cursor m);
      let m := set_cursor cur (set_input rows m) in
      models ← selectedModels m;
      if decide (0 < lenZ models)
      then Some (m, Some (openPanesCmd models m))
      else Some (m, None)
  end.

Definition setupSpace (m : model) : option (model * Cmd) :=
  if bool_decide (focus m = focusModels) && modelsOpen m then
    m1 ← incrementHovered m; Some (m1, None)
  else
    match focus m with
    | focusBranch =>
        s ← spliceAt (branch m) (branchCursor m) " ";
        Some (set_branchCursor (branchCursor m + 1) (set_branch s m), None)
    | focusTask =>
        s ← spliceAt (task m) (taskCursor m) " ";
        Some (set_taskCursor (taskCursor m + 1) (set_task s m), None)
    | focusPrompt =>
        '(rows, cur) ← insertText (input m) (cursor m) " ";
        Some (set_cursor cur (set_input rows m), None)
    | _ => Some (m, None)
    end.

Definition setupBackspace (m : model) (alt : bool) : option (model * Cmd) :=
  if alt then
    (* OPTION+delete: delete word backward *)
    match focus m with
    | focusBranch =>
        '(s, c) ← deleteWordBackward (branch m) (branchCursor m);
        Some (set_branchCursor c (set_branch s m), None)
    | focusTask =>
        '(s, c) ← deleteWordBackward (task m) (taskCursor m);
        Some (set_taskCursor c (set_task s m), None)
    | focusPrompt =>
        line ← nthZ (input m) (row (cursor m));
        '(s, c) ← deleteWordBackward line (col (cursor m));
        rows ← setRow (input m) (row (cursor m)) s;
        Some (set_cursor (Cursor (row (cursor m)) c) (set_input rows m), None)
    | _ => Some (m, None)
    end
  else
    match focus m with
    | focusBranch =>
        '(s, c) ← backspaceField (branch m) (branchCursor m);
        Some (set_branchCursor c (set_branch s m), None)
    | focusTask =>
        '(s, c) ← backspaceField (task m) (taskCursor m);
        Some (set_taskCursor c (set_task s m), None)
    | focusProvider =>
        Some (if providerOpen m then set_providerOpen false m else m, None)
    | focusModels =>
        if modelsOpen m then m1 ← decrementHovered m; Some (m1, None)
        else Some (m, None)
    | focusPrompt =>
        (* Prompt backspace *)
        '(rows, cur) ← backspace (input m) (cursor m);
        Some (set_cursor cur (set_input rows m), None)
    end.

Definition setupCtrlU (m : model) : option (model * Cmd) :=
  match focus m with
  | focusBranch =>
      '(s, c) ← deleteLineBackward (branch m) (branchCursor m);
      Some (set_branchCursor c (set_branch s m), None)
  | focusTask =>
      '(s, c) ← deleteLineBackward (task m) (taskCursor m);
      Some (set_taskCursor c (set_task s m), None)
  | focusPrompt =>
      line ← nthZ (input m) (row (cursor m));
      '(s, c) ← deleteLineBackward line (col (cursor m));
      rows ← setRow (input m) (row (cursor m)) s;
      Some (set_cursor (Cursor (row (cursor m)) c) (set_input rows m), None)
  | _ => Some (m, None)
  end.

Definition setupLeft (m : model) : option (model * Cmd) :=
  match focus m with
  | focusBranch =>
      Some (if 0 <? branchCursor m then set_branchCursor (branchCursor m - 1) m
            else m, None)
  | focusTask =>
      Some (if 0 <? taskCursor m then set_taskCursor (taskCursor m - 1) m
            else m, None)
  | _ =>
      (* no left/right in provider/models lists; fall through to prompt *)
      cur ← moveLeft (input m) (cursor m);
      Some (set_cursor cur m, None)
  end.

Definition setupRight (m : model) : option (model * Cmd) :=
  match focus m with
  | focusBranch =>
      Some (if branchCursor m <? Str.len (branch m)
            then set_branchCursor (branchCursor m + 1) m else m, None)
  | focusTask =>
      Some (if taskCursor m <? Str.len (task m)
            then set_taskCursor (taskCursor m + 1) m else m, None)
  | _ =>
      cur ← moveRight (input m) (cursor m);
      Some (set_cursor cur m, None)
  end.

(** A history entry loaded into a text: its lines, the cursor at the end. *)
Definition loadEntry (entry : string) : option (list string * cursorPos) :=
  let rows := Str.Split entry Str.newline in
  cur ← cursorAtEnd rows;
  Some (rows, cur).

Definition setupUp (m : model) : option (model * Cmd) :=
  match focus m with
  | focusPrompt =>
      (* History navigation: on first Up, save draft and load most recent *)
      if decide (0 < lenZ (history m)) then
        if historyIndex m =? -1 then
          let m := set_historyIndex 0 (set_draftInput (Some (input m)) m) in
          entry ← nthZ (history m) (historyIndex m);
          '(rows, cur) ← loadEntry entry;
          Some (set_cursor cur (set_input rows m), None)
        else if historyIndex m <? lenZ (history m) - 1 then
          let m := set_historyIndex (historyIndex m + 1) m in
          entry ← nthZ (history m) (historyIndex m);
          '(rows, cur) ← loadEntry entry;
          Some (set_cursor cur (set_input rows m), None)
        else Some (m, None)
      else if 0 <? row (cursor m) then
        cur ← clampTo (input m) (row (cursor m) - 1) (col (cursor m));
        Some (set_cursor cur m, None)
      else Some (m, None)
  | focusProvider =>
      if negb (providerOpen m) then
        Some (set_providerHover (providerIndex m) (set_providerOpen true m), None)
      else if 0 <? providerHover m then
        Some (set_providerHover (providerHover m - 1) m, None)
      else Some (m, None)
  | focusModels =>
      if negb (modelsOpen m) then
        Some (set_modelsHover 0 (set_modelsOpen true m), None)
      else if 0 <? modelsHover m then
        Some (set_modelsHover (modelsHover m - 1) m, None)
      else Some (m, None)
  | _ => Some (m, None)
  end.

Definition setupDown (m : model) : option (model * Cmd) :=
  match focus m with
  | focusPrompt =>
      (* If navigating history, move younger; when exiting, restore draft *)
      if negb (historyIndex m =? -1) then
        if 0 <? historyIndex m then
          let m := set_historyIndex (historyIndex m - 1) m in
          entry ← nthZ (history m) (historyIndex m);
          '(rows, cur) ← loadEntry entry;
          Some (set_cursor cur (set_input rows m), None)
        else
          let m := set_historyIndex (-1) m in
          let rows := match draftInput m with
                      | Some d => d
                      | None => [EmptyString]
                      end in
          cur ← cursorAtEnd rows;
          Some (set_cursor cur (set_input rows m), None)
      else if row (cursor m) <? lenZ (input m) - 1 then
        cur ← clampTo (input m) (row (cursor m) + 1) (col (cursor m));
        Some (set_cursor cur m, None)
      else Some (m, None)
  | focusProvider =>
      if negb (providerOpen m) then
        Some (set_providerHover (providerIndex m) (set_providerOpen true m), None)
      else if providerHover m <? lenZ (providers m) - 1 then
        Some (set_providerHover (providerHover m + 1) m, None)
      else Some (m, None)
  | focusModels =>
      opts ← providerModels m;
      if negb (modelsOpen m) then
        Some (set_modelsHover 0 (set_modelsOpen true m), None)
      else if (0 <? lenZ opts) && (modelsHover m <? lenZ opts - 1) then
        Some (set_modelsHover (modelsHover m + 1) m, None)
      else Some (m, None)
  | _ => Some (m, None)
  end.

(** Any other key: its runes are typed into the focused text field. *)
Definition setupRunes (m : model) (runes : list Z) : option (model * Cmd) :=
  if decide (0 < lenZ runes) then
    (* Any other key cancels a pending ESC *)
    let m := if pendingEsc m then set_pendingEsc false m else m in
    let r := Str.encodeRunes runes in
    match focus m with
    | focusBranch =>
        s ← spliceAt (branch m) (branchCursor m) r;
        Some (set_branchCursor (branchCursor m + Str.len r) (set_branch s m), None)
    | focusTask =>
        s ← spliceAt (task m) (taskCursor m) r;
        Some (set_taskCursor (taskCursor m + Str.len r) (set_task s m), None)
    | focusProvider | focusModels =>
        (* ignore text input for dropdowns *)
        Some (m, None)
    | focusPrompt =>
        '(rows, cur) ← insertText (input m) (cursor m) r;
        Some (set_cursor cur (set_input rows m), None)
    end
  else Some (m, None).

(** The branch of [Update] for a key on the Setup screen. *)
Definition updateSetup (m : model) (msg : KeyMsg) : option (model * Cmd) :=
  match wordMotion m msg with
  | Some r => setupWordMotion m r
  | None =>
      match KType msg with
      | KeyCtrlC => Some (m, Some (cleanupCmd m))
      | KeyEsc =>
          (* Start ESC timer to detect meta sequences *)
          Some (set_pendingEsc true m, Tick escDelay escTimeoutMsg)
      | KeyCtrlA | KeyHome => setupHome m
      | KeyCtrlE | KeyEnd => setupEnd m
      | KeyTab | KeyShiftTab => setupTab m
      | KeyEnter => setupEnter m
      | KeySpace => setupSpace m
      | KeyBackspace => setupBackspace m (Alt msg)
      | KeyCtrlU => setupCtrlU m
      | KeyLeft => setupLeft m
      | KeyRight => setupRight m
      | KeyUp => setupUp m
      | KeyDown => setupDown m
      | KeyRunes | KeyOther => setupRunes m (Runes msg)
      end
  end.


(** ** The Iteration screen *)

Definition closeAutocomplete (m : model) : model :=
  set_autocompleteOptions [] (set_autocompleteActive false m).

(** After an edit of the command line: the completion list follows the
    token under the cursor. *)
Definition refreshAutocomplete (m : model) : option model :=
  line ← nthZ (iterationInput m) (row (iterationCursor m));
  '(prefix, _) ← getAutocompletePrefix line (col (iterationCursor m));
  match prefix with
  | String c _ =>
      if isSlashOrAt c then
        opts ← getAutocompleteOptions m prefix;
        let m := set_autocompleteOptions opts m in
        match opts with
        | [] => Some (set_autocompleteActive false m)
        | [o] =>
            if decide (o = prefix) then Some (closeAutocomplete m)
            else Some (set_autocompleteIndex 0 (set_autocompleteActive true m))
        | _ => Some (set_autocompleteIndex 0 (set_autocompleteActive true m))
        end
      else Some (closeAutocomplete m)
  | EmptyString => Some (closeAutocomplete m)
  end.

Definition autocompleting (m : model) : bool :=
  autocompleteActive m && (0 <? lenZ (autocompleteOptions m)).

Definition iterationTab (m : model) : option (model * Cmd) :=
  if autocompleting m then
    Some (set_autocompleteIndex
            (Z.rem (autocompleteIndex m + 1) (lenZ (autocompleteOptions m))) m,
          None)
  else
    line ← nthZ (iterationInput m) (row (iterationCursor m));
    '(prefix, _) ← getAutocompletePrefix line (col (iterationCursor m));
    if decide (prefix = EmptyString) then Some (m, None)
    else
      opts ← getAutocompleteOptions m prefix;
      let m := set_autocompleteOptions opts m in
      if decide (0 < lenZ opts)
      then Some (set_autocompleteIndex 0 (set_autocompleteActive true m), None)
      else Some (m, None).

(** Enter while a completion list is shown: the hovered candidate replaces
    the token under the cursor. *)
Definition acceptCompletion (m : model) : option (model * Cmd) :=
  line ← nthZ (iterationInput m) (row (iterationCursor m));
  '(prefix, start) ← getAutocompletePrefix line (col (iterationCursor m));
  m1 ← (if decide (prefix = EmptyString) then Some m
        else
          completion ← nthZ (autocompleteOptions m) (autocompleteIndex m);
          a ← Str.upto line start;
          b ← Str.from line (col (iterationCursor m));
          rows ← setRow (iterationInput m) (row (iterationCursor m))
                   (a +:+ completion +:+ b);
          Some (set_iterationCursor
                  (Cursor (row (iterationCursor m)) (start + Str.len completion))
                  (set_iterationInput rows m)));
  Some (closeAutocomplete m1, None).

(** Enter on a command line: [/bail], [/next <label>], [/wrap <label>],
    [@<label> <text>], or else a newline. *)
Definition submitCommand (m : model) : option (model * Cmd) :=
  let currentLine := Str.TrimSpace (Str.Join (iterationInput m) nl) in
  if decide (currentLine = "/bail") then
    let m := set_progressMsg "Cleaning up panes, worktrees, and branches..."
               (set_screen screenProgress m) in
    Some (m, Some (bailCmd m))
  else
    let next :=
      if Str.HasPrefix currentLine "/next " then
        let modelName := Str.TrimSpace (Str.TrimPrefix currentLine "/next ") in
        if decide (modelName = EmptyString) then None
        else
          let m := set_progressMsg
                     ("Merging and pushing changes from " +:+ modelName +:+ "...")
                     (set_screen screenProgress m) in
          Some (m, Some (nextCmd m modelName))
      else None in
    match next with
    | Some res => Some res
    | None =>
    let wrap :=
      if Str.HasPrefix currentLine "/wrap " then
        let modelName := Str.TrimSpace (Str.TrimPrefix currentLine "/wrap ") in
        if decide (modelName = EmptyString) then None
        else
          let m := set_progressMsg
                     ("Merging and pushing changes from " +:+ modelName +:+ "...")
                     (set_screen screenProgress m) in
          Some (m, Some (wrapCmd m modelName))
      else None in
    match wrap with
    | Some res => Some res
    | None =>
    let followUp :=
      if Str.HasPrefix currentLine "@" then
        match Str.SplitN2 currentLine Str.space with
        | [part0; part1] =>
            let modelName := Str.TrimPrefix part0 "@" in
            let prompt := part1 in
            match modelToPaneID m !! modelName with
            | Some paneID =>
                let m := set_modelPrompts
                           (<[modelName :=
                                default [] (modelPrompts m !! modelName) ++ [prompt]]>
                              (modelPrompts m)) m in
                (* Push to per-repo history *)
                let m := set_history (pushHistorySlice (history m) prompt) m in
                let m := set_iterationCursor (Cursor 0 0)
                           (set_iterationInput [EmptyString] m) in
                Some (m, Some (sendToModelPaneCmd paneID modelName prompt m))
            | None => None
            end
        | _ => None
        end
      else None in
    match followUp with
    | Some res => Some res
    | None =>
        '(rows, cur) ← insertNewline (iterationInput m) (iterationCursor m);
        Some (set_iterationCursor cur (set_iterationInput rows m), None)
    end end end.

Definition iterationEnter (m : model) : option (model * Cmd) :=
  if autocompleting m then acceptCompletion m else submitCommand m.

Definition iterationBackspace (m : model) (alt : bool) : option (model * Cmd) :=
  if alt then
    (* OPTION+delete: delete word backward *)
    let m := closeAutocomplete m in
    line ← nthZ (iterationInput m) (row (iterationCursor m));
    '(s, c) ← deleteWordBackward line (col (iterationCursor m));
    rows ← setRow (iterationInput m) (row (iterationCursor m)) s;
    Some (set_iterationCursor (Cursor (row (iterationCursor m)) c)
            (set_iterationInput rows m), None)
  else if 0 <? col (iterationCursor m) then
    '(rows, cur) ← backspace (iterationInput m) (iterationCursor m);
    m1 ← refreshAutocomplete (set_iterationCursor cur (set_iterationInput rows m));
    Some (m1, None)
  else if 0 <? row (iterationCursor m) then
    let m := closeAutocomplete m in
    '(rows, cur) ← backspace (iterationInput m) (iterationCursor m);
    Some (set_iterationCursor cur (set_iterationInput rows m), None)
  else Some (m, None).

(** History navigation of the iteration prompt. *)
Definition iterationUp (m : model) : option (model * Cmd) :=
  if autocompleting m then
    let i := autocompleteIndex m - 1 in
    Some (set_autocompleteIndex
            (if i <? 0 then lenZ (autocompleteOptions m) - 1 else i) m, None)
  else if decide (0 < lenZ (history m)) then
    if iterationHistoryIndex m =? -1 then
      let m := set_iterationHistoryIndex 0
                 (set_draftIterationInput (Some (iterationInput m)) m) in
      entry ← nthZ (history m) (iterationHistoryIndex m);
      '(rows, cur) ← loadEntry entry;
      Some (set_iterationCursor cur (set_iterationInput rows m), None)
    else if iterationHistoryIndex m <? lenZ (history m) - 1 then
      let m := set_iterationHistoryIndex (iterationHistoryIndex m + 1) m in
      entry ← nthZ (history m) (iterationHistoryIndex m);
      '(rows, cur) ← loadEntry entry;
      Some (set_iterationCursor cur (set_iterationInput rows m), None)
    else if 0 <? row (iterationCursor m) then
      cur ← clampTo (iterationInput m) (row (iterationCursor m) - 1)
              (col (iterationCursor m));
      Some (set_iterationCursor cur m, None)
    else Some (m, None)
  else if 0 <? row (iterationCursor m) then
    cur ← clampTo (iterationInput m) (row (iterationCursor m) - 1)
            (col (iterationCursor m));
    Some (set_iterationCursor cur m, None)
  else Some (m, None).

Definition iterationDown (m : model) : option (model * Cmd) :=
  if autocompleting m then
    Some (set_autocompleteIndex
            (Z.rem (autocompleteIndex m + 1) (lenZ (autocompleteOptions m))) m,
          None)
  else if negb (iterationHistoryIndex m =? -1) then
    if 0 <? iterationHistoryIndex m then
      let m := set_iterationHistoryIndex (iterationHistoryIndex m - 1) m in
      entry ← nthZ (history m) (iterationHistoryIndex m);
      '(rows, cur) ← loadEntry entry;
      Some (set_iterationCursor cur (set_iterationInput rows m), None)
    else
      let m := set_iterationHistoryIndex (-1) m in
      let rows := match draftIterationInput m with
                  | Some d => d
                  | None => [EmptyString]
                  end in
      cur ← cursorAtEnd rows;
      Some (set_iterationCursor cur (set_iterationInput rows m), None)
  else if row (iterationCursor m) <? lenZ (iterationInput m) - 1 then
    cur ← clampTo (iterationInput m) (row (iterationCursor m) + 1)
            (col (iterationCursor m));
    Some (set_iterationCursor cur m, None)
  else Some (m, None).

Definition iterationWordMotion (m : model) (r : Z) : option (model * Cmd) :=
  let m := closeAutocomplete (set_pendingEsc false m) in
  '(r1, c1) ←
    (if r =? 98
     then moveWordLeftLines (iterationInput m) (row (iterationCursor m))
            (col (iterationCursor m))
     else moveWordRightLines (iterationInput m) (row (iterationCursor m))
            (col (iterationCursor m)));
  Some (set_iterationCursor (Cursor r1 c1) m, None).

Definition iterationRunes (m : model) (runes : list Z) : option (model * Cmd) :=
  if decide (0 < lenZ runes) then
    let r := Str.encodeRunes runes in
    '(rows, cur) ← insertText (iterationInput m) (iterationCursor m) r;
    let m := set_iterationCursor cur (set_iterationInput rows m) in
    if decide (r = "/" ∨ r = "@") then
      opts ← getAutocompleteOptions m r;
      let m := set_autocompleteOptions opts m in
      if decide (0 < lenZ opts)
      then Some (set_autocompleteIndex 0 (set_autocompleteActive true m), None)
      else Some (m, None)
    else
      m1 ← refreshAutocomplete m; Some (m1, None)
  else Some (m, None).

(** [updateIteration] *)
Definition updateIteration (m : model) (msg : KeyMsg) : option (model * Cmd) :=
  match KType msg with
  | KeyCtrlC => Some (m, Some (cleanupCmd m))
  | KeyEsc => Some (set_pendingEsc true m, Tick escDelay escTimeoutMsg)
  | KeyCtrlA | KeyHome =>
      let m := closeAutocomplete m in
      '(r1, c1) ← lineLeft (iterationInput m) (row (iterationCursor m))
                    (col (iterationCursor m));
      Some (set_iterationCursor (Cursor r1 c1) m, None)
  | KeyCtrlE | KeyEnd =>
      let m := closeAutocomplete m in
      '(r1, c1) ← lineRight (iterationInput m) (row (iterationCursor m))
                    (col (iterationCursor m));
      Some (set_iterationCursor (Cursor r1 c1) m, None)
  | KeyTab => iterationTab m
  | KeyEnter => iterationEnter m
  | KeyBackspace => iterationBackspace m (Alt msg)
  | KeyCtrlU =>
      (* CMD+delete: delete line backward *)
      let m := closeAutocomplete m in
      line ← nthZ (iterationInput m) (row (iterationCursor m));
      '(s, c) ← deleteLineBackward line (col (iterationCursor m));
      rows ← setRow (iterationInput m) (row (iterationCursor m)) s;
      Some (set_iterationCursor (Cursor (row (iterationCursor m)) c)
              (set_iterationInput rows m), None)
  | KeyLeft =>
      let m := closeAutocomplete m in
      cur ← moveLeft (iterationInput m) (iterationCursor m);
      Some (set_iterationCursor cur m, None)
  | KeyRight =>
      let m := closeAutocomplete m in
      cur ← moveRight (iterationInput m) (iterationCursor m);
      Some (set_iterationCursor cur m, None)
  | KeyUp => iterationUp m
  | KeyDown => iterationDown m
  | KeySpace =>
      let m := closeAutocomplete m in
      '(rows, cur) ← insertText (iterationInput m) (iterationCursor m) " ";
      Some (set_iterationCursor cur (set_iterationInput rows m), None)
  | KeyShiftTab | KeyRunes | KeyOther =>
      match wordMotion m msg with
      | Some r => iterationWordMotion m r
      | None => iterationRunes m (Runes msg)
      end
  end.


(** ** The NewTask screen *)

Definition onTaskName (m : model) : bool := bool_decide (newTaskFocus m = focusTask).

Definition newTaskWordMotion (m : model) (r : Z) : option (model * Cmd) :=
  let m := set_pendingEsc false m in
  match newTaskFocus m with
  | focusTask =>
      c ← (if r =? 98 then wordLeft (newTaskName m) (newTaskNameCursor m)
           else wordRight (newTaskName m) (newTaskNameCursor m));
      Some (set_newTaskNameCursor c m, None)
  | focusPrompt =>
      '(r1, c1) ←
        (if r =? 98
         then moveWordLeftLines (newTaskPrompt m) (row (newTaskCursor m))
                (col (newTaskCursor m))
         else moveWordRightLines (newTaskPrompt m) (row (newTaskCursor m))
                (col (newTaskCursor m)));
      Some (set_newTaskCursor (Cursor r1 c1) m, None)
  | _ => Some (m, None)
  end.

(** Enter on the new-task prompt launches the selected models again. *)
Definition newTaskEnter (m : model) : option (model * Cmd) :=
  if onTaskName m then Some (set_newTaskFocus focusPrompt m, None)
  else
    let currentPrompt := Str.TrimSpace (Str.Join (newTaskPrompt m) nl) in
    launch ←
      (if decide (currentPrompt = EmptyString) then Some None
       else
         models ← selectedModels m;
         if decide (0 < lenZ models) then
           let m := set_input (newTaskPrompt m) (set_task (newTaskName m) m) in
           let m := set_newTaskNameCursor 0 (set_newTaskName EmptyString m) in
           let m := set_newTaskCursor (Cursor 0 0)
                      (set_newTaskPrompt [EmptyString] m) in
           Some (Some (m, Some (openPanesCmd models m)))
         else Some None);
    match launch with
    | Some res => Some res
    | None =>
        '(rows, cur) ← insertNewline (newTaskPrompt m) (newTaskCursor m);
        Some (set_newTaskCursor cur (set_newTaskPrompt rows m), None)
    end.

(** [updateNewTask] *)
Definition updateNewTask (m : model) (msg : KeyMsg) : option (model * Cmd) :=
  match KType msg with
  | KeyCtrlC => Some (m, Some (cleanupCmd m))
  | KeyEsc => Some (set_pendingEsc true m, Tick escDelay escTimeoutMsg)
  | KeyCtrlA | KeyHome =>
      if onTaskName m then Some (set_newTaskNameCursor 0 m, None)
      else
        '(r1, c1) ← lineLeft (newTaskPrompt m) (row (newTaskCursor m))
                      (col (newTaskCursor m));
        Some (set_newTaskCursor (Cursor r1 c1) m, None)
  | KeyCtrlE | KeyEnd =>
      if onTaskName m
      then Some (set_newTaskNameCursor (Str.len (newTaskName m)) m, None)
      else
        '(r1, c1) ← lineRight (newTaskPrompt m) (row (newTaskCursor m))
                      (col (newTaskCursor m));
        Some (set_newTaskCursor (Cursor r1 c1) m, None)
  | KeyTab =>
      Some (set_newTaskFocus (if onTaskName m then focusPrompt else focusTask) m,
            None)
  | KeyEnter => newTaskEnter m
  | KeyBackspace =>
      if Alt msg then
        if onTaskName m then
          '(s, c) ← deleteWordBackward (newTaskName m) (newTaskNameCursor m);
          Some (set_newTaskNameCursor c (set_newTaskName s m), None)
        else
          line ← nthZ (newTaskPrompt m) (row (newTaskCursor m));
          '(s, c) ← deleteWordBackward line (col (newTaskCursor m));
          rows ← setRow (newTaskPrompt m) (row (newTaskCursor m)) s;
          Some (set_newTaskCursor (Cursor (row (newTaskCursor m)) c)
                  (set_newTaskPrompt rows m), None)
      else if onTaskName m then
        '(s, c) ← backspaceField (newTaskName m) (newTaskNameCursor m);
        Some (set_newTaskNameCursor c (set_newTaskName s m), None)
      else
        '(rows, cur) ← backspace (newTaskPrompt m) (newTaskCursor m);
        Some (set_newTaskCursor cur (set_newTaskPrompt rows m), None)
  | KeyCtrlU =>
      if onTaskName m then
        '(s, c) ← deleteLineBackward (newTaskName m) (newTaskNameCursor m);
        Some (set_newTaskNameCursor c (set_newTaskName s m), None)
      else
        line ← nthZ (newTaskPrompt m) (row (newTaskCursor m));
        '(s, c) ← deleteLineBackward line (col (newTaskCursor m));
        rows ← setRow (newTaskPrompt m) (row (newTaskCursor m)) s;
        Some (set_newTaskCursor (Cursor (row (newTaskCursor m)) c)
                (set_newTaskPrompt rows m), None)
  | KeyLeft =>
      if onTaskName m then
        Some (if 0 <? newTaskNameCursor m
              then set_newTaskNameCursor (newTaskNameCursor m - 1) m else m, None)
      else
        cur ← moveLeft (newTaskPrompt m) (newTaskCursor m);
        Some (set_newTaskCursor cur m, None)
  | KeyRight =>
      if onTaskName m then
        Some (if newTaskNameCursor m <? Str.len (newTaskName m)
              then set_newTaskNameCursor (newTaskNameCursor m + 1) m else m, None)
      else
        cur ← moveRight (newTaskPrompt m) (newTaskCursor m);
        Some (set_newTaskCursor cur m, None)
  | KeyUp =>
      if bool_decide (newTaskFocus m = focusPrompt) && (0 <? row (newTaskCursor m))
      then
        cur ← clampTo (newTaskPrompt m) (row (newTaskCursor m) - 1)
                (col (newTaskCursor m));
        Some (set_newTaskCursor cur m, None)
      else Some (m, None)
  | KeyDown =>
      if bool_decide (newTaskFocus m = focusPrompt)
         && (row (newTaskCursor m) <? lenZ (newTaskPrompt m) - 1)
      then
        cur ← clampTo (newTaskPrompt m) (row (newTaskCursor m) + 1)
                (col (newTaskCursor m));
        Some (set_newTaskCursor cur m, None)
      else Some (m, None)
  | KeySpace =>
      if onTaskName m then
        s ← spliceAt (newTaskName m) (newTaskNameCursor m) " ";
        Some (set_newTaskNameCursor (newTaskNameCursor m + 1)
                (set_newTaskName s m), None)
      else
        '(rows, cur) ← insertText (newTaskPrompt m) (newTaskCursor m) " ";
        Some (set_newTaskCursor cur (set_newTaskPrompt rows m), None)
  | KeyShiftTab | KeyRunes | KeyOther =>
      match wordMotion m msg with
      | Some r => newTaskWordMotion m r
      | None =>
          if decide (0 < lenZ (Runes msg)) then
            let r := Str.encodeRunes (Runes msg) in
            if onTaskName m then
              s ← spliceAt (newTaskName m) (newTaskNameCursor m) r;
              Some (set_newTaskNameCursor (newTaskNameCursor m + Str.len r)
                      (set_newTaskName s m), None)
            else
              '(rows, cur) ← insertText (newTaskPrompt m) (newTaskCursor m) r;
              Some (set_newTaskCursor cur (set_newTaskPrompt rows m), None)
          else Some (m, None)
      end
  end.

(** ** [Update] *)

(** The loop of the [panesOpenedMsg] case: every provisioned label is
    registered with its pane, its worktree and a prompt log that holds the
    initial prompt. *)
Fixpoint registerInstances (m : model) (msg : PanesOpened.t)
    (initialPrompt : string) (i : Z) (labels : list string) : option model :=
  match labels with
  | [] => Some m
  | instanceLabel :: rest =>
      paneID ← nthZ (PanesOpened.paneIDs msg) i;
      let m := set_modelToPaneID (<[instanceLabel := paneID]> (modelToPaneID m)) m in
      worktree ← nthZ (PanesOpened.worktrees msg) i;
      let m := set_modelToWorktree
                 (<[instanceLabel := worktree]> (modelToWorktree m)) m in
      let m := set_modelPrompts
                 (<[instanceLabel := [initialPrompt]]> (modelPrompts m)) m in
      let m := match nthZ (PanesOpened.providers msg) i with
               | Some p =>
                   set_instanceProvider
                     (<[instanceLabel := p]> (instanceProvider m)) m
               | None => m
               end in
      let m := match nthZ (PanesOpened.baseModels msg) i with
               | Some b =>
                   set_instanceBaseModel
                     (<[instanceLabel := b]> (instanceBaseModel m)) m
               | None => m
               end in
      registerInstances m msg initialPrompt (i + 1) rest
  end.

Definition panesOpened (m : model) (msg : PanesOpened.t) : option (model * Cmd) :=
  if bool_decide (PanesOpened.err msg = None) && (0 <? PanesOpened.count msg)
  then
    let m := set_screen screenIteration m in
    let m := set_createdPanes (createdPanes m ++ PanesOpened.paneIDs msg) m in
    let m := set_createdWorktrees
               (createdWorktrees m ++ PanesOpened.worktrees msg) m in
    let initialPrompt := Str.TrimSpace (Str.Join (input m) nl) in
    (* Push to history *)
    let m := set_history (pushHistorySlice (history m) initialPrompt) m in
    m1 ← registerInstances m msg initialPrompt 0 (PanesOpened.modelNames msg);
    Some (m1, None)
  else Some (m, None).

(** [Update].  The call [saveHistoryForRepo(m.history)] that follows each
    push to the history writes the list to a file and its result is
    discarded; it changes nothing in the state and is left out. *)
Definition Update (m : model) (msg : Msg) : option (model * Cmd) :=
  match msg with
  | cursorBlinkMsg =>
      Some (set_cursorVisible (negb (cursorVisible m)) m, Tick 500 cursorBlinkMsg)
  | spinnerTickMsg =>
      let m := if 0 <? lenZ (spinnerFrames m)
               then set_spinnerIndex
                      (Z.rem (spinnerIndex m + 1) (lenZ (spinnerFrames m))) m
               else m in
      Some (m, Tick 100 spinnerTickMsg)
  | bailCompleteMsg => Some (m, Quit)
  | nextCompleteMsg =>
      (* Clear iteration prompt and related state so it's empty next view *)
      let m := set_iterationInput [EmptyString] m in
      let m := set_iterationCursor (Cursor 0 0) m in
      let m := set_iterationHistoryIndex (-1) m in
      let m := set_draftIterationInput None m in
      let m := closeAutocomplete m in
      let m := set_screen screenNewTask m in
      let m := set_newTaskFocus focusTask m in
      Some (m, None)
  | wrapCompleteMsg => Some (m, Quit)
  | cleanupCompleteMsg => Some (m, Quit)
  | panesOpenedMsg msg => panesOpened m msg
  | WindowSizeMsg w h => Some (set_height h (set_width w m), None)
  | escTimeoutMsg =>
      if pendingEsc m then
        let m := set_pendingEsc false m in
        Some (m, Some (cleanupCmd m))
      else Some (m, None)
  | keyMsg msg =>
      (* If we're in iteration or new-task screens, delegate *)
      if decide (screen m = screenIteration) then updateIteration m msg
      else if decide (screen m = screenNewTask) then updateNewTask m msg
      else updateSetup m msg
  | QuitMsg => Some (m, None)
  end.


(** ** Trimming, as the specification words it *)

(** The white space of Unicode: the code points with the property
    White_Space, which are those that [unicode.IsSpace] accepts. *)
Definition whiteSpaceRunes : list Z :=
  [9; 10; 11; 12; 13; 32; 133; 160; 5760;
   8192; 8193; 8194; 8195; 8196; 8197; 8198; 8199; 8200; 8201; 8202;
   8232; 8233; 8239; 8287; 12288].

(** A string of white space: the UTF-8 encoding of white-space runes. *)
Definition whiteSpace (s : string) : Prop :=
  exists rs, Forall (fun r => r ∈ whiteSpaceRunes) rs ∧ s = Str.encodeRunes rs.

(** The string starts, or ends, with the encoding of a white-space rune. *)
Definition startsWithSpace (t : string) : Prop :=
  exists r rest, r ∈ whiteSpaceRunes ∧ t = Str.encodeRune r +:+ rest.

Definition endsWithSpace (t : string) : Prop :=
  exists r front, r ∈ whiteSpaceRunes ∧ t = front +:+ Str.encodeRune r.

(** [t] is [e] without the white space at its two ends. *)
Definition trimmedOf (e t : string) : Prop :=
  exists l r, e = l +:+ t +:+ r ∧ whiteSpace l ∧ whiteSpace r
    ∧ ¬ startsWithSpace t ∧ ¬ endsWithSpace t.

(** ** The history store, as the specification words it *)

(** [push(entry)]: trims whitespace; no-op if empty or identical to the
    current most-recent entry; otherwise prepends and truncates to 20. *)
Definition push_spec (h : list string) (entry : string) : list string :=
  let trimmed := Str.TrimSpace entry in
  if decide (trimmed = EmptyString ∨ head h = Some trimmed) then h
  else take 20 (trimmed :: h).

(** A push without the bound on the length, on an entry already trimmed. *)
Definition push_unbounded (h : list string) (t : string) : list string :=
  match h with
  | h0 :: _ => if decide (h0 = t) then h else t :: h
  | [] => t :: h
  end.

(** ** Sequences of messages *)

(** The messages are handled one after the other, each by [Update]; the
    commands returned on the way are not run. *)
Fixpoint updateAll (m : model) (msgs : list Msg) : option model :=
  match msgs with
  | [] => Some m
  | msg :: rest => '(m1, _) ← Update m msg; updateAll m1 rest
  end.

(** The two operations of the models dropdown on a selection count. *)
Inductive countOp := Increment | Decrement.

(** Space, and Backspace without Alt. *)
Definition countKey (op : countOp) : Msg :=
  match op with
  | Increment => keyMsg (Key KeySpace [32] false)
  | Decrement => keyMsg (Key KeyBackspace [] false)
  end.

(** The models dropdown is focused and open on the Setup screen, and the
    provider index is in range. *)
Definition inModelsDropdown (m : model) : Prop :=
  screen m = screenSetup ∧ focus m = focusModels ∧ modelsOpen m = true
  ∧ is_Some (currentProvider m).

(** What a step in the dropdown keeps: the screen, the focus, the open
    dropdown and the current provider. *)
Definition sameDropdown (m m' : model) : Prop :=
  screen m' = screen m ∧ focus m' = focus m ∧ modelsOpen m' = modelsOpen m
  ∧ currentProvider m' = currentProvider m.

(** ** The line buffer *)

(** The cursor is on a row of the text and inside it:
    [0 <= row < len(rows)] and [0 <= col <= len(rows[row])]. *)
Definition validBuffer (rows : list string) (cur : cursorPos) : Prop :=
  exists line, nthZ rows (row cur) = Some line ∧ 0 <= col cur <= Str.len line.

(** A key that types the rune [r], and Backspace. *)
Definition runeKey (r : Z) : Msg := keyMsg (Key KeyRunes [r] false).
Definition backspaceKey : Msg := keyMsg (Key KeyBackspace [] false).

(** The prompt of the Setup screen has the focus and no ESC is pending. *)
Definition editingPrompt (m : model) : Prop :=
  screen m = screenSetup ∧ focus m = focusPrompt ∧ pendingEsc m = false.

(** The rows after the text [t] was typed between [a] and [b] on row [r]. *)
Definition typedRows (rows : list string) (r : Z) (a t b : string) : list string :=
  <[Z.to_nat r := (a +:+ t) +:+ b]> rows.

Definition typedCursor (r : Z) (a t : string) : cursorPos :=
  Cursor r (Str.len (a +:+ t)).

(** The state after [t] was typed into the prompt. *)
Definition typedModel (m : model) (r : Z) (a t b : string) : model :=
  set_cursor (typedCursor r a t) (set_input (typedRows (input m) r a t b) m).

(** A range over a map visits every key of the map once. *)
Hypothesis rangeKeys_keys : forall mp : gmap string string,
  NoDup (rangeKeys mp) ∧ forall k, k ∈ rangeKeys mp <-> is_Some (mp !! k).

(** Enter, with whatever runes and modifier the terminal reports. *)
Definition enterKey (runes : list Z) (alt : bool) : Msg :=
  keyMsg (Key KeyEnter runes alt).

(** The text of the iteration command line as it is submitted. *)
Definition currentLine (m : model) : string :=
  Str.TrimSpace (Str.Join (iterationInput m) nl).

(** ** Traces of commands *)

(** A call occurs in a trace, with some answer, with success, with an error. *)
Definition called (c : extcall) (tr : list (extcall * result)) : Prop :=
  exists r, (c, r) ∈ tr.
Definition succeeded (c : extcall) (tr : list (extcall * result)) : Prop :=
  exists out, (c, ROk out) ∈ tr.
Definition failed (c : extcall) (tr : list (extcall * result)) : Prop :=
  exists e, (c, RErr e) ∈ tr.

(** The calls of [nextCmd] and [wrapCmd] that check out the feature branch
    and merge the worktree branch of the chosen instance. *)
Definition checkoutCall (m : model) : extcall :=
  ExecRun ["git"; "checkout"; Str.TrimSpace (branch m)].
Definition mergeCall (worktree modelName : string) : extcall :=
  ExecRun ["git"; "merge"; "--no-ff"; worktree; "-m";
           "Merge changes from " +:+ modelName].
Definition pushCall (m : model) : extcall :=
  ExecRun ["git"; "push"; "origin"; Str.TrimSpace (branch m)].

(** The calls of Cleanup. *)
Definition killPaneCall (paneID : string) : extcall :=
  TmuxRunCmd ["kill-pane"; "-t"; paneID].
Definition removeWorktreeCall (parentDir worktree : string) : extcall :=
  ExecRun ["git"; "worktree"; "remove"; filepath_Join parentDir worktree; "--force"].
Definition deleteBranchCall (worktree : string) : extcall :=
  ExecRun ["git"; "branch"; "-D"; worktree].

(** Cleanup of all instances was carried out: every created pane was
    killed, every created worktree removed and its branch deleted. *)
Definition cleanedUp (m : model) (tr : list (extcall * result)) : Prop :=
  (forall paneID, paneID ∈ createdPanes m -> called (killPaneCall paneID) tr)
  ∧ (forall worktree, worktree ∈ createdWorktrees m ->
       (exists parentDir, called (removeWorktreeCall parentDir worktree) tr)
       ∧ called (deleteBranchCall worktree) tr).

(** A call that kills a pane, removes a worktree or deletes a branch. *)
Definition isCleanupCall (c : extcall) : bool :=
  match c with
  | TmuxRunCmd (verb :: _) => bool_decide (verb = "kill-pane")
  | ExecRun (_ :: verb :: _) =>
      bool_decide (verb = "worktree") || bool_decide (verb = "branch")
  | _ => false
  end.

(** A call that runs git. *)
Definition isGitCall (c : extcall) : bool :=
  match c with
  | ExecRun _ => true
  | _ => false
  end.

(** No pane was killed, no worktree removed, no branch deleted. *)
Definition nothingCleaned (tr : list (extcall * result)) : Prop :=
  Forall (fun e => isCleanupCall e.1 = false) tr.

(** No git command ran: no commit, no merge, no push. *)
Definition noGit (tr : list (extcall * result)) : Prop :=
  Forall (fun e => isGitCall e.1 = false) tr.

(** ** Launch, as the specification words it *)




(** ** The initial state *)

(** [kaleidoscopeDefaults], the content of the [.kaleidoscope] file. *)
Record kaleidoscopeDefaults := Defaults {
  Provider : string;
  Models : gmap string (list string);
  Choices : gmap string (gmap string Z)
}.

(** [sel[provider][model]++] for every model of the saved list. *)
Fixpoint countDefaults (sel : gmap string (gmap string Z)) (provider : string)
    (saved : list string) : gmap string (gmap string Z) :=
  match saved with
  | [] => sel
  | model :: rest =>
      let inner := default ∅ (sel !! provider) in
      countDefaults
        (<[provider := <[model := intAdd (default 0 (inner !! model)) 1]> inner]> sel)
        provider rest
  end.

(** The first index at which [provider] stands in [names], or 0. *)
Fixpoint indexOf (provider : string) (names : list string) (i : Z) : Z :=
  match names with
  | [] => 0
  | name :: rest => if decide (name = provider) then i else indexOf provider rest (i + 1)
  end.

Definition standardBranches : list string :=
  ["main"; "master"; "dev"; "develop"; "development"].

(** [initialModel]; what it reads from outside is handed to it: the result
    of [loadDefaults] ([None] when there is no usable file), the output of
    [git rev-parse --abbrev-ref HEAD] ([None] when it fails) and the result
    of [loadHistoryForRepo]. *)
Definition initialModel (runCmd : string) (setDefault : bool)
    (defaults : option kaleidoscopeDefaults) (head : option string)
    (loaded : option (list string)) : model :=
  let mods : gmap string (list string) :=
    {[ "github-copilot" :=
         ["claude-sonnet-4.5"; "claude-haiku-4.5"; "gpt-5-mini"; "gpt-5";
          "gemini-2.0-flash-001"; "claude-opus-4"; "grok-code-fast-1";
          "claude-3.5-sonnet"; "o3-mini"; "gpt-5-codex"; "gpt-4o"; "gpt-4.1";
          "o4-mini"; "claude-opus-41"; "claude-3.7-sonnet"; "gemini-2.5-pro";
          "o3"; "claude-sonnet-4"; "claude-3.7-sonnet-thought"];
       "OpenAI" := ["gpt-5"; "gpt-5-codex"; "gpt-5-mini"] ]} in
  let sel : gmap string (gmap string Z) :=
    {[ "github-copilot" := ∅; "OpenAI" := ∅ ]} in
  let providerIndex :=
    match defaults with
    | Some d => indexOf (Provider d) ["github-copilot"; "OpenAI"] 0
    | None => 0
    end in
  let sel :=
    match defaults with
    | Some d =>
        match Models d !! Provider d with
        | Some saved => countDefaults sel (Provider d) saved
        | None => sel
        end
    | None => sel
    end in
  let initialBranch :=
    match head with
    | Some out =>
        let currentBranch := Str.TrimSpace out in
        if bool_decide (currentBranch ∈ standardBranches) then EmptyString
        else currentBranch
    | None => EmptyString
    end in
  {| width := 0; height := 0;
     input := [EmptyString]; cursor := Cursor 0 0;
     branch := initialBranch; branchCursor := Str.len initialBranch;
     task := EmptyString; taskCursor := 0;
     providers := ["github-copilot"; "OpenAI"];
     providerIndex := providerIndex; providerOpen := false; providerHover := 0;
     models := mods; selected := sel; modelsOpen := false; modelsHover := 0;
     focus := focusPrompt; screen := screenSetup;
     iterationInput := [EmptyString]; iterationCursor := Cursor 0 0;
     autocompleteOptions := []; autocompleteIndex := 0;
     autocompleteActive := false;
     runCmd := runCmd;
     createdPanes := []; createdWorktrees := [];
     modelToPaneID := ∅; modelToWorktree := ∅; modelPrompts := ∅;
     instanceProvider := ∅; instanceBaseModel := ∅;
     newTaskName := EmptyString; newTaskNameCursor := 0;
     newTaskPrompt := [EmptyString]; newTaskCursor := Cursor 0 0;
     newTaskFocus := focusTask;
     setDefault := setDefault; cursorVisible := true;
     progressMsg := EmptyString; spinnerIndex := 0;
     spinnerFrames := ["⠋"; "⠙"; "⠹"; "⠸"; "⠼"; "⠴"; "⠦"; "⠧"; "⠇"; "⠏"];
     pendingEsc := false;
     history := default [] loaded; historyIndex := -1;
     iterationHistoryIndex := -1;
     draftInput := None; draftIterationInput := None |}.

(** The lists of a launch in progress go together: a pane and a worktree
    for every label. *)
Definition balanced (st : openState) : Prop :=
  length (paneIDs st) = length (modelNames st)
  ∧ length (worktrees st) = length (modelNames st).

(** A call that opens a pane or runs git. *)
Definition isLaunchCall (c : extcall) : bool :=
  match c with
  | TmuxRunCmd (verb :: _) => bool_decide (verb = "split-window")
  | ExecRun _ => true
  | _ => false
  end.

(** No pane was opened and no git command ran. *)
Definition nothingLaunched (tr : list (extcall * result)) : Prop :=
  Forall (fun e => isLaunchCall e.1 = false) tr.

(** ** Example sessions and worlds *)

(** Simple stand-ins for the path functions and the order of a range. *)
Definition exBase (path : string) : string :=
  default EmptyString (last (Str.Split path "/")).
Definition exDir (path : string) : string :=
  Str.Join (removelast (Str.Split path "/")) "/".
Definition exJoin (a b : string) : string := a +:+ "/" +:+ b.
Definition exKeys (mp : gmap string string) : list string := (map_to_list mp).*1.

(** A world without state in which every call succeeds: the working
    directory is [/home/dev/repo] and every other call prints [%1]. *)
Definition exAllOk (w : unit) (c : extcall) : result * unit :=
  match c with
  | Getwd => (ROk "/home/dev/repo", w)
  | _ => (ROk "%1", w)
  end.


(** A world in which [git merge] fails and every other call succeeds. *)
Definition exMergeFails (w : unit) (c : extcall) : result * unit :=
  match c with
  | ExecRun (_ :: verb :: _) =>
      if bool_decide (verb = "merge") then (RErr "exit status 1", w)
      else (ROk EmptyString, w)
  | _ => (ROk EmptyString, w)
  end.

(** A world that counts the panes opened so far: the first [split-window]
    succeeds, every later one fails; every other call succeeds. *)
Definition exSecondPaneFails (w : nat) (c : extcall) : result * nat :=
  match c with
  | TmuxRunCmd (verb :: _) =>
      if bool_decide (verb = "split-window") then
        match w with
        | O => (ROk "%5", S w)
        | S _ => (RErr "exit status 1", S w)
        end
      else (ROk "%0", w)
  | _ => (ROk "/home/dev/repo", w)
  end.

(** The session at start: no defaults file, on branch [main], no history. *)
Definition exStart : model :=
  initialModel "go test ./..." false None (Some "main") None.

(** The Setup screen with branch [feature] typed in. *)
Definition exSetup : model :=
  set_branchCursor 7 (set_branch "feature" exStart).

(** The models dropdown open on the Setup screen. *)
Definition exDropdown : model :=
  set_modelsOpen true (set_focus focusModels exSetup).

(** The same with the count of the hovered model at the largest [int]. *)
Definition exDropdownFull : model :=
  setSelectedCount exDropdown "github-copilot" "claude-sonnet-4.5" maxInt.

(** A catalog [A, B] with [A] selected twice and [B] once. *)
Definition exTwoAndOne : model :=
  set_selected {[ "lab" := {[ "A" := 2; "B" := 1 ]} ]}
    (set_models {[ "lab" := ["A"; "B"] ]}
       (set_providerIndex 0 (set_providers ["lab"] exSetup))).

(** The same with a branch name of two blanks. *)
Definition exBlankBranch : model :=
  set_branchCursor 2 (set_branch "  " exTwoAndOne).

(** The Iteration screen with two instances of one model provisioned. *)
Definition exIterating : model :=
  set_screen screenIteration
    (set_createdPanes ["%5"; "%6"]
       (set_createdWorktrees ["repo_feature_claude"; "repo_feature_claude-2"]
          (set_modelToPaneID {[ "claude" := "%5"; "claude-2" := "%6" ]}
             (set_modelToWorktree
                {[ "claude" := "repo_feature_claude";
                   "claude-2" := "repo_feature_claude-2" ]}
                (set_modelPrompts
                   {[ "claude" := ["add a test"]; "claude-2" := ["add a test"] ]}
                   (set_input ["add a test"] exSetup)))))).

(** The same with a command typed on the iteration prompt. *)
Definition exTyping (line : string) : model :=
  set_iterationCursor (Cursor 0 (Str.len line))
    (set_iterationInput [line] exIterating).

(** Three instances: sonnet, sonnet-2 and gpt. *)
Definition exThreeOpen : model :=
  set_modelToWorktree
    {[ "sonnet" := "repo_feature_sonnet"; "sonnet-2" := "repo_feature_sonnet-2";
       "gpt" := "repo_feature_gpt" ]} exIterating.

(** The Setup screen after Enter in the prompt: a second, empty row. *)
Definition exLaunched : model :=
  set_cursor (Cursor 1 0) (set_input [EmptyString; EmptyString] exTwoAndOne).

(** A launch that opened its three panes. *)
Definition exOpened : PanesOpened.t :=
  PanesOpened.Build 3 None ["%1"; "%1"; "%1"]
    ["repo_feature_A"; "repo_feature_A-2"; "repo_feature_B"] ["A"; "A-2"; "B"]
    ["lab"; "lab"; "lab"] ["A"; "A"; "B"].

(** A launch that opened one pane of three. *)
Definition exPartial : PanesOpened.t :=
  PanesOpened.Build 1 (Some "exit status 1") ["%5"] ["repo_feature_A"] ["A"]
    ["lab"] ["A"].

(** The entry [twice] after a tab and an em space, and before a no-break
    space and a newline. *)
Definition exPadded : string :=
  Str.encodeRunes [9; 8195] +:+ "twice" +:+ Str.encodeRunes [160; 10].

(** Twenty-five entries, [e1] to [e25], with blanks around them. *)
Definition exEntries : list string :=
  (fun i => " e" +:+ Str.itoa (Z.of_nat i) +:+ " ") <$> seq 1 25.

(** The Progress screen with the cursor of the Setup prompt left outside
    its text, as after a launch from the NewTask screen. *)
Definition exStale : model :=
  set_cursor (Cursor 3 7) (set_screen screenProgress exSetup).

(** The prompt of the Setup screen in focus, with two rows typed and the
    cursor after the first byte of the first; three prompts in the history,
    the newest first. *)
Definition exPrompt : model :=
  set_history ["third"; "second"; "first"]
    (set_cursor (Cursor 0 1)
       (set_input ["ab"; "cd"] (set_focus focusPrompt exSetup))).


(** ** Bytes of a line *)

(** The byte at index [j] of [line] exists and satisfies [p]. *)
Definition byteIs (p : ascii -> bool) (line : string) (j : Z) : Prop :=
  exists c, Str.at_ line j = Some c ∧ p c = true.

(** The cursor [a] is at or before the cursor [b] in the text. *)
Definition cursorLe (a b : cursorPos) : Prop :=
  row a < row b ∨ (row a = row b ∧ col a <= col b).

(** ** Well-formed sessions *)

(** An index into the providers, when there are providers. *)
Definition providerOk (m : model) (i : Z) : Prop :=
  providers m = [] ∨ 0 <= i < lenZ (providers m).

(** The cursor of a single-line field is inside the field. *)
Definition fieldOk (s : string) (c : Z) : Prop := 0 <= c <= Str.len s.

(** The index of a history navigation: -1 when not navigating, or the index
    of an entry. *)
Definition historyIndexOk (h : list string) (i : Z) : Prop := -1 <= i < lenZ h.

(** A saved draft holds at least one row. *)
Definition draftOk (d : option (list string)) : Prop := d ≠ Some [].

(** What [Update] relies on in every screen. *)
Record coreValid (m : model) : Prop := CoreValid {
  cv_provider : providerOk m (providerIndex m);
  cv_hover : providerOk m (providerHover m);
  cv_iteration : validBuffer (iterationInput m) (iterationCursor m);
  cv_newTask : validBuffer (newTaskPrompt m) (newTaskCursor m);
  cv_newTaskName : fieldOk (newTaskName m) (newTaskNameCursor m);
  cv_autocomplete :
    autocompleting m = true ->
    0 <= autocompleteIndex m < lenZ (autocompleteOptions m);
  cv_draft : draftOk (draftInput m);
  cv_draftIteration : draftOk (draftIterationInput m);
  cv_history : (length (history m) <= historyMax)%nat;
  cv_historyIndex : historyIndexOk (history m) (historyIndex m);
  cv_iterationHistoryIndex : historyIndexOk (history m) (iterationHistoryIndex m)
}.

(** What the handler of the Setup screen relies on besides: the cursors of
    the prompt, of the branch name and of the task name are inside their
    texts. *)
Definition setupValid (m : model) : Prop :=
  validBuffer (input m) (cursor m)
  ∧ fieldOk (branch m) (branchCursor m)
  ∧ fieldOk (task m) (taskCursor m).

(** A well-formed session. *)
Definition wellFormed (m : model) : Prop :=
  coreValid m ∧ (screen m = screenSetup -> setupValid m).

(** A launch message names a pane and a worktree for every label. *)
Definition balancedMsg (p : PanesOpened.t) : Prop :=
  lenZ (PanesOpened.modelNames p) <= lenZ (PanesOpened.paneIDs p)
  ∧ lenZ (PanesOpened.modelNames p) <= lenZ (PanesOpened.worktrees p).

(** A message that a command may deliver: no key, and a launch message
    only when balanced. *)
Definition deliverable (msg : Msg) : Prop :=
  match msg with
  | keyMsg _ => False
  | panesOpenedMsg p => balancedMsg p
  | _ => True
  end.

(** A message that the session is ready for.  A key on the Progress screen
    is handled by the code of the Setup screen, and needs the cursors of
    that screen inside their texts. *)
Definition accepted (m : model) (msg : Msg) : Prop :=
  match msg with
  | keyMsg _ => screen m = screenProgress -> setupValid m
  | panesOpenedMsg p => balancedMsg p
  | _ => True
  end.

(** The commands that [Update] hands to the runtime, for the state [m] it
    returns with them. *)
Inductive issued (m : model) : prog (option Msg) -> Prop :=
  | issued_cleanup : issued m (cleanupCmd m)
  | issued_bail : issued m (bailCmd m)
  | issued_next label : issued m (nextCmd m label)
  | issued_wrap label : issued m (wrapCmd m label)
  | issued_send paneID label text :
      issued m (sendToModelPaneCmd paneID label text m)
  | issued_open models : issued m (openPanesCmd models m)
  | issued_tick ms msg :
      deliverable msg -> issued m (call (Sleep ms);; Ret (Some msg))
  | issued_quit : issued m (Ret (Some QuitMsg)).

Definition issuedBy (m : model) (cmd : Cmd) : Prop :=
  match cmd with
  | Some p => issued m p
  | None => True
  end.

(** The result of a handler of the Setup screen: it does not panic, keeps
    the state valid and the screen as it is. *)
Definition setupStep (m : model) (res : option (model * Cmd)) : Prop :=
  exists m' cmd, res = Some (m', cmd) ∧ coreValid m' ∧ setupValid m'
    ∧ screen m' = screen m ∧ issuedBy m' cmd.

(** The result of a handler of another screen: it does not panic, keeps
    the state valid, and keeps the screen or, when [submits] is set, leads
    to the Progress screen. *)
Definition otherStep (submits : bool) (m : model) (res : option (model * Cmd))
  : Prop :=
  exists m' cmd, res = Some (m', cmd) ∧ coreValid m'
    ∧ (screen m' = screen m ∨ (submits = true ∧ screen m' = screenProgress))
    ∧ issuedBy m' cmd.

(** ** Commands that cannot panic *)

(** Whatever the answers to its calls, the program does not panic and its
    result satisfies [Q]. *)
Fixpoint delivers {A} (Q : A -> Prop) (p : prog A) : Prop :=
  match p with
  | Ret a => Q a
  | Crash => False
  | Call c k => forall r, delivers Q (k r)
  end.

(** The reply of a command is no message, or a message that a command may
    deliver. *)
Definition deliverableReply (r : option Msg) : Prop :=
  match r with
  | Some msg => deliverable msg
  | None => True
  end.

(** The screens that [Update] may lead to from the screen [s] on a
    message: a key keeps the screen, or leaves the Iteration screen for the
    Progress screen; a launch completion keeps the screen or opens the
    Iteration screen; the completion of Next opens the NewTask screen; any
    other message keeps the screen. *)
Definition transition (msg : Msg) (s s' : screenType) : Prop :=
  match msg with
  | keyMsg _ => s' = s ∨ (s = screenIteration ∧ s' = screenProgress)
  | panesOpenedMsg _ => s' = s ∨ s' = screenIteration
  | nextCompleteMsg => s' = screenNewTask
  | _ => s' = s
  end.

(** The arrow keys. *)
Definition leftKey : Msg := keyMsg (Key KeyLeft [] false).
Definition rightKey : Msg := keyMsg (Key KeyRight [] false).
Definition upKey : Msg := keyMsg (Key KeyUp [] false).
Definition downKey : Msg := keyMsg (Key KeyDown [] false).

(** The Escape key, and Tab with or without Shift. *)
Definition escKey : Msg := keyMsg (Key KeyEsc [] false).
Definition tabOrShiftTab (shift : bool) : Msg :=
  keyMsg (Key (if shift then KeyShiftTab else KeyTab) [] false).

(** The Setup screen while entry [i] of the history is shown in the
    prompt: the rows of the entry, the cursor at their end, and the text
    that was in the prompt saved as the draft. *)
Definition historyView (m : model) (i : Z) : option model :=
  entry ← nthZ (history m) i;
  '(rows, cur) ← loadEntry entry;
  Some (set_cursor cur
          (set_input rows
             (set_historyIndex i (set_draftInput (Some (input m)) m)))).

(** The Setup screen after the history was left again: the text is back,
    the cursor is at its end and the draft stays saved. *)
Definition historyLeft (m : model) : option model :=
  cur ← cursorAtEnd (input m);
  Some (set_cursor cur
          (set_input (input m)
             (set_historyIndex (-1) (set_draftInput (Some (input m)) m)))).

(** * Properties *)

(** ** White space and [strings.TrimSpace] *)

Lemma append_nil_r (s : string) : s +:+ EmptyString = s.
Proof. induction s as [|c s IH]; simpl; [done|]. unfold String.app in *. by rewrite IH. Qed.

Lemma append_assoc (a b c : string) : (a +:+ b) +:+ c = a +:+ (b +:+ c).
Proof.
  induction a as [|x a IH]; simpl; [done|].
  unfold String.app in *. simpl. by rewrite IH.
Qed.

Lemma append_cons a s t : String a s +:+ t = String a (s +:+ t).
Proof. reflexivity. Qed.

Lemma rev_app_append s : forall acc, String.rev_app s acc = String.rev s +:+ acc.
Proof.
  unfold String.rev.
  induction s as [|a s IH]; intros acc; [done|].
  cbn [String.rev_app]. rewrite (IH (String a acc)), (IH (String a EmptyString)).
  by rewrite append_assoc.
Qed.

Lemma rev_cons a s : String.rev (String a s) = String.rev s +:+ Str.of_byte a.
Proof. unfold String.rev at 1. cbn [String.rev_app]. apply rev_app_append. Qed.

Lemma rev_append a b : String.rev (a +:+ b) = String.rev b +:+ String.rev a.
Proof.
  induction a as [|x a IH].
  - by rewrite append_nil_r.
  - change (String x a +:+ b) with (String x (a +:+ b)).
    by rewrite !rev_cons, IH, append_assoc.
Qed.

Lemma rev_involutive s : String.rev (String.rev s) = s.
Proof.
  induction s as [|a s IH]; [done|].
  by rewrite rev_cons, rev_append, IH.
Qed.

Lemma code_byte a n : Str.code a = n -> a = Str.byte n.
Proof. intros <-. symmetry. apply ascii_N_embedding. Qed.

Ltac white := apply (bool_decide_unpack _); vm_compute; exact I.

(** The encodings of the white-space runes are the byte sequences that the
    three tests of the trimming accept. *)
Lemma whiteSpaceRune_bytes r :
  r ∈ whiteSpaceRunes ->
  (exists a, Str.encodeRune r = String a EmptyString ∧ Str.asciiSpace a = true)
  ∨ (exists a b, Str.encodeRune r = String a (String b EmptyString)
                 ∧ Str.space2 a b = true)
  ∨ (exists a b c, Str.encodeRune r = String a (String b (String c EmptyString))
                   ∧ Str.space3 a b c = true).
Proof.
  unfold whiteSpaceRunes. intros H.
  repeat (apply elem_of_cons in H as [->|H]);
    try first
      [ left; eexists; split; reflexivity
      | right; left; eexists _, _; split; reflexivity
      | right; right; eexists _, _, _; split; reflexivity ].
  by apply elem_of_nil in H.
Qed.

Lemma asciiSpace_rune a :
  Str.asciiSpace a = true ->
  exists r, r ∈ whiteSpaceRunes ∧ Str.encodeRune r = String a EmptyString.
Proof.
  intros H. exists (Z.of_N (Str.code a)).
  destruct a as [[] [] [] [] [] [] [] []]; try discriminate H;
    (split; [white|reflexivity]).
Qed.

Lemma space2_rune a b :
  Str.space2 a b = true ->
  exists r, r ∈ whiteSpaceRunes
            ∧ Str.encodeRune r = String a (String b EmptyString).
Proof.
  unfold Str.space2. intros H.
  apply andb_prop in H as [Ha Hb]. apply N.eqb_eq, code_byte in Ha. subst a.
  apply orb_prop in Hb as [Hb|Hb]; apply N.eqb_eq, code_byte in Hb; subst b.
  - exists 133. split; [white|reflexivity].
  - exists 160. split; [white|reflexivity].
Qed.

Lemma space3_rune a b c :
  Str.space3 a b c = true ->
  exists r, r ∈ whiteSpaceRunes
            ∧ Str.encodeRune r = String a (String b (String c EmptyString)).
Proof.
  unfold Str.space3. cbv zeta. intros H.
  exists (Z.of_N ((Str.code a - 224) * 4096 + (Str.code b - 128) * 64
                  + (Str.code c - 128))).
  repeat match goal with
         | H : (_ && _)%bool = true |- _ => apply andb_prop in H as [? ?]
         | H : (_ || _)%bool = true |- _ => apply orb_prop in H as [?|?]
         | H : N.eqb (Str.code _) _ = true |- _ => apply N.eqb_eq, code_byte in H
         | H : N.leb _ _ = true |- _ => apply N.leb_le in H
         end; subst.
  all: lazymatch goal with
       | H : (128 <= Str.code _)%N |- _ => idtac
       | _ => split; [white|reflexivity]
       end.
  assert (Str.code c = 128 ∨ Str.code c = 129 ∨ Str.code c = 130
          ∨ Str.code c = 131 ∨ Str.code c = 132 ∨ Str.code c = 133
          ∨ Str.code c = 134 ∨ Str.code c = 135 ∨ Str.code c = 136
          ∨ Str.code c = 137 ∨ Str.code c = 138)%N as Hcases by lia.
  repeat destruct Hcases as [Hc|Hcases]; try rename Hcases into Hc;
    apply code_byte in Hc; subst c; (split; [white|reflexivity]).
Qed.

Lemma whiteSpace_nil : whiteSpace EmptyString.
Proof. by exists []. Qed.

Lemma whiteSpace_cons r s :
  r ∈ whiteSpaceRunes -> whiteSpace s -> whiteSpace (Str.encodeRune r +:+ s).
Proof. intros Hr (rs & Hrs & ->). exists (r :: rs). by split; [constructor|]. Qed.

Lemma encodeRunes_snoc rs r :
  Str.encodeRunes (rs ++ [r]) = Str.encodeRunes rs +:+ Str.encodeRune r.
Proof.
  induction rs as [|x rs IH]; simpl.
  - apply append_nil_r.
  - by rewrite IH, append_assoc.
Qed.

Lemma whiteSpace_snoc s r :
  whiteSpace s -> r ∈ whiteSpaceRunes -> whiteSpace (s +:+ Str.encodeRune r).
Proof.
  intros (rs & Hrs & ->) Hr. exists (rs ++ [r]).
  split; [|by rewrite encodeRunes_snoc].
  apply Forall_app. split; [done|by constructor].
Qed.

(** A string that starts with white space passes one of the three tests
    on its first bytes; one that ends with white space passes one of them
    on its last bytes. *)
Lemma startsWithSpace_bytes t :
  startsWithSpace t ->
  match t with
  | String a s1 =>
      Str.asciiSpace a = true
      ∨ match s1 with
        | String b s2 =>
            Str.space2 a b = true
            ∨ match s2 with
              | String c _ => Str.space3 a b c = true
              | EmptyString => False
              end
        | EmptyString => False
        end
  | EmptyString => False
  end.
Proof.
  intros (r & rest & Hr & ->).
  destruct (whiteSpaceRune_bytes r Hr)
    as [(a & -> & H)|[(a & b & -> & H)|(a & b & c & -> & H)]];
    rewrite ?append_cons; simpl; auto.
Qed.

Lemma endsWithSpace_bytes t :
  endsWithSpace t ->
  match String.rev t with
  | String a s1 =>
      Str.asciiSpace a = true
      ∨ match s1 with
        | String b s2 =>
            Str.space2 b a = true
            ∨ match s2 with
              | String c _ => Str.space3 c b a = true
              | EmptyString => False
              end
        | EmptyString => False
        end
  | EmptyString => False
  end.
Proof.
  intros (r & front & Hr & ->). rewrite rev_append.
  destruct (whiteSpaceRune_bytes r Hr)
    as [(a & -> & H)|[(a & b & -> & H)|(a & b & c & -> & H)]];
    rewrite ?append_cons; simpl; auto.
Qed.

(** [trimLeft] removes a string of white space from the start and stops
    where no white space starts. *)
Lemma trimLeft_spec n : forall s,
  (String.length s <= n)%nat ->
  exists l, s = l +:+ Str.trimLeft s ∧ whiteSpace l
            ∧ ¬ startsWithSpace (Str.trimLeft s).
Proof.
  induction n as [|n IH]; intros s Hn.
  - destruct s; [|simpl in Hn; lia].
    exists EmptyString. split; [done|]. split; [apply whiteSpace_nil|].
    intros H. by apply startsWithSpace_bytes in H.
  - destruct s as [|a s1].
    { exists EmptyString. split; [done|]. split; [apply whiteSpace_nil|].
      intros H. by apply startsWithSpace_bytes in H. }
    cbn [Str.trimLeft]. destruct (Str.asciiSpace a) eqn:Ea.
    { destruct (IH s1) as (l & Hl & Hw & Hs); [simpl in Hn; lia|].
      destruct (asciiSpace_rune a Ea) as (r & Hr & He).
      exists (String a l). split; [rewrite !append_cons; by f_equal|]. split; [|done].
      change (String a l) with (String a EmptyString +:+ l).
      rewrite <- He. by apply whiteSpace_cons. }
    destruct s1 as [|b s2].
    { exists EmptyString. split; [done|]. split; [apply whiteSpace_nil|].
      intros H. apply startsWithSpace_bytes in H. simpl in H.
      rewrite Ea in H. by destruct H. }
    destruct (Str.space2 a b) eqn:E2.
    { destruct (IH s2) as (l & Hl & Hw & Hs); [simpl in Hn; lia|].
      destruct (space2_rune a b E2) as (r & Hr & He).
      exists (String a (String b l)). split; [rewrite !append_cons; by do 2 f_equal|].
      split; [|done].
      change (String a (String b l))
        with (String a (String b EmptyString) +:+ l).
      rewrite <- He. by apply whiteSpace_cons. }
    destruct s2 as [|c s3].
    { exists EmptyString. split; [done|]. split; [apply whiteSpace_nil|].
      intros H. apply startsWithSpace_bytes in H. simpl in H.
      rewrite Ea, E2 in H. by destruct H as [?|[?|?]]. }
    destruct (Str.space3 a b c) eqn:E3.
    { destruct (IH s3) as (l & Hl & Hw & Hs); [simpl in Hn; lia|].
      destruct (space3_rune a b c E3) as (r & Hr & He).
      exists (String a (String b (String c l))).
      split; [rewrite !append_cons; by do 3 f_equal|]. split; [|done].
      change (String a (String b (String c l)))
        with (String a (String b (String c EmptyString)) +:+ l).
      rewrite <- He. by apply whiteSpace_cons. }
    exists EmptyString. split; [done|]. split; [apply whiteSpace_nil|].
    intros H. apply startsWithSpace_bytes in H. simpl in H.
    rewrite Ea, E2, E3 in H. by destruct H as [?|[?|?]].
Qed.

(** The same from the end, on the reversed bytes. *)
Lemma trimLeftRev_spec n : forall s,
  (String.length s <= n)%nat ->
  exists l, s = l +:+ Str.trimLeftRev s ∧ whiteSpace (String.rev l)
            ∧ ¬ endsWithSpace (String.rev (Str.trimLeftRev s)).
Proof.
  induction n as [|n IH]; intros s Hn.
  - destruct s; [|simpl in Hn; lia].
    exists EmptyString. split; [done|]. split; [apply whiteSpace_nil|].
    intros H. by apply endsWithSpace_bytes in H.
  - destruct s as [|a s1].
    { exists EmptyString. split; [done|]. split; [apply whiteSpace_nil|].
      intros H. by apply endsWithSpace_bytes in H. }
    cbn [Str.trimLeftRev]. destruct (Str.asciiSpace a) eqn:Ea.
    { destruct (IH s1) as (l & Hl & Hw & Hs); [simpl in Hn; lia|].
      destruct (asciiSpace_rune a Ea) as (r & Hr & He).
      exists (String a l). split; [rewrite !append_cons; by f_equal|]. split; [|done].
      rewrite rev_cons. unfold Str.of_byte. rewrite <- He.
      by apply whiteSpace_snoc. }
    destruct s1 as [|b s2].
    { exists EmptyString. split; [done|]. split; [apply whiteSpace_nil|].
      intros H. apply endsWithSpace_bytes in H. rewrite rev_involutive in H.
      simpl in H. rewrite Ea in H. by destruct H. }
    destruct (Str.space2 b a) eqn:E2.
    { destruct (IH s2) as (l & Hl & Hw & Hs); [simpl in Hn; lia|].
      destruct (space2_rune b a E2) as (r & Hr & He).
      exists (String a (String b l)). split; [rewrite !append_cons; by do 2 f_equal|].
      split; [|done].
      rewrite !rev_cons, append_assoc. unfold Str.of_byte.
      change (String b EmptyString +:+ String a EmptyString)
        with (String b (String a EmptyString)).
      rewrite <- He. by apply whiteSpace_snoc. }
    destruct s2 as [|c s3].
    { exists EmptyString. split; [done|]. split; [apply whiteSpace_nil|].
      intros H. apply endsWithSpace_bytes in H. rewrite rev_involutive in H.
      simpl in H. rewrite Ea, E2 in H. by destruct H as [?|[?|?]]. }
    destruct (Str.space3 c b a) eqn:E3.
    { destruct (IH s3) as (l & Hl & Hw & Hs); [simpl in Hn; lia|].
      destruct (space3_rune c b a E3) as (r & Hr & He).
      exists (String a (String b (String c l))).
      split; [rewrite !append_cons; by do 3 f_equal|]. split; [|done].
      rewrite !rev_cons, !append_assoc. unfold Str.of_byte.
      change (String c EmptyString +:+ String b EmptyString +:+ String a EmptyString)
        with (String c (String b (String a EmptyString))).
      rewrite <- He. by apply whiteSpace_snoc. }
    exists EmptyString. split; [done|]. split; [apply whiteSpace_nil|].
    intros H. apply endsWithSpace_bytes in H. rewrite rev_involutive in H.
    simpl in H. rewrite Ea, E2, E3 in H. by destruct H as [?|[?|?]].
Qed.

(** [strings.TrimSpace] returns its argument without the white space at
    its two ends. *)
Lemma TrimSpace_trimmed e : trimmedOf e (Str.TrimSpace e).
Proof.
  unfold Str.TrimSpace, Str.trimRight.
  destruct (trimLeft_spec (String.length e) e) as (l & Hl & Hwl & Hsl); [done|].
  set (s := Str.trimLeft e) in *.
  destruct (trimLeftRev_spec (String.length (String.rev s)) (String.rev s))
    as (r & Hr & Hwr & Her); [done|].
  set (t := String.rev (Str.trimLeftRev (String.rev s))) in *.
  assert (s = t +:+ String.rev r) as Hs.
  { rewrite <- (rev_involutive s), Hr at 1. by rewrite rev_append. }
  exists l, (String.rev r). split; [by rewrite <- Hs|].
  split; [done|]. split; [done|]. split; [|done].
  intros (x & rest & Hx & Ht). apply Hsl. exists x, (rest +:+ String.rev r).
  split; [done|]. by rewrite Hs, Ht, append_assoc.
Qed.

(** ** The history store *)

Lemma pushHistorySlice_spec h e : pushHistorySlice h e = push_spec h e.
Proof.
  unfold pushHistorySlice, push_spec, historyMax.
  destruct (decide (Str.TrimSpace e = EmptyString)) as [He|He].
  - rewrite decide_True by (by left). done.
  - destruct h as [|h0 h]; simpl.
    + rewrite decide_False; [done|]. intros [?|?]; done.
    + destruct (decide (h0 = Str.TrimSpace e)) as [->|Hn].
      * rewrite decide_True by (by right). done.
      * rewrite decide_False; [done|]. intros [?|[=]]; done.
Qed.

Lemma pushHistorySlice_twice h e :
  pushHistorySlice (pushHistorySlice h e) e = pushHistorySlice h e.
Proof.
  rewrite !pushHistorySlice_spec.
  destruct (decide (Str.TrimSpace e = EmptyString ∨ head h = Some (Str.TrimSpace e)))
    as [H1|H1].
  - assert (push_spec h e = h) as ->; unfold push_spec; by rewrite decide_True.
  - assert (push_spec h e = take 20 (Str.TrimSpace e :: h)) as ->.
    { unfold push_spec. by rewrite decide_False. }
    unfold push_spec. rewrite decide_True; [done|]. right. reflexivity.
Qed.

Lemma take_push h e :
  Str.TrimSpace e ≠ EmptyString ->
  take 20 (pushHistorySlice h e) = take 20 (push_unbounded h (Str.TrimSpace e)).
Proof.
  intros He. unfold pushHistorySlice, push_unbounded, historyMax.
  rewrite decide_False by done.
  destruct h as [|h0 h]; [by rewrite take_take|].
  case_decide; [done|]. by rewrite take_take.
Qed.

Lemma take_push_unbounded h1 h2 t :
  take 20 h1 = take 20 h2 ->
  take 20 (push_unbounded h1 t) = take 20 (push_unbounded h2 t).
Proof.
  intros H.
  assert (take 19 h1 = take 19 h2) as H19.
  { change (take 19 h1) with (take (19 `min` 20) h1).
    change (take 19 h2) with (take (19 `min` 20) h2).
    by rewrite <- !take_take, H. }
  destruct h1 as [|a h1], h2 as [|b h2]; try discriminate; simpl in *.
  - done.
  - injection H as -> H. unfold push_unbounded.
    case_decide; simpl; f_equal; [done|]. exact H19.
Qed.

Lemma take_foldl_push es : forall h1 h2,
  Forall (fun x => Str.TrimSpace x ≠ EmptyString) es ->
  take 20 h1 = take 20 h2 ->
  take 20 (foldl pushHistorySlice h1 es)
  = take 20 (foldl push_unbounded h2 (Str.TrimSpace <$> es)).
Proof.
  induction es as [|e es IH]; intros h1 h2 Hne H; simpl; [done|].
  inversion Hne; subst. apply IH; [done|].
  rewrite take_push by done. by apply take_push_unbounded.
Qed.

Lemma foldl_push_unbounded ts : forall x rest,
  NoDup (x :: ts) ->
  foldl push_unbounded (x :: rest) ts = reverse ts ++ x :: rest.
Proof.
  induction ts as [|t ts IH]; intros x rest Hnd; simpl; [done|].
  rewrite decide_False.
  - rewrite IH.
    + rewrite reverse_cons, <- app_assoc. done.
    + apply NoDup_cons_1_2 in Hnd. done.
  - apply NoDup_cons_1_1 in Hnd. intros ->. apply Hnd. left.
Qed.

Lemma foldl_push_unbounded_head ts h :
  ts ≠ [] -> NoDup ts ->
  exists rest, foldl push_unbounded h ts = reverse ts ++ rest.
Proof.
  destruct ts as [|t ts]; [done|]. intros _ Hnd. simpl.
  assert (exists rest, push_unbounded h t = t :: rest) as [rest ->].
  { unfold push_unbounded. destruct h as [|h0 h]; [by eexists|].
    case_decide; subst; by eexists. }
  exists rest. rewrite foldl_push_unbounded by done.
  by rewrite reverse_cons, <- app_assoc.
Qed.


Lemma head_take_S {A} (l : list A) n : head (take (S n) l) = head l.
Proof. by destruct l. Qed.

Lemma foldl_push_distinct h es :
  (20 <= length es)%nat ->
  Forall (fun x => Str.TrimSpace x ≠ EmptyString) es ->
  NoDup (Str.TrimSpace <$> es) ->
  take 20 (foldl pushHistorySlice h es) = take 20 (reverse (Str.TrimSpace <$> es)).
Proof.
  intros Hlen Hne Hnd.
  rewrite (take_foldl_push es h h) by done.
  destruct (foldl_push_unbounded_head (Str.TrimSpace <$> es) h) as [rest ->].
  - destruct es; [simpl in Hlen; lia | done].
  - done.
  - apply take_app_le. rewrite length_reverse, length_fmap. done.
Qed.

(** C3. History push trims the entry, and the trimmed entry
    [Str.TrimSpace x] is [x] without the white space at its two ends: [x]
    is a string of white-space runes, then the trimmed entry, then a string
    of white-space runes, and the trimmed entry neither starts nor ends
    with a white-space rune.  An entry that is empty after the trim, or
    equal to the most recent element, leaves the list as it is; any other
    entry is prepended and the list cut to 20.  So a second push of the
    same entry leaves the length unchanged, and after 25 pushes of entries
    that are distinct (and not blank) once trimmed the list holds exactly
    the last 20 of them, most recent first. *)
Theorem C3_pushHistorySlice (h : list string) (e : string) (es : list string)
    (Hlen : length es = 25%nat)
    (Hne : Forall (fun x => Str.TrimSpace x ≠ EmptyString) es)
    (Hnd : NoDup (Str.TrimSpace <$> es)) :
  (forall x, trimmedOf x (Str.TrimSpace x))
  ∧ pushHistorySlice h e = push_spec h e
  ∧ length (pushHistorySlice (pushHistorySlice h e) e)
    = length (pushHistorySlice h e)
  ∧ foldl pushHistorySlice h es = take 20 (reverse (Str.TrimSpace <$> es)).
Proof.
  split; [apply TrimSpace_trimmed|].
  split; [apply pushHistorySlice_spec|]. split; [by rewrite pushHistorySlice_twice|].
  destruct es as [|e' es' _] using rev_ind; [discriminate|].
  rewrite length_app in Hlen. simpl in Hlen.
  rewrite fmap_app in Hnd. simpl in Hnd.
  apply NoDup_app in Hnd as (Hnd' & Hnot & _).
  apply Forall_app in Hne as [Hne' Hne1]. inversion Hne1 as [|? ? Ht _]; subst.
  rewrite foldl_app. simpl.
  set (X := foldl pushHistorySlice h es').
  set (t := Str.TrimSpace e') in *.
  set (ts := Str.TrimSpace <$> es') in *.
  assert (take 20 X = take 20 (reverse ts)) as HX.
  { apply foldl_push_distinct; [lia|done..]. }
  assert (head X ≠ Some t) as Hhead.
  { rewrite <- (head_take_S X 19), HX, head_take_S, head_reverse.
    intros Hl. apply (Hnot t).
    - apply last_Some in Hl as [l' ->]. apply elem_of_app. right. left.
    - left. }
  rewrite pushHistorySlice_spec. unfold push_spec. fold t.
  rewrite decide_False by (intros [?|?]; done).
  rewrite fmap_app, reverse_app. simpl.
  change (reverse [t]) with [t]. simpl. f_equal.
  fold ts. transitivity (take 19 (take 20 X)); [by rewrite take_take|].
  rewrite HX. by rewrite take_take.
Qed.

(** ** Selection counts *)

Lemma wrapInt_id z : minInt <= z <= maxInt -> wrapInt z = z.
Proof.
  unfold wrapInt, minInt, maxInt. intros H.
  rewrite Z.mod_small; lia.
Qed.

Lemma selectedCount_set m q n v p name :
  selectedCount (setSelectedCount m q n v) p name
  = if decide (q = p ∧ n = name) then v else selectedCount m p name.
Proof.
  unfold selectedCount, setSelectedCount. simpl.
  destruct (decide (q = p)) as [->|Hq].
  - rewrite lookup_insert_eq. simpl.
    destruct (decide (n = name)) as [->|Hn].
    + rewrite lookup_insert_eq. by rewrite decide_True.
    + rewrite lookup_insert_ne by done. rewrite decide_False by tauto. done.
  - rewrite lookup_insert_ne by done. rewrite decide_False by tauto. done.
Qed.

Lemma selectedCount_make m m1 q p name :
  selectedCount
    (set_selected (<[q := default ∅ (selected m !! q)]> (selected m)) m1) p name
  = selectedCount m p name.
Proof.
  unfold selectedCount. simpl.
  destruct (decide (q = p)) as [->|Hq].
  - by rewrite lookup_insert_eq.
  - by rewrite lookup_insert_ne.
Qed.

Lemma clampHover_range hover n : 0 < n -> 0 <= clampHover hover n < n.
Proof.
  unfold clampHover. intros Hn.
  destruct (hover <? 0) eqn:E1; [|apply Z.ltb_ge in E1].
  - destruct (n <=? 0) eqn:E2; [apply Z.leb_le in E2; lia|lia].
  - destruct (n <=? hover) eqn:E2; [lia|apply Z.leb_gt in E2; lia].
Qed.

Lemma nthZ_in_range {A} (l : list A) i : 0 <= i < lenZ l -> is_Some (nthZ l i).
Proof.
  unfold nthZ, lenZ. intros H.
  destruct (0 <=? i) eqn:E; [|apply Z.leb_gt in E; lia].
  apply lookup_lt_is_Some. lia.
Qed.

Lemma providerModels_Some m q :
  currentProvider m = Some q ->
  providerModels m
  = Some (if decide (q = EmptyString) then [] else default [] (models m !! q)).
Proof.
  intros Hq. unfold providerModels. rewrite Hq. simpl.
  by destruct (decide (q = EmptyString)).
Qed.

Lemma incrementHovered_step m p name :
  is_Some (currentProvider m) ->
  exists m', incrementHovered m = Some m' ∧ sameDropdown m m'
    ∧ (selectedCount m' p name = selectedCount m p name
       ∨ selectedCount m' p name = intAdd (selectedCount m p name) 1).
Proof.
  intros [q Hq]. unfold incrementHovered.
  rewrite (providerModels_Some m q Hq). simpl.
  set (opts := if decide (q = EmptyString) then [] else default [] (models m !! q)).
  destruct (decide (length opts = 0%nat)) as [H0|H0].
  { exists m. split; [done|]. split; [done|by left]. }
  change (currentProvider (set_modelsHover _ m)) with (currentProvider m).
  rewrite Hq. simpl.
  destruct (nthZ_in_range opts (clampHover (modelsHover m) (lenZ opts)))
    as [nm Hnm].
  { apply clampHover_range. unfold lenZ. destruct opts; simpl in *; [done|lia]. }
  rewrite Hnm. simpl. eexists. split; [done|]. split; [done|].
  rewrite selectedCount_set. case_decide as Hd.
  - right. destruct Hd as [-> ->]. done.
  - by left.
Qed.

Lemma decrementHovered_step m p name :
  is_Some (currentProvider m) ->
  exists m', decrementHovered m = Some m' ∧ sameDropdown m m'
    ∧ (selectedCount m' p name = selectedCount m p name
       ∨ (0 < selectedCount m p name
          ∧ selectedCount m' p name = intSub (selectedCount m p name) 1)).
Proof.
  intros [q Hq]. unfold decrementHovered.
  rewrite (providerModels_Some m q Hq). simpl.
  set (opts := if decide (q = EmptyString) then [] else default [] (models m !! q)).
  destruct (decide (length opts = 0%nat)) as [H0|H0].
  { exists m. split; [done|]. split; [done|by left]. }
  change (currentProvider (set_modelsHover _ m)) with (currentProvider m).
  rewrite Hq. simpl.
  destruct (nthZ_in_range opts (clampHover (modelsHover m) (lenZ opts)))
    as [nm Hnm].
  { apply clampHover_range. unfold lenZ. destruct opts; simpl in *; [done|lia]. }
  rewrite Hnm. simpl.
  set (m1 := set_modelsHover _ m).
  set (m2 := set_selected _ m1).
  assert (forall a b, selectedCount m2 a b = selectedCount m a b) as Hsame.
  { intros a b. apply selectedCount_make. }
  destruct (0 <? selectedCount m2 q nm) eqn:Epos.
  - eexists. split; [done|]. split; [done|].
    rewrite selectedCount_set. case_decide as Hd.
    + right. destruct Hd as [-> ->]. rewrite Hsame in *.
      apply Z.ltb_lt in Epos. done.
    + left. apply Hsame.
  - exists m2. split; [done|]. split; [done|]. left. apply Hsame.
Qed.

Lemma Update_countKey m op :
  inModelsDropdown m ->
  Update m (countKey op)
  = match op with
    | Increment => m1 ← incrementHovered m; Some (m1, None)
    | Decrement => m1 ← decrementHovered m; Some (m1, None)
    end.
Proof.
  intros (Hs & Hf & Ho & _). unfold Update. destruct op; simpl.
  - rewrite Hs. simpl. unfold updateSetup, wordMotion. simpl.
    rewrite andb_false_r. unfold setupSpace. rewrite Hf, Ho. done.
  - rewrite Hs. simpl. unfold updateSetup, wordMotion. simpl.
    unfold setupBackspace. rewrite Hf, Ho. done.
Qed.

Lemma sameDropdown_in m m' :
  inModelsDropdown m -> sameDropdown m m' -> inModelsDropdown m'.
Proof.
  intros (Hs & Hf & Ho & Hp) (Hs' & Hf' & Ho' & Hp').
  unfold inModelsDropdown. rewrite Hs', Hf', Ho', Hp'. done.
Qed.

Lemma countKey_step m op p name :
  inModelsDropdown m ->
  0 <= selectedCount m p name < maxInt ∨ (op = Decrement ∧ 0 <= selectedCount m p name <= maxInt) ->
  exists m', Update m (countKey op) = Some (m', None) ∧ inModelsDropdown m'
    ∧ 0 <= selectedCount m' p name <= selectedCount m p name + 1.
Proof.
  intros Hm Hc. rewrite Update_countKey by done.
  pose proof Hm as (_ & _ & _ & Hp).
  destruct op.
  - destruct (incrementHovered_step m p name Hp) as (m' & -> & Hsame & Hcnt).
    exists m'. split; [done|]. split; [by eapply sameDropdown_in|].
    destruct Hc as [Hc|[? _]]; [|done].
    destruct Hcnt as [->| ->]; [lia|].
    unfold intAdd. rewrite wrapInt_id; unfold minInt, maxInt in *; lia.
  - destruct (decrementHovered_step m p name Hp) as (m' & -> & Hsame & Hcnt).
    exists m'. split; [done|]. split; [by eapply sameDropdown_in|].
    assert (0 <= selectedCount m p name <= maxInt) as Hr by (destruct Hc; lia).
    destruct Hcnt as [->|[Hpos ->]]; [lia|].
    unfold intSub. rewrite wrapInt_id; unfold minInt, maxInt in *; lia.
Qed.

Lemma countKeys_run ops : forall m p name,
  inModelsDropdown m ->
  0 <= selectedCount m p name ->
  selectedCount m p name + lenZ ops <= maxInt ->
  exists m', updateAll m (countKey <$> ops) = Some m' ∧ inModelsDropdown m'
    ∧ 0 <= selectedCount m' p name <= selectedCount m p name + lenZ ops.
Proof.
  induction ops as [|op ops IH]; intros m p name Hm H0 Hmax.
  - exists m. simpl. unfold lenZ. simpl. split; [done|]. split; [done|lia].
  - unfold lenZ in *. simpl length in *.
    destruct (countKey_step m op p name Hm) as (m1 & Hup & Hm1 & Hc1).
    { left. lia. }
    destruct (IH m1 p name Hm1) as (m' & Hrun & Hm' & Hc'); [lia|lia|].
    exists m'. simpl. rewrite Hup. simpl. split; [done|]. split; [done|lia].
Qed.

(** C5, below the largest [int].  In the models dropdown, a selection count that starts
    at 0 or above stays at 0 or above after each operation of any sequence
    of increments (Space) and decrements (Backspace) that does not take it
    past the largest [int]. *)
Theorem C5_count_never_negative (m : model) (p name : string)
    (ops : list countOp) (k : nat)
    (Hm : inModelsDropdown m)
    (H0 : 0 <= selectedCount m p name)
    (Hmax : selectedCount m p name + lenZ ops <= maxInt)
    (Hk : (k <= length ops)%nat) :
  exists m', updateAll m (countKey <$> take k ops) = Some m'
             ∧ 0 <= selectedCount m' p name.
Proof.
  destruct (countKeys_run (take k ops) m p name Hm H0) as (m' & Hrun & _ & Hc).
  - unfold lenZ in *. rewrite length_take. lia.
  - exists m'. split; [done|lia].
Qed.

(** ** Byte strings *)

Lemma length_append (a b : string) :
  String.length (a +:+ b) = (String.length a + String.length b)%nat.
Proof.
  induction a as [|x a IH]; simpl; [done|].
  unfold String.app in *. simpl. by rewrite IH.
Qed.

Lemma len_append (a b : string) : Str.len (a +:+ b) = Str.len a + Str.len b.
Proof. unfold Str.len. rewrite length_append. lia. Qed.

Lemma len_nonneg (s : string) : 0 <= Str.len s.
Proof. unfold Str.len. lia. Qed.

Lemma firstn_append (a b : string) : Str.firstn (String.length a) (a +:+ b) = a.
Proof.
  induction a as [|x a IH]; simpl.
  - by destruct b.
  - unfold String.app in *. simpl. by rewrite IH.
Qed.

Lemma skipn_append (a b : string) : Str.skipn (String.length a) (a +:+ b) = b.
Proof.
  induction a as [|x a IH]; simpl; [by destruct b|].
  unfold String.app in *. simpl. by rewrite IH.
Qed.

Lemma firstn_all (s : string) : Str.firstn (String.length s) s = s.
Proof. induction s as [|x s IH]; simpl; [done|]. by rewrite IH. Qed.

Lemma firstn_skipn (n : nat) (s : string) : Str.firstn n s +:+ Str.skipn n s = s.
Proof.
  revert s. induction n as [|n IH]; intros [|x s]; simpl; try done.
  unfold String.app in *. simpl. by rewrite IH.
Qed.

Lemma length_firstn (n : nat) (s : string) :
  (n <= String.length s)%nat -> String.length (Str.firstn n s) = n.
Proof.
  revert s. induction n as [|n IH]; intros [|x s] H; simpl in *; try done; try lia.
  rewrite IH; lia.
Qed.

Lemma upto_append (a b : string) : Str.upto (a +:+ b) (Str.len a) = Some a.
Proof.
  unfold Str.upto, Str.slice.
  pose proof (len_append a b). pose proof (len_nonneg a). pose proof (len_nonneg b).
  assert ((0 <=? 0) && (0 <=? Str.len a) && (Str.len a <=? Str.len (a +:+ b)) = true)
    as -> by (rewrite !andb_true_iff, !Z.leb_le; lia).
  rewrite Z.sub_0_r. simpl. unfold Str.len. rewrite Nat2Z.id.
  by rewrite firstn_append.
Qed.

Lemma from_append (a b : string) : Str.from (a +:+ b) (Str.len a) = Some b.
Proof.
  unfold Str.from, Str.slice.
  pose proof (len_append a b) as Hl. pose proof (len_nonneg a). pose proof (len_nonneg b).
  assert ((0 <=? Str.len a) && (Str.len a <=? Str.len (a +:+ b))
          && (Str.len (a +:+ b) <=? Str.len (a +:+ b)) = true)
    as -> by (rewrite !andb_true_iff, !Z.leb_le; lia).
  rewrite Hl. replace (Str.len a + Str.len b - Str.len a) with (Str.len b) by lia.
  unfold Str.len. rewrite !Nat2Z.id. rewrite skipn_append. by rewrite firstn_all.
Qed.

(** A string splits at every position inside it. *)
Lemma split_at (s : string) (c : Z) :
  0 <= c <= Str.len s -> exists a b, s = a +:+ b ∧ Str.len a = c.
Proof.
  intros H. exists (Str.firstn (Z.to_nat c) s), (Str.skipn (Z.to_nat c) s).
  split; [by rewrite firstn_skipn|].
  unfold Str.len in *. rewrite length_firstn; lia.
Qed.

(** ** The line buffer *)

Lemma nthZ_typedRows rows r a t b :
  0 <= r < lenZ rows -> nthZ (typedRows rows r a t b) r = Some ((a +:+ t) +:+ b).
Proof.
  intros H. unfold nthZ, typedRows, lenZ in *.
  destruct (0 <=? r) eqn:E; [|apply Z.leb_gt in E; lia].
  apply list_lookup_insert_eq. lia.
Qed.

Lemma setRow_typedRows rows r a t b v :
  0 <= r < lenZ rows ->
  setRow (typedRows rows r a t b) r v = Some (<[Z.to_nat r := v]> rows).
Proof.
  intros H. unfold setRow, typedRows, lenZ in *. rewrite length_insert.
  assert ((0 <=? r) && (r <? Z.of_nat (length rows)) = true) as ->
    by (rewrite andb_true_iff, Z.leb_le, Z.ltb_lt; lia).
  by rewrite list_insert_insert_eq.
Qed.

Lemma insertText_typed rows r a t b u :
  0 <= r < lenZ rows ->
  insertText (typedRows rows r a t b) (typedCursor r a t) u
  = Some (typedRows rows r a (t +:+ u) b, typedCursor r a (t +:+ u)).
Proof.
  intros H. unfold insertText, typedCursor. simpl.
  rewrite nthZ_typedRows by done. simpl.
  rewrite upto_append, from_append. simpl.
  rewrite setRow_typedRows by done. simpl.
  unfold typedRows. rewrite <- !append_assoc, <- len_append. done.
Qed.

Lemma backspace_typed rows r a t c b :
  0 <= r < lenZ rows ->
  backspace (typedRows rows r a (t +:+ Str.of_byte c) b)
    (typedCursor r a (t +:+ Str.of_byte c))
  = Some (typedRows rows r a t b, typedCursor r a t).
Proof.
  intros H. unfold backspace, typedCursor. simpl.
  assert (Str.len (a +:+ t +:+ Str.of_byte c) = Str.len (a +:+ t) + 1) as Hl.
  { rewrite <- append_assoc, len_append. done. }
  pose proof (len_nonneg (a +:+ t)).
  destruct (0 <? Str.len (a +:+ t +:+ Str.of_byte c)) eqn:E;
    [|apply Z.ltb_ge in E; lia].
  rewrite nthZ_typedRows by done. simpl.
  rewrite Hl. replace (Str.len (a +:+ t) + 1 - 1) with (Str.len (a +:+ t)) by lia.
  rewrite <- (append_assoc a t), (append_assoc (a +:+ t)).
  rewrite upto_append. simpl.
  rewrite <- (append_assoc (a +:+ t)), <- Hl.
  rewrite <- (append_assoc a t), from_append. simpl.
  rewrite setRow_typedRows by done. done.
Qed.

Lemma typed_nothing rows cur a b :
  nthZ rows (row cur) = Some (a +:+ b) -> 0 <= row cur -> col cur = Str.len a ->
  typedRows rows (row cur) a EmptyString b = rows
  ∧ typedCursor (row cur) a EmptyString = cur.
Proof.
  intros Hn Hr Hc. unfold typedRows, typedCursor. rewrite append_nil_r. split.
  - apply list_insert_id. unfold nthZ in Hn.
    destruct (0 <=? row cur); [done|discriminate].
  - destruct cur. simpl in *. by rewrite Hc.
Qed.

Lemma nthZ_Some_range {A} (l : list A) i x : nthZ l i = Some x -> 0 <= i < lenZ l.
Proof.
  unfold nthZ, lenZ. destruct (0 <=? i) eqn:E; [|discriminate].
  intros Hl. apply lookup_lt_Some in Hl. apply Z.leb_le in E. lia.
Qed.

Local Arguments Update : simpl never.

Lemma updateAll_app m l1 l2 :
  updateAll m (l1 ++ l2) = m1 ← updateAll m l1; updateAll m1 l2.
Proof.
  revert m. induction l1 as [|x l1 IH]; intros m; simpl; [done|].
  destruct (Update m x) as [[m1 c]|]; simpl; [apply IH|done].
Qed.

Lemma typedModel_again m r a t b t' :
  set_cursor (typedCursor r a t')
    (set_input (typedRows (input m) r a t' b) (typedModel m r a t b))
  = typedModel m r a t' b.
Proof. reflexivity. Qed.

Lemma Update_runeKey m rr a t b r :
  editingPrompt m -> 0 <= rr < lenZ (input m) ->
  Update (typedModel m rr a t b) (runeKey r)
  = Some (typedModel m rr a (t +:+ Str.encodeRune r) b, None).
Proof.
  intros (Hs & Hf & Hp) Hr. unfold Update, runeKey.
  change (screen (typedModel m rr a t b)) with (screen m). rewrite Hs. simpl.
  unfold updateSetup, wordMotion.
  change (pendingEsc (typedModel m rr a t b)) with (pendingEsc m). rewrite Hp.
  simpl. unfold setupRunes.
  rewrite decide_True by (unfold lenZ; simpl; lia).
  change (pendingEsc (typedModel m rr a t b)) with (pendingEsc m). rewrite Hp.
  change (focus (typedModel m rr a t b)) with (focus m). rewrite Hf.
  change (input (typedModel m rr a t b)) with (typedRows (input m) rr a t b).
  change (cursor (typedModel m rr a t b)) with (typedCursor rr a t).
  rewrite insertText_typed by done. simpl.
  rewrite append_nil_r. by rewrite typedModel_again.
Qed.

Lemma Update_backspaceKey m rr a t c b :
  editingPrompt m -> 0 <= rr < lenZ (input m) ->
  Update (typedModel m rr a (t +:+ Str.of_byte c) b) backspaceKey
  = Some (typedModel m rr a t b, None).
Proof.
  intros (Hs & Hf & Hp) Hr. unfold Update, backspaceKey.
  set (m1 := typedModel m rr a (t +:+ Str.of_byte c) b).
  change (screen m1) with (screen m). rewrite Hs. simpl.
  unfold updateSetup, wordMotion. simpl. unfold setupBackspace.
  change (focus m1) with (focus m). rewrite Hf.
  change (input m1) with (typedRows (input m) rr a (t +:+ Str.of_byte c) b).
  change (cursor m1) with (typedCursor rr a (t +:+ Str.of_byte c)).
  rewrite backspace_typed by done. simpl.
  subst m1. by rewrite typedModel_again.
Qed.

Lemma typed_run m rr a b runes : forall t,
  editingPrompt m -> 0 <= rr < lenZ (input m) ->
  updateAll (typedModel m rr a t b) (runeKey <$> runes)
  = Some (typedModel m rr a (t +:+ Str.encodeRunes runes) b).
Proof.
  induction runes as [|r runes IH]; intros t Hm Hr; simpl.
  - by rewrite append_nil_r.
  - rewrite Update_runeKey by done. simpl.
    rewrite IH by done. by rewrite append_assoc.
Qed.

Lemma erase_run m rr a b u : forall t,
  editingPrompt m -> 0 <= rr < lenZ (input m) ->
  updateAll (typedModel m rr a (t +:+ u) b)
    (replicate (String.length u) backspaceKey)
  = Some (typedModel m rr a t b).
Proof.
  induction u as [|c u IH]; intros t Hm Hr.
  - simpl. by rewrite append_nil_r.
  - change (String.length (String c u)) with (S (String.length u)).
    rewrite replicate_S_end, updateAll_app.
    change (String c u) with (Str.of_byte c +:+ u).
    rewrite <- append_assoc, IH by done. simpl.
    by rewrite Update_backspaceKey.
Qed.

Lemma typedModel_nothing m a b :
  nthZ (input m) (row (cursor m)) = Some (a +:+ b) ->
  col (cursor m) = Str.len a ->
  typedModel m (row (cursor m)) a EmptyString b = m.
Proof.
  intros Hn Hc. unfold typedModel.
  destruct (typed_nothing (input m) (cursor m) a b) as [-> ->]; [done| |done|].
  - apply nthZ_Some_range in Hn. lia.
  - by destruct m.
Qed.

Lemma encodeRunes_ascii runes :
  Forall (fun r => 0 <= r < 128) runes ->
  String.length (Str.encodeRunes runes) = length runes.
Proof.
  induction 1 as [|r runes Hr _ IH]; simpl; [done|].
  rewrite length_append, IH. f_equal.
  unfold Str.encodeRune.
  destruct (r <? 0) eqn:E1; [apply Z.ltb_lt in E1; lia|].
  destruct (1114111 <? r) eqn:E2; [apply Z.ltb_lt in E2; lia|].
  destruct (55296 <=? r) eqn:E3; [apply Z.leb_le in E3; lia|].
  simpl. destruct (r <? 128) eqn:E4; [done|apply Z.ltb_ge in E4; lia].
Qed.

(** C6, counted in bytes.  On the prompt of the Setup screen, with the cursor
    inside the text: typing the runes one at a time and then pressing
    Backspace once for every byte typed brings back the rows and the cursor
    (and the whole state); when every rune is a single-byte (ASCII) rune
    that is as many Backspaces as runes. *)
Theorem C6_type_then_backspace (m : model) (runes : list Z)
    (Hm : editingPrompt m)
    (Hv : validBuffer (input m) (cursor m)) :
  updateAll m ((runeKey <$> runes)
               ++ replicate (String.length (Str.encodeRunes runes)) backspaceKey)
  = Some m
  ∧ (Forall (fun r => 0 <= r < 128) runes ->
     updateAll m ((runeKey <$> runes) ++ replicate (length runes) backspaceKey)
     = Some m).
Proof.
  assert (updateAll m ((runeKey <$> runes)
            ++ replicate (String.length (Str.encodeRunes runes)) backspaceKey)
          = Some m) as Hmain.
  { destruct Hv as (line & Hline & Hcol).
    destruct (split_at line (col (cursor m)) Hcol) as (a & b & -> & Ha).
    pose proof (nthZ_Some_range _ _ _ Hline) as Hr.
    rewrite <- (typedModel_nothing m a b Hline (eq_sym Ha)) at 1.
    rewrite updateAll_app, typed_run by done. simpl.
    rewrite erase_run by done.
    by rewrite typedModel_nothing. }
  split; [done|]. intros Hascii. by rewrite <- (encodeRunes_ascii runes Hascii).
Qed.

(** ** Autocomplete *)

Lemma filter_Permutation_bool {A} (f : A -> bool) (l l' : list A) :
  l ≡ₚ l' -> List.filter f l ≡ₚ List.filter f l'.
Proof.
  induction 1 as [|x l l' _ IH|x y l|l l1 l2 _ IH1 _ IH2]; simpl.
  - done.
  - destruct (f x); [by constructor|done].
  - destruct (f x), (f y); try done. apply perm_swap.
  - by etrans.
Qed.

Lemma rangeKeys_Permutation (mp : gmap string string) (ks : list string) :
  NoDup ks -> (forall k, is_Some (mp !! k) <-> k ∈ ks) -> rangeKeys mp ≡ₚ ks.
Proof.
  intros Hnd Hks. destruct (rangeKeys_keys mp) as [Hnd' Hin].
  apply NoDup_Permutation; [done..|].
  intros k. rewrite Hin. apply Hks.
Qed.

(** C7. With the instance labels sonnet, sonnet-2 and gpt provisioned, the
    options for the prefix [@son] are exactly [@sonnet] and [@sonnet-2]
    (each once, in the order of the range over the map), and the options
    for [/ne] are exactly [/next]. *)
Theorem C7_autocomplete_options (m : model)
    (Hkeys : forall k, is_Some (modelToWorktree m !! k)
                       <-> k ∈ ["sonnet"; "sonnet-2"; "gpt"]) :
  (exists opts, getAutocompleteOptions m "@son" = Some opts
                ∧ opts ≡ₚ ["@sonnet"; "@sonnet-2"])
  ∧ getAutocompleteOptions m "/ne" = Some ["/next"].
Proof.
  split; [|reflexivity].
  assert (rangeKeys (modelToWorktree m) ≡ₚ ["sonnet"; "sonnet-2"; "gpt"]) as Hp.
  { apply rangeKeys_Permutation; [|done].
    apply (bool_decide_unpack _). vm_compute. exact I. }
  unfold getAutocompleteOptions. simpl. unfold autocompleteCandidates.
  rewrite decide_False.
  - simpl. eexists. split; [done|].
    change ["@sonnet"; "@sonnet-2"]
      with ((fun name => "@" +:+ name) <$>
              List.filter (fun name => Str.HasPrefix name "son")
                ["sonnet"; "sonnet-2"; "gpt"]).
    apply fmap_Permutation. by apply filter_Permutation_bool.
  - apply Permutation_length in Hp. rewrite Hp. done.
Qed.

(** ** Commands of the Iteration screen *)

Lemma cut_append sep a b :
  Str.cut sep a = None -> Str.cut sep (a +:+ String sep b) = Some (a, b).
Proof.
  induction a as [|c a IH]; simpl; intros H.
  - change (EmptyString +:+ String sep b) with (String sep b). simpl.
    by rewrite Ascii.eqb_refl.
  - change (String c a +:+ String sep b) with (String c (a +:+ String sep b)).
    simpl. destruct (Ascii.eqb c sep); [done|].
    destruct (Str.cut sep a) as [[? ?]|]; [done|]. by rewrite IH.
Qed.

Lemma insertNewline_valid rows cur :
  validBuffer rows cur -> is_Some (insertNewline rows cur).
Proof.
  intros (line & Hline & Hcol).
  destruct (split_at line (col cur) Hcol) as (a & b & -> & Ha).
  pose proof (nthZ_Some_range _ _ _ Hline) as Hr.
  unfold insertNewline. rewrite Hline. simpl.
  rewrite <- Ha, upto_append, from_append. simpl.
  unfold setRow.
  assert ((0 <=? row cur) && (row cur <? lenZ rows) = true) as ->
    by (rewrite andb_true_iff, Z.leb_le, Z.ltb_lt; lia).
  simpl. done.
Qed.

Lemma Update_enter_iteration m runes alt :
  screen m = screenIteration -> autocompleting m = false ->
  Update m (enterKey runes alt) = submitCommand m.
Proof.
  intros Hs Ha. unfold Update, enterKey. rewrite Hs. simpl.
  unfold updateIteration. simpl. unfold iterationEnter. by rewrite Ha.
Qed.

(** What [submitCommand] does with a line [@label text]. *)
Lemma submitCommand_followUp m label text :
  currentLine m = "@" +:+ label +:+ " " +:+ text ->
  Str.cut Str.space label = None ->
  submitCommand m
  = match modelToPaneID m !! label with
    | Some paneID =>
        let m1 := set_iterationCursor (Cursor 0 0)
                    (set_iterationInput [EmptyString]
                       (set_history (pushHistorySlice (history m) text)
                          (set_modelPrompts
                             (<[label := default [] (modelPrompts m !! label) ++ [text]]>
                                (modelPrompts m)) m))) in
        Some (m1, Some (sendToModelPaneCmd paneID label text m1))
    | None =>
        '(rows, cur) ← insertNewline (iterationInput m) (iterationCursor m);
        Some (set_iterationCursor cur (set_iterationInput rows m), None)
    end.
Proof.
  intros Hline Hcut. unfold submitCommand. fold (currentLine m). rewrite Hline.
  change ("@" +:+ label +:+ " " +:+ text)
    with (String "@" (label +:+ String Str.space text)).
  rewrite decide_False by discriminate. simpl.
  unfold Str.SplitN2. simpl.
  rewrite cut_append by done.
  change (Str.TrimPrefix (String "@" label) "@") with label.
  by destruct (modelToPaneID m !! label).
Qed.

(** C8. On the Iteration screen, Enter on the line [@<label> <text>]:
    when no pane is mapped to the label, no prompt log changes, the history
    is left as it is and no command is sent (the line only gets a newline);
    when a pane is mapped to it, the text is appended to the prompt log of
    that label and of no other, it is pushed to the history, and it is sent
    to that pane. *)
Theorem C8_followUp (m : model) (label text : string) (runes : list Z) (alt : bool)
    (Hscreen : screen m = screenIteration)
    (Hauto : autocompleting m = false)
    (Hline : currentLine m = "@" +:+ label +:+ " " +:+ text)
    (Hlabel : Str.cut Str.space label = None)
    (Hvalid : validBuffer (iterationInput m) (iterationCursor m)) :
  (modelToPaneID m !! label = None ->
   exists m', Update m (enterKey runes alt) = Some (m', None)
              ∧ modelPrompts m' = modelPrompts m
              ∧ history m' = history m
              ∧ screen m' = screenIteration)
  ∧ (forall paneID, modelToPaneID m !! label = Some paneID ->
     exists m', Update m (enterKey runes alt)
                = Some (m', Some (sendToModelPaneCmd paneID label text m'))
                ∧ modelPrompts m' !! label
                  = Some (default [] (modelPrompts m !! label) ++ [text])
                ∧ (forall l, l ≠ label -> modelPrompts m' !! l = modelPrompts m !! l)
                ∧ history m' = pushHistorySlice (history m) text
                ∧ screen m' = screenIteration).
Proof.
  rewrite Update_enter_iteration by done.
  rewrite (submitCommand_followUp m label text) by done.
  split.
  - intros ->.
    destruct (insertNewline_valid _ _ Hvalid) as [[rows cur] ->]. simpl.
    eexists. split; [done|]. done.
  - intros paneID ->. simpl. eexists. split; [done|]. simpl.
    split; [by rewrite lookup_insert_eq|].
    split; [|done]. intros l Hl. by rewrite lookup_insert_ne.
Qed.

(** ** Running commands *)

Section RunLemmas.
Context {W : Type} (answer : W -> extcall -> result * W).

Lemma run_bind {A B} (p : prog A) (f : A -> prog B) (w : W) :
  run answer (p ≫= f) w
  = match run answer p w with
    | (Some a, tr, w1) =>
        let '(b, tr2, w2) := run answer (f a) w1 in (b, tr ++ tr2, w2)
    | (None, tr, w1) => (None, tr, w1)
    end.
Proof.
  revert w. induction p as [a| |c k IH]; intros w.
  - change (Ret a ≫= f) with (f a). simpl. by destruct (run answer (f a) w) as [[? ?] ?].
  - done.
  - change (Call c k ≫= f) with (Call c (fun r => k r ≫= f)). simpl.
    destruct (answer w c) as [r w1]. rewrite IH.
    destruct (run answer (k r) w1) as [[[a|] tr] w2]; [|done].
    by destruct (run answer (f a) w2) as [[? ?] ?].
Qed.

Lemma run_Ret {A} (a : A) (w : W) : run answer (Ret a) w = (Some a, [], w).
Proof. done. Qed.

Lemma run_call (c : extcall) (w : W) :
  run answer (call c) w = (Some (answer w c).1, [(c, (answer w c).1)], (answer w c).2).
Proof. unfold call. simpl. by destruct (answer w c). Qed.

Lemma run_seq_call {B} (c : extcall) (f : result -> prog B) (w : W) :
  run answer (call c ≫= f) w
  = let '(b, tr, w2) := run answer (f (answer w c).1) (answer w c).2 in
    (b, (c, (answer w c).1) :: tr, w2).
Proof. rewrite run_bind, run_call. done. Qed.

Lemma called_app_l c tr1 tr2 : called c tr1 -> called c (tr1 ++ tr2).
Proof. intros [r H]. exists r. apply elem_of_app. by left. Qed.

Lemma called_app_r c tr1 tr2 : called c tr2 -> called c (tr1 ++ tr2).
Proof. intros [r H]. exists r. apply elem_of_app. by right. Qed.

(** A loop whose body never panics does not panic; the calls of each turn
    are in its trace, and what holds of every call of a turn holds of every
    call of the loop. *)
Lemma run_forEach {A} (xs : list A) (body : A -> prog unit)
    (P : A -> list (extcall * result) -> Prop) (Q : extcall * result -> Prop) :
  (forall x w, exists tr w',
     run answer (body x) w = (Some tt, tr, w') ∧ P x tr ∧ Forall Q tr) ->
  (forall x tr1 tr2 tr3, P x tr2 -> P x (tr1 ++ tr2 ++ tr3)) ->
  forall w, exists tr w', run answer (forEach xs body) w = (Some tt, tr, w')
    ∧ (forall x, x ∈ xs -> P x tr) ∧ Forall Q tr.
Proof.
  intros Hbody Hmono. induction xs as [|x xs IH]; intros w.
  - exists [], w. split; [done|]. split; [|done]. intros ? H. inversion H.
  - change (forEach (x :: xs) body) with (body x ≫= fun _ => forEach xs body).
    rewrite run_bind.
    destruct (Hbody x w) as (tr1 & w1 & -> & HP & HQ1).
    destruct (IH w1) as (tr2 & w2 & -> & Hall & HQ2).
    eexists _, _. split; [done|]. split; [|by apply Forall_app].
    intros y Hy. apply elem_of_cons in Hy as [Heq|Hy].
    + subst y. specialize (Hmono x [] tr1 tr2 HP). done.
    + specialize (Hmono y tr1 tr2 [] (Hall y Hy)). by rewrite app_nil_r in Hmono.
Qed.

(** The loops of Cleanup never panic, and make their calls and no other. *)
Lemma run_killPanes m w :
  exists tr w', run answer (killPanes m) w = (Some tt, tr, w')
    ∧ (forall paneID, paneID ∈ createdPanes m -> called (killPaneCall paneID) tr)
    ∧ Forall (fun e => isCleanupCall e.1 = true) tr.
Proof.
  unfold killPanes.
  apply (run_forEach _ _ (fun paneID tr => called (killPaneCall paneID) tr)).
  - intros x w0. unfold tmuxRunCmd. rewrite run_seq_call, run_Ret.
    eexists _, _. split; [done|]. split; [eexists; left|].
    by repeat constructor.
  - intros x tr1 tr2 tr3 H. by apply called_app_r, called_app_l.
Qed.

Lemma run_removeWorktrees m parentDir w :
  exists tr w', run answer (removeWorktrees m parentDir) w = (Some tt, tr, w')
    ∧ (forall worktree, worktree ∈ createdWorktrees m ->
         called (removeWorktreeCall parentDir worktree) tr
         ∧ called (deleteBranchCall worktree) tr)
    ∧ Forall (fun e => isCleanupCall e.1 = true) tr.
Proof.
  unfold removeWorktrees.
  apply (run_forEach _ _ (fun worktree tr =>
           called (removeWorktreeCall parentDir worktree) tr
           ∧ called (deleteBranchCall worktree) tr)).
  - intros x w0. unfold execRun. rewrite run_seq_call.
    rewrite run_seq_call, run_Ret.
    eexists _, _. split; [done|]. split; [|by repeat constructor].
    split; eexists.
    + left.
    + right. left.
  - intros x tr1 tr2 tr3 [H1 H2].
    split; by apply called_app_r, called_app_l.
Qed.

Lemma called_cons c e tr : called c tr -> called c (e :: tr).
Proof. intros [r H]. exists r. by right. Qed.

Lemma cleanup_calls_only (c : extcall) (r : result) (tr : list (extcall * result)) :
  Forall (fun e => isCleanupCall e.1 = true) tr ->
  isCleanupCall c = false -> (c, r) ∉ tr.
Proof.
  intros Hall Hc Hin. rewrite Forall_forall in Hall.
  specialize (Hall _ Hin). simpl in Hall. congruence.
Qed.

Lemma cleanedUp_tail m parentDir trK trR post :
  (forall paneID, paneID ∈ createdPanes m -> called (killPaneCall paneID) trK) ->
  (forall worktree, worktree ∈ createdWorktrees m ->
     called (removeWorktreeCall parentDir worktree) trR
     ∧ called (deleteBranchCall worktree) trR) ->
  cleanedUp m (trK ++ trR ++ post).
Proof.
  intros HK HR. split.
  - intros p Hp. by apply called_app_l, HK.
  - intros x Hx. destruct (HR x Hx) as [H1 H2]. split.
    + exists parentDir. by apply called_app_r, called_app_l.
    + by apply called_app_r, called_app_l.
Qed.

Lemma cleanedUp_cons m e tr : cleanedUp m tr -> cleanedUp m (e :: tr).
Proof.
  intros [HK HR]. split.
  - intros p Hp. by apply called_cons, HK.
  - intros x Hx. destruct (HR x Hx) as [[pd H1] H2].
    split; [exists pd|]; by apply called_cons.
Qed.

Local Arguments killPanes : simpl never.
Local Arguments removeWorktrees : simpl never.
Local Arguments commitMessageOf : simpl never.
Local Arguments Str.TrimSpace : simpl never.

(** Every call is answered in turn, on both answers. *)
Ltac exec :=
  simpl;
  lazymatch goal with
  | |- context [isOk ?r] => is_var r; destruct r; exec
  | |- context [match ?r with ROk _ => _ | RErr _ => _ end] =>
      is_var r; destruct r; exec
  | |- context [answer ?w ?c] => destruct (answer w c) as [? ?]; exec
  | |- context [orCrash (currentProvider ?m)] => destruct (currentProvider m); exec
  | _ => idtac
  end.

(** An event is not among the events listed. *)
Ltac absent H :=
  repeat (apply elem_of_cons in H as [H|H]; [by inversion H|]);
  try (by apply elem_of_nil in H).

(** What a run of the body of [nextCmd] and [wrapCmd] on a registered
    label amounts to. *)
Lemma mergeCmd_run m label wt what complete w :
  modelToWorktree m !! label = Some wt ->
  let out := outcome answer (mergeCmd m label what complete) w in
  let tr := trace answer (mergeCmd m label what complete) w in
  (succeeded (checkoutCall m) tr -> succeeded (mergeCall wt label) tr ->
   cleanedUp m tr ∧ out = Some (Some complete))
  ∧ (failed (checkoutCall m) tr ∨ failed (mergeCall wt label) tr ->
     nothingCleaned tr ∧ out = Some (Some bailCompleteMsg)).
Proof using W answer filepath_Dir filepath_Join.
  intros Hreg. unfold outcome, trace, mergeCmd. rewrite Hreg.
  unfold isInsideTmux, displayMessage, tmuxRunCmd, execRun.
  unfold succeeded, failed, checkoutCall, mergeCall.
  destruct (decide (default EmptyString (instanceProvider m !! label) = EmptyString
                    ∨ default EmptyString (instanceBaseModel m !! label) = EmptyString)).
  all: exec.
  all: try (rewrite run_bind;
            match goal with
            | |- context [run answer (killPanes ?m0) ?w0] =>
                destruct (run_killPanes m0 w0) as (trK & wK & -> & HK & HKonly)
            end;
            rewrite run_bind;
            match goal with
            | |- context [run answer (removeWorktrees ?m0 ?pd) ?w0] =>
                destruct (run_removeWorktrees m0 pd w0) as (trR & wR & -> & HR & HRonly)
            end;
            exec).
  all: split; [intros [? H1] [? H2]|intros [[? H1]|[? H2]]].
  all: try (absent H1; fail).
  all: try (absent H2; fail).
  all: try (split; [by repeat constructor|done]).
  all: try (split; [|done]; repeat apply cleanedUp_cons;
            by eapply cleanedUp_tail).
  all: exfalso.
  all: try (absent H1; rewrite !elem_of_app in H1;
            destruct H1 as [H1|[H1|H1]];
            [by eapply cleanup_calls_only in H1
            |by eapply cleanup_calls_only in H1
            |absent H1]).
  all: try (absent H2; rewrite !elem_of_app in H2;
            destruct H2 as [H2|[H2|H2]];
            [by eapply cleanup_calls_only in H2
            |by eapply cleanup_calls_only in H2
            |absent H2]).
Qed.

End RunLemmas.

Local Arguments Str.TrimSpace : simpl never.

(** ** Next and Wrap *)

(** C2, for a merge that succeeds.  During Next or Wrap on a registered label: once the
    checkout of the feature branch and the merge have succeeded, Cleanup of
    all instances is carried out (every pane killed, every worktree removed,
    every temporary branch deleted) and the action completes, whatever the
    push answers; if the checkout or the merge fails, the action ends before
    it kills a pane or removes a worktree or a branch. *)
Theorem C2_cleanup_after_checkout_and_merge {W : Type}
    (answer : W -> extcall -> result * W) (w : W)
    (m : model) (label worktree : string)
    (Hreg : modelToWorktree m !! label = Some worktree) :
  let next := trace answer (nextCmd m label) w in
  let wrap := trace answer (wrapCmd m label) w in
  ((succeeded (checkoutCall m) next -> succeeded (mergeCall worktree label) next ->
    cleanedUp m next
    ∧ outcome answer (nextCmd m label) w = Some (Some nextCompleteMsg))
   ∧ (failed (checkoutCall m) next ∨ failed (mergeCall worktree label) next ->
      nothingCleaned next
      ∧ outcome answer (nextCmd m label) w = Some (Some bailCompleteMsg)))
  ∧ ((succeeded (checkoutCall m) wrap -> succeeded (mergeCall worktree label) wrap ->
      cleanedUp m wrap
      ∧ outcome answer (wrapCmd m label) w = Some (Some wrapCompleteMsg))
     ∧ (failed (checkoutCall m) wrap ∨ failed (mergeCall worktree label) wrap ->
        nothingCleaned wrap
        ∧ outcome answer (wrapCmd m label) w = Some (Some bailCompleteMsg))).
Proof.
  split.
  - apply (mergeCmd_run answer m label worktree "Next" nextCompleteMsg w Hreg).
  - apply (mergeCmd_run answer m label worktree "Wrap" wrapCompleteMsg w Hreg).
Qed.

(** What [submitCommand] does with a line [/next <label>] or [/wrap <label>]. *)
Lemma submitCommand_next m rest :
  currentLine m = "/next " +:+ rest -> Str.TrimSpace rest ≠ EmptyString ->
  submitCommand m
  = let m1 := set_progressMsg
                ("Merging and pushing changes from " +:+ Str.TrimSpace rest +:+ "...")
                (set_screen screenProgress m) in
    Some (m1, Some (nextCmd m1 (Str.TrimSpace rest))).
Proof.
  intros Hline Hne. unfold submitCommand. fold (currentLine m). rewrite Hline.
  change ("/next " +:+ rest)
    with (String "/" (String "n" (String "e" (String "x" (String "t" (String " " rest)))))).
  rewrite decide_False.
  2: { destruct rest; discriminate. }
  simpl. change (Str.TrimPrefix _ "/next ") with rest.
  by rewrite decide_False.
Qed.

Lemma submitCommand_wrap m rest :
  currentLine m = "/wrap " +:+ rest -> Str.TrimSpace rest ≠ EmptyString ->
  submitCommand m
  = let m1 := set_progressMsg
                ("Merging and pushing changes from " +:+ Str.TrimSpace rest +:+ "...")
                (set_screen screenProgress m) in
    Some (m1, Some (wrapCmd m1 (Str.TrimSpace rest))).
Proof.
  intros Hline Hne. unfold submitCommand. fold (currentLine m). rewrite Hline.
  change ("/wrap " +:+ rest)
    with (String "/" (String "w" (String "r" (String "a" (String "p" (String " " rest)))))).
  rewrite decide_False.
  2: { destruct rest; discriminate. }
  simpl. change (Str.TrimPrefix _ "/wrap ") with rest.
  by rewrite decide_False.
Qed.

(** The body of [nextCmd] and [wrapCmd] on a label without worktree. *)
Lemma mergeCmd_unknown {W : Type} (answer : W -> extcall -> result * W) (w : W)
    m label what complete :
  modelToWorktree m !! label = None ->
  outcome answer (mergeCmd m label what complete) w = Some (Some bailCompleteMsg)
  ∧ noGit (trace answer (mergeCmd m label what complete) w)
  ∧ nothingCleaned (trace answer (mergeCmd m label what complete) w).
Proof.
  intros Hreg. unfold outcome, trace, mergeCmd. rewrite Hreg.
  unfold isInsideTmux, displayMessage, tmuxRunCmd. simpl.
  destruct (answer w IsInsideTmux) as [[o|e] w1]; simpl.
  - destruct (answer w1 _) as [r w2]. simpl.
    split; [done|]. split; by repeat constructor.
  - split; [done|]. split; by repeat constructor.
Qed.

(** The completion messages: which end the session and which do not. *)
Lemma Update_completion m :
  Update m bailCompleteMsg = Some (m, Quit)
  ∧ Update m wrapCompleteMsg = Some (m, Quit)
  ∧ Update m cleanupCompleteMsg = Some (m, Quit)
  ∧ (exists m', Update m nextCompleteMsg = Some (m', None)
                ∧ screen m' = screenNewTask).
Proof. repeat split. eexists. split; reflexivity. Qed.

(** C10. On the Iteration screen, Enter on [/next <label>] or
    [/wrap <label>] with a label that has no worktree: the command that is
    started ends in [bailCompleteMsg], on which the session quits; it runs
    no git command at all (no commit, no merge, no push) and kills no pane,
    removes no worktree and deletes no branch. *)
Theorem C10_unknown_label_quits {W : Type}
    (answer : W -> extcall -> result * W) (w : W)
    (m : model) (isNext : bool) (rest : string) (runes : list Z) (alt : bool)
    (Hscreen : screen m = screenIteration)
    (Hauto : autocompleting m = false)
    (Hline : currentLine m = (if isNext then "/next " else "/wrap ") +:+ rest)
    (Hlabel : Str.TrimSpace rest ≠ EmptyString)
    (Hunknown : modelToWorktree m !! Str.TrimSpace rest = None) :
  exists m1 cmd,
    Update m (enterKey runes alt) = Some (m1, Some cmd)
    ∧ cmd = (if isNext then nextCmd m1 (Str.TrimSpace rest)
             else wrapCmd m1 (Str.TrimSpace rest))
    ∧ outcome answer cmd w = Some (Some bailCompleteMsg)
    ∧ noGit (trace answer cmd w)
    ∧ nothingCleaned (trace answer cmd w)
    ∧ Update m1 bailCompleteMsg = Some (m1, Quit).
Proof.
  rewrite Update_enter_iteration by done.
  destruct isNext.
  - rewrite (submitCommand_next m rest) by done. simpl.
    eexists _, _. split; [done|]. split; [done|].
    destruct (mergeCmd_unknown answer w
                (set_progressMsg
                   ("Merging and pushing changes from " +:+ Str.TrimSpace rest +:+ "...")
                   (set_screen screenProgress m))
                (Str.TrimSpace rest) "Next" nextCompleteMsg Hunknown)
      as (H1 & H2 & H3).
    done.
  - rewrite (submitCommand_wrap m rest) by done. simpl.
    eexists _, _. split; [done|]. split; [done|].
    destruct (mergeCmd_unknown answer w
                (set_progressMsg
                   ("Merging and pushing changes from " +:+ Str.TrimSpace rest +:+ "...")
                   (set_screen screenProgress m))
                (Str.TrimSpace rest) "Wrap" wrapCompleteMsg Hunknown)
      as (H1 & H2 & H3).
    done.
Qed.

(** ** Launch *)




(** ** The labels of a launch *)

Lemma delivers_bind {A B} (Q' : A -> Prop) (Q : B -> Prop) (p : prog A)
    (f : A -> prog B) :
  delivers Q' p -> (forall a, Q' a -> delivers Q (f a)) -> delivers Q (p ≫= f).
Proof.
  intros Hp Hf. induction p as [a| |c k IH]; simpl in *.
  - by apply Hf.
  - done.
  - intros r. by apply IH.
Qed.


Lemma delivers_run {A} (Q : A -> Prop) (p : prog A) {W : Type}
    (answer : W -> extcall -> result * W) (w : W) :
  delivers Q p -> exists a, outcome answer p w = Some a ∧ Q a.
Proof.
  unfold outcome. revert w. induction p as [a| |c k IH]; intros w Hp; simpl in *.
  - by exists a.
  - done.
  - destruct (answer w c) as [r w1].
    destruct (IH r w1 (Hp r)) as (a & Ha & HQ).
    destruct (run answer (k r) w1) as [[o tr] w2]. simpl in *. by exists a.
Qed.

Section Launch.

Local Arguments shellQuote : simpl never.
Local Arguments instanceLabelOf : simpl never.
Local Arguments Str.TrimSpace : simpl never.
Local Arguments Str.Join : simpl never.
Local Arguments Str.itoa : simpl never.
Local Arguments openPanes : simpl never.




End Launch.


(** ** The completion of a launch *)

(** A launch with a blank branch name opens no pane and runs no git
    command; it reports no instance and an error. *)
Lemma openPanesCmd_blank_branch {W : Type} (answer : W -> extcall -> result * W)
    (w : W) (m : model) (models : list string) :
  Str.TrimSpace (branch m) = EmptyString -> is_Some (currentProvider m) ->
  (exists e, outcome answer (openPanesCmd models m) w
             = Some (Some (panesOpenedMsg (failedOpen e))))
  ∧ nothingLaunched (trace answer (openPanesCmd models m) w).
Proof.
  intros Hb [p Hp]. unfold outcome, trace, openPanesCmd. rewrite Hp, Hb.
  unfold isInsideTmux, displayMessage, tmuxRunCmd. simpl.
  destruct (setDefault m); simpl.
  - destruct (answer w _) as [[?|?] w1]; simpl; destruct (answer w1 _) as [? w2];
      simpl; destruct (answer w2 _) as [[?|?] w3]; simpl;
      try (destruct (answer w3 _) as [? w4]; simpl);
      (split; [by eexists|by repeat constructor]).
  - destruct (answer w _) as [[?|?] w1]; simpl;
      try (destruct (answer w1 _) as [? w2]; simpl);
      (split; [by eexists|by repeat constructor]).
Qed.

(** A completion that reports an error, or no pane, changes nothing. *)
Lemma panesOpened_rejected m msg :
  PanesOpened.err msg ≠ None ∨ PanesOpened.count msg <= 0 ->
  Update m (panesOpenedMsg msg) = Some (m, None).
Proof.
  intros H. unfold Update, panesOpened.
  destruct (PanesOpened.err msg) as [e|]; [done|].
  destruct H as [H|H]; [done|].
  rewrite bool_decide_eq_true_2 by done. simpl.
  destruct (0 <? PanesOpened.count msg) eqn:E; [apply Z.ltb_lt in E; lia|done].
Qed.

Lemma registerInstances_screen msg prompt labels : forall m i,
  0 <= i ->
  i + lenZ labels <= lenZ (PanesOpened.paneIDs msg) ->
  i + lenZ labels <= lenZ (PanesOpened.worktrees msg) ->
  exists m', registerInstances m msg prompt i labels = Some m'
             ∧ screen m' = screen m.
Proof.
  induction labels as [|l labels IH]; intros m i Hi Hp Hw.
  - by exists m.
  - unfold lenZ in *. simpl length in *. cbn [registerInstances].
    destruct (nthZ_in_range (PanesOpened.paneIDs msg) i) as [pane ->];
      [unfold lenZ; lia|].
    destruct (nthZ_in_range (PanesOpened.worktrees msg) i) as [wt ->];
      [unfold lenZ; lia|].
    cbn [mbind option_bind].
    match goal with
    | |- context [registerInstances ?m1 msg prompt (i + 1) labels] =>
        destruct (IH m1 (i + 1)) as (m' & -> & Hs); [lia|lia|lia|]
    end.
    exists m'. split; [done|]. rewrite Hs.
    destruct (nthZ (PanesOpened.providers msg) i),
      (nthZ (PanesOpened.baseModels msg) i); done.
Qed.

(** A completion without error and with at least one pane moves the
    session to the Iteration screen. *)
Lemma panesOpened_accepted m msg :
  PanesOpened.err msg = None -> 0 < PanesOpened.count msg ->
  lenZ (PanesOpened.modelNames msg) <= lenZ (PanesOpened.paneIDs msg) ->
  lenZ (PanesOpened.modelNames msg) <= lenZ (PanesOpened.worktrees msg) ->
  exists m', Update m (panesOpenedMsg msg) = Some (m', None)
             ∧ screen m' = screenIteration.
Proof.
  intros He Hc Hp Hw. unfold Update, panesOpened. rewrite He.
  rewrite bool_decide_eq_true_2 by done.
  destruct (0 <? PanesOpened.count msg) eqn:E; [|apply Z.ltb_ge in E; lia].
  cbn [andb].
  match goal with
  | |- context [registerInstances ?m1 msg ?pr 0 ?ls] =>
      destruct (registerInstances_screen msg pr ls m1 0) as (m' & -> & Hs);
        [lia|lia|lia|]
  end.
  exists m'. split; [done|]. rewrite Hs. done.
Qed.

(** ** Launch in any world *)

Section AnyLaunch.
Context {W : Type} (answer : W -> extcall -> result * W).

Local Arguments shellQuote : simpl never.
Local Arguments instanceLabelOf : simpl never.
Local Arguments Str.Join : simpl never.
Local Arguments Str.itoa : simpl never.

Lemma run_openPane_balanced m branchName st baseName w st' tr w' :
  run answer (openPane m branchName st baseName) w = (Some st', tr, w') ->
  balanced st -> balanced st'.
Proof.
  unfold openPane, identifierFor, tmuxRunCmd. simpl.
  destruct (answer w Getwd) as [r w1].
  destruct (currentProvider m) as [p|]; simpl; [|discriminate].
  destruct (answer w1 _) as [[out|e] w2]; simpl.
  - intros [= <- _ _] [H1 H2]. unfold balanced. simpl.
    rewrite !length_app, H1, H2. done.
  - intros [= <- _ _] H. exact H.
Qed.

Lemma run_openPanes_balanced m branchName models : forall st w st' tr w',
  run answer (openPanes m branchName st models) w = (Some st', tr, w') ->
  balanced st -> balanced st'.
Proof.
  induction models as [|baseName rest IH]; intros st w st' tr w'.
  - simpl. by intros [= <- _ _].
  - change (openPanes m branchName st (baseName :: rest))
      with (openPane m branchName st baseName
            ≫= fun st1 => openPanes m branchName st1 rest).
    rewrite run_bind.
    destruct (run answer (openPane m branchName st baseName) w)
      as [[[st1|] tr1] w1] eqn:E1; [|discriminate].
    destruct (run answer (openPanes m branchName st1 rest) w1)
      as [[o2 tr2] w2] eqn:E2.
    intros [= -> _ _] Hb.
    eapply IH; [exact E2|]. by eapply run_openPane_balanced.
Qed.

(** Whatever the world answers, the message of a launch has a pane and a
    worktree for every label. *)
Lemma run_openPanesCmd_balanced m models w msg :
  outcome answer (openPanesCmd models m) w = Some (Some (panesOpenedMsg msg)) ->
  lenZ (PanesOpened.modelNames msg) <= lenZ (PanesOpened.paneIDs msg)
  ∧ lenZ (PanesOpened.modelNames msg) <= lenZ (PanesOpened.worktrees msg).
Proof.
  unfold outcome, openPanesCmd. rewrite run_bind.
  match goal with
  | |- context [run answer (if setDefault m then ?a else ?b) w] =>
      destruct (run answer (if setDefault m then a else b) w)
        as [[[u|] tr0] w0]; [|discriminate]
  end.
  unfold isInsideTmux, displayMessage, tmuxRunCmd, execRun. simpl.
  destruct (answer w0 IsInsideTmux) as [[o|e] w1]; simpl.
  2: { destruct (answer w1 _) as [? w2]. simpl.
       intros [= <-]. unfold lenZ. simpl. lia. }
  destruct (decide (Str.TrimSpace (branch m) = EmptyString)); simpl.
  { intros [= <-]. unfold lenZ. simpl. lia. }
  destruct (answer w1 _) as [? w2]. simpl.
  destruct (answer w2 _) as [? w3]. simpl.
  destruct (answer w3 _) as [[o3|e3] w4]; simpl.
  2: { intros [= <-]. unfold lenZ. simpl. lia. }
  rewrite run_bind.
  match goal with
  | |- context [run answer (openPanes m ?b ?st models) w4] =>
      destruct (run answer (openPanes m b st models) w4)
        as [[[st'|] tr'] w'] eqn:E; [|discriminate];
      pose proof (run_openPanes_balanced m b models st w4 st' tr' w' E) as Hb
  end.
  simpl.
  destruct (answer w' _) as [? w5]. simpl.
  destruct (answer w5 _) as [? w6]. simpl.
  destruct (answer w6 _) as [? w7]. simpl.
  intros [= <-]. simpl. destruct Hb as [H1 H2]; [by split|].
  unfold lenZ. lia.
Qed.

End AnyLaunch.

(** With no pane and no worktree registered, Cleanup kills no pane, removes
    no worktree and deletes no branch, whatever the world answers. *)
Lemma cleanupCmd_nothing_registered {W : Type}
    (answer : W -> extcall -> result * W) (w : W) (m : model) :
  createdPanes m = [] -> createdWorktrees m = [] ->
  nothingCleaned (trace answer (cleanupCmd m) w).
Proof.
  intros Hp Hw.
  unfold trace, cleanupCmd, killPanes, removeWorktrees, isInsideTmux,
    displayMessage, tmuxRunCmd.
  rewrite Hp, Hw. simpl.
  destruct (answer w IsInsideTmux) as [[o|e] w1]; simpl;
    [|by repeat constructor].
  destruct (answer w1 Getwd) as [[cwd|e] w2]; simpl; by repeat constructor.
Qed.

(** The parts of the launch completion that hold.  A launch with a blank branch name
    opens no pane, runs no git command and reports no instance; a
    completion that reports no instance leaves the session as it is (on the
    Setup screen, nothing registered); a completion that reports no error
    and at least one instance moves the session to the Iteration screen. *)
Theorem C9_launch_completion {W : Type} (answer : W -> extcall -> result * W)
    (w : W) (m now : model) (models : list string) (msg : PanesOpened.t)
    (Hdone : outcome answer (openPanesCmd models m) w
             = Some (Some (panesOpenedMsg msg)))
    (Hprov : is_Some (currentProvider m)) :
  (Str.TrimSpace (branch m) = EmptyString ->
   nothingLaunched (trace answer (openPanesCmd models m) w)
   ∧ PanesOpened.count msg = 0
   ∧ Update now (panesOpenedMsg msg) = Some (now, None))
  ∧ (PanesOpened.count msg <= 0 ->
     Update now (panesOpenedMsg msg) = Some (now, None))
  ∧ (PanesOpened.err msg = None -> 0 < PanesOpened.count msg ->
     exists m', Update now (panesOpenedMsg msg) = Some (m', None)
                ∧ screen m' = screenIteration).
Proof.
  split; [|split].
  - intros Hb.
    destruct (openPanesCmd_blank_branch answer w m models Hb Hprov) as [[e He] Hn].
    rewrite He in Hdone. injection Hdone as <-.
    split; [exact Hn|]. split; [reflexivity|].
    apply panesOpened_rejected. by left.
  - intros Hc. apply panesOpened_rejected. by right.
  - intros He Hc.
    destruct (run_openPanesCmd_balanced answer m models w msg Hdone) as [H1 H2].
    by apply panesOpened_accepted.
Qed.

(** * Further properties *)

(** ** Scanning a line *)

Lemma get_in_range (s : string) : forall n : nat,
  (n < String.length s)%nat -> is_Some (String.get n s).
Proof.
  induction s as [|c s IH]; intros n H; simpl in *; [lia|].
  destruct n as [|n]; [by eexists|]. apply IH. lia.
Qed.

Lemma get_out_of_range (s : string) : forall n : nat,
  (String.length s <= n)%nat -> String.get n s = None.
Proof.
  induction s as [|c s IH]; intros n H; simpl in *; [done|].
  destruct n as [|n]; [lia|]. apply IH. lia.
Qed.

Lemma at_in_range line j : 0 <= j < Str.len line -> is_Some (Str.at_ line j).
Proof.
  unfold Str.at_, Str.len. intros H.
  destruct (0 <=? j) eqn:E; [|apply Z.leb_gt in E; lia].
  apply get_in_range. lia.
Qed.

Lemma at_out_of_range line j : j < 0 ∨ Str.len line <= j -> Str.at_ line j = None.
Proof.
  unfold Str.at_, Str.len. intros H.
  destruct (0 <=? j) eqn:E; [|done]. apply Z.leb_le in E.
  apply get_out_of_range. lia.
Qed.

Lemma at_Some_range line j c : Str.at_ line j = Some c -> 0 <= j < Str.len line.
Proof.
  intros H. destruct (decide (0 <= j < Str.len line)) as [|Hn]; [done|].
  rewrite at_out_of_range in H by lia. done.
Qed.

Lemma scanLeft_spec p line (n : nat) :
  (n <= String.length line)%nat ->
  exists i, scanLeft p line n = Some i ∧ 0 <= i <= Z.of_nat n
    ∧ (forall j, i <= j < Z.of_nat n -> byteIs p line j)
    ∧ (i = 0 ∨ byteIs (fun c => negb (p c)) line (i - 1)).
Proof.
  induction n as [|n IH]; intros Hn.
  - exists 0. simpl. split; [done|]. split; [lia|]. split; [intros; lia|by left].
  - cbn [scanLeft].
    destruct (at_in_range line (Z.of_nat n)) as [c Hc]; [unfold Str.len; lia|].
    rewrite Hc. simpl. destruct (p c) eqn:Hp.
    + destruct IH as (i & Hi & Hr & Hall & Hstop); [lia|].
      exists i. split; [done|]. split; [lia|]. split; [|done].
      intros j Hj. destruct (decide (j = Z.of_nat n)) as [->|Hne].
      * by exists c.
      * apply Hall. lia.
    + exists (Z.of_nat (S n)). split; [done|]. split; [lia|]. split; [intros; lia|].
      right. exists c. replace (Z.of_nat (S n) - 1) with (Z.of_nat n) by lia.
      by rewrite Hp.
Qed.

Lemma scanLeft_out_of_range p line (n : nat) :
  (String.length line < n)%nat -> scanLeft p line n = None.
Proof.
  destruct n as [|n]; [lia|]. intros H. cbn [scanLeft].
  rewrite at_out_of_range; [done|]. unfold Str.len. lia.
Qed.

Lemma scanRight_spec p line (fuel : nat) : forall i,
  0 <= i -> i + Z.of_nat fuel <= Str.len line ->
  exists k, scanRight p line i fuel = Some k ∧ i <= k <= i + Z.of_nat fuel
    ∧ (forall j, i <= j < k -> byteIs p line j)
    ∧ (k = i + Z.of_nat fuel ∨ byteIs (fun c => negb (p c)) line k).
Proof.
  induction fuel as [|fuel IH]; intros i Hi Hn.
  - exists i. simpl. split; [done|]. split; [lia|]. split; [intros; lia|left; lia].
  - cbn [scanRight].
    destruct (at_in_range line i) as [c Hc]; [lia|].
    rewrite Hc. simpl. destruct (p c) eqn:Hp.
    + destruct (IH (i + 1)) as (k & Hk & Hr & Hall & Hstop); [lia|lia|].
      exists k. split; [done|]. split; [lia|]. split.
      * intros j Hj. destruct (decide (j = i)) as [->|Hne]; [by exists c|].
        apply Hall. lia.
      * destruct Hstop as [->|Hs]; [left; lia|by right].
    + exists i. split; [done|]. split; [lia|]. split; [intros; lia|].
      right. exists c. by rewrite Hp.
Qed.

Lemma isWordByte_negb c : negb (isWordByte c) = isSpaceByte c.
Proof. unfold isWordByte. by rewrite negb_involutive. Qed.

Lemma byteIs_ext p q line j :
  (forall c, p c = q c) -> byteIs p line j -> byteIs q line j.
Proof. intros H (c & Hc & Hp). exists c. by rewrite <- H. Qed.

Lemma byteIs_excl line j :
  byteIs isSpaceByte line j -> byteIs isWordByte line j -> False.
Proof.
  intros (c & Hc & Hs) (c' & Hc' & Hw). rewrite Hc in Hc'. injection Hc' as <-.
  unfold isWordByte in Hw. rewrite Hs in Hw. done.
Qed.

Lemma wordLeft_inside line col :
  0 < col <= Str.len line ->
  exists i k, wordLeft line col = Some i ∧ 0 <= i <= k ∧ k <= col ∧ i < col
    ∧ (forall j, i <= j < k -> byteIs isWordByte line j)
    ∧ (forall j, k <= j < col -> byteIs isSpaceByte line j)
    ∧ (i = 0 ∨ byteIs isSpaceByte line (i - 1)).
Proof.
  intros Hc. unfold wordLeft.
  destruct (col <=? 0) eqn:E; [apply Z.leb_le in E; lia|]. clear E.
  destruct (scanLeft_spec isSpaceByte line (Z.to_nat col))
    as (k & Hk & Hkr & Hsp & Hkstop); [unfold Str.len in Hc; lia|].
  rewrite Hk. simpl. rewrite Z2Nat.id in Hkr, Hsp by lia.
  destruct (scanLeft_spec isWordByte line (Z.to_nat k))
    as (i & Hi & Hir & Hw & Histop); [unfold Str.len in Hc; lia|].
  rewrite Z2Nat.id in Hir, Hw by lia.
  exists i, k. split; [done|]. split; [lia|]. split; [lia|].
  assert (i < col) as Hlt.
  { destruct (decide (k < col)) as [|Hkc]; [lia|].
    assert (k = col) as -> by lia.
    destruct Hkstop as [->|Hs]; [lia|].
    destruct (decide (i < col)) as [|Hic]; [done|].
    assert (i = col) as -> by lia.
    destruct Histop as [->|Hs']; [lia|].
    destruct Hs as (c & Hc1 & Hp1), Hs' as (c' & Hc2 & Hp2).
    rewrite Hc1 in Hc2. injection Hc2 as <-.
    unfold isWordByte in Hp2. rewrite negb_involutive in Hp2.
    rewrite Hp2 in Hp1. done. }
  split; [done|]. split; [done|]. split; [done|].
  destruct Histop as [->|Hs]; [by left|right].
  eapply byteIs_ext; [|exact Hs]. apply isWordByte_negb.
Qed.

Lemma wordLeft_None line col : wordLeft line col = None <-> Str.len line < col.
Proof.
  split.
  - intros H. destruct (decide (Str.len line < col)) as [|Hn]; [done|].
    destruct (decide (col <= 0)) as [H0|H0].
    + unfold wordLeft in H. destruct (col <=? 0) eqn:E; [done|].
      apply Z.leb_gt in E. lia.
    + destruct (wordLeft_inside line col) as (i & k & Hi & _); [lia|].
      rewrite Hi in H. done.
  - intros H. unfold wordLeft. pose proof (len_nonneg line).
    destruct (col <=? 0) eqn:E; [apply Z.leb_le in E; lia|].
    rewrite scanLeft_out_of_range; [done|]. unfold Str.len in *. lia.
Qed.

(** [wordLeft]: at or left of the first column the result is column 0; past
    the end of the line the index expression panics; inside the line the
    cursor moves left, over a run of blanks and then over a run of word
    bytes, and stops at the start of the line or right after a blank. *)
Theorem wordLeft_lands (line : string) (col : Z) :
  (wordLeft line col = None <-> Str.len line < col)
  ∧ (col <= 0 -> wordLeft line col = Some 0)
  ∧ (0 < col <= Str.len line ->
     exists i k, wordLeft line col = Some i ∧ 0 <= i <= k ∧ k <= col ∧ i < col
       ∧ (forall j, i <= j < k -> byteIs isWordByte line j)
       ∧ (forall j, k <= j < col -> byteIs isSpaceByte line j)
       ∧ (i = 0 ∨ byteIs isSpaceByte line (i - 1))).
Proof.
  split; [apply wordLeft_None|]. split; [|apply wordLeft_inside].
  intros H. unfold wordLeft. destruct (col <=? 0) eqn:E; [done|].
  apply Z.leb_gt in E. lia.
Qed.

Lemma wordRight_inside line col :
  0 <= col < Str.len line ->
  exists i k, wordRight line col = Some i ∧ col <= k ∧ k <= i <= Str.len line
    ∧ col < i
    ∧ (forall j, col <= j < k -> byteIs isSpaceByte line j)
    ∧ (forall j, k <= j < i -> byteIs isWordByte line j)
    ∧ (i = Str.len line ∨ byteIs isSpaceByte line i).
Proof.
  intros Hc. unfold wordRight.
  destruct (Str.len line <=? col) eqn:E; [apply Z.leb_le in E; lia|]. clear E.
  destruct (scanRight_spec isSpaceByte line (Z.to_nat (Str.len line - col)) col)
    as (k & Hk & Hkr & Hsp & Hkstop); [lia|lia|].
  rewrite Hk. simpl. rewrite Z2Nat.id in Hkr, Hkstop by lia.
  destruct (scanRight_spec isWordByte line (Z.to_nat (Str.len line - k)) k)
    as (i & Hi & Hir & Hw & Histop); [lia|lia|].
  rewrite Z2Nat.id in Hir, Histop by lia.
  exists i, k. split; [done|]. split; [lia|]. split; [lia|].
  assert (col < i) as Hlt.
  { destruct (decide (col < k)) as [|Hkc]; [lia|].
    assert (k = col) as -> by lia.
    destruct Hkstop as [?|Hs]; [lia|].
    destruct (decide (col < i)) as [|Hic]; [done|].
    assert (i = col) as -> by lia.
    destruct Histop as [?|Hs']; [lia|].
    destruct Hs as (c & Hc1 & Hp1), Hs' as (c' & Hc2 & Hp2).
    rewrite Hc1 in Hc2. injection Hc2 as <-.
    unfold isWordByte in Hp2. rewrite negb_involutive in Hp2.
    rewrite Hp2 in Hp1. done. }
  split; [done|]. split; [done|]. split; [done|].
  destruct Histop as [?|Hs]; [left; lia|right].
  eapply byteIs_ext; [|exact Hs]. apply isWordByte_negb.
Qed.

Lemma wordRight_None line col : wordRight line col = None <-> col < 0.
Proof.
  pose proof (len_nonneg line) as Hl. split.
  - intros H. destruct (decide (col < 0)) as [|Hn]; [done|].
    destruct (decide (Str.len line <= col)) as [H0|H0].
    + unfold wordRight in H. destruct (Str.len line <=? col) eqn:E; [done|].
      apply Z.leb_gt in E. lia.
    + destruct (wordRight_inside line col) as (i & k & Hi & _); [lia|].
      rewrite Hi in H. done.
  - intros H. unfold wordRight.
    destruct (Str.len line <=? col) eqn:E; [apply Z.leb_le in E; lia|].
    destruct (Z.to_nat (Str.len line - col)) as [|fuel] eqn:Ef; [lia|].
    cbn [scanRight]. rewrite at_out_of_range by lia. done.
Qed.

(** [wordRight]: at or past the end of the line the result is the end of
    the line; left of the first column the index expression panics; inside
    the line the cursor moves right, over a run of blanks and then over a
    run of word bytes, and stops at the end of the line or on a blank. *)
Theorem wordRight_lands (line : string) (col : Z) :
  (wordRight line col = None <-> col < 0)
  ∧ (Str.len line <= col -> wordRight line col = Some (Str.len line))
  ∧ (0 <= col < Str.len line ->
     exists i k, wordRight line col = Some i ∧ col <= k ∧ k <= i <= Str.len line
       ∧ col < i
       ∧ (forall j, col <= j < k -> byteIs isSpaceByte line j)
       ∧ (forall j, k <= j < i -> byteIs isWordByte line j)
       ∧ (i = Str.len line ∨ byteIs isSpaceByte line i)).
Proof.
  split; [apply wordRight_None|]. split; [|apply wordRight_inside].
  intros H. unfold wordRight. destruct (Str.len line <=? col) eqn:E; [done|].
  apply Z.leb_gt in E. lia.
Qed.

(** ** Edits keep the cursor inside the text *)

Lemma slices_in_range line c :
  0 <= c <= Str.len line ->
  exists a b, line = a +:+ b ∧ Str.len a = c
    ∧ Str.upto line c = Some a ∧ Str.from line c = Some b.
Proof.
  intros H. destruct (split_at line c H) as (a & b & -> & Ha).
  exists a, b. rewrite <- Ha. by rewrite upto_append, from_append.
Qed.

Lemma slice_out_of_range line i j :
  i < 0 ∨ j < i ∨ Str.len line < j -> Str.slice line i j = None.
Proof.
  intros H. unfold Str.slice.
  destruct ((0 <=? i) && (i <=? j) && (j <=? Str.len line)) eqn:E; [|done].
  rewrite !andb_true_iff, !Z.leb_le in E. lia.
Qed.

Lemma setRow_in_range rows i v :
  0 <= i < lenZ rows -> setRow rows i v = Some (<[Z.to_nat i := v]> rows).
Proof.
  intros H. unfold setRow.
  assert ((0 <=? i) && (i <? lenZ rows) = true) as ->
    by (rewrite andb_true_iff, Z.leb_le, Z.ltb_lt; lia).
  done.
Qed.

Lemma nthZ_insert_eq {A} (l : list A) i v :
  0 <= i < lenZ l -> nthZ (<[Z.to_nat i := v]> l) i = Some v.
Proof.
  intros H. unfold nthZ, lenZ in *.
  destruct (0 <=? i) eqn:E; [|apply Z.leb_gt in E; lia].
  apply list_lookup_insert_eq. lia.
Qed.

Lemma nthZ_lookup {A} (l : list A) i x :
  nthZ l i = Some x <-> 0 <= i ∧ l !! Z.to_nat i = Some x.
Proof.
  unfold nthZ. destruct (0 <=? i) eqn:E.
  - apply Z.leb_le in E. split; [by split|by intros [_ ?]].
  - apply Z.leb_gt in E. split; [done|]. intros [? _]. lia.
Qed.

Lemma validBuffer_row rows cur : validBuffer rows cur -> 0 <= row cur < lenZ rows.
Proof. intros (line & Hl & _). by eapply nthZ_Some_range. Qed.

Lemma validBuffer_edit rows cur line c :
  0 <= row cur < lenZ rows -> 0 <= c <= Str.len line ->
  exists rows', setRow rows (row cur) line = Some rows'
    ∧ validBuffer rows' (Cursor (row cur) c)
    ∧ length rows' = length rows.
Proof.
  intros Hr Hc. rewrite setRow_in_range by done. eexists. split; [done|].
  split; [|by rewrite length_insert].
  exists line. simpl. by rewrite nthZ_insert_eq.
Qed.

Lemma insertText_valid rows cur r :
  validBuffer rows cur ->
  exists rows' cur', insertText rows cur r = Some (rows', cur')
    ∧ validBuffer rows' cur' ∧ length rows' = length rows.
Proof.
  intros (line & Hline & Hcol).
  pose proof (nthZ_Some_range _ _ _ Hline) as Hr.
  destruct (slices_in_range line (col cur) Hcol) as (a & b & -> & Ha & Hu & Hf).
  unfold insertText. rewrite Hline. simpl. rewrite Hu, Hf. simpl.
  destruct (validBuffer_edit rows cur (a +:+ r +:+ b) (col cur + Str.len r))
    as (rows' & -> & Hv & Hlen); [done| |].
  { rewrite !len_append. pose proof (len_nonneg r). pose proof (len_nonneg b). lia. }
  simpl. by exists rows', (Cursor (row cur) (col cur + Str.len r)).
Qed.

Lemma insertNewline_valid' rows cur :
  validBuffer rows cur ->
  exists rows' cur', insertNewline rows cur = Some (rows', cur')
    ∧ validBuffer rows' cur' ∧ rows' ≠ [].
Proof.
  intros (line & Hline & Hcol).
  pose proof (nthZ_Some_range _ _ _ Hline) as Hr.
  destruct (slices_in_range line (col cur) Hcol) as (a & b & -> & Ha & Hu & Hf).
  unfold insertNewline. rewrite Hline. simpl. rewrite Hu, Hf. simpl.
  rewrite setRow_in_range by done. simpl.
  eexists _, _. split; [done|]. split.
  - exists b. simpl. split; [|pose proof (len_nonneg b); lia].
    apply nthZ_lookup. split; [lia|].
    unfold lenZ in Hr.
    rewrite lookup_app_r; rewrite length_take, length_insert;
      [|lia].
    replace (Z.to_nat (row cur + 1) - Z.to_nat (row cur + 1) `min` length rows)%nat
      with 0%nat by lia.
    done.
  - intros H. apply (f_equal length) in H. rewrite length_app in H. simpl in H. lia.
Qed.

Lemma backspace_valid rows cur :
  validBuffer rows cur ->
  exists rows' cur', backspace rows cur = Some (rows', cur')
    ∧ validBuffer rows' cur' ∧ rows' ≠ [].
Proof.
  intros (line & Hline & Hcol).
  pose proof (nthZ_Some_range _ _ _ Hline) as Hr.
  assert (rows ≠ []) as Hne.
  { intros ->. unfold lenZ in Hr. simpl in Hr. lia. }
  unfold backspace. destruct (0 <? col cur) eqn:E.
  - apply Z.ltb_lt in E. rewrite Hline. simpl.
    destruct (slices_in_range line (col cur - 1)) as (a1 & b1 & H1 & Ha1 & Hu1 & _);
      [lia|].
    destruct (slices_in_range line (col cur) Hcol) as (a & b & H2 & Ha & _ & Hf).
    rewrite Hu1, Hf. simpl.
    assert (Str.len b = Str.len line - col cur) as Hb.
    { pose proof (f_equal Str.len H2) as Hl. rewrite len_append in Hl. lia. }
    destruct (validBuffer_edit rows cur (a1 +:+ b) (col cur - 1))
      as (rows' & -> & Hv & Hlen); [done| |].
    { rewrite len_append. lia. }
    simpl. eexists _, _. split; [done|]. split; [done|].
    intros ->. destruct rows; simpl in *; [done|lia].
  - apply Z.ltb_ge in E. destruct (0 <? row cur) eqn:E2.
    + apply Z.ltb_lt in E2.
      destruct (nthZ_in_range rows (row cur - 1)) as [prev Hprev]; [lia|].
      rewrite Hprev, Hline. simpl.
      rewrite setRow_in_range by lia. simpl.
      eexists _, _. split; [done|]. unfold lenZ in Hr. split.
      * exists (prev +:+ line). simpl. split.
        -- apply nthZ_lookup. split; [lia|].
           rewrite lookup_app_l by (rewrite length_take, length_insert; lia).
           rewrite lookup_take_lt by lia.
           apply list_lookup_insert_eq. lia.
        -- rewrite len_append. pose proof (len_nonneg prev).
           pose proof (len_nonneg line). lia.
      * intros H. apply (f_equal length) in H.
        rewrite length_app, length_take, length_insert in H. simpl in H. lia.
    + eexists _, _. split; [done|]. split; [by exists line|done].
Qed.

Lemma moveLeft_valid rows cur :
  validBuffer rows cur ->
  exists cur', moveLeft rows cur = Some cur' ∧ validBuffer rows cur'
    ∧ cursorLe cur' cur.
Proof.
  intros (line & Hline & Hcol).
  pose proof (nthZ_Some_range _ _ _ Hline) as Hr.
  unfold moveLeft, cursorLe. destruct (0 <? col cur) eqn:E.
  - apply Z.ltb_lt in E. eexists. split; [done|]. split.
    + exists line. simpl. split; [done|lia].
    + simpl. right. lia.
  - destruct (0 <? row cur) eqn:E2.
    + apply Z.ltb_lt in E2.
      destruct (nthZ_in_range rows (row cur - 1)) as [prev Hprev]; [lia|].
      rewrite Hprev. simpl. eexists. split; [done|]. split.
      * exists prev. simpl. split; [done|]. pose proof (len_nonneg prev). lia.
      * simpl. left. lia.
    + exists cur. split; [done|]. split; [by exists line|]. right. lia.
Qed.

Lemma moveRight_valid rows cur :
  validBuffer rows cur ->
  exists cur', moveRight rows cur = Some cur' ∧ validBuffer rows cur'
    ∧ cursorLe cur cur'.
Proof.
  intros (line & Hline & Hcol).
  pose proof (nthZ_Some_range _ _ _ Hline) as Hr.
  unfold moveRight, cursorLe. rewrite Hline. simpl.
  destruct (col cur <? Str.len line) eqn:E.
  - apply Z.ltb_lt in E. eexists. split; [done|]. split.
    + exists line. simpl. split; [done|lia].
    + simpl. right. lia.
  - destruct (row cur <? lenZ rows - 1) eqn:E2.
    + apply Z.ltb_lt in E2.
      destruct (nthZ_in_range rows (row cur + 1)) as [next Hnext]; [lia|].
      eexists. split; [done|]. split.
      * exists next. simpl. split; [done|]. pose proof (len_nonneg next). lia.
      * simpl. left. lia.
    + exists cur. split; [done|]. split; [by exists line|]. right. lia.
Qed.

Lemma clampTo_valid rows r c :
  0 <= r < lenZ rows -> 0 <= c ->
  exists cur', clampTo rows r c = Some cur' ∧ validBuffer rows cur'.
Proof.
  intros Hr Hc. destruct (nthZ_in_range rows r Hr) as [line Hline].
  unfold clampTo. rewrite Hline. simpl. eexists. split; [done|].
  exists line. simpl. split; [done|]. pose proof (len_nonneg line).
  destruct (Str.len line <? c) eqn:E; [lia|apply Z.ltb_ge in E; lia].
Qed.

Lemma cursorAtEnd_valid rows :
  rows ≠ [] -> exists cur, cursorAtEnd rows = Some cur ∧ validBuffer rows cur.
Proof.
  intros Hne. unfold cursorAtEnd.
  destruct (nthZ_in_range rows (lenZ rows - 1)) as [line Hline].
  { unfold lenZ. destruct rows; simpl; [done|lia]. }
  rewrite Hline. simpl. eexists. split; [done|].
  exists line. simpl. split; [done|]. pose proof (len_nonneg line). lia.
Qed.

Lemma Split_nonempty s sep : Str.Split s sep ≠ [].
Proof.
  destruct s as [|c s]; simpl; [done|].
  destruct (Ascii.eqb c sep); [done|]. by destruct (Str.Split s sep).
Qed.

Lemma loadEntry_valid entry :
  exists rows cur, loadEntry entry = Some (rows, cur)
    ∧ validBuffer rows cur ∧ rows ≠ [].
Proof.
  unfold loadEntry.
  destruct (cursorAtEnd_valid (Str.Split entry Str.newline) (Split_nonempty _ _))
    as (cur & -> & Hv).
  simpl. eexists _, _. split; [done|]. split; [done|apply Split_nonempty].
Qed.

Lemma lineLeft_valid rows r c :
  validBuffer rows (Cursor r c) ->
  exists r' c', lineLeft rows r c = Some (r', c')
    ∧ validBuffer rows (Cursor r' c') ∧ cursorLe (Cursor r' c') (Cursor r c).
Proof.
  intros (line & Hline & Hcol). simpl in *.
  pose proof (nthZ_Some_range _ _ _ Hline) as Hr.
  unfold lineLeft, cursorLe.
  assert ((r <? 0) || (lenZ rows <=? r) = false) as ->
    by (rewrite orb_false_iff, Z.ltb_ge, Z.leb_gt; lia).
  destruct (0 <? c) eqn:E.
  - apply Z.ltb_lt in E. eexists _, _. split; [done|]. split.
    + exists line. simpl. split; [done|lia].
    + simpl. right. lia.
  - destruct (0 <? r) eqn:E2.
    + apply Z.ltb_lt in E2.
      destruct (nthZ_in_range rows (r - 1)) as [prev Hprev]; [lia|].
      eexists _, _. split; [done|]. split.
      * exists prev. simpl. split; [done|]. pose proof (len_nonneg prev). lia.
      * simpl. left. lia.
    + eexists _, _. split; [done|]. split; [by exists line|]. right. simpl. lia.
Qed.

Lemma lineRight_valid rows r c :
  validBuffer rows (Cursor r c) ->
  exists r' c', lineRight rows r c = Some (r', c')
    ∧ validBuffer rows (Cursor r' c') ∧ cursorLe (Cursor r c) (Cursor r' c').
Proof.
  intros (line & Hline & Hcol). simpl in *.
  pose proof (nthZ_Some_range _ _ _ Hline) as Hr.
  unfold lineRight, cursorLe.
  assert ((r <? 0) || (lenZ rows <=? r) = false) as ->
    by (rewrite orb_false_iff, Z.ltb_ge, Z.leb_gt; lia).
  rewrite Hline. simpl.
  destruct (c <? Str.len line) eqn:E.
  - apply Z.ltb_lt in E. eexists _, _. split; [done|]. split.
    + exists line. simpl. split; [done|lia].
    + simpl. right. lia.
  - destruct (r <? lenZ rows - 1) eqn:E2.
    + apply Z.ltb_lt in E2.
      destruct (nthZ_in_range rows (r + 1)) as [next Hnext]; [lia|].
      rewrite Hnext. simpl.
      eexists _, _. split; [done|]. split.
      * exists next. simpl. split; [done|]. pose proof (len_nonneg next). lia.
      * simpl. left. lia.
    + eexists _, _. split; [done|]. split; [by exists line|]. right. simpl. lia.
Qed.

Lemma wordLeft_in_range line col :
  0 <= col <= Str.len line ->
  exists i, wordLeft line col = Some i ∧ 0 <= i <= col.
Proof.
  intros H. destruct (decide (col = 0)) as [->|Hne].
  - exists 0. done.
  - destruct (wordLeft_inside line col) as (i & k & Hi & ?); [lia|].
    exists i. split; [done|lia].
Qed.

Lemma wordRight_in_range line col :
  0 <= col <= Str.len line ->
  exists i, wordRight line col = Some i ∧ col <= i <= Str.len line.
Proof.
  intros H. destruct (decide (col = Str.len line)) as [->|Hne].
  - exists (Str.len line). unfold wordRight. rewrite Z.leb_refl. split; [done|lia].
  - destruct (wordRight_inside line col) as (i & k & Hi & ?); [lia|].
    exists i. split; [done|lia].
Qed.

Lemma moveWordLeftLines_valid rows r c :
  validBuffer rows (Cursor r c) ->
  exists r' c', moveWordLeftLines rows r c = Some (r', c')
    ∧ validBuffer rows (Cursor r' c') ∧ cursorLe (Cursor r' c') (Cursor r c).
Proof.
  intros (line & Hline & Hcol). simpl in *.
  pose proof (nthZ_Some_range _ _ _ Hline) as Hr.
  unfold moveWordLeftLines, cursorLe.
  assert ((r <? 0) || (lenZ rows <=? r) = false) as ->
    by (rewrite orb_false_iff, Z.ltb_ge, Z.leb_gt; lia).
  destruct (0 <? c) eqn:E.
  - apply Z.ltb_lt in E. rewrite Hline. simpl.
    destruct (wordLeft_in_range line c) as (i & -> & Hi); [lia|]. simpl.
    eexists _, _. split; [done|]. split.
    + exists line. simpl. split; [done|lia].
    + simpl. right. lia.
  - destruct (0 <? r) eqn:E2.
    + apply Z.ltb_lt in E2.
      destruct (nthZ_in_range rows (r - 1)) as [prev Hprev]; [lia|].
      rewrite Hprev. simpl. pose proof (len_nonneg prev).
      destruct (wordLeft_in_range prev (Str.len prev)) as (i & -> & Hi); [lia|].
      simpl. eexists _, _. split; [done|]. split.
      * exists prev. simpl. split; [done|lia].
      * simpl. left. lia.
    + eexists _, _. split; [done|]. split; [by exists line|]. right. simpl. lia.
Qed.

Lemma moveWordRightLines_valid rows r c :
  validBuffer rows (Cursor r c) ->
  exists r' c', moveWordRightLines rows r c = Some (r', c')
    ∧ validBuffer rows (Cursor r' c') ∧ cursorLe (Cursor r c) (Cursor r' c').
Proof.
  intros (line & Hline & Hcol). simpl in *.
  pose proof (nthZ_Some_range _ _ _ Hline) as Hr.
  unfold moveWordRightLines, cursorLe.
  assert ((r <? 0) || (lenZ rows <=? r) = false) as ->
    by (rewrite orb_false_iff, Z.ltb_ge, Z.leb_gt; lia).
  rewrite Hline. simpl.
  destruct (c <? Str.len line) eqn:E.
  - apply Z.ltb_lt in E.
    destruct (wordRight_in_range line c) as (i & -> & Hi); [lia|]. simpl.
    eexists _, _. split; [done|]. split.
    + exists line. simpl. split; [done|lia].
    + simpl. right. lia.
  - destruct (r <? lenZ rows - 1) eqn:E2.
    + apply Z.ltb_lt in E2.
      destruct (nthZ_in_range rows (r + 1)) as [next Hnext]; [lia|].
      rewrite Hnext. simpl. pose proof (len_nonneg next).
      destruct (wordRight_in_range next 0) as (i & -> & Hi); [lia|].
      simpl. eexists _, _. split; [done|]. split.
      * exists next. simpl. split; [done|lia].
      * simpl. left. lia.
    + eexists _, _. split; [done|]. split; [by exists line|]. right. simpl. lia.
Qed.

(** The four cursor motions over lines ([lineLeft], [lineRight],
    [moveWordLeftLines], [moveWordRightLines]) never panic on a cursor that
    is inside the text, leave it inside the text, and move it only in their
    own direction; on a row outside the text they return the cursor as it
    is. *)
Theorem line_motions_stay_inside (rows : list string) (r c : Z) :
  (validBuffer rows (Cursor r c) ->
   (exists r' c', lineLeft rows r c = Some (r', c')
      ∧ validBuffer rows (Cursor r' c') ∧ cursorLe (Cursor r' c') (Cursor r c))
   ∧ (exists r' c', lineRight rows r c = Some (r', c')
      ∧ validBuffer rows (Cursor r' c') ∧ cursorLe (Cursor r c) (Cursor r' c'))
   ∧ (exists r' c', moveWordLeftLines rows r c = Some (r', c')
      ∧ validBuffer rows (Cursor r' c') ∧ cursorLe (Cursor r' c') (Cursor r c))
   ∧ (exists r' c', moveWordRightLines rows r c = Some (r', c')
      ∧ validBuffer rows (Cursor r' c') ∧ cursorLe (Cursor r c) (Cursor r' c')))
  ∧ (r < 0 ∨ lenZ rows <= r ->
     lineLeft rows r c = Some (r, c) ∧ lineRight rows r c = Some (r, c)
     ∧ moveWordLeftLines rows r c = Some (r, c)
     ∧ moveWordRightLines rows r c = Some (r, c)).
Proof.
  split.
  - intros Hv. split; [by apply lineLeft_valid|]. split; [by apply lineRight_valid|].
    split; [by apply moveWordLeftLines_valid|by apply moveWordRightLines_valid].
  - intros Hr. unfold lineLeft, lineRight, moveWordLeftLines, moveWordRightLines.
    assert ((r <? 0) || (lenZ rows <=? r) = true) as ->
      by (rewrite orb_true_iff, Z.ltb_lt, Z.leb_le; lia).
    done.
Qed.

(** ** Well-formed sessions *)

Lemma providerOk_current m :
  providerOk m (providerIndex m) -> is_Some (currentProvider m).
Proof.
  intros [H|H]; unfold currentProvider.
  - rewrite H. by rewrite decide_True.
  - destruct (decide (length (providers m) = 0%nat)); [done|].
    by apply nthZ_in_range.
Qed.

Lemma selectedModels_total m :
  is_Some (currentProvider m) -> is_Some (selectedModels m).
Proof.
  intros [p Hp]. unfold selectedModels. rewrite Hp. simpl.
  by destruct (selected m !! p).
Qed.

Lemma providerModels_total m :
  is_Some (currentProvider m) -> is_Some (providerModels m).
Proof. intros [p Hp]. rewrite (providerModels_Some m p Hp). done. Qed.

Ltac core H :=
  destruct H as [Hprov Hhov Hit Hnt Hntn Hac Hdr Hdri Hhl Hhi Hihi];
  constructor; simpl; try assumption.

Lemma setupTab_step m : coreValid m -> setupValid m -> setupStep m (setupTab m).
Proof.
  intros Hc Hs. unfold setupStep, setupTab.
  destruct (focus m); (eexists _, _; split; [reflexivity|]).
  all: (split; [core Hc|]; split; [exact Hs|]; split; [reflexivity|exact I]).
Qed.

Lemma spliceAt_ok s c r :
  fieldOk s c ->
  exists s', spliceAt s c r = Some s' ∧ Str.len s' = Str.len s + Str.len r.
Proof.
  intros H. destruct (slices_in_range s c H) as (a & b & -> & Ha & Hu & Hf).
  unfold spliceAt. rewrite Hu, Hf. simpl. eexists. split; [done|].
  rewrite !len_append. lia.
Qed.

Lemma backspaceField_ok s c :
  fieldOk s c -> exists s' c', backspaceField s c = Some (s', c') ∧ fieldOk s' c'.
Proof.
  intros H. unfold backspaceField.
  destruct ((0 <? c) && (0 <? Str.len s)) eqn:E.
  - apply andb_true_iff in E as [E1 E2]. apply Z.ltb_lt in E1.
    destruct (slices_in_range s (c - 1)) as (a1 & b1 & H1 & Ha1 & Hu1 & _);
      [unfold fieldOk in H; lia|].
    destruct (slices_in_range s c H) as (a & b & H2 & Ha & _ & Hf).
    rewrite Hu1, Hf. simpl. eexists _, _. split; [done|].
    pose proof (f_equal Str.len H2) as Hl. rewrite len_append in Hl.
    unfold fieldOk in *. rewrite len_append. lia.
  - by eexists _, _.
Qed.

Lemma deleteWordBackward_ok line col :
  fieldOk line col ->
  exists s c, deleteWordBackward line col = Some (s, c) ∧ fieldOk s c.
Proof.
  intros H. unfold deleteWordBackward. destruct (col <=? 0) eqn:E.
  - by eexists _, _.
  - apply Z.leb_gt in E.
    destruct (wordLeft_in_range line col H) as (i & -> & Hi). simpl.
    destruct (slices_in_range line i) as (a1 & b1 & H1 & Ha1 & Hu1 & _);
      [unfold fieldOk in H; lia|].
    destruct (slices_in_range line col H) as (a & b & H2 & Ha & _ & Hf).
    rewrite Hu1, Hf. simpl. eexists _, _. split; [done|].
    unfold fieldOk. rewrite len_append. pose proof (len_nonneg b). lia.
Qed.

Lemma deleteLineBackward_ok line col :
  fieldOk line col ->
  exists s c, deleteLineBackward line col = Some (s, c) ∧ fieldOk s c.
Proof.
  intros H. unfold deleteLineBackward. destruct (col <=? 0) eqn:E.
  - by eexists _, _.
  - destruct (slices_in_range line col H) as (a & b & H2 & Ha & _ & Hf).
    rewrite Hf. simpl. eexists _, _. split; [done|].
    unfold fieldOk. pose proof (len_nonneg b). lia.
Qed.

Ltac sv :=
  unfold setupValid, fieldOk in *; simpl;
  repeat match goal with H : _ ∧ _ |- _ => destruct H end;
  repeat match goal with |- _ ∧ _ => split end;
  try assumption; try lia.

Ltac close Hc :=
  eexists _, _; split; [reflexivity|];
  split; [core Hc|split; [sv|split; [reflexivity|try exact I]]].

Lemma setupWordMotion_step m r :
  coreValid m -> setupValid m -> setupStep m (setupWordMotion m r).
Proof.
  intros Hc (Hin & Hb & Ht). unfold setupStep, setupWordMotion. simpl.
  destruct (focus m).
  - destruct (r =? 98).
    + destruct (wordLeft_in_range _ _ Hb) as (i & -> & Hi). simpl. close Hc.
    + destruct (wordRight_in_range _ _ Hb) as (i & -> & Hi). simpl. close Hc.
  - destruct (r =? 98).
    + destruct (wordLeft_in_range _ _ Ht) as (i & -> & Hi). simpl. close Hc.
    + destruct (wordRight_in_range _ _ Ht) as (i & -> & Hi). simpl. close Hc.
  - destruct (r =? 98).
    + destruct (moveWordLeftLines_valid _ _ _ Hin) as (r' & c' & -> & Hv & _).
      simpl. close Hc.
    + destruct (moveWordRightLines_valid _ _ _ Hin) as (r' & c' & -> & Hv & _).
      simpl. close Hc.
  - close Hc.
  - close Hc.
Qed.

Lemma setupHome_step m : coreValid m -> setupValid m -> setupStep m (setupHome m).
Proof.
  intros Hc (Hin & Hb & Ht). unfold setupStep, setupHome.
  destruct (focus m); try (close Hc; pose proof (len_nonneg (branch m));
                           pose proof (len_nonneg (task m)); lia).
  destruct (lineLeft_valid _ _ _ Hin) as (r' & c' & -> & Hv & _). simpl. close Hc.
Qed.

Lemma setupEnd_step m : coreValid m -> setupValid m -> setupStep m (setupEnd m).
Proof.
  intros Hc (Hin & Hb & Ht). unfold setupStep, setupEnd.
  destruct (focus m); try (close Hc; pose proof (len_nonneg (branch m));
                           pose proof (len_nonneg (task m)); lia).
  destruct (lineRight_valid _ _ _ Hin) as (r' & c' & -> & Hv & _). simpl. close Hc.
Qed.

Lemma incrementHovered_ok m :
  coreValid m -> setupValid m ->
  exists m', incrementHovered m = Some m' ∧ coreValid m' ∧ setupValid m'
    ∧ screen m' = screen m.
Proof.
  intros Hc Hs. destruct (providerOk_current m (cv_provider m Hc)) as [q Hq].
  unfold incrementHovered.
  rewrite (providerModels_Some m q Hq). simpl.
  set (opts := if decide (q = EmptyString) then [] else default [] (models m !! q)).
  destruct (decide (length opts = 0%nat)) as [H0|H0].
  { by exists m. }
  change (currentProvider (set_modelsHover _ m)) with (currentProvider m).
  rewrite Hq. simpl.
  destruct (nthZ_in_range opts (clampHover (modelsHover m) (lenZ opts)))
    as [nm Hnm].
  { apply clampHover_range. unfold lenZ. destruct opts; simpl in *; [done|lia]. }
  rewrite Hnm. simpl. eexists. split; [done|].
  split; [core Hc|]. split; [sv|done].
Qed.

Lemma decrementHovered_ok m :
  coreValid m -> setupValid m ->
  exists m', decrementHovered m = Some m' ∧ coreValid m' ∧ setupValid m'
    ∧ screen m' = screen m.
Proof.
  intros Hc Hs. destruct (providerOk_current m (cv_provider m Hc)) as [q Hq].
  unfold decrementHovered.
  rewrite (providerModels_Some m q Hq). simpl.
  set (opts := if decide (q = EmptyString) then [] else default [] (models m !! q)).
  destruct (decide (length opts = 0%nat)) as [H0|H0].
  { by exists m. }
  change (currentProvider (set_modelsHover _ m)) with (currentProvider m).
  rewrite Hq. simpl.
  destruct (nthZ_in_range opts (clampHover (modelsHover m) (lenZ opts)))
    as [nm Hnm].
  { apply clampHover_range. unfold lenZ. destruct opts; simpl in *; [done|lia]. }
  rewrite Hnm. simpl.
  match goal with |- context [if ?b then _ else _] => destruct b end.
  all: eexists; (split; [done|]); (split; [core Hc|]); (split; [sv|done]).
Qed.

Lemma setupEnter_step m : coreValid m -> setupValid m -> setupStep m (setupEnter m).
Proof.
  intros Hc Hs. pose proof Hs as (Hin & Hb & Ht). unfold setupStep, setupEnter.
  destruct (focus m).
  - close Hc.
  - close Hc.
  - destruct (insertNewline_valid' _ _ Hin) as (rows & cur & -> & Hv & _). simpl.
    destruct (selectedModels_total (set_cursor cur (set_input rows m)))
      as [models ->].
    { apply (providerOk_current m), Hc. }
    simpl. destruct (decide (0 < lenZ models)); close Hc. apply issued_open.
  - destruct (providerOpen m); close Hc.
  - destruct (modelsOpen m); simpl; close Hc.
Qed.

Lemma setupSpace_step m : coreValid m -> setupValid m -> setupStep m (setupSpace m).
Proof.
  intros Hc Hs. pose proof Hs as (Hin & Hb & Ht). unfold setupStep, setupSpace.
  destruct (bool_decide (focus m = focusModels) && modelsOpen m).
  - destruct (incrementHovered_ok m Hc Hs) as (m' & -> & Hc' & Hs' & Hscr). simpl.
    by eexists _, _.
  - destruct (focus m).
    + destruct (spliceAt_ok (branch m) (branchCursor m) " " Hb) as (s & -> & Hl).
      simpl. close Hc. change (Str.len " ") with 1 in Hl. lia.
    + destruct (spliceAt_ok (task m) (taskCursor m) " " Ht) as (s & -> & Hl).
      simpl. close Hc. change (Str.len " ") with 1 in Hl. lia.
    + destruct (insertText_valid _ _ " " Hin) as (rows & cur & -> & Hv & _).
      simpl. close Hc.
    + close Hc.
    + close Hc.
Qed.

Lemma setupBackspace_step m alt :
  coreValid m -> setupValid m -> setupStep m (setupBackspace m alt).
Proof.
  intros Hc Hs. pose proof Hs as (Hin & Hb & Ht). unfold setupStep, setupBackspace.
  pose proof Hin as (line & Hline & Hcol).
  pose proof (nthZ_Some_range _ _ _ Hline) as Hr.
  destruct alt.
  - destruct (focus m).
    + destruct (deleteWordBackward_ok _ _ Hb) as (s & c & -> & Hok). simpl. close Hc.
    + destruct (deleteWordBackward_ok _ _ Ht) as (s & c & -> & Hok). simpl. close Hc.
    + rewrite Hline. simpl.
      destruct (deleteWordBackward_ok line (col (cursor m)) Hcol)
        as (s & c & -> & Hok). simpl.
      destruct (validBuffer_edit (input m) (cursor m) s c Hr Hok)
        as (rows & -> & Hv & _). simpl. close Hc.
    + close Hc.
    + close Hc.
  - destruct (focus m).
    + destruct (backspaceField_ok _ _ Hb) as (s & c & -> & Hok). simpl. close Hc.
    + destruct (backspaceField_ok _ _ Ht) as (s & c & -> & Hok). simpl. close Hc.
    + destruct (backspace_valid _ _ Hin) as (rows & cur & -> & Hv & _). simpl.
      close Hc.
    + destruct (providerOpen m); close Hc.
    + destruct (modelsOpen m); [|close Hc].
      destruct (decrementHovered_ok m Hc Hs) as (m' & -> & Hc' & Hs' & Hscr). simpl.
      by eexists _, _.
Qed.

Lemma setupCtrlU_step m : coreValid m -> setupValid m -> setupStep m (setupCtrlU m).
Proof.
  intros Hc Hs. pose proof Hs as (Hin & Hb & Ht). unfold setupStep, setupCtrlU.
  pose proof Hin as (line & Hline & Hcol).
  pose proof (nthZ_Some_range _ _ _ Hline) as Hr.
  destruct (focus m).
  - destruct (deleteLineBackward_ok _ _ Hb) as (s & c & -> & Hok). simpl. close Hc.
  - destruct (deleteLineBackward_ok _ _ Ht) as (s & c & -> & Hok). simpl. close Hc.
  - rewrite Hline. simpl.
    destruct (deleteLineBackward_ok line (col (cursor m)) Hcol)
      as (s & c & -> & Hok). simpl.
    destruct (validBuffer_edit (input m) (cursor m) s c Hr Hok)
      as (rows & -> & Hv & _). simpl. close Hc.
  - close Hc.
  - close Hc.
Qed.

Lemma setupLeft_step m : coreValid m -> setupValid m -> setupStep m (setupLeft m).
Proof.
  intros Hc Hs. pose proof Hs as (Hin & Hb & Ht). unfold setupStep, setupLeft.
  destruct (moveLeft_valid _ _ Hin) as (cur & Hcur & Hv & _).
  destruct (focus m); try (rewrite Hcur; simpl; close Hc).
  - destruct (0 <? branchCursor m) eqn:E; [apply Z.ltb_lt in E|]; close Hc.
  - destruct (0 <? taskCursor m) eqn:E; [apply Z.ltb_lt in E|]; close Hc.
Qed.

Lemma setupRight_step m : coreValid m -> setupValid m -> setupStep m (setupRight m).
Proof.
  intros Hc Hs. pose proof Hs as (Hin & Hb & Ht). unfold setupStep, setupRight.
  destruct (moveRight_valid _ _ Hin) as (cur & Hcur & Hv & _).
  destruct (focus m); try (rewrite Hcur; simpl; close Hc).
  - destruct (branchCursor m <? Str.len (branch m)) eqn:E;
      [apply Z.ltb_lt in E|]; close Hc.
  - destruct (taskCursor m <? Str.len (task m)) eqn:E;
      [apply Z.ltb_lt in E|]; close Hc.
Qed.

Lemma setupRunes_step m runes :
  coreValid m -> setupValid m -> setupStep m (setupRunes m runes).
Proof.
  intros Hc Hs. pose proof Hs as (Hin & Hb & Ht). unfold setupStep, setupRunes.
  destruct (decide (0 < lenZ runes)); [|close Hc].
  set (r := Str.encodeRunes runes).
  assert (forall P : model -> Prop,
            P m -> P (set_pendingEsc false m) ->
            P (if pendingEsc m then set_pendingEsc false m else m)) as Hcase.
  { intros P H1 H2. by destruct (pendingEsc m). }
  apply Hcase; clear Hcase; simpl.
  all: destruct (focus m).
  all: try (destruct (spliceAt_ok (branch m) (branchCursor m) r Hb) as (s & -> & Hl);
            simpl; close Hc; pose proof (len_nonneg r); lia).
  all: try (destruct (spliceAt_ok (task m) (taskCursor m) r Ht) as (s & -> & Hl);
            simpl; close Hc; pose proof (len_nonneg r); lia).
  all: try (destruct (insertText_valid _ _ r Hin) as (rows & cur & -> & Hv & _);
            simpl; close Hc).
  all: close Hc.
Qed.

Lemma validBuffer_nonempty rows cur : validBuffer rows cur -> rows ≠ [].
Proof.
  intros Hv ->. apply validBuffer_row in Hv. unfold lenZ in Hv. simpl in Hv. lia.
Qed.

Ltac hist :=
  unfold historyIndexOk, draftOk, providerOk in *; simpl; try lia.

Lemma setupUp_step m : coreValid m -> setupValid m -> setupStep m (setupUp m).
Proof.
  intros Hc Hs. pose proof Hs as (Hin & Hb & Ht). unfold setupStep, setupUp.
  pose proof (cv_historyIndex m Hc) as Hh.
  pose proof (validBuffer_nonempty _ _ Hin) as Hne.
  pose proof Hin as (line & Hline & Hcol).
  pose proof (nthZ_Some_range _ _ _ Hline) as Hr.
  destruct (focus m).
  - close Hc.
  - close Hc.
  - destruct (decide (0 < lenZ (history m))) as [Hlen|Hlen].
    + destruct (historyIndex m =? -1) eqn:E1; simpl.
      * destruct (nthZ_in_range (history m) 0) as [entry ->]; [lia|]. simpl.
        destruct (loadEntry_valid entry) as (rows & cur & -> & Hv & _). simpl.
        close Hc; hist. intros [=]. done.
      * apply Z.eqb_neq in E1.
        destruct (historyIndex m <? lenZ (history m) - 1) eqn:E2; [|close Hc].
        apply Z.ltb_lt in E2. simpl.
        destruct (nthZ_in_range (history m) (historyIndex m + 1)) as [entry ->];
          [hist|]. simpl.
        destruct (loadEntry_valid entry) as (rows & cur & -> & Hv & _). simpl.
        close Hc; hist.
    + destruct (0 <? row (cursor m)) eqn:E; [|close Hc]. apply Z.ltb_lt in E.
      destruct (clampTo_valid (input m) (row (cursor m) - 1) (col (cursor m)))
        as (cur & -> & Hv); [lia|lia|]. simpl. close Hc.
  - destruct (negb (providerOpen m)); [close Hc|].
    destruct (0 <? providerHover m) eqn:E; [apply Z.ltb_lt in E|]; close Hc.
    destruct Hhov as [?|?]; [by left|right; simpl; lia].
  - destruct (negb (modelsOpen m)); [close Hc|].
    destruct (0 <? modelsHover m); close Hc.
Qed.

Lemma setupDown_step m : coreValid m -> setupValid m -> setupStep m (setupDown m).
Proof.
  intros Hc Hs. pose proof Hs as (Hin & Hb & Ht). unfold setupStep, setupDown.
  pose proof (cv_historyIndex m Hc) as Hh.
  pose proof (cv_draft m Hc) as Hd.
  pose proof Hin as (line & Hline & Hcol).
  pose proof (nthZ_Some_range _ _ _ Hline) as Hr.
  destruct (focus m).
  - close Hc.
  - close Hc.
  - destruct (negb (historyIndex m =? -1)) eqn:E1.
    + apply negb_true_iff, Z.eqb_neq in E1.
      destruct (0 <? historyIndex m) eqn:E2; simpl.
      * apply Z.ltb_lt in E2.
        destruct (nthZ_in_range (history m) (historyIndex m - 1)) as [entry ->];
          [hist|]. simpl.
        destruct (loadEntry_valid entry) as (rows & cur & -> & Hv & _). simpl.
        close Hc; hist.
      * destruct (cursorAtEnd_valid
                    (match draftInput m with Some d => d | None => [EmptyString] end))
          as (cur & -> & Hv).
        { unfold draftOk in Hd. destruct (draftInput m) as [[|]|]; done. }
        simpl. close Hc; hist.
    + destruct (row (cursor m) <? lenZ (input m) - 1) eqn:E; [|close Hc].
      apply Z.ltb_lt in E.
      destruct (clampTo_valid (input m) (row (cursor m) + 1) (col (cursor m)))
        as (cur & -> & Hv); [lia|lia|]. simpl. close Hc.
  - destruct (negb (providerOpen m)); [close Hc|].
    destruct (providerHover m <? lenZ (providers m) - 1) eqn:E;
      [apply Z.ltb_lt in E|]; close Hc.
    destruct Hhov as [?|?]; [by left|right; simpl; lia].
  - destruct (providerModels_total m) as [opts ->].
    { apply providerOk_current, Hc. }
    simpl. destruct (negb (modelsOpen m)); [close Hc|].
    destruct ((0 <? lenZ opts) && (modelsHover m <? lenZ opts - 1)); close Hc.
Qed.

Lemma updateSetup_step m msg :
  coreValid m -> setupValid m -> setupStep m (updateSetup m msg).
Proof.
  intros Hc Hs. unfold updateSetup.
  destruct (wordMotion m msg) as [r|]; [by apply setupWordMotion_step|].
  destruct (KType msg).
  - close Hc. apply issued_cleanup.
  - close Hc. by apply issued_tick.
  - by apply setupHome_step.
  - by apply setupHome_step.
  - by apply setupEnd_step.
  - by apply setupEnd_step.
  - by apply setupTab_step.
  - by apply setupTab_step.
  - by apply setupEnter_step.
  - by apply setupSpace_step.
  - by apply setupBackspace_step.
  - by apply setupCtrlU_step.
  - by apply setupLeft_step.
  - by apply setupRight_step.
  - by apply setupUp_step.
  - by apply setupDown_step.
  - by apply setupRunes_step.
  - by apply setupRunes_step.
Qed.

(** ** The token under the cursor *)

Lemma slice_in_range line i j :
  0 <= i -> i <= j -> j <= Str.len line ->
  exists t, Str.slice line i j = Some t ∧ Str.len t = j - i.
Proof.
  intros Hi Hij Hj. unfold Str.slice.
  assert ((0 <=? i) && (i <=? j) && (j <=? Str.len line) = true) as ->
    by (rewrite !andb_true_iff, !Z.leb_le; lia).
  eexists. split; [done|]. unfold Str.len in *.
  rewrite length_firstn; [lia|].
  destruct (split_at line i) as (a & b & -> & Ha); [unfold Str.len; lia|].
  unfold Str.len in Ha. replace (Z.to_nat i) with (String.length a) by lia.
  rewrite skipn_append. rewrite length_append in Hj. lia.
Qed.

Lemma get_skipn (n : nat) : forall (line : string) (k : nat) ch rest,
  Str.firstn k (Str.skipn n line) = String ch rest -> String.get n line = Some ch.
Proof.
  induction n as [|n IH]; intros line k ch rest H.
  - destruct line as [|c line]; simpl in H.
    + by destruct k.
    + destruct k; [done|]. simpl in H. by injection H as -> _.
  - destruct line as [|c line]; simpl in H.
    + by destruct k.
    + simpl. by eapply IH.
Qed.

Lemma slice_head line i j ch rest :
  Str.slice line i j = Some (String ch rest) -> Str.at_ line i = Some ch.
Proof.
  unfold Str.slice, Str.at_.
  destruct ((0 <=? i) && (i <=? j) && (j <=? Str.len line)) eqn:E; [|done].
  rewrite !andb_true_iff, !Z.leb_le in E. destruct E as [[Hi _] _].
  intros [= H]. apply get_skipn in H.
  destruct (0 <=? i) eqn:E; [done|apply Z.leb_gt in E; lia].
Qed.

Lemma scanLeftZ_spec p line i :
  0 <= i <= Str.len line ->
  exists k, scanLeftZ p line i = Some k ∧ 0 <= k <= i
    ∧ (forall j, k <= j < i -> byteIs p line j)
    ∧ (k = 0 ∨ byteIs (fun c => negb (p c)) line (k - 1)).
Proof.
  intros H. unfold scanLeftZ. destruct (i <=? 0) eqn:E.
  - apply Z.leb_le in E. exists i. split; [done|]. split; [lia|].
    split; [intros; lia|left; lia].
  - apply Z.leb_gt in E.
    destruct (scanLeft_spec p line (Z.to_nat i)) as (k & Hk & Hr & Hall & Hstop).
    { unfold Str.len in H. lia. }
    rewrite Z2Nat.id in Hr, Hall by lia. by exists k.
Qed.

Lemma findMarker_spec line cp (n : nat) :
  Z.of_nat n <= cp -> cp <= Str.len line ->
  exists t s, findMarker line cp n = Some (t, s) ∧ 0 <= s <= Z.of_nat n
    ∧ (t = EmptyString -> s = 0)
    ∧ ((forall j, 0 <= j < Z.of_nat n -> ¬ byteIs isSlashOrAt line j) ->
       t = EmptyString ∧ s = 0).
Proof.
  intros Hn Hcp. induction n as [|n IH].
  - exists EmptyString, 0. simpl. split; [done|]. split; [lia|]. done.
  - cbn [findMarker].
    destruct (at_in_range line (Z.of_nat n)) as [ch Hch]; [lia|].
    rewrite Hch. simpl. destruct (notSpaceByte ch).
    + destruct (isSlashOrAt ch) eqn:Em.
      * destruct (slice_in_range line (Z.of_nat n) cp) as (t & -> & Hl);
          [lia|lia|lia|]. simpl.
        exists t, (Z.of_nat n). split; [done|]. split; [lia|].
        assert (t ≠ EmptyString) as Hne.
        { intros ->. change (Str.len EmptyString) with 0 in Hl. lia. }
        split; [done|]. intros Hno. exfalso. apply (Hno (Z.of_nat n)); [lia|].
        by exists ch.
      * destruct IH as (t & s & -> & Hs & He & Hno); [lia|].
        exists t, s. split; [done|]. split; [lia|]. split; [done|].
        intros H. apply Hno. intros j Hj. apply H. lia.
    + exists EmptyString, 0. split; [done|]. split; [lia|]. done.
Qed.

Lemma append_nonempty a b : a ≠ EmptyString -> a +:+ b ≠ EmptyString.
Proof. by destruct a. Qed.

Lemma getAutocompletePrefix_inside line c :
  0 <= c ->
  exists prefix start,
    getAutocompletePrefix line c = Some (prefix, start)
    ∧ 0 <= start <= c ∧ start <= Str.len line
    ∧ (prefix = EmptyString -> start = 0)
    ∧ ((forall j, 0 <= j < c -> ¬ byteIs isSlashOrAt line j) ->
       prefix = EmptyString ∧ start = 0).
Proof.
  intros Hc. unfold getAutocompletePrefix. pose proof (len_nonneg line) as Hlen.
  set (cp := if Str.len line <? c then Str.len line else c).
  assert (0 <= cp <= Str.len line ∧ cp <= c) as (Hcp & Hcpc).
  { subst cp. destruct (Str.len line <? c) eqn:E;
      [apply Z.ltb_lt in E|apply Z.ltb_ge in E]; lia. }
  destruct (scanLeftZ_spec notSpaceByte line cp Hcp) as (k1 & -> & Hk1 & _ & _).
  simpl.
  destruct (slice_in_range line k1 cp) as (tok & -> & Htok); [lia|lia|lia|].
  simpl.
  destruct (scanLeftZ_spec isSpaceByte line k1) as (k2 & -> & Hk2 & _ & _); [lia|].
  simpl.
  assert (exists combined,
            (if 0 <=? k2 - 1
             then prevStart ← scanLeftZ notSpaceByte line (k2 - 1);
                  prevToken ← Str.slice line prevStart (k2 - 1 + 1);
                  match prevToken with
                  | String c0 _ =>
                      if isSlashOrAt c0
                      then Some (Some (prevToken +:+ " " +:+ tok, k1))
                      else Some None
                  | EmptyString => Some None
                  end
             else Some None) = Some combined
            ∧ (forall res, combined = Some res ->
               exists ptok ch rest j, res = (ptok +:+ " " +:+ tok, k1)
                 ∧ ptok = String ch rest ∧ isSlashOrAt ch = true
                 ∧ Str.at_ line j = Some ch ∧ 0 <= j < k2))
    as (combined & -> & Hcomb).
  { destruct (0 <=? k2 - 1) eqn:E; [|by exists None]. apply Z.leb_le in E.
    destruct (scanLeftZ_spec notSpaceByte line (k2 - 1)) as (k3 & -> & Hk3 & _ & _);
      [lia|]. simpl.
    destruct (slice_in_range line k3 (k2 - 1 + 1)) as (ptok & Hp & Hpl);
      [lia|lia|lia|].
    rewrite Hp. simpl. destruct ptok as [|ch rest]; [by exists None|].
    destruct (isSlashOrAt ch) eqn:Em; [|by exists None].
    eexists. split; [done|]. intros res [= <-].
    exists (String ch rest), ch, rest, k3. split; [done|]. split; [done|].
    split; [done|]. split; [by eapply slice_head|lia]. }
  simpl. destruct combined as [res|].
  - destruct (Hcomb res eq_refl) as (ptok & ch & rest & j & -> & -> & Hm & Hat & Hj).
    eexists _, _. split; [done|]. split; [lia|]. split; [lia|].
    split; [done|]. intros Hno. exfalso. apply (Hno j); [lia|]. by exists ch.
  - destruct (cp - 1 <? 0) eqn:E.
    { eexists _, _. split; [done|]. split; [lia|]. split; [lia|]. done. }
    apply Z.ltb_ge in E.
    destruct (at_in_range line (cp - 1)) as [ch Hch]; [lia|].
    rewrite Hch. simpl. destruct (isSlashOrAt ch) eqn:Em.
    + destruct (scanLeftZ_spec notSpaceByte line (cp - 1)) as (k4 & -> & Hk4 & _ & _);
        [lia|]. simpl.
      destruct (slice_in_range line k4 cp) as (t & -> & Ht); [lia|lia|lia|].
      simpl. eexists _, _. split; [done|]. split; [lia|]. split; [lia|].
      assert (t ≠ EmptyString) as Hne.
      { intros ->. change (Str.len EmptyString) with 0 in Ht. lia. }
      split; [done|]. intros Hno. exfalso. apply (Hno (cp - 1)); [lia|].
      by exists ch.
    + destruct (findMarker_spec line cp (Z.to_nat (cp - 1 + 1)))
        as (t & s & -> & Hs & He & Hno); [lia|lia|].
      exists t, s. split; [done|]. split; [lia|]. split; [lia|]. split; [done|].
      intros H. apply Hno. intros j Hj. apply H. lia.
Qed.

Lemma getAutocompletePrefix_None line c :
  getAutocompletePrefix line c = None <-> c < 0.
Proof.
  split.
  - intros H. destruct (decide (c < 0)) as [|Hn]; [done|].
    destruct (getAutocompletePrefix_inside line c) as (p & s & Hp & _); [lia|].
    rewrite Hp in H. done.
  - intros H. unfold getAutocompletePrefix. pose proof (len_nonneg line).
    destruct (Str.len line <? c) eqn:E; [apply Z.ltb_lt in E; lia|].
    assert (scanLeftZ notSpaceByte line c = Some c) as ->.
    { unfold scanLeftZ. destruct (c <=? 0) eqn:E2; [done|apply Z.leb_gt in E2; lia]. }
    simpl. rewrite slice_out_of_range by lia. done.
Qed.

(** [getAutocompletePrefix]: a cursor left of the line panics; for any
    other cursor the start index returned lies in the line, at or left of
    the cursor, and is 0 with an empty prefix; when no ['/'] and no ['@']
    stands left of the cursor the prefix is empty. *)
Theorem getAutocompletePrefix_start (line : string) (c : Z) :
  (getAutocompletePrefix line c = None <-> c < 0)
  ∧ (0 <= c ->
     exists prefix start,
       getAutocompletePrefix line c = Some (prefix, start)
       ∧ 0 <= start <= c ∧ start <= Str.len line
       ∧ (prefix = EmptyString -> start = 0)
       ∧ ((forall j, 0 <= j < c -> ¬ byteIs isSlashOrAt line j) ->
          prefix = EmptyString ∧ start = 0)).
Proof. split; [apply getAutocompletePrefix_None|apply getAutocompletePrefix_inside]. Qed.

(** ** The Iteration screen keeps the session well-formed *)

Lemma getAutocompleteOptions_total m prefix :
  is_Some (currentProvider m) -> is_Some (getAutocompleteOptions m prefix).
Proof.
  intros Hp. pose proof (selectedModels_total m Hp) as [models Hm].
  assert (is_Some (autocompleteCandidates m)) as [cands Hc].
  { unfold autocompleteCandidates.
    destruct (decide (length (rangeKeys (modelToWorktree m)) = 0%nat)); [|done].
    by rewrite Hm. }
  unfold getAutocompleteOptions. destruct prefix as [|c rest]; [done|].
  destruct (Ascii.eqb c "/").
  - destruct (Str.HasPrefix (String c rest) "/next "
              || Str.HasPrefix (String c rest) "/wrap "); [|done].
    rewrite Hc. done.
  - destruct (Ascii.eqb c "@"); [|done]. rewrite Hc. done.
Qed.

Lemma push_length h e :
  (length h <= historyMax)%nat ->
  (length (pushHistorySlice h e) <= historyMax)%nat
  ∧ (length h <= length (pushHistorySlice h e))%nat.
Proof.
  intros H. unfold pushHistorySlice, historyMax in *.
  destruct (decide (Str.TrimSpace e = EmptyString)); [lia|].
  destruct h as [|h0 h]; [simpl; lia|].
  destruct (decide (h0 = Str.TrimSpace e)); [lia|].
  rewrite length_take. cbn [length] in *. lia.
Qed.

Ltac ac :=
  unfold autocompleting in *; simpl in *; intros;
  repeat match goal with
         | H : _ && _ = true |- _ => apply andb_true_iff in H as [? ?]
         end;
  repeat match goal with
         | H : (_ <? _) = true |- _ => apply Z.ltb_lt in H
         end;
  try discriminate; try lia.

Ltac closeO Hc :=
  eexists _, _; split; [reflexivity|];
  split; [core Hc|split; [first [by left|by right]|try exact I]].

Lemma refreshAutocomplete_ok m :
  coreValid m ->
  exists m', refreshAutocomplete m = Some m' ∧ coreValid m' ∧ screen m' = screen m.
Proof.
  intros Hc. pose proof (cv_iteration m Hc) as (line & Hline & Hcol).
  unfold refreshAutocomplete. rewrite Hline. simpl.
  destruct (getAutocompletePrefix_inside line (col (iterationCursor m)))
    as (prefix & start & -> & _); [lia|]. simpl.
  destruct prefix as [|c rest].
  { eexists. split; [done|]. split; [core Hc; ac|done]. }
  destruct (isSlashOrAt c).
  2: { eexists. split; [done|]. split; [core Hc; ac|done]. }
  destruct (getAutocompleteOptions_total m (String c rest)) as [opts ->].
  { apply providerOk_current, Hc. }
  simpl. destruct opts as [|o [|o2 opts]].
  - eexists. split; [done|]. split; [core Hc; ac|done].
  - destruct (decide (o = String c rest)).
    + eexists. split; [done|]. split; [core Hc; ac|done].
    + eexists. split; [done|]. split; [core Hc; ac|done].
  - eexists. split; [done|]. split; [core Hc; ac|done].
Qed.

Lemma iterationTab_step m :
  coreValid m -> otherStep true m (iterationTab m).
Proof.
  intros Hc. unfold otherStep, iterationTab.
  pose proof (cv_iteration m Hc) as (line & Hline & Hcol).
  destruct (autocompleting m) eqn:Ea.
  - pose proof (cv_autocomplete m Hc Ea) as Hi. closeO Hc.
    intros _. apply Z.rem_bound_pos; lia.
  - rewrite Hline. simpl.
    destruct (getAutocompletePrefix_inside line (col (iterationCursor m)))
      as (prefix & start & -> & _); [lia|]. simpl.
    destruct (decide (prefix = EmptyString)); [closeO Hc|].
    destruct (getAutocompleteOptions_total m prefix) as [opts ->].
    { apply providerOk_current, Hc. }
    simpl. destruct (decide (0 < lenZ opts)); closeO Hc; ac.
Qed.

Lemma acceptCompletion_step m :
  coreValid m -> autocompleting m = true -> otherStep true m (acceptCompletion m).
Proof.
  intros Hc Ea. unfold otherStep, acceptCompletion.
  pose proof (cv_iteration m Hc) as (line & Hline & Hcol).
  pose proof (nthZ_Some_range _ _ _ Hline) as Hr.
  pose proof (cv_autocomplete m Hc Ea) as Hi.
  rewrite Hline. simpl.
  destruct (getAutocompletePrefix_inside line (col (iterationCursor m)))
    as (prefix & start & -> & Hs & Hsl & _); [lia|]. simpl.
  destruct (decide (prefix = EmptyString)); simpl; [closeO Hc; ac|].
  destruct (nthZ_in_range (autocompleteOptions m) (autocompleteIndex m) Hi)
    as [completion ->]. simpl.
  destruct (slices_in_range line start) as (a & b0 & _ & Ha & -> & _); [lia|].
  destruct (slices_in_range line (col (iterationCursor m)) Hcol)
    as (a0 & b & Hab & _ & _ & ->). simpl.
  destruct (validBuffer_edit (iterationInput m) (iterationCursor m)
              (a +:+ completion +:+ b) (start + Str.len completion) Hr)
    as (rows & -> & Hv & _).
  { rewrite !len_append. pose proof (len_nonneg completion).
    pose proof (len_nonneg b). lia. }
  simpl. closeO Hc; ac.
Qed.

Lemma validBuffer_blank : validBuffer [EmptyString] (Cursor 0 0).
Proof. exists EmptyString. split; [done|]. simpl. done. Qed.

Lemma historyIndexOk_push h e i :
  (length h <= historyMax)%nat -> historyIndexOk h i ->
  historyIndexOk (pushHistorySlice h e) i.
Proof.
  intros Hl Hi. destruct (push_length h e Hl) as [_ Hle].
  unfold historyIndexOk, lenZ in *. lia.
Qed.

Lemma submitCommand_step m :
  coreValid m -> otherStep true m (submitCommand m).
Proof.
  intros Hc.
  assert (otherStep true m
            ('(rows, cur) ← insertNewline (iterationInput m) (iterationCursor m);
             Some (set_iterationCursor cur (set_iterationInput rows m), None)))
    as Hnl.
  { destruct (insertNewline_valid' _ _ (cv_iteration m Hc))
      as (rows & cur & -> & Hv & _).
    simpl. closeO Hc. }
  unfold otherStep, submitCommand.
  set (line := Str.TrimSpace (Str.Join (iterationInput m) nl)).
  destruct (decide (line = "/bail")); [closeO Hc; apply issued_bail|].
  destruct (Str.HasPrefix line "/next ");
    [destruct (decide (Str.TrimSpace (Str.TrimPrefix line "/next ") = EmptyString))|];
    try (closeO Hc; apply issued_next).
  all: destruct (Str.HasPrefix line "/wrap ");
    [destruct (decide (Str.TrimSpace (Str.TrimPrefix line "/wrap ") = EmptyString))|];
    try (closeO Hc; apply issued_wrap).
  all: destruct (Str.HasPrefix line "@"); try exact Hnl.
  all: destruct (Str.SplitN2 line Str.space) as [|p0 [|p1 [|? ?]]]; try exact Hnl.
  all: destruct (modelToPaneID m !! Str.TrimPrefix p0 "@") as [paneID|];
    try exact Hnl.
  all: closeO Hc;
    [apply validBuffer_blank|by apply push_length
    |by apply historyIndexOk_push|by apply historyIndexOk_push
    |apply issued_send].
Qed.

Lemma iterationBackspace_step m alt :
  coreValid m -> otherStep true m (iterationBackspace m alt).
Proof.
  intros Hc. unfold otherStep, iterationBackspace.
  pose proof (cv_iteration m Hc) as Hin.
  pose proof Hin as (line & Hline & Hcol).
  pose proof (nthZ_Some_range _ _ _ Hline) as Hr.
  destruct alt.
  - simpl. rewrite Hline. simpl.
    destruct (deleteWordBackward_ok line (col (iterationCursor m)) Hcol)
      as (s & c & -> & Hok). simpl.
    destruct (validBuffer_edit (iterationInput m) (iterationCursor m) s c Hr Hok)
      as (rows & -> & Hv & _). simpl. closeO Hc; ac.
  - destruct (backspace_valid _ _ Hin) as (rows & cur & Hbs & Hv & _).
    destruct (0 <? col (iterationCursor m)).
    + rewrite Hbs. simpl.
      destruct (refreshAutocomplete_ok
                  (set_iterationCursor cur (set_iterationInput rows m)))
        as (m' & -> & Hc' & Hscr'); [core Hc|].
      simpl. eexists _, _. split; [done|]. split; [done|].
      split; [by left|done].
    + destruct (0 <? row (iterationCursor m)); [|closeO Hc].
      simpl. rewrite Hbs. simpl. closeO Hc; ac.
Qed.

Lemma iterationUp_step m :
  coreValid m -> otherStep true m (iterationUp m).
Proof.
  intros Hc. unfold otherStep, iterationUp.
  pose proof (cv_iteration m Hc) as Hin.
  pose proof (cv_iterationHistoryIndex m Hc) as Hh.
  pose proof (validBuffer_nonempty _ _ Hin) as Hne.
  pose proof Hin as (line & Hline & Hcol).
  pose proof (nthZ_Some_range _ _ _ Hline) as Hr.
  assert (otherStep true m
            (if 0 <? row (iterationCursor m)
             then cur ← clampTo (iterationInput m) (row (iterationCursor m) - 1)
                          (col (iterationCursor m));
                  Some (set_iterationCursor cur m, None)
             else Some (m, None))) as Hclamp.
  { destruct (0 <? row (iterationCursor m)) eqn:E; [|closeO Hc].
    apply Z.ltb_lt in E.
    destruct (clampTo_valid (iterationInput m) (row (iterationCursor m) - 1)
                (col (iterationCursor m))) as (cur & -> & Hv); [lia|lia|].
    simpl. closeO Hc. }
  destruct (autocompleting m) eqn:Ea.
  { pose proof (cv_autocomplete m Hc Ea) as Hi. closeO Hc. intros _.
    destruct (autocompleteIndex m - 1 <? 0) eqn:E;
      [apply Z.ltb_lt in E|apply Z.ltb_ge in E]; lia. }
  destruct (decide (0 < lenZ (history m))) as [Hlen|Hlen]; [|exact Hclamp].
  destruct (iterationHistoryIndex m =? -1) eqn:E1; simpl.
  - destruct (nthZ_in_range (history m) 0) as [entry ->]; [lia|]. simpl.
    destruct (loadEntry_valid entry) as (rows & cur & -> & Hv & _). simpl.
    closeO Hc; hist. intros [=]. done.
  - apply Z.eqb_neq in E1.
    destruct (iterationHistoryIndex m <? lenZ (history m) - 1) eqn:E2;
      [|exact Hclamp].
    apply Z.ltb_lt in E2. simpl.
    destruct (nthZ_in_range (history m) (iterationHistoryIndex m + 1))
      as [entry ->]; [hist|]. simpl.
    destruct (loadEntry_valid entry) as (rows & cur & -> & Hv & _). simpl.
    closeO Hc; hist.
Qed.

Lemma iterationDown_step m :
  coreValid m -> otherStep true m (iterationDown m).
Proof.
  intros Hc. unfold otherStep, iterationDown.
  pose proof (cv_iteration m Hc) as Hin.
  pose proof (cv_iterationHistoryIndex m Hc) as Hh.
  pose proof (cv_draftIteration m Hc) as Hd.
  pose proof Hin as (line & Hline & Hcol).
  pose proof (nthZ_Some_range _ _ _ Hline) as Hr.
  destruct (autocompleting m) eqn:Ea.
  { pose proof (cv_autocomplete m Hc Ea) as Hi. closeO Hc. intros _.
    apply Z.rem_bound_pos; lia. }
  destruct (negb (iterationHistoryIndex m =? -1)) eqn:E1.
  - apply negb_true_iff, Z.eqb_neq in E1.
    destruct (0 <? iterationHistoryIndex m) eqn:E2; simpl.
    + apply Z.ltb_lt in E2.
      destruct (nthZ_in_range (history m) (iterationHistoryIndex m - 1))
        as [entry ->]; [hist|]. simpl.
      destruct (loadEntry_valid entry) as (rows & cur & -> & Hv & _). simpl.
      closeO Hc; hist.
    + destruct (cursorAtEnd_valid
                  (match draftIterationInput m with
                   | Some d => d
                   | None => [EmptyString]
                   end)) as (cur & -> & Hv).
      { unfold draftOk in Hd. destruct (draftIterationInput m) as [[|]|]; done. }
      simpl. closeO Hc; hist.
  - destruct (row (iterationCursor m) <? lenZ (iterationInput m) - 1) eqn:E;
      [|closeO Hc].
    apply Z.ltb_lt in E.
    destruct (clampTo_valid (iterationInput m) (row (iterationCursor m) + 1)
                (col (iterationCursor m))) as (cur & -> & Hv); [lia|lia|].
    simpl. closeO Hc.
Qed.

Lemma iterationWordMotion_step m r :
  coreValid m -> otherStep true m (iterationWordMotion m r).
Proof.
  intros Hc. unfold otherStep, iterationWordMotion. simpl.
  pose proof (cv_iteration m Hc) as Hin.
  destruct (r =? 98).
  - destruct (moveWordLeftLines_valid _ _ _ Hin) as (r' & c' & -> & Hv & _).
    simpl. closeO Hc; ac.
  - destruct (moveWordRightLines_valid _ _ _ Hin) as (r' & c' & -> & Hv & _).
    simpl. closeO Hc; ac.
Qed.

Lemma iterationRunes_step m runes :
  coreValid m -> otherStep true m (iterationRunes m runes).
Proof.
  intros Hc. unfold otherStep, iterationRunes.
  pose proof (cv_iteration m Hc) as Hin.
  destruct (decide (0 < lenZ runes)); [|closeO Hc].
  set (r := Str.encodeRunes runes).
  destruct (insertText_valid _ _ r Hin) as (rows & cur & -> & Hv & _). simpl.
  destruct (decide (r = "/" ∨ r = "@")).
  - destruct (getAutocompleteOptions_total
                (set_iterationCursor cur (set_iterationInput rows m)) r)
      as [opts ->].
    { apply (providerOk_current m), Hc. }
    simpl. destruct (decide (0 < lenZ opts)); closeO Hc; ac.
  - destruct (refreshAutocomplete_ok
                (set_iterationCursor cur (set_iterationInput rows m)))
      as (m' & -> & Hc' & Hscr'); [core Hc|].
    simpl. eexists _, _. split; [done|]. split; [done|].
    split; [by left|done].
Qed.

Lemma updateIteration_step m msg :
  coreValid m -> otherStep true m (updateIteration m msg).
Proof.
  intros Hc. unfold updateIteration.
  pose proof (cv_iteration m Hc) as Hin.
  pose proof Hin as (line & Hline & Hcol).
  pose proof (nthZ_Some_range _ _ _ Hline) as Hr.
  assert (otherStep true m
            match wordMotion m msg with
            | Some r => iterationWordMotion m r
            | None => iterationRunes m (Runes msg)
            end) as Hdefault.
  { destruct (wordMotion m msg);
      [by apply iterationWordMotion_step|by apply iterationRunes_step]. }
  destruct (KType msg); try exact Hdefault; unfold otherStep.
  - closeO Hc. apply issued_cleanup.
  - closeO Hc. by apply issued_tick.
  - simpl. destruct (lineLeft_valid _ _ _ Hin) as (r' & c' & -> & Hv & _).
    simpl. closeO Hc; ac.
  - simpl. destruct (lineLeft_valid _ _ _ Hin) as (r' & c' & -> & Hv & _).
    simpl. closeO Hc; ac.
  - simpl. destruct (lineRight_valid _ _ _ Hin) as (r' & c' & -> & Hv & _).
    simpl. closeO Hc; ac.
  - simpl. destruct (lineRight_valid _ _ _ Hin) as (r' & c' & -> & Hv & _).
    simpl. closeO Hc; ac.
  - by apply iterationTab_step.
  - unfold iterationEnter. destruct (autocompleting m) eqn:Ea;
      [by apply acceptCompletion_step|by apply submitCommand_step].
  - simpl. destruct (insertText_valid _ _ " " Hin) as (rows & cur & -> & Hv & _).
    simpl. closeO Hc; ac.
  - by apply iterationBackspace_step.
  - simpl. rewrite Hline. simpl.
    destruct (deleteLineBackward_ok line (col (iterationCursor m)) Hcol)
      as (s & c & -> & Hok). simpl.
    destruct (validBuffer_edit (iterationInput m) (iterationCursor m) s c Hr Hok)
      as (rows & -> & Hv & _). simpl. closeO Hc; ac.
  - simpl. destruct (moveLeft_valid _ _ Hin) as (cur & -> & Hv & _).
    simpl. closeO Hc; ac.
  - simpl. destruct (moveRight_valid _ _ Hin) as (cur & -> & Hv & _).
    simpl. closeO Hc; ac.
  - by apply iterationUp_step.
  - by apply iterationDown_step.
Qed.

(** ** The NewTask screen keeps the session well-formed *)

Lemma newTaskWordMotion_step m r :
  coreValid m -> otherStep false m (newTaskWordMotion m r).
Proof.
  intros Hc. unfold otherStep, newTaskWordMotion. simpl.
  pose proof (cv_newTask m Hc) as Hin.
  pose proof (cv_newTaskName m Hc) as Hn.
  destruct (newTaskFocus m); try closeO Hc.
  - destruct (r =? 98).
    + destruct (wordLeft_in_range _ _ Hn) as (i & -> & Hi). simpl.
      closeO Hc. unfold fieldOk in *. simpl. lia.
    + destruct (wordRight_in_range _ _ Hn) as (i & -> & Hi). simpl.
      closeO Hc. unfold fieldOk in *. simpl. lia.
  - destruct (r =? 98).
    + destruct (moveWordLeftLines_valid _ _ _ Hin) as (r' & c' & -> & Hv & _).
      simpl. closeO Hc.
    + destruct (moveWordRightLines_valid _ _ _ Hin) as (r' & c' & -> & Hv & _).
      simpl. closeO Hc.
Qed.

Lemma newTaskEnter_step m :
  coreValid m -> otherStep false m (newTaskEnter m).
Proof.
  intros Hc. unfold otherStep, newTaskEnter.
  pose proof (cv_newTask m Hc) as Hin.
  destruct (onTaskName m); [closeO Hc|].
  assert (otherStep false m
            ('(rows, cur) ← insertNewline (newTaskPrompt m) (newTaskCursor m);
             Some (set_newTaskCursor cur (set_newTaskPrompt rows m), None)))
    as Hnl.
  { destruct (insertNewline_valid' _ _ Hin) as (rows & cur & -> & Hv & _).
    simpl. closeO Hc. }
  destruct (decide (Str.TrimSpace (Str.Join (newTaskPrompt m) nl) = EmptyString));
    [exact Hnl|].
  destruct (selectedModels_total m) as [models ->].
  { apply providerOk_current, Hc. }
  simpl. destruct (decide (0 < lenZ models)); [|exact Hnl].
  closeO Hc; [apply validBuffer_blank|unfold fieldOk, Str.len; simpl; lia
             |apply issued_open].
Qed.

Lemma updateNewTask_step m msg :
  coreValid m -> otherStep false m (updateNewTask m msg).
Proof.
  intros Hc. unfold updateNewTask.
  pose proof (cv_newTask m Hc) as Hin.
  pose proof (cv_newTaskName m Hc) as Hn.
  pose proof Hin as (line & Hline & Hcol).
  pose proof (nthZ_Some_range _ _ _ Hline) as Hr.
  pose proof (len_nonneg (newTaskName m)) as Hlen.
  assert (otherStep false m
            match wordMotion m msg with
            | Some r => newTaskWordMotion m r
            | None =>
                if decide (0 < lenZ (Runes msg)) then
                  let r := Str.encodeRunes (Runes msg) in
                  if onTaskName m then
                    s ← spliceAt (newTaskName m) (newTaskNameCursor m) r;
                    Some (set_newTaskNameCursor (newTaskNameCursor m + Str.len r)
                            (set_newTaskName s m), None)
                  else
                    '(rows, cur) ← insertText (newTaskPrompt m) (newTaskCursor m) r;
                    Some (set_newTaskCursor cur (set_newTaskPrompt rows m), None)
                else Some (m, None)
            end) as Hdefault.
  { destruct (wordMotion m msg); [by apply newTaskWordMotion_step|].
    unfold otherStep. destruct (decide (0 < lenZ (Runes msg))); [|closeO Hc].
    simpl. destruct (onTaskName m).
    - destruct (spliceAt_ok _ _ (Str.encodeRunes (Runes msg)) Hn) as (s & -> & Hl).
      simpl. closeO Hc. unfold fieldOk in *. simpl.
      pose proof (len_nonneg (Str.encodeRunes (Runes msg))). lia.
    - destruct (insertText_valid _ _ (Str.encodeRunes (Runes msg)) Hin)
        as (rows & cur & -> & Hv & _). simpl. closeO Hc. }
  destruct (KType msg); try exact Hdefault; unfold otherStep.
  - closeO Hc. apply issued_cleanup.
  - closeO Hc. by apply issued_tick.
  - destruct (onTaskName m); [closeO Hc; unfold fieldOk; simpl; lia|].
    destruct (lineLeft_valid _ _ _ Hin) as (r' & c' & -> & Hv & _).
    simpl. closeO Hc.
  - destruct (onTaskName m); [closeO Hc; unfold fieldOk; simpl; lia|].
    destruct (lineLeft_valid _ _ _ Hin) as (r' & c' & -> & Hv & _).
    simpl. closeO Hc.
  - destruct (onTaskName m); [closeO Hc; unfold fieldOk; simpl; lia|].
    destruct (lineRight_valid _ _ _ Hin) as (r' & c' & -> & Hv & _).
    simpl. closeO Hc.
  - destruct (onTaskName m); [closeO Hc; unfold fieldOk; simpl; lia|].
    destruct (lineRight_valid _ _ _ Hin) as (r' & c' & -> & Hv & _).
    simpl. closeO Hc.
  - closeO Hc.
  - by apply newTaskEnter_step.
  - destruct (onTaskName m).
    + destruct (spliceAt_ok _ _ " " Hn) as (s & -> & Hl).
      simpl. closeO Hc. unfold fieldOk in *. simpl.
      change (Str.len " ") with 1 in Hl. lia.
    + destruct (insertText_valid _ _ " " Hin) as (rows & cur & -> & Hv & _).
      simpl. closeO Hc.
  - destruct (Alt msg).
    + destruct (onTaskName m).
      * destruct (deleteWordBackward_ok _ _ Hn) as (s & c & -> & Hok).
        simpl. closeO Hc.
      * rewrite Hline. simpl.
        destruct (deleteWordBackward_ok line (col (newTaskCursor m)) Hcol)
          as (s & c & -> & Hok). simpl.
        destruct (validBuffer_edit (newTaskPrompt m) (newTaskCursor m) s c Hr Hok)
          as (rows & -> & Hv & _). simpl. closeO Hc.
    + destruct (onTaskName m).
      * destruct (backspaceField_ok _ _ Hn) as (s & c & -> & Hok).
        simpl. closeO Hc.
      * destruct (backspace_valid _ _ Hin) as (rows & cur & -> & Hv & _).
        simpl. closeO Hc.
  - destruct (onTaskName m).
    + destruct (deleteLineBackward_ok _ _ Hn) as (s & c & -> & Hok).
      simpl. closeO Hc.
    + rewrite Hline. simpl.
      destruct (deleteLineBackward_ok line (col (newTaskCursor m)) Hcol)
        as (s & c & -> & Hok). simpl.
      destruct (validBuffer_edit (newTaskPrompt m) (newTaskCursor m) s c Hr Hok)
        as (rows & -> & Hv & _). simpl. closeO Hc.
  - destruct (onTaskName m).
    + destruct (0 <? newTaskNameCursor m) eqn:E; [apply Z.ltb_lt in E|];
        closeO Hc. unfold fieldOk in *. simpl. lia.
    + destruct (moveLeft_valid _ _ Hin) as (cur & -> & Hv & _).
      simpl. closeO Hc.
  - destruct (onTaskName m).
    + destruct (newTaskNameCursor m <? Str.len (newTaskName m)) eqn:E;
        [apply Z.ltb_lt in E|]; closeO Hc. unfold fieldOk in *. simpl. lia.
    + destruct (moveRight_valid _ _ Hin) as (cur & -> & Hv & _).
      simpl. closeO Hc.
  - destruct (bool_decide (newTaskFocus m = focusPrompt)
              && (0 <? row (newTaskCursor m))) eqn:E; [|closeO Hc].
    apply andb_true_iff in E as [_ E]. apply Z.ltb_lt in E.
    destruct (clampTo_valid (newTaskPrompt m) (row (newTaskCursor m) - 1)
                (col (newTaskCursor m))) as (cur & -> & Hv); [lia|lia|].
    simpl. closeO Hc.
  - destruct (bool_decide (newTaskFocus m = focusPrompt)
              && (row (newTaskCursor m) <? lenZ (newTaskPrompt m) - 1)) eqn:E;
      [|closeO Hc].
    apply andb_true_iff in E as [_ E]. apply Z.ltb_lt in E.
    destruct (clampTo_valid (newTaskPrompt m) (row (newTaskCursor m) + 1)
                (col (newTaskCursor m))) as (cur & -> & Hv); [lia|lia|].
    simpl. closeO Hc.
Qed.

(** ** [Update] keeps the session well-formed *)

Lemma registerInstances_core msg prompt labels : forall m i,
  0 <= i ->
  i + lenZ labels <= lenZ (PanesOpened.paneIDs msg) ->
  i + lenZ labels <= lenZ (PanesOpened.worktrees msg) ->
  coreValid m ->
  exists m', registerInstances m msg prompt i labels = Some m'
             ∧ coreValid m' ∧ screen m' = screen m.
Proof.
  induction labels as [|l labels IH]; intros m i Hi Hp Hw Hc.
  - by exists m.
  - unfold lenZ in *. simpl length in *. cbn [registerInstances].
    destruct (nthZ_in_range (PanesOpened.paneIDs msg) i) as [pane ->];
      [unfold lenZ; lia|].
    destruct (nthZ_in_range (PanesOpened.worktrees msg) i) as [wt ->];
      [unfold lenZ; lia|].
    cbn [mbind option_bind].
    destruct (nthZ (PanesOpened.providers msg) i),
      (nthZ (PanesOpened.baseModels msg) i);
      match goal with
      | |- context [registerInstances ?m1 msg prompt (i + 1) labels] =>
          destruct (IH m1 (i + 1)) as (m' & -> & Hc' & Hs);
            [lia|lia|lia|core Hc|]
      end; by exists m'.
Qed.

Lemma panesOpened_step m msg :
  wellFormed m -> balancedMsg msg ->
  exists m' cmd, panesOpened m msg = Some (m', cmd) ∧ wellFormed m'
    ∧ issuedBy m' cmd ∧ (screen m' = screen m ∨ screen m' = screenIteration).
Proof.
  intros [Hc Hs] [Hb1 Hb2]. unfold panesOpened.
  destruct (bool_decide (PanesOpened.err msg = None) && (0 <? PanesOpened.count msg)).
  2: { exists m, None. split; [done|]. split; [done|]. split; [done|by left]. }
  cbn zeta.
  match goal with
  | |- context [registerInstances ?m1 msg ?pr 0 ?ls] =>
      destruct (registerInstances_core msg pr ls m1 0) as (m' & -> & Hc' & Hscr);
        [lia|lia|lia| |]
  end.
  - pose proof (cv_history m Hc) as Hlen.
    core Hc; [by apply push_length|by apply historyIndexOk_push
             |by apply historyIndexOk_push].
  - simpl. exists m', None. split; [done|]. split; [|split; [done|by right]].
    split; [done|]. rewrite Hscr. simpl. done.
Qed.

Lemma Update_step m msg :
  wellFormed m -> accepted m msg ->
  exists m' cmd, Update m msg = Some (m', cmd) ∧ wellFormed m' ∧ issuedBy m' cmd
    ∧ transition msg (screen m) (screen m').
Proof.
  intros Hwf Hacc. pose proof Hwf as [Hc Hs]. unfold Update.
  destruct msg as [| | | | | |p|w h| |k|].
  - eexists _, _. split; [done|]. split; [|split; [by apply issued_tick|done]].
    split; [core Hc|exact Hs].
  - destruct (0 <? lenZ (spinnerFrames m)).
    + eexists _, _. split; [done|]. split; [|split; [by apply issued_tick|done]].
      split; [core Hc|exact Hs].
    + eexists _, _. split; [done|]. split; [done|split; [by apply issued_tick|done]].
  - eexists _, _. split; [done|]. split; [done|split; [apply issued_quit|done]].
  - eexists _, _. split; [done|]. split; [|done].
    split; [|simpl; discriminate].
    core Hc; [apply validBuffer_blank|ac|done|].
    unfold historyIndexOk, lenZ in *. lia.
  - eexists _, _. split; [done|]. split; [done|split; [apply issued_quit|done]].
  - eexists _, _. split; [done|]. split; [done|split; [apply issued_quit|done]].
  - by apply panesOpened_step.
  - eexists _, _. split; [done|]. split; [|done]. split; [core Hc|exact Hs].
  - destruct (pendingEsc m).
    + eexists _, _. split; [done|]. split; [|split; [apply issued_cleanup|done]].
      split; [core Hc|exact Hs].
    + by exists m, None.
  - destruct (decide (screen m = screenIteration)) as [Hi|Hi].
    { destruct (updateIteration_step m k Hc) as (m' & cmd & -> & Hc' & Hscr & Hiss).
      exists m', cmd. split; [done|]. rewrite Hi in *.
      split; [|split; [done|destruct Hscr as [?|[_ ?]]; [by left|by right]]].
      split; [done|]. by destruct Hscr as [-> |[_ ->]]. }
    destruct (decide (screen m = screenNewTask)) as [Hn|Hn].
    { destruct (updateNewTask_step m k Hc) as (m' & cmd & -> & Hc' & Hscr & Hiss).
      exists m', cmd. split; [done|].
      assert (screen m' = screen m) as Hsame.
      { by destruct Hscr as [?|[? _]]. }
      split; [|split; [done|by left]].
      split; [done|]. rewrite Hsame, Hn. done. }
    assert (setupValid m) as Hsv.
    { simpl in Hacc. destruct (screen m); [by apply Hs|done|by apply Hacc|done]. }
    destruct (updateSetup_step m k Hc Hsv) as (m' & cmd & -> & Hc' & Hs' & Hscr & Hiss).
    exists m', cmd. split; [done|]. split; [|split; [done|by left]]. split; [done|]. done.
  - by exists m, None.
Qed.

(** ** The commands never panic *)

Lemma delivers_forEach {A} (xs : list A) (body : A -> prog unit) :
  (forall x, delivers (fun _ => True) (body x)) ->
  delivers (fun _ => True) (forEach xs body).
Proof.
  intros Hbody. induction xs as [|x xs IH]; [done|].
  change (forEach (x :: xs) body) with (body x ≫= fun _ => forEach xs body).
  apply (delivers_bind (fun _ => True)); [apply Hbody|done].
Qed.

Lemma delivers_killPanes m : delivers (fun _ => True) (killPanes m).
Proof. apply delivers_forEach. intros x. simpl. done. Qed.

Lemma delivers_removeWorktrees m parentDir :
  delivers (fun _ => True) (removeWorktrees m parentDir).
Proof. apply delivers_forEach. intros x. simpl. done. Qed.

Local Arguments killPanes : simpl never.
Local Arguments removeWorktrees : simpl never.
Local Arguments commitMessageOf : simpl never.
Local Arguments Str.TrimSpace : simpl never.
Local Arguments shellQuote : simpl never.
Local Arguments instanceLabelOf : simpl never.
Local Arguments Str.Join : simpl never.
Local Arguments Str.itoa : simpl never.
Local Arguments openPanes : simpl never.

(** One step through a command: an answer is taken, a test is decided, a
    loop of Cleanup is passed. *)
Ltac through :=
  repeat first
    [ progress (simpl; intros)
    | match goal with
      | |- delivers _ (match ?r with ROk _ => _ | RErr _ => _ end) => destruct r
      | |- delivers _ (if ?b then _ else _) => destruct b
      | |- delivers _ (match ?o with Some _ => _ | None => _ end) => destruct o
      | |- delivers _ (prog_bind _ (killPanes _)) =>
          apply (delivers_bind (fun _ => True)); [apply delivers_killPanes|]
      | |- delivers _ (prog_bind _ (removeWorktrees _ _)) =>
          apply (delivers_bind (fun _ => True)); [apply delivers_removeWorktrees|]
      | |- delivers _ (killPanes _ ≫= _) =>
          apply (delivers_bind (fun _ => True)); [apply delivers_killPanes|]
      | |- delivers _ (removeWorktrees _ _ ≫= _) =>
          apply (delivers_bind (fun _ => True)); [apply delivers_removeWorktrees|]
      | |- context [match ?r with ROk _ => _ | RErr _ => _ end] => destruct r
      | |- context [if ?b then _ else _] => destruct b
      end ].

Lemma delivers_bailCmd m : delivers deliverableReply (bailCmd m).
Proof. unfold bailCmd, isInsideTmux, displayMessage, tmuxRunCmd. through; done. Qed.

Lemma delivers_cleanupCmd m : delivers deliverableReply (cleanupCmd m).
Proof.
  unfold cleanupCmd, isInsideTmux, displayMessage, tmuxRunCmd. through; done.
Qed.

Lemma delivers_mergeCmd m label what complete :
  is_Some (currentProvider m) -> deliverable complete ->
  delivers deliverableReply (mergeCmd m label what complete).
Proof.
  intros [q Hq] Hd.
  unfold mergeCmd, isInsideTmux, displayMessage, tmuxRunCmd, execRun.
  rewrite Hq. through; done.
Qed.

Lemma delivers_sendToModelPaneCmd paneID label text m :
  is_Some (currentProvider m) ->
  delivers deliverableReply (sendToModelPaneCmd paneID label text m).
Proof.
  intros [q Hq].
  unfold sendToModelPaneCmd, isInsideTmux, displayMessage, tmuxRunCmd.
  rewrite Hq. through; done.
Qed.

Lemma delivers_openPanes m q branchName models : forall st,
  currentProvider m = Some q -> balanced st ->
  delivers balanced (openPanes m branchName st models).
Proof.
  induction models as [|baseName rest IH]; intros st Hq Hb; [done|].
  change (openPanes m branchName st (baseName :: rest))
    with (openPane m branchName st baseName
          ≫= fun st1 => openPanes m branchName st1 rest).
  apply (delivers_bind balanced); [|intros st1 Hb1; by apply IH].
  unfold openPane, identifierFor, tmuxRunCmd. rewrite Hq. simpl.
  intros r1 r2. destruct Hb as [H1 H2]. destruct r2; simpl; [|done].
  unfold balanced. simpl. rewrite !length_app, H1, H2. done.
Qed.

Lemma delivers_openPanesCmd models m :
  is_Some (currentProvider m) ->
  delivers deliverableReply (openPanesCmd models m).
Proof.
  intros [q Hq].
  unfold openPanesCmd, isInsideTmux, displayMessage, tmuxRunCmd, execRun.
  rewrite Hq.
  assert (forall e, balancedMsg (failedOpen e)) as Hfail.
  { intros e. unfold balancedMsg, lenZ. simpl. lia. }
  apply (delivers_bind (fun _ => True)).
  { destruct (setDefault m); simpl; [|done]. intros r. by destruct r. }
  intros _ _. simpl. intros r. destruct r; simpl; [|intros; apply Hfail].
  destruct (decide (Str.TrimSpace (branch m) = EmptyString)); [apply Hfail|].
  simpl. intros _ _ r. destruct r; simpl; [|apply Hfail].
  apply (delivers_bind balanced).
  { eapply delivers_openPanes; [done|]. by split. }
  intros st [H1 H2]. simpl. intros _ _ _.
  unfold balancedMsg, lenZ. simpl. lia.
Qed.

Lemma issued_delivers m p :
  is_Some (currentProvider m) -> issued m p -> delivers deliverableReply p.
Proof.
  intros Hp Hi. destruct Hi.
  - apply delivers_cleanupCmd.
  - apply delivers_bailCmd.
  - by apply delivers_mergeCmd.
  - by apply delivers_mergeCmd.
  - by apply delivers_sendToModelPaneCmd.
  - by apply delivers_openPanesCmd.
  - simpl. done.
  - simpl. done.
Qed.

(** From a well-formed session, [Update] handles every message the session
    is ready for without a panic, and the session it returns is well-formed
    again. *)
Theorem Update_keeps_wellFormed (m : model) (msg : Msg)
    (Hwf : wellFormed m) (Hacc : accepted m msg) :
  exists m' cmd, Update m msg = Some (m', cmd) ∧ wellFormed m'.
Proof.
  destruct (Update_step m msg Hwf Hacc) as (m' & cmd & Hu & Hwf' & _ & _).
  by exists m', cmd.
Qed.

(** ** The commands of the Setup screen

    Whatever the state, a key handled by the code of the Setup screen
    returns a command only for Ctrl-C, for Escape and for Enter in the
    prompt. *)

Ltac nocmd H :=
  cbv zeta in H;
  repeat match type of H with
         | context [mbind _ ?o] =>
             (destruct o as [[? ?]|] || destruct o);
             cbn [mbind option_bind] in H
         | context [match ?x with _ => _ end] => destruct x
         | context [if ?b then _ else _] => destruct b
         end;
  first [discriminate H | by injection H as <- <-].

Lemma setupWordMotion_nocmd m r m' cmd :
  setupWordMotion m r = Some (m', cmd) -> cmd = None.
Proof. unfold setupWordMotion. cbv zeta. intros H. nocmd H. Qed.

Lemma setupHome_nocmd m m' cmd : setupHome m = Some (m', cmd) -> cmd = None.
Proof. unfold setupHome. intros H. nocmd H. Qed.

Lemma setupEnd_nocmd m m' cmd : setupEnd m = Some (m', cmd) -> cmd = None.
Proof. unfold setupEnd. intros H. nocmd H. Qed.

Lemma setupTab_nocmd m m' cmd : setupTab m = Some (m', cmd) -> cmd = None.
Proof. unfold setupTab. intros H. nocmd H. Qed.

Lemma setupSpace_nocmd m m' cmd : setupSpace m = Some (m', cmd) -> cmd = None.
Proof. unfold setupSpace. intros H. nocmd H. Qed.

Lemma setupBackspace_nocmd m alt m' cmd :
  setupBackspace m alt = Some (m', cmd) -> cmd = None.
Proof. unfold setupBackspace. intros H. nocmd H. Qed.

Lemma setupCtrlU_nocmd m m' cmd : setupCtrlU m = Some (m', cmd) -> cmd = None.
Proof. unfold setupCtrlU. intros H. nocmd H. Qed.

Lemma setupLeft_nocmd m m' cmd : setupLeft m = Some (m', cmd) -> cmd = None.
Proof. unfold setupLeft. intros H. nocmd H. Qed.

Lemma setupRight_nocmd m m' cmd : setupRight m = Some (m', cmd) -> cmd = None.
Proof. unfold setupRight. intros H. nocmd H. Qed.

Lemma setupUp_nocmd m m' cmd : setupUp m = Some (m', cmd) -> cmd = None.
Proof. unfold setupUp. cbv zeta. intros H. nocmd H. Qed.

Lemma setupDown_nocmd m m' cmd : setupDown m = Some (m', cmd) -> cmd = None.
Proof. unfold setupDown. cbv zeta. intros H. nocmd H. Qed.

Lemma setupRunes_nocmd m runes m' cmd :
  setupRunes m runes = Some (m', cmd) -> cmd = None.
Proof. unfold setupRunes. cbv zeta. intros H. nocmd H. Qed.

Lemma setupEnter_command m m' p :
  setupEnter m = Some (m', Some p) ->
  issued m' p ∧ currentProvider m' = currentProvider m.
Proof.
  unfold setupEnter. cbv zeta. intros H.
  destruct (focus m); try (by nocmd H).
  destruct (insertNewline (input m) (cursor m)) as [[rows cur]|]; [|done].
  cbn [mbind option_bind] in H.
  destruct (selectedModels _) as [models|]; [|done].
  cbn [mbind option_bind] in H. case_decide; [|done].
  injection H as <- <-. split; [apply issued_open|done].
Qed.

(** The commands that the code of the Setup screen returns, in any state. *)
Lemma updateSetup_command m k m' p :
  updateSetup m k = Some (m', Some p) ->
  issued m' p ∧ currentProvider m' = currentProvider m.
Proof.
  unfold updateSetup.
  destruct (wordMotion m k).
  { intros H. by apply setupWordMotion_nocmd in H. }
  destruct (KType k); intros H;
    try (first [ apply setupHome_nocmd in H | apply setupEnd_nocmd in H
               | apply setupTab_nocmd in H | apply setupSpace_nocmd in H
               | apply setupBackspace_nocmd in H | apply setupCtrlU_nocmd in H
               | apply setupLeft_nocmd in H | apply setupRight_nocmd in H
               | apply setupUp_nocmd in H | apply setupDown_nocmd in H
               | apply setupRunes_nocmd in H ]; discriminate).
  - injection H as <- <-. split; [apply issued_cleanup|done].
  - injection H as <- <-. split; [by apply issued_tick|done].
  - by apply setupEnter_command.
Qed.

(** A launch message is answered without a command. *)
Lemma panesOpened_nocmd m msg m' cmd :
  panesOpened m msg = Some (m', cmd) -> cmd = None.
Proof. unfold panesOpened. cbv zeta. intros H. nocmd H. Qed.

(** The commands that [Update] returns from a well-formed session, whatever
    the message. *)
Lemma Update_command m msg m' p :
  wellFormed m -> Update m msg = Some (m', Some p) ->
  issued m' p ∧ is_Some (currentProvider m').
Proof.
  intros Hwf Hupd.
  assert (accepted m msg ->
          issued m' p ∧ is_Some (currentProvider m')) as Hready.
  { intros Hacc.
    destruct (Update_step m msg Hwf Hacc) as (m1 & cmd & Hu & [Hc _] & Hiss & _).
    rewrite Hupd in Hu. injection Hu as <- <-.
    split; [exact Hiss|]. apply providerOk_current, Hc. }
  destruct msg as [| | | | | |msg| | |k|]; try (by apply Hready).
  - unfold Update in Hupd. by apply panesOpened_nocmd in Hupd.
  - destruct (decide (screen m = screenProgress)) as [Hs|Hs];
      [|apply Hready; by intros ?].
    unfold Update in Hupd. rewrite Hs in Hupd.
    rewrite decide_False, decide_False in Hupd by done.
    apply updateSetup_command in Hupd as [Hi Hp]. split; [done|].
    rewrite Hp. destruct Hwf as [Hc _]. apply providerOk_current, Hc.
Qed.

(** A command that [Update] returns from a well-formed session, on any
    message, does not panic, whatever tmux, git and the operating system
    answer; it replies with no message or with a message that every session
    is ready for. *)
Theorem commands_never_panic {W : Type} (answer : W -> extcall -> result * W)
    (w : W) (m m' : model) (msg : Msg) (p : prog (option Msg))
    (Hwf : wellFormed m)
    (Hupd : Update m msg = Some (m', Some p)) :
  exists reply, outcome answer p w = Some reply
    ∧ deliverableReply reply
    ∧ forall next now, reply = Some next -> accepted now next.
Proof.
  destruct (Update_command m msg m' p Hwf Hupd) as [Hiss Hp].
  destruct (delivers_run deliverableReply p answer w) as (reply & Hr & Hd).
  { by eapply issued_delivers. }
  exists reply. split; [done|]. split; [done|].
  intros next now ->. simpl in Hd. by destruct next.
Qed.

(** The initial state is well-formed when the history loaded for the
    repository holds no more than [historyMax] entries. *)
Theorem initialModel_wellFormed (runCmd : string) (setDefault : bool)
    (defaults : option kaleidoscopeDefaults) (head : option string)
    (loaded : option (list string))
    (Hlen : (length (default [] loaded) <= historyMax)%nat) :
  wellFormed (initialModel runCmd setDefault defaults head loaded).
Proof.
  assert (forall p, 0 <= indexOf p ["github-copilot"; "OpenAI"] 0 < 2) as Hidx.
  { intros p. simpl. repeat case_decide; lia. }
  split.
  - constructor; simpl; try (by apply validBuffer_blank).
    + right. unfold lenZ. simpl. destruct defaults; [apply Hidx|lia].
    + right. unfold lenZ. simpl. lia.
    + unfold fieldOk, Str.len. simpl. lia.
    + intros [=].
    + done.
    + done.
    + done.
    + unfold historyIndexOk, lenZ. lia.
    + unfold historyIndexOk, lenZ. lia.
  - intros _. split; [apply validBuffer_blank|]. simpl.
    unfold fieldOk, Str.len. simpl. split; lia.
Qed.

(** On every message that a well-formed session is ready for, the screen
    changes only along the transitions of [transition]: a key keeps the
    screen or leaves Iteration for Progress, a launch completion keeps the
    screen or opens Iteration, the completion of Next opens NewTask, and
    every other message keeps the screen. *)
Theorem Update_screen_transitions (m : model) (msg : Msg)
    (Hwf : wellFormed m) (Hacc : accepted m msg) :
  exists m' cmd, Update m msg = Some (m', cmd)
    ∧ transition msg (screen m) (screen m').
Proof.
  destruct (Update_step m msg Hwf Hacc) as (m' & cmd & Hu & _ & _ & Ht).
  by exists m', cmd.
Qed.

(** ** Deleting backward *)

(** [deleteWordBackward] and [deleteLineBackward]: at or left of the first
    column nothing changes; past the end of the line the slice expression
    panics; inside the line, the word deletion removes the text between
    the column [wordLeft] finds and the cursor, which is not empty, and the
    line deletion removes everything left of the cursor; both keep the text
    right of the cursor. *)
Theorem deleteBackward_text (line : string) (col : Z) :
  (col <= 0 ->
   deleteWordBackward line col = Some (line, col)
   ∧ deleteLineBackward line col = Some (line, col))
  ∧ (Str.len line < col ->
     deleteWordBackward line col = None ∧ deleteLineBackward line col = None)
  ∧ (0 < col <= Str.len line ->
     exists a b c, line = a +:+ b +:+ c ∧ Str.len (a +:+ b) = col
       ∧ b ≠ EmptyString
       ∧ wordLeft line col = Some (Str.len a)
       ∧ deleteWordBackward line col = Some (a +:+ c, Str.len a)
       ∧ deleteLineBackward line col = Some (c, 0)).
Proof.
  pose proof (len_nonneg line) as Hlen.
  unfold deleteWordBackward, deleteLineBackward. split; [|split].
  - intros H. destruct (col <=? 0) eqn:E; [done|apply Z.leb_gt in E; lia].
  - intros H. destruct (col <=? 0) eqn:E; [apply Z.leb_le in E; lia|].
    rewrite (proj2 (wordLeft_None line col) H). simpl.
    unfold Str.from. rewrite slice_out_of_range by lia. done.
  - intros H. destruct (col <=? 0) eqn:E; [apply Z.leb_le in E; lia|]. clear E.
    destruct (wordLeft_inside line col H) as (i & k & Hi & Hik & Hkc & Hic & _).
    destruct (split_at line i) as (a & rest & -> & Ha); [lia|].
    rewrite len_append in H, Hlen.
    destruct (split_at rest (col - i)) as (b & c & -> & Hb);
      [pose proof (len_nonneg rest); lia|].
    exists a, b, c. split; [done|]. split; [rewrite len_append; lia|].
    split. { intros ->. change (Str.len EmptyString) with 0 in Hb. lia. }
    rewrite Hi, Ha. split; [done|]. simpl.
    rewrite <- Ha at 1. rewrite upto_append. simpl.
    assert (col = Str.len (a +:+ b)) as -> by (rewrite len_append; lia).
    rewrite <- append_assoc, from_append. done.
Qed.

(** ** Keys that undo each other *)

Lemma rows_split (rows : list string) (r : Z) line :
  nthZ rows r = Some line ->
  exists pre post, rows = pre ++ line :: post ∧ length pre = Z.to_nat r.
Proof.
  intros H. apply nthZ_lookup in H as [Hr H].
  exists (take (Z.to_nat r) rows), (drop (S (Z.to_nat r)) rows).
  split; [by rewrite take_drop_middle|].
  apply lookup_lt_Some in H. rewrite length_take. lia.
Qed.

Lemma nthZ_middle (pre post : list string) line (r : Z) :
  0 <= r -> length pre = Z.to_nat r -> nthZ (pre ++ line :: post) r = Some line.
Proof.
  intros Hr Hl. apply nthZ_lookup. split; [done|]. by apply list_lookup_middle.
Qed.

Lemma setRow_middle (pre post : list string) line v (r : Z) :
  0 <= r -> length pre = Z.to_nat r ->
  setRow (pre ++ line :: post) r v = Some (pre ++ v :: post).
Proof.
  intros Hr Hl. rewrite setRow_in_range.
  - f_equal. rewrite <- Hl. replace (length pre) with (length pre + 0)%nat by lia.
    by rewrite insert_app_r.
  - unfold lenZ. rewrite length_app. simpl. lia.
Qed.

Lemma newline_backspace rows cur :
  validBuffer rows cur ->
  exists rows1 cur1, insertNewline rows cur = Some (rows1, cur1)
    ∧ backspace rows1 cur1 = Some (rows, cur).
Proof.
  intros (line & Hline & Hcol).
  pose proof (nthZ_Some_range _ _ _ Hline) as Hr.
  destruct (rows_split rows (row cur) line Hline) as (pre & post & -> & Hpre).
  destruct (slices_in_range line (col cur) Hcol) as (a & b & -> & Ha & Hu & Hf).
  unfold insertNewline. rewrite Hline. simpl. rewrite Hu, Hf. simpl.
  rewrite setRow_middle by lia. simpl.
  assert (Z.to_nat (row cur + 1) = length (pre ++ [a])) as Hn.
  { rewrite length_app. simpl. lia. }
  rewrite Hn, (cons_middle a pre post), app_assoc.
  rewrite take_app_length, drop_app_length.
  eexists _, _. split; [done|].
  unfold backspace. simpl.
  destruct (0 <? row cur + 1) eqn:E; [|apply Z.ltb_ge in E; lia].
  replace (row cur + 1 - 1) with (row cur) by lia.
  rewrite <- app_assoc. simpl.
  rewrite (nthZ_middle pre (b :: post) a (row cur)) by lia.
  assert (nthZ (pre ++ a :: b :: post) (row cur + 1) = Some b) as ->.
  { rewrite (cons_middle a pre), app_assoc. apply nthZ_middle; [lia|].
    rewrite length_app. simpl. lia. }
  simpl. rewrite (setRow_middle pre (b :: post) a _ (row cur)) by lia. simpl.
  rewrite Hn, (cons_middle (a +:+ b) pre), app_assoc.
  replace (length (pre ++ [a])) with (length (pre ++ [a +:+ b]))
    by (rewrite !length_app; done).
  rewrite take_app_length.
  replace (S (length (pre ++ [a +:+ b])))
    with (length ((pre ++ [a +:+ b]) ++ [b])).
  2: { rewrite !length_app. simpl. lia. }
  rewrite (cons_middle b (pre ++ [a +:+ b]) post), app_assoc, drop_app_length.
  rewrite <- app_assoc. simpl. destruct cur as [r c]. simpl in *. by rewrite Ha.
Qed.

Lemma set_input_cursor_same m m1 :
  m1 = m -> set_cursor (cursor m) (set_input (input m) m1) = m.
Proof. intros ->. by destruct m. Qed.

(** On the prompt of the Setup screen of a well-formed session: Enter
    splits the row at the cursor, and Backspace right after it joins the two
    rows again, which brings back the rows, the cursor and the whole state
    (a launch may have been started by the Enter). *)
Theorem enter_then_backspace (m : model)
    (Hwf : wellFormed m) (Hm : editingPrompt m) :
  exists m1 cmd, Update m (enterKey [] false) = Some (m1, cmd)
    ∧ input m1 ≠ input m
    ∧ Update m1 backspaceKey = Some (m, None).
Proof.
  destruct Hm as (Hs & Hf & Hp). destruct Hwf as [Hc Hsv].
  destruct (Hsv Hs) as (Hv & _).
  destruct (newline_backspace _ _ Hv) as (rows1 & cur1 & Hnl & Hbs).
  assert (rows1 ≠ input m) as Hne.
  { intros ->. unfold insertNewline in Hnl.
    destruct (nthZ (input m) (row (cursor m))); [|done]. simpl in Hnl.
    destruct (Str.upto s (col (cursor m))); [|done]. simpl in Hnl.
    destruct (Str.from s (col (cursor m))); [|done]. simpl in Hnl.
    unfold setRow in Hnl.
    destruct ((0 <=? row (cursor m)) && (row (cursor m) <? lenZ (input m))) eqn:E;
      [|done].
    simpl in Hnl. injection Hnl as Hl _. apply (f_equal length) in Hl.
    rewrite length_app in Hl. simpl in Hl.
    rewrite length_take, length_drop, length_insert in Hl. lia. }
  unfold Update, enterKey, backspaceKey. rewrite Hs. simpl.
  unfold updateSetup at 1, wordMotion. simpl. unfold setupEnter.
  rewrite Hf, Hnl. simpl.
  set (m1 := set_cursor cur1 (set_input rows1 m)).
  destruct (selectedModels_total m1) as [models ->].
  { apply (providerOk_current m), Hc. }
  simpl.
  assert (Update m1 backspaceKey = Some (m, None)) as Hback.
  { unfold Update, backspaceKey.
    change (screen m1) with (screen m). rewrite Hs. simpl.
    unfold updateSetup, wordMotion. simpl. unfold setupBackspace.
    change (focus m1) with (focus m). rewrite Hf.
    change (input m1) with rows1. change (cursor m1) with cur1.
    rewrite Hbs. simpl. f_equal. f_equal. by destruct m. }
  destruct (decide (0 < lenZ models)); eexists _, _; (split; [done|]);
    (split; [done|]); exact Hback.
Qed.

Lemma moveRight_moveLeft rows cur line :
  nthZ rows (row cur) = Some line -> 0 <= col cur <= Str.len line ->
  col cur < Str.len line ∨ row cur < lenZ rows - 1 ->
  exists cur1, moveRight rows cur = Some cur1 ∧ cur1 ≠ cur
    ∧ moveLeft rows cur1 = Some cur.
Proof.
  intros Hline Hcol Hend. pose proof (nthZ_Some_range _ _ _ Hline) as Hr.
  destruct cur as [r c]. simpl in *.
  unfold moveRight, moveLeft. simpl. rewrite Hline. simpl.
  destruct (c <? Str.len line) eqn:E.
  - apply Z.ltb_lt in E. eexists. split; [done|]. split.
    + intros [=]. lia.
    + simpl. destruct (0 <? c + 1) eqn:E2; [|apply Z.ltb_ge in E2; lia].
      by replace (c + 1 - 1) with c by lia.
  - apply Z.ltb_ge in E.
    destruct (r <? lenZ rows - 1) eqn:E2; [|apply Z.ltb_ge in E2; lia].
    apply Z.ltb_lt in E2. eexists. split; [done|]. split.
    + intros [=]. lia.
    + simpl. destruct (0 <? r + 1) eqn:E3; [|apply Z.ltb_ge in E3; lia].
      replace (r + 1 - 1) with r by lia. rewrite Hline. simpl.
      by replace c with (Str.len line) by lia.
Qed.

Lemma moveLeft_moveRight rows cur line :
  nthZ rows (row cur) = Some line -> 0 <= col cur <= Str.len line ->
  0 < col cur ∨ 0 < row cur ->
  exists cur1, moveLeft rows cur = Some cur1 ∧ cur1 ≠ cur
    ∧ moveRight rows cur1 = Some cur.
Proof.
  intros Hline Hcol Hstart. pose proof (nthZ_Some_range _ _ _ Hline) as Hr.
  destruct cur as [r c]. simpl in *.
  unfold moveRight, moveLeft. simpl.
  destruct (0 <? c) eqn:E.
  - apply Z.ltb_lt in E. eexists. split; [done|]. split.
    + intros [=]. lia.
    + simpl. rewrite Hline. simpl.
      destruct (c - 1 <? Str.len line) eqn:E2; [|apply Z.ltb_ge in E2; lia].
      by replace (c - 1 + 1) with c by lia.
  - apply Z.ltb_ge in E.
    destruct (0 <? r) eqn:E2; [|apply Z.ltb_ge in E2; lia].
    apply Z.ltb_lt in E2.
    destruct (nthZ_in_range rows (r - 1)) as [prev Hprev]; [lia|].
    rewrite Hprev. simpl. eexists. split; [done|]. split.
    + intros [=]. lia.
    + simpl. rewrite Hprev. simpl. rewrite Z.ltb_irrefl.
      destruct (r - 1 <? lenZ rows - 1) eqn:E3; [|apply Z.ltb_ge in E3; lia].
      replace (r - 1 + 1) with r by lia. by replace c with 0 by lia.
Qed.

Lemma Update_left m :
  editingPrompt m ->
  Update m leftKey = (cur ← moveLeft (input m) (cursor m); Some (set_cursor cur m, None)).
Proof.
  intros (Hs & Hf & Hp). unfold Update, leftKey. rewrite Hs. simpl.
  unfold updateSetup, wordMotion. simpl. unfold setupLeft. by rewrite Hf.
Qed.

Lemma Update_right m :
  editingPrompt m ->
  Update m rightKey
  = (cur ← moveRight (input m) (cursor m); Some (set_cursor cur m, None)).
Proof.
  intros (Hs & Hf & Hp). unfold Update, rightKey. rewrite Hs. simpl.
  unfold updateSetup, wordMotion. simpl. unfold setupRight. by rewrite Hf.
Qed.

Lemma set_cursor_same m : set_cursor (cursor m) m = m.
Proof. by destruct m. Qed.

Lemma set_cursor_twice c c' m : set_cursor c (set_cursor c' m) = set_cursor c m.
Proof. done. Qed.

(** On the prompt of the Setup screen, with the cursor inside the text:
    Right and then Left bring the cursor back unless it stands at the end
    of the text, where Right does nothing; Left and then Right bring it
    back unless it stands at the start of the text, where Left does
    nothing. *)
Theorem left_right_inverse (m : model) (line : string)
    (Hm : editingPrompt m)
    (Hline : nthZ (input m) (row (cursor m)) = Some line)
    (Hcol : 0 <= col (cursor m) <= Str.len line) :
  (if decide (col (cursor m) < Str.len line
              ∨ row (cursor m) < lenZ (input m) - 1)
   then exists m1, Update m rightKey = Some (m1, None) ∧ m1 ≠ m
                   ∧ Update m1 leftKey = Some (m, None)
   else Update m rightKey = Some (m, None))
  ∧ (if decide (0 < col (cursor m) ∨ 0 < row (cursor m))
     then exists m1, Update m leftKey = Some (m1, None) ∧ m1 ≠ m
                     ∧ Update m1 rightKey = Some (m, None)
     else Update m leftKey = Some (m, None)).
Proof.
  pose proof (nthZ_Some_range _ _ _ Hline) as Hr.
  assert (forall c, editingPrompt (set_cursor c m)) as Hm1.
  { intros c. exact Hm. }
  split.
  - destruct (decide (col (cursor m) < Str.len line
                      ∨ row (cursor m) < lenZ (input m) - 1)) as [He|He].
    + destruct (moveRight_moveLeft _ _ _ Hline Hcol He) as (c1 & HR & Hne & HL).
      exists (set_cursor c1 m). rewrite Update_right, HR by done. simpl.
      split; [done|]. split.
      * intros H. apply (f_equal cursor) in H. simpl in H. done.
      * rewrite Update_left by done.
        change (input (set_cursor c1 m)) with (input m).
        change (cursor (set_cursor c1 m)) with c1. rewrite HL. simpl.
        by rewrite set_cursor_twice, set_cursor_same.
    + rewrite Update_right by done. unfold moveRight. rewrite Hline. simpl.
      destruct (col (cursor m) <? Str.len line) eqn:E1; [apply Z.ltb_lt in E1; tauto|].
      destruct (row (cursor m) <? lenZ (input m) - 1) eqn:E2;
        [apply Z.ltb_lt in E2; tauto|].
      simpl. by rewrite set_cursor_same.
  - destruct (decide (0 < col (cursor m) ∨ 0 < row (cursor m))) as [He|He].
    + destruct (moveLeft_moveRight _ _ _ Hline Hcol He) as (c1 & HL & Hne & HR).
      exists (set_cursor c1 m). rewrite Update_left, HL by done. simpl.
      split; [done|]. split.
      * intros H. apply (f_equal cursor) in H. simpl in H. done.
      * rewrite Update_right by done.
        change (input (set_cursor c1 m)) with (input m).
        change (cursor (set_cursor c1 m)) with c1. rewrite HR. simpl.
        by rewrite set_cursor_twice, set_cursor_same.
    + rewrite Update_left by done. unfold moveLeft.
      destruct (0 <? col (cursor m)) eqn:E1; [apply Z.ltb_lt in E1; tauto|].
      destruct (0 <? row (cursor m)) eqn:E2; [apply Z.ltb_lt in E2; tauto|].
      simpl. by rewrite set_cursor_same.
Qed.

(** ** Browsing the history *)

Lemma Update_up m :
  screen m = screenSetup -> focus m = focusPrompt ->
  Update m upKey = setupUp m.
Proof.
  intros Hs Hf. unfold Update, upKey. rewrite Hs. simpl.
  unfold updateSetup, wordMotion. simpl. done.
Qed.

Lemma Update_down m :
  screen m = screenSetup -> focus m = focusPrompt ->
  Update m downKey = setupDown m.
Proof.
  intros Hs Hf. unfold Update, downKey. rewrite Hs. simpl.
  unfold updateSetup, wordMotion. simpl. done.
Qed.

Lemma historyView_inv m i mi :
  historyView m i = Some mi ->
  exists entry rows cur,
    nthZ (history m) i = Some entry ∧ loadEntry entry = Some (rows, cur)
    ∧ mi = set_cursor cur
             (set_input rows
                (set_historyIndex i (set_draftInput (Some (input m)) m))).
Proof.
  unfold historyView. intros H.
  destruct (nthZ (history m) i) as [entry|] eqn:He; [|done]. simpl in H.
  destruct (loadEntry entry) as [[rows cur]|] eqn:Hl; [|done]. simpl in H.
  injection H as <-. by exists entry, rows, cur.
Qed.

Lemma up_first m :
  screen m = screenSetup -> focus m = focusPrompt ->
  historyIndex m = -1 -> 0 < lenZ (history m) ->
  Update m upKey = (m' ← historyView m 0; Some (m', None)).
Proof.
  intros Hs Hf Hi Hn. rewrite Update_up by done. unfold setupUp, historyView.
  rewrite Hf, Hi. rewrite decide_True by done. simpl.
  destruct (nthZ (history m) 0) as [entry|]; [|done]. simpl.
  by destruct (loadEntry entry) as [[rows cur]|].
Qed.

Lemma up_next m i mi :
  screen m = screenSetup -> focus m = focusPrompt ->
  historyView m i = Some mi -> 0 <= i -> i + 1 < lenZ (history m) ->
  Update mi upKey = (m' ← historyView m (i + 1); Some (m', None)).
Proof.
  intros Hs Hf Hv Hi Hn.
  destruct (historyView_inv m i mi Hv) as (entry & rows & cur & He & Hl & ->).
  rewrite Update_up by done. unfold setupUp, historyView. simpl.
  rewrite Hf. rewrite decide_True by lia.
  destruct (i =? -1) eqn:E1; [apply Z.eqb_eq in E1; lia|].
  destruct (i <? lenZ (history m) - 1) eqn:E2; [|apply Z.ltb_ge in E2; lia].
  simpl.
  destruct (nthZ (history m) (i + 1)) as [entry'|]; [|done]. simpl.
  by destruct (loadEntry entry') as [[rows' cur']|].
Qed.

Lemma up_last m i mi :
  screen m = screenSetup -> focus m = focusPrompt ->
  historyView m i = Some mi -> i = lenZ (history m) - 1 ->
  Update mi upKey = Some (mi, None).
Proof.
  intros Hs Hf Hv Hi.
  destruct (historyView_inv m i mi Hv) as (entry & rows & cur & He & Hl & ->).
  pose proof (nthZ_Some_range _ _ _ He) as Hr.
  rewrite Update_up by done. unfold setupUp. simpl.
  rewrite Hf. rewrite decide_True by lia.
  destruct (i =? -1) eqn:E1; [apply Z.eqb_eq in E1; lia|].
  destruct (i <? lenZ (history m) - 1) eqn:E2; [apply Z.ltb_lt in E2; lia|].
  done.
Qed.

Lemma down_prev m i mi :
  screen m = screenSetup -> focus m = focusPrompt ->
  historyView m i = Some mi -> 0 < i ->
  Update mi downKey = (m' ← historyView m (i - 1); Some (m', None)).
Proof.
  intros Hs Hf Hv Hi.
  destruct (historyView_inv m i mi Hv) as (entry & rows & cur & He & Hl & ->).
  rewrite Update_down by done. unfold setupDown, historyView. simpl.
  rewrite Hf.
  destruct (i =? -1) eqn:E1; [apply Z.eqb_eq in E1; lia|]. simpl.
  destruct (0 <? i) eqn:E2; [|apply Z.ltb_ge in E2; lia].
  destruct (nthZ (history m) (i - 1)) as [entry'|]; [|done]. simpl.
  by destruct (loadEntry entry') as [[rows' cur']|].
Qed.

Lemma down_last m m0 :
  screen m = screenSetup -> focus m = focusPrompt ->
  historyView m 0 = Some m0 ->
  Update m0 downKey = (m' ← historyLeft m; Some (m', None)).
Proof.
  intros Hs Hf Hv.
  destruct (historyView_inv m 0 m0 Hv) as (entry & rows & cur & He & Hl & ->).
  rewrite Update_down by done. unfold setupDown, historyLeft. simpl.
  rewrite Hf. by destruct (cursorAtEnd (input m)).
Qed.

Lemma historyView_total m i :
  0 <= i < lenZ (history m) -> is_Some (historyView m i).
Proof.
  intros Hi. unfold historyView.
  destruct (nthZ_in_range (history m) i Hi) as [entry ->]. simpl.
  destruct (loadEntry_valid entry) as (rows & cur & -> & _). done.
Qed.

Lemma ups_run m (j : nat) :
  screen m = screenSetup -> focus m = focusPrompt -> historyIndex m = -1 ->
  0 < lenZ (history m) -> (1 <= j)%nat ->
  updateAll m (replicate j upKey)
  = historyView m (Z.min (Z.of_nat j) (lenZ (history m)) - 1).
Proof.
  intros Hs Hf Hi Hn Hj. induction j as [|j IH]; [lia|].
  destruct (decide (j = 0)%nat) as [->|Hj0].
  - simpl. rewrite up_first by done.
    replace (Z.of_nat 1 `min` lenZ (history m) - 1) with 0 by lia.
    by destruct (historyView m 0).
  - rewrite replicate_S_end, updateAll_app, IH by lia.
    destruct (decide (Z.of_nat j < lenZ (history m))) as [Hlt|Hge].
    + replace (Z.of_nat j `min` lenZ (history m) - 1) with (Z.of_nat j - 1) by lia.
      replace (Z.of_nat (S j) `min` lenZ (history m) - 1) with (Z.of_nat j - 1 + 1)
        by lia.
      destruct (historyView_total m (Z.of_nat j - 1)) as [mi Hmi]; [lia|].
      rewrite Hmi. simpl. rewrite (up_next m (Z.of_nat j - 1) mi) by (done || lia).
      by destruct (historyView m (Z.of_nat j - 1 + 1)).
    + replace (Z.of_nat (S j) `min` lenZ (history m) - 1)
        with (Z.of_nat j `min` lenZ (history m) - 1) by lia.
      destruct (historyView_total m (Z.of_nat j `min` lenZ (history m) - 1))
        as [mi Hmi]; [lia|].
      rewrite Hmi. simpl. rewrite (up_last m _ mi) by (done || lia). done.
Qed.

Lemma downs_run m (i : nat) : forall mi,
  screen m = screenSetup -> focus m = focusPrompt ->
  historyView m (Z.of_nat i) = Some mi ->
  updateAll mi (replicate (S i) downKey) = historyLeft m.
Proof.
  induction i as [|i IH]; intros mi Hs Hf Hv.
  - simpl. rewrite (down_last m mi) by done. by destruct (historyLeft m).
  - change (replicate (S (S i)) downKey) with (downKey :: replicate (S i) downKey).
    cbn [updateAll]. rewrite (down_prev m (Z.of_nat (S i)) mi) by (done || lia).
    replace (Z.of_nat (S i) - 1) with (Z.of_nat i) by lia.
    pose proof (historyView_inv _ _ _ Hv) as (entry & _ & _ & He & _).
    apply nthZ_Some_range in He.
    destruct (historyView_total m (Z.of_nat i)) as [mi' Hmi']; [lia|].
    rewrite Hmi'. simpl. by apply IH.
Qed.

(** On the prompt of the Setup screen, outside a history navigation and
    with a history that is not empty: [j] presses of Up show entry [j] of
    the history, counted from the most recent one, or the oldest entry when
    there are fewer; as many presses of Down as entries were passed bring
    the text of the prompt back, with the cursor at its end. *)
Theorem history_up_then_down (m : model) (j : nat)
    (Hs : screen m = screenSetup) (Hf : focus m = focusPrompt)
    (Hi : historyIndex m = -1)
    (Hv : validBuffer (input m) (cursor m))
    (Hn : 0 < lenZ (history m)) (Hj : (1 <= j)%nat) :
  let shown := Z.min (Z.of_nat j) (lenZ (history m)) in
  exists entry m1 m2 cur,
    nthZ (history m) (shown - 1) = Some entry
    ∧ updateAll m (replicate j upKey) = Some m1
    ∧ input m1 = Str.Split entry Str.newline
    ∧ historyIndex m1 = shown - 1
    ∧ updateAll m1 (replicate (Z.to_nat shown) downKey) = Some m2
    ∧ cursorAtEnd (input m) = Some cur
    ∧ m2 = set_cursor cur (set_draftInput (Some (input m)) m).
Proof.
  intros shown. subst shown.
  set (i := Z.of_nat j `min` lenZ (history m) - 1).
  destruct (historyView_total m i) as [m1 Hm1]; [lia|].
  destruct (historyView_inv m i m1 Hm1) as (entry & rows & cur1 & He & Hl & Heq).
  destruct (cursorAtEnd_valid (input m) (validBuffer_nonempty _ _ Hv))
    as (cur & Hcur & _).
  exists entry, m1, (set_cursor cur (set_draftInput (Some (input m)) m)), cur.
  split; [done|]. split; [by rewrite ups_run|].
  assert (rows = Str.Split entry Str.newline) as Hrows.
  { unfold loadEntry in Hl. destruct (cursorAtEnd _); [|done]. by injection Hl. }
  split; [by rewrite Heq|]. split; [by rewrite Heq|].
  split; [|done].
  replace (Z.to_nat (Z.of_nat j `min` lenZ (history m))) with (S (Z.to_nat i))
    by lia.
  rewrite (downs_run m (Z.to_nat i) m1) by (done || by rewrite Z2Nat.id by lia).
  unfold historyLeft. rewrite Hcur. simpl. f_equal.
  clear -Hi. destruct m. simpl in *. by subst.
Qed.

(** ** Tab and Escape *)

Lemma Update_tab m shift :
  screen m = screenSetup -> Update m (tabOrShiftTab shift) = setupTab m.
Proof.
  intros Hs. unfold Update, tabOrShiftTab. rewrite Hs. simpl.
  unfold updateSetup, wordMotion. simpl. by destruct shift.
Qed.

Lemma updateAll_step m msg rest m1 cmd :
  Update m msg = Some (m1, cmd) -> updateAll m (msg :: rest) = updateAll m1 rest.
Proof. intros H. cbn [updateAll]. by rewrite H. Qed.

(** One Tab or Shift-Tab on the Setup screen: the focus moves one place
    forward, the dropdown that is left is closed, and the texts, the
    selection and the chosen provider are kept. *)
Lemma tab_step m shift :
  screen m = screenSetup ->
  exists m1, Update m (tabOrShiftTab shift) = Some (m1, None)
    ∧ screen m1 = screenSetup
    ∧ (input m1 = input m ∧ cursor m1 = cursor m ∧ branch m1 = branch m
       ∧ task m1 = task m ∧ selected m1 = selected m
       ∧ providerIndex m1 = providerIndex m)
    ∧ match focus m with
      | focusBranch =>
          focus m1 = focusTask
          ∧ providerOpen m1 = providerOpen m ∧ modelsOpen m1 = modelsOpen m
      | focusTask =>
          focus m1 = focusPrompt
          ∧ providerOpen m1 = providerOpen m ∧ modelsOpen m1 = modelsOpen m
      | focusPrompt =>
          focus m1 = focusProvider
          ∧ providerOpen m1 = providerOpen m ∧ modelsOpen m1 = modelsOpen m
      | focusProvider =>
          focus m1 = focusModels
          ∧ providerOpen m1 = false ∧ modelsOpen m1 = modelsOpen m
      | focusModels =>
          focus m1 = focusBranch
          ∧ providerOpen m1 = providerOpen m ∧ modelsOpen m1 = false
      end.
Proof.
  intros Hs. rewrite Update_tab by done. unfold setupTab.
  destruct (focus m); eexists; (split; [reflexivity|]); by repeat split.
Qed.

(** On the Setup screen, Tab and Shift-Tab both move the focus forward
    through branch, task, prompt, provider, models; five of them, in any
    mix, bring the focus back to where it was and leave both dropdowns
    closed; the texts, the selection and the chosen provider are kept. *)
Theorem tab_cycle (m : model) (shifts : list bool)
    (Hs : screen m = screenSetup) (Hlen : length shifts = 5%nat) :
  exists m', updateAll m (tabOrShiftTab <$> shifts) = Some m'
    ∧ focus m' = focus m
    ∧ providerOpen m' = false ∧ modelsOpen m' = false
    ∧ input m' = input m ∧ cursor m' = cursor m
    ∧ branch m' = branch m ∧ task m' = task m
    ∧ selected m' = selected m ∧ providerIndex m' = providerIndex m.
Proof.
  destruct shifts as [|k1 [|k2 [|k3 [|k4 [|k5 [|]]]]]]; try discriminate.
  destruct (tab_step m k1 Hs) as (m1 & U1 & S1 & K1 & F1).
  destruct (tab_step m1 k2 S1) as (m2 & U2 & S2 & K2 & F2).
  destruct (tab_step m2 k3 S2) as (m3 & U3 & S3 & K3 & F3).
  destruct (tab_step m3 k4 S3) as (m4 & U4 & S4 & K4 & F4).
  destruct (tab_step m4 k5 S4) as (m5 & U5 & S5 & K5 & F5).
  exists m5. split.
  { cbn [fmap list_fmap].
    by rewrite (updateAll_step _ _ _ _ _ U1), (updateAll_step _ _ _ _ _ U2),
      (updateAll_step _ _ _ _ _ U3), (updateAll_step _ _ _ _ _ U4),
      (updateAll_step _ _ _ _ _ U5). }
  destruct K1 as (? & ? & ? & ? & ? & ?), K2 as (? & ? & ? & ? & ? & ?),
    K3 as (? & ? & ? & ? & ? & ?), K4 as (? & ? & ? & ? & ? & ?),
    K5 as (? & ? & ? & ? & ? & ?).
  destruct (focus m);
    destruct F1 as (F1 & ? & ?); rewrite F1 in F2;
    destruct F2 as (F2 & ? & ?); rewrite F2 in F3;
    destruct F3 as (F3 & ? & ?); rewrite F3 in F4;
    destruct F4 as (F4 & ? & ?); rewrite F4 in F5;
    destruct F5 as (F5 & ? & ?);
    repeat split; congruence.
Qed.

Lemma setupWordMotion_esc m r m2 cmd :
  setupWordMotion m r = Some (m2, cmd) -> cmd = None ∧ pendingEsc m2 = false.
Proof.
  unfold setupWordMotion. cbn zeta.
  destruct (focus (set_pendingEsc false m)).
  - destruct (if r =? 98 then _ else _) as [c|]; [|done]. by intros [= <- <-].
  - destruct (if r =? 98 then _ else _) as [c|]; [|done]. by intros [= <- <-].
  - destruct (if r =? 98 then _ else _) as [[r1 c1]|]; [|done].
    by intros [= <- <-].
  - by intros [= <- <-].
  - by intros [= <- <-].
Qed.

Lemma iterationWordMotion_esc m r m2 cmd :
  iterationWordMotion m r = Some (m2, cmd) -> cmd = None ∧ pendingEsc m2 = false.
Proof.
  unfold iterationWordMotion. cbn zeta.
  destruct (if r =? 98 then _ else _) as [[r1 c1]|]; [|done].
  by intros [= <- <-].
Qed.

Lemma newTaskWordMotion_esc m r m2 cmd :
  newTaskWordMotion m r = Some (m2, cmd) -> cmd = None ∧ pendingEsc m2 = false.
Proof.
  unfold newTaskWordMotion. cbn zeta.
  destruct (newTaskFocus (set_pendingEsc false m)).
  - by intros [= <- <-].
  - destruct (if r =? 98 then _ else _) as [c|]; [|done]. by intros [= <- <-].
  - destruct (if r =? 98 then _ else _) as [[r1 c1]|]; [|done].
    by intros [= <- <-].
  - by intros [= <- <-].
  - by intros [= <- <-].
Qed.

(** Escape sets a flag and starts a timer.  When the timer fires with the
    flag still set, the session is cleaned up (and then quits); when [b] or
    [f] arrives first, it is taken as a word motion, the flag is cleared and
    the timer then fires without effect. *)
Theorem esc_then_timeout_or_word_key (m : model) (r : Z)
    (Hwf : wellFormed m) (Hscr : screen m ≠ screenProgress)
    (Hr : r = 98 ∨ r = 102) :
  let m1 := set_pendingEsc true m in
  Update m escKey = Some (m1, Tick escDelay escTimeoutMsg)
  ∧ Update m1 escTimeoutMsg
    = Some (set_pendingEsc false m1, Some (cleanupCmd (set_pendingEsc false m1)))
  ∧ exists m2, Update m1 (runeKey r) = Some (m2, None)
      ∧ pendingEsc m2 = false
      ∧ Update m2 escTimeoutMsg = Some (m2, None).
Proof.
  intros m1.
  assert (wellFormed m1) as Hwf1.
  { destruct Hwf as [Hc Hs]. split; [core Hc|exact Hs]. }
  assert (accepted m1 (runeKey r)) as Hacc by (intros H; done).
  assert (wordMotion m1 (Key KeyRunes [r] false) = Some r) as Hwm.
  { unfold wordMotion. simpl. by destruct Hr as [-> | ->]. }
  split; [|split].
  - unfold Update, escKey. destruct (screen m); done.
  - done.
  - destruct (Update_step m1 (runeKey r) Hwf1 Hacc) as (m2 & cmd & Hu & _).
    assert (cmd = None ∧ pendingEsc m2 = false) as [-> Hp].
    { revert Hu. unfold Update, runeKey. change (screen m1) with (screen m).
      destruct (screen m); simpl.
      - unfold updateSetup. rewrite Hwm. apply setupWordMotion_esc.
      - unfold updateIteration. simpl. rewrite Hwm. apply iterationWordMotion_esc.
      - done.
      - unfold updateNewTask. simpl. rewrite Hwm. apply newTaskWordMotion_esc. }
    exists m2. split; [done|]. split; [done|].
    unfold Update. by rewrite Hp.
Qed.

End Orchestrator.

(** * The properties on example sessions *)

Lemma exKeys_keys (mp : gmap string string) :
  NoDup (exKeys mp) ∧ forall k, k ∈ exKeys mp <-> is_Some (mp !! k).
Proof.
  unfold exKeys. split; [apply NoDup_fst_map_to_list|].
  intros k. rewrite list_elem_of_fmap. split.
  - intros [[k' v] [-> Hin]]. apply elem_of_map_to_list in Hin. by exists v.
  - intros [v Hv]. exists (k, v). split; [done|]. by apply elem_of_map_to_list.
Qed.

(** Twenty-five pushes of distinct entries with blanks around them keep
    the last twenty, trimmed; an entry with white space of one, two and
    three bytes around it is pushed as its text, once. *)
Lemma C3_pushHistorySlice_witness :
  length exEntries = 25%nat
  ∧ Forall (fun x => Str.TrimSpace x ≠ EmptyString) exEntries
  ∧ NoDup (Str.TrimSpace <$> exEntries)
  ∧ trimmedOf exPadded "twice"
  ∧ pushHistorySlice ["old"] exPadded = ["twice"; "old"]
  ∧ pushHistorySlice (pushHistorySlice ["old"] exPadded) exPadded
    = ["twice"; "old"]
  ∧ foldl pushHistorySlice ["old"] exEntries
    = ["e25"; "e24"; "e23"; "e22"; "e21"; "e20"; "e19"; "e18"; "e17";
       "e16"; "e15"; "e14"; "e13"; "e12"; "e11"; "e10"; "e9"; "e8";
       "e7"; "e6"].
Proof.
  assert (H1 : length exEntries = 25%nat) by reflexivity.
  assert (H2 : Forall (fun x => Str.TrimSpace x ≠ EmptyString) exEntries)
    by (apply (bool_decide_unpack _); vm_compute; exact I).
  assert (H3 : NoDup (Str.TrimSpace <$> exEntries))
    by (apply (bool_decide_unpack _); vm_compute; exact I).
  split; [exact H1|]. split; [exact H2|]. split; [exact H3|].
  destruct (C3_pushHistorySlice ["old"] exPadded exEntries H1 H2 H3)
    as (Htrim & Hpush & _ & Hall).
  split; [exact (Htrim exPadded)|].
  split; [rewrite Hpush; by vm_compute|].
  split; [rewrite !Hpush; by vm_compute|].
  rewrite Hall. by vm_compute.
Defined.

(** Space, Backspace, Backspace in the open dropdown. *)
Lemma C5_count_never_negative_witness :
  inModelsDropdown exDropdown
  ∧ 0 <= selectedCount exDropdown "github-copilot" "claude-sonnet-4.5"
  ∧ exists m',
      updateAll exBase exDir exJoin exKeys exDropdown
        (countKey <$> take 3 [Increment; Decrement; Decrement]) = Some m'
      ∧ 0 <= selectedCount m' "github-copilot" "claude-sonnet-4.5".
Proof.
  assert (H1 : inModelsDropdown exDropdown).
  { repeat split. by eexists. }
  assert (H2 : 0 <= selectedCount exDropdown "github-copilot" "claude-sonnet-4.5")
    by (vm_compute; discriminate).
  split; [exact H1|]. split; [exact H2|].
  apply (C5_count_never_negative exBase exDir exJoin exKeys exDropdown
           "github-copilot" "claude-sonnet-4.5"
           [Increment; Decrement; Decrement] 3 H1 H2).
  - vm_compute. discriminate.
  - simpl. lia.
Defined.

(** One more Space on a count at the largest [int] makes it negative. *)
Lemma C5_counterexample :
  inModelsDropdown exDropdownFull
  ∧ 0 <= selectedCount exDropdownFull "github-copilot" "claude-sonnet-4.5"
  ∧ exists m',
      Update exBase exDir exJoin exKeys exDropdownFull (countKey Increment)
      = Some (m', None)
      ∧ selectedCount m' "github-copilot" "claude-sonnet-4.5" = - 2 ^ 63
      ∧ selectedCount m' "github-copilot" "claude-sonnet-4.5" < 0.
Proof.
  split; [repeat split; by eexists|].
  split; [vm_compute; discriminate|].
  eexists. split; [vm_compute; reflexivity|].
  split; [by vm_compute|by vm_compute].
Qed.

(** Typing [hi] and pressing Backspace twice. *)
Lemma C6_type_then_backspace_witness :
  editingPrompt exSetup
  ∧ validBuffer (input exSetup) (cursor exSetup)
  ∧ updateAll exBase exDir exJoin exKeys exSetup
      ((runeKey <$> [104; 105]) ++ replicate 2 backspaceKey)
    = Some exSetup.
Proof.
  assert (H1 : editingPrompt exSetup) by (by repeat split).
  assert (H2 : validBuffer (input exSetup) (cursor exSetup)).
  { exists EmptyString. split; [reflexivity|]. vm_compute. split; discriminate. }
  split; [exact H1|]. split; [exact H2|].
  apply (proj2 (C6_type_then_backspace exBase exDir exJoin exKeys exSetup
                  [104; 105] H1 H2)).
  repeat (constructor; [lia|]). constructor.
Defined.

(** Typing the rune U+00E9, two bytes in UTF-8, and pressing Backspace once
    leaves its first byte in the row and the cursor behind it. *)
Lemma C6_counterexample :
  editingPrompt exSetup
  ∧ validBuffer (input exSetup) (cursor exSetup)
  ∧ exists m',
      updateAll exBase exDir exJoin exKeys exSetup
        ((runeKey <$> [233]) ++ replicate 1 backspaceKey) = Some m'
      ∧ input m' = [Str.of_byte (Str.byte 195)]
      ∧ cursor m' = Cursor 0 1
      ∧ input m' ≠ input exSetup
      ∧ cursor m' ≠ cursor exSetup.
Proof.
  split; [by repeat split|].
  split.
  { exists EmptyString. split; [reflexivity|]. vm_compute. split; discriminate. }
  eexists. split; [vm_compute; reflexivity|].
  split; [reflexivity|]. split; [reflexivity|]. split; discriminate.
Qed.

(** The three instances sonnet, sonnet-2 and gpt. *)
Lemma C7_autocomplete_options_witness :
  (forall k, is_Some (modelToWorktree exThreeOpen !! k)
             <-> k ∈ ["sonnet"; "sonnet-2"; "gpt"])
  ∧ (exists opts, getAutocompleteOptions exKeys exThreeOpen "@son" = Some opts
                  ∧ opts ≡ₚ ["@sonnet"; "@sonnet-2"])
  ∧ getAutocompleteOptions exKeys exThreeOpen "/ne" = Some ["/next"].
Proof.
  assert (H1 : forall k, is_Some (modelToWorktree exThreeOpen !! k)
                         <-> k ∈ ["sonnet"; "sonnet-2"; "gpt"]).
  { intros k.
    change (modelToWorktree exThreeOpen)
      with ({[ "sonnet" := "repo_feature_sonnet";
               "sonnet-2" := "repo_feature_sonnet-2";
               "gpt" := "repo_feature_gpt" ]} : gmap string string).
    rewrite <- elem_of_dom, !dom_insert_L, dom_singleton_L.
    rewrite !elem_of_union, !elem_of_singleton, !elem_of_cons, elem_of_nil.
    tauto. }
  split; [exact H1|].
  exact (C7_autocomplete_options exKeys exKeys_keys exThreeOpen H1).
Defined.

(** A follow-up to the registered label [claude]. *)
Lemma C8_followUp_witness :
  let m := exTyping "@claude also handle errors" in
  screen m = screenIteration
  ∧ autocompleting m = false
  ∧ currentLine m = "@" +:+ "claude" +:+ " " +:+ "also handle errors"
  ∧ Str.cut Str.space "claude" = None
  ∧ validBuffer (iterationInput m) (iterationCursor m)
  ∧ exists m',
      Update exBase exDir exJoin exKeys m (enterKey [] false)
      = Some (m', Some (sendToModelPaneCmd "%5" "claude" "also handle errors" m'))
      ∧ modelPrompts m' !! "claude" = Some ["add a test"; "also handle errors"]
      ∧ modelPrompts m' !! "claude-2" = Some ["add a test"]
      ∧ history m' = ["also handle errors"].
Proof.
  intros m.
  assert (H1 : screen m = screenIteration) by reflexivity.
  assert (H2 : autocompleting m = false) by reflexivity.
  assert (H3 : currentLine m = "@" +:+ "claude" +:+ " " +:+ "also handle errors")
    by (vm_compute; reflexivity).
  assert (H4 : Str.cut Str.space "claude" = None) by reflexivity.
  assert (H5 : validBuffer (iterationInput m) (iterationCursor m)).
  { eexists. split; [reflexivity|]. vm_compute. split; discriminate. }
  split; [exact H1|]. split; [exact H2|]. split; [exact H3|].
  split; [exact H4|]. split; [exact H5|].
  destruct (proj2 (C8_followUp exBase exDir exJoin exKeys m "claude"
                     "also handle errors" [] false H1 H2 H3 H4 H5) "%5")
    as (m' & Hup & Hlog & Hother & Hhist & _); [reflexivity|].
  exists m'. split; [exact Hup|]. split; [exact Hlog|].
  split; [by rewrite Hother|]. exact Hhist.
Defined.

(** Next on [claude-2] in a world where every call succeeds: both panes are
    killed and both worktrees removed. *)
Lemma C2_cleanup_after_checkout_and_merge_witness :
  modelToWorktree exIterating !! "claude-2" = Some "repo_feature_claude-2"
  ∧ cleanedUp exJoin exIterating
      (trace exAllOk (nextCmd exDir exJoin exIterating "claude-2") tt)
  ∧ outcome exAllOk (nextCmd exDir exJoin exIterating "claude-2") tt
    = Some (Some nextCompleteMsg).
Proof.
  assert (H1 : modelToWorktree exIterating !! "claude-2"
               = Some "repo_feature_claude-2") by reflexivity.
  split; [exact H1|].
  apply (proj1 (proj1 (C2_cleanup_after_checkout_and_merge exDir exJoin
                         exAllOk tt exIterating "claude-2"
                         "repo_feature_claude-2" H1))).
  - exists "%1". vm_compute. do 5 right. left.
  - exists "%1". vm_compute. do 6 right. left.
Defined.

(** Next on [claude-2] in a world where the merge fails: the checkout of
    the feature branch has succeeded, and yet no pane is killed. *)
Lemma C2_counterexample :
  let tr := trace exMergeFails (nextCmd exDir exJoin exIterating "claude-2") tt in
  modelToWorktree exIterating !! "claude-2" = Some "repo_feature_claude-2"
  ∧ succeeded (checkoutCall exIterating) tr
  ∧ failed (mergeCall "repo_feature_claude-2" "claude-2") tr
  ∧ "%5" ∈ createdPanes exIterating
  ∧ ¬ called (killPaneCall "%5") tr
  ∧ ¬ cleanedUp exJoin exIterating tr.
Proof.
  intros tr.
  assert (Hnot : ¬ called (killPaneCall "%5") tr).
  { intros [r Hr]. vm_compute in Hr.
    repeat (apply elem_of_cons in Hr as [Hr|Hr]; [discriminate Hr|]).
    by apply elem_of_nil in Hr. }
  split; [reflexivity|].
  split; [exists EmptyString; vm_compute; do 5 right; left|].
  split; [exists "exit status 1"; vm_compute; do 6 right; left|].
  split; [left|]. split; [exact Hnot|].
  intros [HK _]. apply Hnot, HK. left.
Qed.

(** [/next gemini], a label that was never provisioned. *)
Lemma C10_unknown_label_quits_witness :
  let m := exTyping "/next gemini" in
  screen m = screenIteration
  ∧ autocompleting m = false
  ∧ currentLine m = "/next " +:+ "gemini"
  ∧ Str.TrimSpace "gemini" ≠ EmptyString
  ∧ modelToWorktree m !! Str.TrimSpace "gemini" = None
  ∧ exists m1 cmd,
      Update exBase exDir exJoin exKeys m (enterKey [] false) = Some (m1, Some cmd)
      ∧ cmd = nextCmd exDir exJoin m1 (Str.TrimSpace "gemini")
      ∧ outcome exAllOk cmd tt = Some (Some bailCompleteMsg)
      ∧ noGit (trace exAllOk cmd tt)
      ∧ nothingCleaned (trace exAllOk cmd tt)
      ∧ Update exBase exDir exJoin exKeys m1 bailCompleteMsg = Some (m1, Quit).
Proof.
  intros m.
  assert (H1 : screen m = screenIteration) by reflexivity.
  assert (H2 : autocompleting m = false) by reflexivity.
  assert (H3 : currentLine m = (if true then "/next " else "/wrap ") +:+ "gemini")
    by (vm_compute; reflexivity).
  assert (H4 : Str.TrimSpace "gemini" ≠ EmptyString) by (vm_compute; discriminate).
  assert (H5 : modelToWorktree m !! Str.TrimSpace "gemini" = None)
    by (vm_compute; reflexivity).
  split; [exact H1|]. split; [exact H2|]. split; [exact H3|].
  split; [exact H4|]. split; [exact H5|].
  exact (C10_unknown_label_quits exBase exDir exJoin exKeys exAllOk tt m true
           "gemini" [] false H1 H2 H3 H4 H5).
Defined.


(** C1, as the code has it.  [/next claude-2] on a registered label, in a
    world where every call succeeds: the command completes with
    [nextCompleteMsg], on which the session moves to the NewTask screen and
    does not quit.  [/wrap claude-2] completes with [wrapCompleteMsg], on
    which the session quits.  The two are the other way round in the
    description of the commands. *)
Theorem C1_next_opens_NewTask_and_wrap_quits :
  let progress m :=
    set_progressMsg "Merging and pushing changes from claude-2..."
      (set_screen screenProgress m) in
  let next := progress (exTyping "/next claude-2") in
  let wrap := progress (exTyping "/wrap claude-2") in
  (Update exBase exDir exJoin exKeys (exTyping "/next claude-2") (enterKey [] false)
   = Some (next, Some (nextCmd exDir exJoin next "claude-2"))
   ∧ outcome exAllOk (nextCmd exDir exJoin next "claude-2") tt
     = Some (Some nextCompleteMsg)
   ∧ exists m', Update exBase exDir exJoin exKeys next nextCompleteMsg
                = Some (m', None)
                ∧ screen m' = screenNewTask)
  ∧ (Update exBase exDir exJoin exKeys (exTyping "/wrap claude-2") (enterKey [] false)
     = Some (wrap, Some (wrapCmd exDir exJoin wrap "claude-2"))
     ∧ outcome exAllOk (wrapCmd exDir exJoin wrap "claude-2") tt
       = Some (Some wrapCompleteMsg)
     ∧ Update exBase exDir exJoin exKeys wrap wrapCompleteMsg = Some (wrap, Quit)).
Proof.
  intros progress next wrap. split.
  - split; [reflexivity|]. split; [vm_compute; reflexivity|].
    eexists. split; reflexivity.
  - split; [reflexivity|]. split; [vm_compute; reflexivity|]. reflexivity.
Qed.

(** A launch of [A, A, B] in which every pane opens. *)
Lemma C9_launch_completion_witness :
  outcome exAllOk (openPanesCmd exBase ["A"; "A"; "B"] exLaunched) tt
  = Some (Some (panesOpenedMsg exOpened))
  ∧ is_Some (currentProvider exLaunched)
  ∧ PanesOpened.err exOpened = None
  ∧ 0 < PanesOpened.count exOpened
  ∧ exists m',
      Update exBase exDir exJoin exKeys exLaunched (panesOpenedMsg exOpened)
      = Some (m', None)
      ∧ screen m' = screenIteration.
Proof.
  assert (H1 : outcome exAllOk (openPanesCmd exBase ["A"; "A"; "B"] exLaunched) tt
               = Some (Some (panesOpenedMsg exOpened))) by (by vm_compute).
  assert (H2 : is_Some (currentProvider exLaunched)) by (by eexists).
  assert (H3 : PanesOpened.err exOpened = None) by reflexivity.
  assert (H4 : 0 < PanesOpened.count exOpened) by reflexivity.
  split; [exact H1|]. split; [exact H2|]. split; [exact H3|]. split; [exact H4|].
  exact (proj2 (proj2 (C9_launch_completion exBase exDir exJoin exKeys exAllOk tt
                         exLaunched exLaunched ["A"; "A"; "B"] exOpened H1 H2))
           H3 H4).
Defined.

(** A launch with a branch name of two blanks.  Enter in the prompt starts
    the launch; the command opens no pane, runs no git command and reports
    the error [branch name is required]; on this message the session stays
    on the Setup screen as it is. *)
Lemma C9_blank_branch_refused :
  let launched :=
    set_cursor (Cursor 1 0) (set_input [EmptyString; EmptyString] exBlankBranch) in
  Update exBase exDir exJoin exKeys exBlankBranch (enterKey [] false)
  = Some (launched, Some (openPanesCmd exBase ["A"; "A"; "B"] launched))
  ∧ outcome exAllOk (openPanesCmd exBase ["A"; "A"; "B"] launched) tt
    = Some (Some (panesOpenedMsg (failedOpen "branch name is required")))
  ∧ nothingLaunched (trace exAllOk (openPanesCmd exBase ["A"; "A"; "B"] launched) tt)
  ∧ Update exBase exDir exJoin exKeys launched
      (panesOpenedMsg (failedOpen "branch name is required"))
    = Some (launched, None)
  ∧ screen launched = screenSetup.
Proof.
  intros launched. split; [reflexivity|]. split; [by vm_compute|].
  split; [vm_compute; by repeat constructor|]. split; reflexivity.
Qed.

(** C9, as the code has it.  Enter in the prompt launches [A, A, B]; the
    first pane opens and the next two fail.  The command reports one
    instance, the label [A] in pane [%5] with its worktree, together with
    the last error.  On this message the session stays on the Setup screen
    exactly as it was, although one instance was provisioned: the pane and
    the worktree are registered nowhere, and the Cleanup that Ctrl-C then
    starts kills no pane and removes no worktree, whatever the world
    answers. *)
Theorem C9_partial_launch_is_dropped :
  Update exBase exDir exJoin exKeys exTwoAndOne (enterKey [] false)
  = Some (exLaunched, Some (openPanesCmd exBase ["A"; "A"; "B"] exLaunched))
  ∧ outcome exSecondPaneFails (openPanesCmd exBase ["A"; "A"; "B"] exLaunched) 0%nat
    = Some (Some (panesOpenedMsg exPartial))
  ∧ PanesOpened.count exPartial = 1
  ∧ PanesOpened.paneIDs exPartial = ["%5"]
  ∧ PanesOpened.worktrees exPartial = ["repo_feature_A"]
  ∧ PanesOpened.modelNames exPartial = ["A"]
  ∧ PanesOpened.err exPartial = Some "exit status 1"
  ∧ Update exBase exDir exJoin exKeys exLaunched (panesOpenedMsg exPartial)
    = Some (exLaunched, None)
  ∧ screen exLaunched = screenSetup
  ∧ createdPanes exLaunched = []
  ∧ createdWorktrees exLaunched = []
  ∧ modelToPaneID exLaunched = ∅
  ∧ Update exBase exDir exJoin exKeys exLaunched (keyMsg (Key KeyCtrlC [] false))
    = Some (exLaunched, Some (cleanupCmd exDir exJoin exLaunched))
  ∧ forall (W : Type) (answer : W -> extcall -> result * W) (w : W),
      nothingCleaned (trace answer (cleanupCmd exDir exJoin exLaunched) w).
Proof.
  split; [reflexivity|]. split; [by vm_compute|].
  do 5 (split; [reflexivity|]). split; [reflexivity|].
  do 4 (split; [reflexivity|]). split; [reflexivity|].
  intros W answer w. by apply cleanupCmd_nothing_registered.
Qed.

(** * Further properties on example sessions *)

(** The session at start is well-formed. *)
Lemma exStart_wellFormed : wellFormed exStart.
Proof.
  split.
  - constructor; try (by exists EmptyString); try (by intros [=]);
      try (right; by vm_compute); try done; try (by vm_compute).
    vm_compute. lia.
  - intros _. split; [by exists EmptyString|]. split; by vm_compute.
Defined.

(** The letter [a] typed at the start. *)
Lemma Update_keeps_wellFormed_witness :
  wellFormed exStart ∧ accepted exStart (runeKey 97)
  ∧ exists m' cmd,
      Update exBase exDir exJoin exKeys exStart (runeKey 97) = Some (m', cmd)
      ∧ wellFormed m'.
Proof.
  assert (H1 : wellFormed exStart) by exact exStart_wellFormed.
  assert (H2 : accepted exStart (runeKey 97)) by (by intros [=]).
  split; [exact H1|]. split; [exact H2|].
  exact (Update_keeps_wellFormed exBase exDir exJoin exKeys exStart (runeKey 97) H1 H2).
Defined.

(** Ctrl-C on the Progress screen of [exStale], in the world in which
    every call succeeds. *)
Lemma commands_never_panic_witness :
  wellFormed exStale
  ∧ ¬ setupValid exStale
  ∧ Update exBase exDir exJoin exKeys exStale (keyMsg (Key KeyCtrlC [] false))
    = Some (exStale, Some (cleanupCmd exDir exJoin exStale))
  ∧ exists reply,
      outcome exAllOk (cleanupCmd exDir exJoin exStale) tt = Some reply
      ∧ deliverableReply reply
      ∧ forall next now, reply = Some next -> accepted now next.
Proof.
  assert (H1 : wellFormed exStale).
  { split; [|by intros [=]].
    constructor; try (by exists EmptyString); try (by intros [=]);
      try (right; by vm_compute); try done; try (by vm_compute).
    vm_compute. lia. }
  assert (H2 : ¬ setupValid exStale).
  { intros [(line & Hl & _) _]. by vm_compute in Hl. }
  assert (H3 : Update exBase exDir exJoin exKeys exStale
                 (keyMsg (Key KeyCtrlC [] false))
               = Some (exStale, Some (cleanupCmd exDir exJoin exStale)))
    by reflexivity.
  split; [exact H1|]. split; [exact H2|]. split; [exact H3|].
  exact (commands_never_panic exBase exDir exJoin exKeys exAllOk tt exStale exStale
           (keyMsg (Key KeyCtrlC [] false)) (cleanupCmd exDir exJoin exStale)
           H1 H3).
Defined.

(** A start with no defaults file, on branch [main], with three entries of
    history. *)
Lemma initialModel_wellFormed_witness :
  (length (default [] (Some ["c"; "b"; "a"])) <= historyMax)%nat
  ∧ wellFormed (initialModel "go test ./..." false None (Some "main")
                  (Some ["c"; "b"; "a"])).
Proof.
  assert (H : (length (default [] (Some ["c"; "b"; "a"])) <= historyMax)%nat)
    by (vm_compute; lia).
  split; [exact H|].
  exact (initialModel_wellFormed "go test ./..." false None (Some "main")
           (Some ["c"; "b"; "a"]) H).
Defined.

(** The session of [exPrompt] is well-formed. *)
Lemma exPrompt_wellFormed : wellFormed exPrompt.
Proof.
  split.
  - constructor; try (by exists EmptyString); try (by intros [=]);
      try (right; by vm_compute); try done; try (by vm_compute).
    vm_compute. lia.
  - intros _. split; [by exists "ab"|]. split; by vm_compute.
Defined.

(** The letter [a] typed at the start: the screen stays Setup. *)
Lemma Update_screen_transitions_witness :
  wellFormed exStart ∧ accepted exStart (runeKey 97)
  ∧ exists m' cmd,
      Update exBase exDir exJoin exKeys exStart (runeKey 97) = Some (m', cmd)
      ∧ transition (runeKey 97) (screen exStart) (screen m').
Proof.
  assert (H1 : wellFormed exStart) by exact exStart_wellFormed.
  assert (H2 : accepted exStart (runeKey 97)) by (by intros [=]).
  split; [exact H1|]. split; [exact H2|].
  exact (Update_screen_transitions exBase exDir exJoin exKeys exStart (runeKey 97)
           H1 H2).
Defined.

(** Enter and then Backspace in the prompt of [exPrompt]. *)
Lemma enter_then_backspace_witness :
  wellFormed exPrompt ∧ editingPrompt exPrompt
  ∧ exists m1 cmd,
      Update exBase exDir exJoin exKeys exPrompt (enterKey [] false)
      = Some (m1, cmd)
      ∧ input m1 ≠ input exPrompt
      ∧ Update exBase exDir exJoin exKeys m1 backspaceKey = Some (exPrompt, None).
Proof.
  assert (H1 : wellFormed exPrompt) by exact exPrompt_wellFormed.
  assert (H2 : editingPrompt exPrompt) by (by vm_compute).
  split; [exact H1|]. split; [exact H2|].
  exact (enter_then_backspace exBase exDir exJoin exKeys exPrompt H1 H2).
Defined.

(** Right and Left in the prompt of [exPrompt], whose cursor is inside the
    row [ab]: both keys move it, and the opposite key brings it back. *)
Lemma left_right_inverse_witness :
  editingPrompt exPrompt
  ∧ nthZ (input exPrompt) (row (cursor exPrompt)) = Some "ab"
  ∧ 0 <= col (cursor exPrompt) <= Str.len "ab"
  ∧ (if decide (col (cursor exPrompt) < Str.len "ab"
                ∨ row (cursor exPrompt) < lenZ (input exPrompt) - 1)
     then exists m1,
            Update exBase exDir exJoin exKeys exPrompt rightKey = Some (m1, None)
            ∧ m1 ≠ exPrompt
            ∧ Update exBase exDir exJoin exKeys m1 leftKey = Some (exPrompt, None)
     else Update exBase exDir exJoin exKeys exPrompt rightKey
          = Some (exPrompt, None))
  ∧ (if decide (0 < col (cursor exPrompt) ∨ 0 < row (cursor exPrompt))
     then exists m1,
            Update exBase exDir exJoin exKeys exPrompt leftKey = Some (m1, None)
            ∧ m1 ≠ exPrompt
            ∧ Update exBase exDir exJoin exKeys m1 rightKey = Some (exPrompt, None)
     else Update exBase exDir exJoin exKeys exPrompt leftKey
          = Some (exPrompt, None)).
Proof.
  assert (H1 : editingPrompt exPrompt) by (by vm_compute).
  assert (H2 : nthZ (input exPrompt) (row (cursor exPrompt)) = Some "ab")
    by reflexivity.
  assert (H3 : 0 <= col (cursor exPrompt) <= Str.len "ab") by (vm_compute; by split).
  split; [exact H1|]. split; [exact H2|]. split; [exact H3|].
  exact (left_right_inverse exBase exDir exJoin exKeys exPrompt "ab" H1 H2 H3).
Defined.

(** Two Ups and two Downs in the prompt of [exPrompt]: the second entry of
    the history is shown, and the typed text comes back. *)
Lemma history_up_then_down_witness :
  screen exPrompt = screenSetup ∧ focus exPrompt = focusPrompt
  ∧ historyIndex exPrompt = -1
  ∧ validBuffer (input exPrompt) (cursor exPrompt)
  ∧ 0 < lenZ (history exPrompt) ∧ (1 <= 2)%nat
  ∧ exists entry m1 m2 cur,
      nthZ (history exPrompt) (Z.of_nat 2 `min` lenZ (history exPrompt) - 1)
      = Some entry
      ∧ updateAll exBase exDir exJoin exKeys exPrompt (replicate 2 upKey)
        = Some m1
      ∧ input m1 = Str.Split entry Str.newline
      ∧ historyIndex m1 = Z.of_nat 2 `min` lenZ (history exPrompt) - 1
      ∧ updateAll exBase exDir exJoin exKeys m1
          (replicate (Z.to_nat (Z.of_nat 2 `min` lenZ (history exPrompt))) downKey)
        = Some m2
      ∧ cursorAtEnd (input exPrompt) = Some cur
      ∧ m2 = set_cursor cur (set_draftInput (Some (input exPrompt)) exPrompt).
Proof.
  assert (H1 : screen exPrompt = screenSetup) by reflexivity.
  assert (H2 : focus exPrompt = focusPrompt) by reflexivity.
  assert (H3 : historyIndex exPrompt = -1) by reflexivity.
  assert (H4 : validBuffer (input exPrompt) (cursor exPrompt)).
  { exists "ab". split; [reflexivity|]. by vm_compute. }
  assert (H5 : 0 < lenZ (history exPrompt)) by (by vm_compute).
  assert (H6 : (1 <= 2)%nat) by lia.
  split; [exact H1|]. split; [exact H2|]. split; [exact H3|].
  split; [exact H4|]. split; [exact H5|]. split; [exact H6|].
  exact (history_up_then_down exBase exDir exJoin exKeys exPrompt 2
           H1 H2 H3 H4 H5 H6).
Defined.

(** Tab, Shift-Tab, Tab, Tab, Shift-Tab on the Setup screen of [exSetup]. *)
Lemma tab_cycle_witness :
  screen exSetup = screenSetup
  ∧ length [false; true; false; false; true] = 5%nat
  ∧ exists m',
      updateAll exBase exDir exJoin exKeys exSetup
        (tabOrShiftTab <$> [false; true; false; false; true]) = Some m'
      ∧ focus m' = focus exSetup
      ∧ providerOpen m' = false ∧ modelsOpen m' = false
      ∧ input m' = input exSetup ∧ cursor m' = cursor exSetup
      ∧ branch m' = branch exSetup ∧ task m' = task exSetup
      ∧ selected m' = selected exSetup
      ∧ providerIndex m' = providerIndex exSetup.
Proof.
  assert (H1 : screen exSetup = screenSetup) by reflexivity.
  assert (H2 : length [false; true; false; false; true] = 5%nat) by reflexivity.
  split; [exact H1|]. split; [exact H2|].
  exact (tab_cycle exBase exDir exJoin exKeys exSetup
           [false; true; false; false; true] H1 H2).
Defined.

(** Escape in the prompt of [exPrompt], followed by the timer or by [b]. *)
Lemma esc_then_timeout_or_word_key_witness :
  wellFormed exPrompt ∧ screen exPrompt ≠ screenProgress ∧ (98 = 98 ∨ 98 = 102)
  ∧ Update exBase exDir exJoin exKeys exPrompt escKey
    = Some (set_pendingEsc true exPrompt, Tick escDelay escTimeoutMsg)
  ∧ Update exBase exDir exJoin exKeys (set_pendingEsc true exPrompt) escTimeoutMsg
    = Some (set_pendingEsc false (set_pendingEsc true exPrompt),
            Some (cleanupCmd exDir exJoin
                    (set_pendingEsc false (set_pendingEsc true exPrompt))))
  ∧ exists m2,
      Update exBase exDir exJoin exKeys (set_pendingEsc true exPrompt) (runeKey 98)
      = Some (m2, None)
      ∧ pendingEsc m2 = false
      ∧ Update exBase exDir exJoin exKeys m2 escTimeoutMsg = Some (m2, None).
Proof.
  assert (H1 : wellFormed exPrompt) by exact exPrompt_wellFormed.
  assert (H2 : screen exPrompt ≠ screenProgress) by (by intros [=]).
  assert (H3 : 98 = 98 ∨ 98 = 102) by (by left).
  split; [exact H1|]. split; [exact H2|]. split; [exact H3|].
  exact (esc_then_timeout_or_word_key exBase exDir exJoin exKeys exPrompt 98
           H1 H2 H3).
Defined.
